(** * The settlement engine of the food-truck marketplace

    A shallow embedding of the cart aggregator
    (marketplace/context_processors.py), of the per-vendor ledger decoder
    (orders/utils.py, orders/models.py, orders/request_object.py) and of
    the vendor discovery, cart and checkout views (marketplace/views.py,
    core/views.py), with the Python values they compute on:
    [decimal.Decimal] under the default context, binary64 floats, [str],
    [dict] and the values [json.loads] builds.

    Part I holds the definitions, Part II the lemmas and theorems on the
    totals, the ledger and the discovery, Part III those on the cart
    views, the listings and the order numbers. *)

From Stdlib Require Import ZArith QArith Qpower Qabs List String Ascii Bool Lia.
From Stdlib Require Import Permutation Sorted SpecFloat.
Import ListNotations.

Open Scope string_scope.
Open Scope list_scope.
Open Scope Z_scope.

(* ===================================================================== *)
(** * Part I: definitions                                                 *)
(* ===================================================================== *)

(** ** Exceptions and fallible computations *)

(** The exception classes the modelled code can raise.  [OutsideModel]
    is no exception of Python: it marks a text that leaves the 8-bit
    characters of the model (see [Json.scanstring]). *)
Inductive exn : Type :=
| AttributeError
| TypeError
| ValueError
| JSONDecodeError
| IndexError
| OverflowError
| KeyError
| MultiValueDictKeyError
| DoesNotExist
| MultipleObjectsReturned
| InvalidOperation
| DivisionByZero
| OutsideModel.

(** [type(e).__name__] *)
Definition exn_name (e : exn) : string :=
  match e with
  | AttributeError => "AttributeError"
  | TypeError => "TypeError"
  | ValueError => "ValueError"
  | JSONDecodeError => "JSONDecodeError"
  | IndexError => "IndexError"
  | OverflowError => "OverflowError"
  | KeyError => "KeyError"
  | MultiValueDictKeyError => "MultiValueDictKeyError"
  | DoesNotExist => "DoesNotExist"
  | MultipleObjectsReturned => "MultipleObjectsReturned"
  | InvalidOperation => "InvalidOperation"
  | DivisionByZero => "DivisionByZero"
  | OutsideModel => "(outside the model)"
  end.

(** A call either returns a value or raises. *)
Inductive result (A : Type) : Type :=
| Ok (a : A)
| Raise (e : exn).
Arguments Ok {A} a.
Arguments Raise {A} e.

Definition bind {A B : Type} (c : result A) (k : A -> result B) : result B :=
  match c with
  | Ok a => k a
  | Raise e => Raise e
  end.

Notation "x <- c ;; k" := (bind c (fun x => k))
  (at level 61, c at next level, right associativity).
Notation "' pat <- c ;; k" := (bind c (fun x => match x with pat => k end))
  (at level 61, pat pattern, c at next level, right associativity).

(** A [for] loop whose body may raise: the accumulator is threaded
    through the items in order, and the first exception ends the loop. *)
Fixpoint for_each {A S : Type} (body : S -> A -> result S) (items : list A)
    (s : S) : result S :=
  match items with
  | [] => Ok s
  | x :: rest => s' <- body s x ;; for_each body rest s'
  end.

(** ** Text *)

Module Text.

(** The character of a decimal digit [0 <= d <= 9]. *)
Definition digit_char (d : Z) : ascii := ascii_of_N (Z.to_N (48 + d)).

(** The [w] low decimal digits of [n], most significant first. *)
Fixpoint padded (w : nat) (n : Z) : string :=
  match w with
  | O => ""
  | S w' => padded w' (n / 10) ++ String (digit_char (n mod 10)) ""
  end.

Fixpoint digits_aux (fuel : nat) (n : Z) : string :=
  match fuel with
  | O => ""
  | S f =>
      if n <? 10 then String (digit_char n) ""
      else digits_aux f (n / 10) ++ String (digit_char (n mod 10)) ""
  end.

(** [str(n)] for an int [n >= 0]: its decimal digits, no leading zero. *)
Definition str_nat (n : Z) : string :=
  digits_aux (S (Z.to_nat (Z.log2 n))) n.

(** [str(n)] for an int. *)
Definition str_int (n : Z) : string :=
  if n <? 0 then String "-" (str_nat (- n)) else str_nat n.

(** [s.replace(a, b)] for single characters [a] and [b]. *)
Fixpoint replace (a b : ascii) (s : string) : string :=
  match s with
  | EmptyString => EmptyString
  | String c rest =>
      String (if Ascii.eqb c a then b else c) (replace a b rest)
  end.

(** [c.lower()] on ASCII letters. *)
Definition lower_char (c : ascii) : ascii :=
  let n := N_of_ascii c in
  if ((65 <=? n) && (n <=? 90))%N then ascii_of_N (n + 32) else c.

Fixpoint lower (s : string) : string :=
  match s with
  | EmptyString => EmptyString
  | String c rest => String (lower_char c) (lower rest)
  end.

(** [sub in s] *)
Fixpoint contains (sub s : string) : bool :=
  String.prefix sub s
  || match s with
     | EmptyString => false
     | String _ rest => contains sub rest
     end.

End Text.

(** ** decimal.Decimal under the default context

    A finite Decimal is [coef * 10 ^ exp]; the sign is the sign of
    [coef] (the sign of a zero is not kept apart: it shows only in the
    [str] of a negative zero).  Every arithmetic result is rounded to
    the context precision of 28 significant digits, ROUND_HALF_EVEN. *)

Module Decimal.

Record t : Type := mk { coef : Z; exp : Z }.

(** [getcontext().prec] *)
Definition prec : Z := 28.

(** The integer nearest to [n / d] for [d > 0], ties to the even one
    (ROUND_HALF_EVEN). *)
Definition round_half_even (n d : Z) : Z :=
  let q := n / d in
  match (2 * (n mod d)) ?= d with
  | Lt => q
  | Gt => q + 1
  | Eq => if Z.even q then q else q + 1
  end.

Fixpoint ndigits_aux (fuel : nat) (n : Z) : Z :=
  match fuel with
  | O => 0
  | S f => if n <? 10 then 1 else 1 + ndigits_aux f (n / 10)
  end.

(** [len(self._int)]: the number of digits of the coefficient. *)
Definition ndigits (c : Z) : Z :=
  ndigits_aux (S (Z.to_nat (Z.log2 (Z.abs c)))) (Z.abs c).

(** [Decimal._fix]: a coefficient of more than [prec] digits is rounded
    to [prec] digits, half-even; a carry to [prec + 1] digits drops one
    more digit. *)
Definition fix_ (x : t) : t :=
  if Z.abs (coef x) <? 10 ^ prec then x
  else
    let k := ndigits (coef x) - prec in
    let q := round_half_even (coef x) (10 ^ k) in
    if Z.abs q =? 10 ^ prec then mk (q / 10) (exp x + k + 1)
    else mk q (exp x + k).

(** [Decimal(n)] for an int [n]: exact. *)
Definition of_int (n : Z) : t := mk n 0.

(** [x + y] *)
Definition add (x y : t) : t :=
  let e := Z.min (exp x) (exp y) in
  fix_ (mk (coef x * 10 ^ (exp x - e) + coef y * 10 ^ (exp y - e)) e).

(** [x * y] *)
Definition mul (x y : t) : t :=
  fix_ (mk (coef x * coef y) (exp x + exp y)).

(** The loop of [__truediv__] on an exact quotient: trailing zeros are
    dropped while the exponent is below the ideal one. *)
Fixpoint strip_zeros (fuel : nat) (c e : Z) : Z * Z :=
  match fuel with
  | O => (c, e)
  | S f => if c mod 10 =? 0 then strip_zeros f (c / 10) (e + 1) else (c, e)
  end.

(** [x / y] ([Decimal.__truediv__]): the quotient to [prec + 1] digits
    and more, with a sticky last digit when it is inexact, then [_fix]. *)
Definition truediv (x y : t) : result t :=
  if coef y =? 0 then
    Raise (if coef x =? 0 then InvalidOperation else DivisionByZero)
  else if coef x =? 0 then Ok (fix_ (mk 0 (exp x - exp y)))
  else
    let sign := Z.sgn (coef x) * Z.sgn (coef y) in
    let shift := ndigits (coef y) - ndigits (coef x) + prec + 1 in
    let e := exp x - exp y - shift in
    let '(q, r) :=
      if 0 <=? shift
      then Z.div_eucl (Z.abs (coef x) * 10 ^ shift) (Z.abs (coef y))
      else Z.div_eucl (Z.abs (coef x)) (Z.abs (coef y) * 10 ^ (- shift)) in
    let '(q', e') :=
      if r =? 0 then strip_zeros (Z.to_nat (exp x - exp y - e)) q e
      else (if q mod 5 =? 0 then q + 1 else q, e) in
    Ok (fix_ (mk (sign * q') e')).

(** [x.quantize(Decimal((0, (1,), e)))]: [x] at exponent [e], rounded
    half-even; a result of more than [prec] digits is an error. *)
Definition quantize (x : t) (e : Z) : result t :=
  let c :=
    if e <=? exp x then coef x * 10 ^ (exp x - e)
    else round_half_even (coef x) (10 ^ (e - exp x)) in
  if Z.abs c <? 10 ^ prec then Ok (mk c e) else Raise InvalidOperation.

(** [round(x, n)] ([Decimal.__round__] with [n] given). *)
Definition round (x : t) (n : Z) : result t := quantize x (- n).

(** [str(x)] ([Decimal.__str__]): plain notation when [exp <= 0] and
    more than [-6] digits stand left of the point, scientific notation
    otherwise. *)
Definition to_str (x : t) : string :=
  let c := Z.abs (coef x) in
  let sign := if coef x <? 0 then "-" else "" in
  let leftdigits := exp x + ndigits c in
  if (exp x <=? 0) && (-6 <? leftdigits) then
    if exp x =? 0 then sign ++ Text.str_nat c
    else
      sign ++ Text.str_nat (c / 10 ^ (- exp x)) ++ "."
           ++ Text.padded (Z.to_nat (- exp x)) c
  else
    let rest := Z.to_nat (ndigits c - 1) in
    sign ++ Text.str_nat (c / 10 ^ (ndigits c - 1))
         ++ (match rest with
             | O => ""
             | _ => "." ++ Text.padded rest c
             end)
         ++ "E"
         ++ (if leftdigits - 1 <? 0 then "" else "+")
         ++ Text.str_int (leftdigits - 1).

(** The value as an exact rational. *)
Definition value (x : t) : Q :=
  (inject_Z (coef x) * Qpower (10 # 1) (exp x))%Q.

End Decimal.

(** ** Python floats: IEEE 754 binary64, round to nearest even *)

Module Float.

Definition t : Type := spec_float.

Definition prec : Z := 53.
Definition emax : Z := 1024.

Definition zero : t := S754_zero false.

Definition add : t -> t -> t := SFadd prec emax.
Definition mul : t -> t -> t := SFmul prec emax.
Definition div : t -> t -> t := SFdiv prec emax.

(** The float nearest to [(-1)^s * m * 10 ^ e10] for [m >= 0]: the
    correctly rounded conversion of a decimal literal. *)
Definition of_decimal (s : bool) (m e10 : Z) : t :=
  if m <=? 0 then S754_zero s
  else if 0 <=? e10 then
    binary_normalize prec emax (cond_Zopp s (m * 10 ^ e10)) 0 s
  else
    let '(q, e, l) := SFdiv_core_binary prec emax m 0 (10 ^ (- e10)) 0 in
    binary_round_aux prec emax s q e l.

(** [float(n)] for an int: an int beyond the float range raises. *)
Definition of_int (n : Z) : result t :=
  match binary_normalize prec emax n 0 false with
  | S754_infinity _ => Raise OverflowError
  | f => Ok f
  end.

(** The exact value of a finite float. *)
Definition value (f : t) : option Q :=
  match f with
  | S754_zero _ => Some 0%Q
  | S754_finite s m e =>
      Some (inject_Z (cond_Zopp s (Zpos m)) * Qpower (2 # 1) e)%Q
  | _ => None
  end.

(** The float of the exact value [q]: the float nearest to [q], which
    is the float of this value when there is one. *)
Definition of_value (q : Q) : t :=
  if Qnum q =? 0 then zero
  else
    let '(m, e, l) :=
      SFdiv_core_binary prec emax (Z.abs (Qnum q)) 0 (Zpos (Qden q)) 0 in
    binary_round_aux prec emax (Qnum q <? 0) m e l.

(** *** [float(s)] for a str *)

Definition code (c : ascii) : N := N_of_ascii c.

Definition is_digit (c : ascii) : bool :=
  ((48 <=? code c) && (code c <=? 57))%N.

Definition digit_value (c : ascii) : Z := Z.of_N (code c) - 48.

Fixpoint is_ascii (s : string) : bool :=
  match s with
  | EmptyString => true
  | String c rest => (code c <? 128)%N && is_ascii rest
  end.

(** Py_ISSPACE; in a str with a non-ASCII character, the blanks above
    127 (U+0085 and U+00A0 below 256) are turned into spaces before the
    text is read, the characters below 127 are left as they are. *)
Definition is_space (ascii_only : bool) (c : ascii) : bool :=
  let n := code c in
  ((9 <=? n) && (n <=? 13) || (n =? 32)
   || negb ascii_only && ((n =? 133) || (n =? 160)))%N.

Fixpoint lstrip (a : bool) (s : string) : string :=
  match s with
  | EmptyString => EmptyString
  | String c rest => if is_space a c then lstrip a rest else s
  end.

Fixpoint rstrip (a : bool) (s : string) : string :=
  match s with
  | EmptyString => EmptyString
  | String c rest =>
      match rstrip a rest with
      | EmptyString => if is_space a c then EmptyString else String c EmptyString
      | r => String c r
      end
  end.

(** Underscores may stand between two digits only; they are dropped. *)
Fixpoint drop_underscores (prev_digit : bool) (s : string) : option string :=
  match s with
  | EmptyString => Some EmptyString
  | String c rest =>
      if Ascii.eqb c "_" then
        match rest with
        | String d _ =>
            if prev_digit && is_digit d then drop_underscores false rest
            else None
        | EmptyString => None
        end
      else
        match drop_underscores (is_digit c) rest with
        | Some r => Some (String c r)
        | None => None
        end
  end.

(** The longest prefix of digits: its value after [acc], the number of
    digits read, and the rest. *)
Fixpoint scan_digits (acc : Z) (n : Z) (s : string) : Z * Z * string :=
  match s with
  | String c rest =>
      if is_digit c then scan_digits (10 * acc + digit_value c) (n + 1) rest
      else (acc, n, s)
  | EmptyString => (acc, n, s)
  end.

(** An optional sign: [true] for [-]. *)
Definition scan_sign (s : string) : bool * string :=
  match s with
  | String c rest =>
      if Ascii.eqb c "-" then (true, rest)
      else if Ascii.eqb c "+" then (false, rest)
      else (false, s)
  | EmptyString => (false, s)
  end.

(** The optional exponent part [[eE][+-]?digits]: its value and the
    rest, or [None] when an [e] is followed by no digit. *)
Definition scan_exponent (s : string) : option (Z * string) :=
  match s with
  | String c rest =>
      if Ascii.eqb c "e" || Ascii.eqb c "E" then
        let '(neg, r1) := scan_sign rest in
        let '(v, n, r2) := scan_digits 0 0 r1 in
        if n =? 0 then None else Some (if neg then - v else v, r2)
      else Some (0, s)
  | EmptyString => Some (0, s)
  end.

(** [digits [. digits] [exponent]] with a digit before or after the
    point, up to the end of the text: coefficient and exponent of ten. *)
Definition scan_number (s : string) : option (Z * Z) :=
  let '(i, ni, r1) := scan_digits 0 0 s in
  let '(m, nf, r2) :=
    match r1 with
    | String c rest =>
        if Ascii.eqb c "." then scan_digits i 0 rest else (i, 0, r1)
    | EmptyString => (i, 0, r1)
    end in
  if ni + nf =? 0 then None
  else
    match scan_exponent r2 with
    | Some (e, EmptyString) => Some (m, e - nf)
    | _ => None
    end.

Definition of_string (s : string) : result t :=
  let a := is_ascii s in
  let '(neg, body) := scan_sign (rstrip a (lstrip a s)) in
  let name := Text.lower body in
  if String.eqb name "inf" || String.eqb name "infinity" then
    Ok (S754_infinity neg)
  else if String.eqb name "nan" then Ok S754_nan
  else
    match drop_underscores false body with
    | None => Raise ValueError
    | Some digits =>
        match scan_number digits with
        | Some (m, e) => Ok (of_decimal neg m e)
        | None => Raise ValueError
        end
    end.

End Float.

(** ** Python numbers: int, Decimal and float *)

Inductive num : Type :=
| PyInt (n : Z)
| PyDecimal (d : Decimal.t)
| PyFloat (f : Float.t).

(** [x + y]: an int operand is converted to the other operand's type;
    Decimal and float do not mix. *)
Definition py_add (x y : num) : result num :=
  match x, y with
  | PyInt a, PyInt b => Ok (PyInt (a + b))
  | PyInt a, PyDecimal d => Ok (PyDecimal (Decimal.add (Decimal.of_int a) d))
  | PyDecimal d, PyInt b => Ok (PyDecimal (Decimal.add d (Decimal.of_int b)))
  | PyDecimal a, PyDecimal b => Ok (PyDecimal (Decimal.add a b))
  | PyInt a, PyFloat g => f <- Float.of_int a ;; Ok (PyFloat (Float.add f g))
  | PyFloat f, PyInt b => g <- Float.of_int b ;; Ok (PyFloat (Float.add f g))
  | PyFloat f, PyFloat g => Ok (PyFloat (Float.add f g))
  | PyDecimal _, PyFloat _ => Raise TypeError
  | PyFloat _, PyDecimal _ => Raise TypeError
  end.

(** [d * x] for a Decimal [d] ([Decimal.__mul__]). *)
Definition decimal_mul (d : Decimal.t) (x : num) : result Decimal.t :=
  match x with
  | PyInt n => Ok (Decimal.mul d (Decimal.of_int n))
  | PyDecimal e => Ok (Decimal.mul d e)
  | PyFloat _ => Raise TypeError
  end.

(** [float(x)] for a number. *)
Definition float_of_num (x : num) : result Float.t :=
  match x with
  | PyInt n => Float.of_int n
  | PyDecimal d =>
      Ok (Float.of_decimal (Decimal.coef d <? 0) (Z.abs (Decimal.coef d))
            (Decimal.exp d))
  | PyFloat f => Ok f
  end.

(** The exact value of a number; [None] for an infinity or a NaN. *)
Definition num_value (x : num) : option Q :=
  match x with
  | PyInt n => Some (inject_Z n)
  | PyDecimal d => Some (Decimal.value d)
  | PyFloat f => Float.value f
  end.

(** ** dict: keys in insertion order, each key once *)

Definition dict (V : Type) : Type := list (string * V).

(** [d.get(k)] *)
Fixpoint dict_get {V : Type} (k : string) (d : dict V) : option V :=
  match d with
  | [] => None
  | (k', v) :: rest => if String.eqb k k' then Some v else dict_get k rest
  end.

(** [d[k] = v]: a key already there keeps its place and takes the new
    value; a new key goes last. *)
Fixpoint dict_set {V : Type} (k : string) (v : V) (d : dict V) : dict V :=
  match d with
  | [] => [(k, v)]
  | (k', v') :: rest =>
      if String.eqb k k' then (k, v) :: rest else (k', v') :: dict_set k v rest
  end.

(** [d.update(other)] *)
Definition dict_update {V : Type} (d other : dict V) : dict V :=
  fold_left (fun acc kv => dict_set (fst kv) (snd kv) acc) other d.

(** [d.values()] *)
Definition dict_values {V : Type} (d : dict V) : list V := map snd d.

(** [d.keys()] *)
Definition dict_keys {V : Type} (d : dict V) : list string := map fst d.

(** ** json.loads and simplejson.loads

    Text is 8-bit: a [\u] escape above [00ff] has no image in it and
    is reported as [OutsideModel].  Every other failure of the scanner
    is Python's [JSONDecodeError].  Nesting beyond the interpreter's
    recursion limit, where Python raises [RecursionError], is not
    modelled. *)

Module Json.

#[warnings="-register-all"]
Inductive value : Type :=
| JNone
| JBool (b : bool)
| JInt (n : Z)
| JFloat (f : Float.t)
| JStr (s : string)
| JList (items : list value)
| JDict (d : list (string * value)).

(** What a scanner finds at the head of a text, and the text after it. *)
Inductive scanned (A : Type) : Type :=
| Found (a : A) (rest : string)
| Failed (e : exn).
Arguments Found {A} a rest.
Arguments Failed {A} e.

(** The double quote and the backslash. *)
Definition dquote : ascii := "034"%char.
Definition backslash : ascii := "092"%char.

Definition is_ws (c : ascii) : bool :=
  let n := N_of_ascii c in ((n =? 32) || (n =? 9) || (n =? 10) || (n =? 13))%N.

Fixpoint skip_ws (s : string) : string :=
  match s with
  | String c rest => if is_ws c then skip_ws rest else s
  | EmptyString => s
  end.

Definition hex_value (c : ascii) : option N :=
  let n := N_of_ascii c in
  if ((48 <=? n) && (n <=? 57))%N then Some (n - 48)%N
  else if ((65 <=? n) && (n <=? 70))%N then Some (n - 55)%N
  else if ((97 <=? n) && (n <=? 102))%N then Some (n - 87)%N
  else None.

(** The character a one-letter escape stands for. *)
Definition escape (c : ascii) : option ascii :=
  if Ascii.eqb c dquote then Some dquote
  else if Ascii.eqb c backslash then Some backslash
  else if Ascii.eqb c "/" then Some "/"%char
  else if Ascii.eqb c "b" then Some "008"%char
  else if Ascii.eqb c "f" then Some "012"%char
  else if Ascii.eqb c "n" then Some "010"%char
  else if Ascii.eqb c "r" then Some "013"%char
  else if Ascii.eqb c "t" then Some "009"%char
  else None.

Definition cons_found (c : ascii) (r : scanned string) : scanned string :=
  match r with
  | Found s rest => Found (String c s) rest
  | Failed e => Failed e
  end.

(** [scanstring] (strict): the text of a string literal from after its
    opening quote, and what follows its closing quote. *)
Fixpoint scanstring (s : string) : scanned string :=
  match s with
  | EmptyString => Failed JSONDecodeError
  | String c rest =>
      if Ascii.eqb c dquote then Found EmptyString rest
      else if Ascii.eqb c backslash then
        match rest with
        | String e rest1 =>
            if Ascii.eqb e "u" then
              match rest1 with
              | String h1 (String h2 (String h3 (String h4 rest2))) =>
                  match hex_value h1, hex_value h2, hex_value h3, hex_value h4 with
                  | Some a, Some b, Some c', Some d =>
                      if ((a =? 0) && (b =? 0))%N
                      then cons_found (ascii_of_N (16 * c' + d)) (scanstring rest2)
                      else Failed OutsideModel
                  | _, _, _, _ => Failed JSONDecodeError
                  end
              | _ => Failed JSONDecodeError
              end
            else
              match escape e with
              | Some c' => cons_found c' (scanstring rest1)
              | None => Failed JSONDecodeError
              end
        | EmptyString => Failed JSONDecodeError
        end
      else if (N_of_ascii c <? 32)%N then Failed JSONDecodeError
      else cons_found c (scanstring rest)
  end.

(** [NUMBER_RE]: an optional minus, then a zero or a digit string with
    no leading zero, then an optional fraction (a point and digits) and
    an optional exponent (e or E, an optional sign, digits).  With a
    fraction or an exponent the literal is a float, else an int. *)
Definition scan_number (s : string) : scanned value :=
  let '(neg, r0) :=
    match s with
    | String c rest => if Ascii.eqb c "-" then (true, rest) else (false, s)
    | EmptyString => (false, s)
    end in
  match r0 with
  | String c rest =>
      if negb (Float.is_digit c) then Failed JSONDecodeError
      else
        let '(i, _, r1) :=
          if Ascii.eqb c "0" then (0, 1, rest) else Float.scan_digits 0 0 r0 in
        let '(m, nf, r2) :=
          match r1 with
          | String p (String d rest') =>
              if Ascii.eqb p "." && Float.is_digit d
              then Float.scan_digits i 0 (String d rest')
              else (i, 0, r1)
          | _ => (i, 0, r1)
          end in
        let '(e, has_exp, r3) :=
          match r2 with
          | String x rest' =>
              if Ascii.eqb x "e" || Ascii.eqb x "E" then
                let '(eneg, r) := Float.scan_sign rest' in
                let '(v, n, r') := Float.scan_digits 0 0 r in
                if n =? 0 then (0, false, r2)
                else ((if eneg then - v else v), true, r')
              else (0, false, r2)
          | EmptyString => (0, false, r2)
          end in
        if (nf =? 0) && negb has_exp
        then Found (JInt (if neg then - i else i)) r3
        else Found (JFloat (Float.of_decimal neg m (e - nf))) r3
  | EmptyString => Failed JSONDecodeError
  end.

(** [s] without the prefix [p], when it starts with it. *)
Fixpoint after_prefix (p s : string) : option string :=
  match p, s with
  | EmptyString, _ => Some s
  | String a p', String b s' => if Ascii.eqb a b then after_prefix p' s' else None
  | String _ _, EmptyString => None
  end.

(** The two readers of the code: [json] of the standard library
    (orders/models.py) and [simplejson] (orders/utils.py), the latter in
    its version 3.19.1 or later.  They differ on the literals [NaN],
    [Infinity] and [-Infinity], which [simplejson] refuses under its
    default [allow_nan=False], and on a text that starts with the three
    characters of a UTF-8 byte order mark, which [simplejson] skips.
    Each raises a [JSONDecodeError] of its own, a subclass of
    [ValueError]; the model has one name for both. *)
Inductive library : Type := StdJson | SimpleJson.

Definition allow_nan (lib : library) : bool :=
  match lib with
  | StdJson => true
  | SimpleJson => false
  end.

(** [raw_decode] of [simplejson] strips a UTF-8 byte order mark. *)
Definition strip_bom (lib : library) (s : string) : string :=
  match lib, s with
  | SimpleJson, String "239" (String "187" (String "191" rest)) => rest
  | _, _ => s
  end.

(** The literals of [scan_once], tried in its order. *)
Definition scan_literal (lib : library) (s : string) : scanned value :=
  match after_prefix "null" s with
  | Some r => Found JNone r
  | None =>
  match after_prefix "true" s with
  | Some r => Found (JBool true) r
  | None =>
  match after_prefix "false" s with
  | Some r => Found (JBool false) r
  | None =>
  match scan_number s with
  | Found v r => Found v r
  | Failed _ =>
  if negb (allow_nan lib) then Failed JSONDecodeError else
  match after_prefix "NaN" s with
  | Some r => Found (JFloat S754_nan) r
  | None =>
  match after_prefix "Infinity" s with
  | Some r => Found (JFloat (S754_infinity false)) r
  | None =>
  match after_prefix "-Infinity" s with
  | Some r => Found (JFloat (S754_infinity true)) r
  | None => Failed JSONDecodeError
  end end end end end end end.

(** [scan_once], with [JSONObject] and [JSONArray] after the first
    member.  [fuel] bounds the nesting of calls; the length of the text
    is enough of it. *)
Fixpoint scan_once (lib : library) (fuel : nat) (s : string) {struct fuel}
    : scanned value :=
  match fuel with
  | O => Failed JSONDecodeError
  | S fuel' =>
      match s with
      | EmptyString => Failed JSONDecodeError
      | String c rest =>
          if Ascii.eqb c dquote then
            match scanstring rest with
            | Found str r => Found (JStr str) r
            | Failed e => Failed e
            end
          else if Ascii.eqb c "{" then
            match skip_ws rest with
            | String c1 r1 =>
                if Ascii.eqb c1 "}" then Found (JDict []) r1
                else if Ascii.eqb c1 dquote then object_members lib fuel' r1 []
                else Failed JSONDecodeError
            | EmptyString => Failed JSONDecodeError
            end
          else if Ascii.eqb c "[" then
            match skip_ws rest with
            | String c1 r1 =>
                if Ascii.eqb c1 "]" then Found (JList []) r1
                else array_items lib fuel' (String c1 r1) []
            | EmptyString => Failed JSONDecodeError
            end
          else scan_literal lib s
      end
  end
with object_members (lib : library) (fuel : nat) (s : string)
    (acc : list (string * value))
    {struct fuel} : scanned value :=
  match fuel with
  | O => Failed JSONDecodeError
  | S fuel' =>
      match scanstring s with
      | Failed e => Failed e
      | Found key r1 =>
          match skip_ws r1 with
          | String c2 r2 =>
              if negb (Ascii.eqb c2 ":") then Failed JSONDecodeError
              else
                match scan_once lib fuel' (skip_ws r2) with
                | Failed e => Failed e
                | Found v r3 =>
                    let acc' := dict_set key v acc in
                    match skip_ws r3 with
                    | String c4 r4 =>
                        if Ascii.eqb c4 "}" then Found (JDict acc') r4
                        else if Ascii.eqb c4 "," then
                          match skip_ws r4 with
                          | String c5 r5 =>
                              if Ascii.eqb c5 dquote
                              then object_members lib fuel' r5 acc'
                              else Failed JSONDecodeError
                          | EmptyString => Failed JSONDecodeError
                          end
                        else Failed JSONDecodeError
                    | EmptyString => Failed JSONDecodeError
                    end
                end
          | EmptyString => Failed JSONDecodeError
          end
      end
  end
with array_items (lib : library) (fuel : nat) (s : string) (acc : list value)
    {struct fuel} : scanned value :=
  match fuel with
  | O => Failed JSONDecodeError
  | S fuel' =>
      match scan_once lib fuel' s with
      | Failed e => Failed e
      | Found v r1 =>
          match skip_ws r1 with
          | String c2 r2 =>
              if Ascii.eqb c2 "]" then Found (JList (acc ++ [v])) r2
              else if Ascii.eqb c2 ","
              then array_items lib fuel' (skip_ws r2) (acc ++ [v])
              else Failed JSONDecodeError
          | EmptyString => Failed JSONDecodeError
          end
      end
  end.

(** [loads(s)] of the library for a str [s]. *)
Definition loads (lib : library) (s : string) : result value :=
  match scan_once lib (S (String.length s)) (skip_ws (strip_bom lib s)) with
  | Found v rest =>
      match skip_ws rest with
      | EmptyString => Ok v
      | String _ _ => Raise JSONDecodeError
      end
  | Failed e => Raise e
  end.

End Json.

(** ** The rows of the database

    A foreign key is the id of the row it points to; a table is the list
    of its rows in the order a scan yields them. *)

(** accounts/models.py: [User] *)
Module User.
Record t : Type := mk {
  id : Z;
  first_name : string;
  last_name : string;
  email : string;
  phone_number : string;
  is_active : bool
}.
End User.

(** A GEOS point of SRID 4326: longitude [x] and latitude [y]. *)
Record Point : Type := mk_point { x : Float.t; y : Float.t }.

(** accounts/models.py: [UserProfile] *)
Module UserProfile.
Record t : Type := mk {
  id : Z;
  user : option Z;
  address : option string;
  country : option string;
  state : option string;
  city : option string;
  pin_code : option string;
  location : option Point
}.
End UserProfile.

(** marketplace/models.py: [Tax] *)
Module Tax.
Record t : Type := mk {
  tax_type : string;
  tax_percentage : Decimal.t;
  is_active : bool
}.
End Tax.

(** menu/models.py: [FoodItem] *)
Module FoodItem.
Record t : Type := mk {
  id : Z;
  vendor : Z;
  food_title : string;
  price : Decimal.t;
  is_available : bool
}.
End FoodItem.

(** marketplace/models.py: [Cart] *)
Module Cart.
Record t : Type := mk {
  id : Z;
  user : Z;
  fooditem : Z;
  quantity : Z;
  created_at : Z
}.
End Cart.

(** vendor/models.py: [Vendor] *)
Module Vendor.
Record t : Type := mk {
  id : Z;
  user : Z;
  user_profile : Z;
  vendor_name : string;
  is_approved : bool
}.
End Vendor.

(** orders/models.py: [Order], with the fields the totals are read
    from.  [total_data] is [None] or the text stored at checkout. *)
Module Order.
Record t : Type := mk {
  id : Z;
  user : Z;
  total_data : option string
}.
End Order.

(** The tables. *)
Record Database : Type := mk_database {
  users : list User.t;
  user_profiles : list UserProfile.t;
  vendors : list Vendor.t;
  fooditems : list FoodItem.t;
  carts : list Cart.t;
  taxes : list Tax.t;
  orders : list Order.t
}.

(** A Django request: the logged-in user ([None] for AnonymousUser),
    the query parameters and the session. *)
Module Request.
Record t : Type := mk {
  user : option User.t;
  GET : dict string;
  session : dict (option string)
}.
End Request.

(** ** QuerySet operations *)

(** [Model.objects.get(...)] over the rows that match. *)
Definition objects_get {A : Type} (matches : A -> bool) (table : list A)
    : result A :=
  match filter matches table with
  | [] => Raise DoesNotExist
  | [row] => Ok row
  | _ :: _ :: _ => Raise MultipleObjectsReturned
  end.

Fixpoint insert_by {A K : Type} (le : K -> K -> bool) (key : A -> K)
    (x : A) (sorted : list A) : list A :=
  match sorted with
  | [] => [x]
  | y :: rest =>
      if le (key x) (key y) then x :: sorted
      else y :: insert_by le key x rest
  end.

(** [.order_by(key)]: ascending.  The query names no second key, and
    SQL leaves the order of rows with equal keys to the database; here
    they stay in the order the scan yields them. *)
Definition order_by {A K : Type} (le : K -> K -> bool) (key : A -> K)
    (rows : list A) : list A :=
  fold_right (insert_by le key) [] rows.

(** ** marketplace/context_processors.py *)

(** The dict [get_cart_amounts] returns. *)
Module CartAmounts.
Record t : Type := mk {
  subtotal : num;
  tax : num;
  grand_total : num;
  tax_dict : dict (dict Decimal.t)
}.
End CartAmounts.

(** The loop over [cart_items]:
    [subtotal += fooditem.price * item.quantity]. *)
Definition add_cart_item (db : Database) (subtotal : num) (item : Cart.t)
    : result num :=
  fooditem <-
    objects_get (fun f => FoodItem.id f =? Cart.fooditem item)
      (fooditems db) ;;
  py_add subtotal
    (PyDecimal
       (Decimal.mul (FoodItem.price fooditem)
          (Decimal.of_int (Cart.quantity item)))).

(** [round((tax_percentage * subtotal) / 100, 2)] *)
Definition tax_amount (tax_percentage : Decimal.t) (subtotal : num)
    : result Decimal.t :=
  product <- decimal_mul tax_percentage subtotal ;;
  quotient <- Decimal.truediv product (Decimal.of_int 100) ;;
  Decimal.round quotient 2.

(** The loop over [get_tax]:
    [tax_dict.update({tax_type: {str(tax_percentage): tax_amount}})]. *)
Definition add_tax (subtotal : num) (tax_dict : dict (dict Decimal.t))
    (i : Tax.t) : result (dict (dict Decimal.t)) :=
  let tax_type := Tax.tax_type i in
  let tax_percentage := Tax.tax_percentage i in
  amount <- tax_amount tax_percentage subtotal ;;
  Ok (dict_update tax_dict
        [(tax_type, [(Decimal.to_str tax_percentage, amount)])]).

(** [sum(x for key in tax_dict.values() for x in key.values())] *)
Definition sum_tax (tax_dict : dict (dict Decimal.t)) : result num :=
  for_each (fun acc x => py_add acc (PyDecimal x))
    (List.concat (map dict_values (dict_values tax_dict))) (PyInt 0).

Definition get_cart_amounts (request : Request.t) (db : Database)
    : result CartAmounts.t :=
  match Request.user request with
  | Some user =>
      let cart_items :=
        filter (fun item => Cart.user item =? User.id user) (carts db) in
      subtotal <- for_each (add_cart_item db) cart_items (PyInt 0) ;;
      let get_tax := filter Tax.is_active (taxes db) in
      tax_dict <- for_each (add_tax subtotal) get_tax [] ;;
      tax <- sum_tax tax_dict ;;
      grand_total <- py_add subtotal tax ;;
      Ok (CartAmounts.mk subtotal tax grand_total tax_dict)
  | None => Ok (CartAmounts.mk (PyInt 0) (PyInt 0) (PyInt 0) [])
  end.

(** ** Python operations on the values [json.loads] builds *)

(** [json.loads(s)] where [s] is a str or [None], for [json] the
    library that the module imports under this name. *)
Definition json_loads (json : Json.library) (s : option string)
    : result Json.value :=
  match s with
  | Some text => Json.loads json text
  | None => Raise TypeError
  end.

(** [o.get(k)]: only a dict has the method. *)
Definition py_get (o : Json.value) (k : string) : result Json.value :=
  match o with
  | Json.JDict d =>
      Ok (match dict_get k d with Some v => v | None => Json.JNone end)
  | _ => Raise AttributeError
  end.

(** [o.items()]: only a dict has the method. *)
Definition py_items (o : Json.value) : result (list (string * Json.value)) :=
  match o with
  | Json.JDict d => Ok d
  | _ => Raise AttributeError
  end.

(** [o.replace(a, b)]: only a str has the method. *)
Definition py_replace (o : Json.value) (a b : ascii) : result string :=
  match o with
  | Json.JStr s => Ok (Text.replace a b s)
  | _ => Raise AttributeError
  end.

(** [float(o)] *)
Definition py_float (o : Json.value) : result Float.t :=
  match o with
  | Json.JStr s => Float.of_string s
  | Json.JInt n => Float.of_int n
  | Json.JFloat f => Ok f
  | Json.JBool b => Float.of_int (if b then 1 else 0)
  | Json.JNone | Json.JList _ | Json.JDict _ => Raise TypeError
  end.

(** What [dict.update] raises on an element of a list that is no pair:
    a pair is a sequence of length 2 with a hashable first element. *)
Definition pair_error (element : Json.value) : option exn :=
  match element with
  | Json.JList [k; _] =>
      match k with
      | Json.JList _ | Json.JDict _ => Some TypeError
      | _ => None
      end
  | Json.JList _ => Some ValueError
  | Json.JStr s => if (String.length s =? 2)%nat then None else Some ValueError
  | Json.JDict d => if (List.length d =? 2)%nat then None else Some ValueError
  | Json.JNone | Json.JBool _ | Json.JInt _ | Json.JFloat _ => Some TypeError
  end.

Fixpoint first_pair_error (items : list Json.value) : option exn :=
  match items with
  | [] => None
  | element :: rest =>
      match pair_error element with
      | Some e => Some e
      | None => first_pair_error rest
      end
  end.

(** [tax_dict.update(val)] followed by [for i in val: ... val[i] ...],
    as far as the update decides it: a dict is merged in; an empty list
    or str changes nothing; a list with elements raises, in the update
    at its first element that is no pair, or else in the loop at
    [val[i]], a list indexed by a pair; a str with characters and a
    value that is not iterable raise in the update. *)
Definition py_update (tax_dict : dict Json.value) (val : Json.value)
    : result (dict Json.value) :=
  match val with
  | Json.JDict d => Ok (dict_update tax_dict d)
  | Json.JList [] => Ok tax_dict
  | Json.JList items =>
      Raise (match first_pair_error items with
             | Some e => e
             | None => TypeError
             end)
  | Json.JStr EmptyString => Ok tax_dict
  | Json.JStr _ => Raise ValueError
  | Json.JNone | Json.JBool _ | Json.JInt _ | Json.JFloat _ => Raise TypeError
  end.

(** [items[j]] for a list and an element [j] of it used as the index. *)
Definition py_list_getitem (items : list Json.value) (j : Json.value)
    : result Json.value :=
  let at_index (n : Z) :=
    let len := Z.of_nat (List.length items) in
    let k := if n <? 0 then n + len else n in
    if (0 <=? k) && (k <? len) then Ok (nth (Z.to_nat k) items Json.JNone)
    else Raise IndexError in
  match j with
  | Json.JInt n => at_index n
  | Json.JBool b => at_index (if b then 1 else 0)
  | _ => Raise TypeError
  end.

(** [for j in v: tax += float(v[j])] for [v = val[i]]. *)
Definition add_amounts (tax : num) (v : Json.value) : result num :=
  match v with
  | Json.JDict d =>
      for_each
        (fun tax jx => f <- py_float (snd jx) ;; py_add tax (PyFloat f)) d tax
  | Json.JList items =>
      for_each
        (fun tax j =>
           x <- py_list_getitem items j ;;
           f <- py_float x ;;
           py_add tax (PyFloat f))
        items tax
  | Json.JStr EmptyString => Ok tax
  | Json.JStr _ => Raise TypeError
  | Json.JNone | Json.JBool _ | Json.JInt _ | Json.JFloat _ => Raise TypeError
  end.

(** [for i in val: for j in val[i]: tax += float(val[i][j])] *)
Definition add_taxes (tax : num) (val : Json.value) : result num :=
  match val with
  | Json.JDict d => for_each (fun tax iv => add_amounts tax (snd iv)) d tax
  | Json.JList [] => Ok tax
  | Json.JList (_ :: _) => Raise TypeError
  | Json.JStr EmptyString => Ok tax
  | Json.JStr _ => Raise TypeError
  | Json.JNone | Json.JBool _ | Json.JInt _ | Json.JFloat _ => Raise TypeError
  end.

(** ** orders/utils.py and orders/models.py *)

(** The dict the two per-vendor queries return. *)
Module VendorTotals.
Record t : Type := mk {
  subtotal : num;
  tax_dict : dict Json.value;
  grand_total : num
}.
End VendorTotals.

(** The state of the loop over [data.items()]. *)
Record decode_state : Type := mk_decode_state {
  ds_subtotal : num;
  ds_tax : num;
  ds_tax_dict : dict Json.value
}.

(** The body of [for key, val in data.items()]. *)
Definition decode_item (json : Json.library) (st : decode_state)
    (item : string * Json.value) : result decode_state :=
  let '(key, val) := item in
  f <- Float.of_string key ;;
  subtotal <- py_add (ds_subtotal st) (PyFloat f) ;;
  val <- py_replace val "'" Json.dquote ;;
  val <- Json.loads json val ;;
  tax_dict <- py_update (ds_tax_dict st) val ;;
  tax <- add_taxes (ds_tax st) val ;;
  Ok (mk_decode_state subtotal tax tax_dict).

(** From [data] on, the two queries run the same statements, each with
    its [json]. *)
Definition totals_of_data (json : Json.library) (data : Json.value)
    : result VendorTotals.t :=
  items <- py_items data ;;
  st <- for_each (decode_item json) items
          (mk_decode_state (PyInt 0) (PyInt 0) []) ;;
  s <- float_of_num (ds_subtotal st) ;;
  t <- float_of_num (ds_tax st) ;;
  Ok (VendorTotals.mk (ds_subtotal st) (ds_tax_dict st)
        (PyFloat (Float.add s t))).

(** orders/utils.py, where [json] is [simplejson]. *)
Definition order_total_by_vendor (order : Order.t) (vendor_id : Z)
    : result VendorTotals.t :=
  let json := Json.SimpleJson in
  total_data <- json_loads json (Order.total_data order) ;;
  data <- py_get total_data (Text.str_int vendor_id) ;;
  totals_of_data json data.

(** The module-level names of orders/models.py: [request_object] is the
    str [""] ([None] here) until the middleware has run, and the
    request it stored afterwards. *)
Record Globals : Type := mk_globals {
  request_object : option Request.t
}.

(** [bool(s)] for a str or [None]. *)
Definition truthy (s : option string) : bool :=
  match s with
  | Some (String _ _) => true
  | _ => false
  end.

(** orders/models.py: [Order.get_total_by_vendor(self)], where [json] is
    the module of the standard library. *)
Definition get_total_by_vendor (globals : Globals) (db : Database)
    (self : Order.t) : result VendorTotals.t :=
  let json := Json.StdJson in
  match request_object globals with
  | None => Raise AttributeError
  | Some request =>
      match Request.user request with
      | None => Raise TypeError
      | Some user =>
          vendor <-
            objects_get (fun v => Vendor.user v =? User.id user)
              (vendors db) ;;
          if truthy (Order.total_data self) then
            total_data <- json_loads json (Order.total_data self) ;;
            data <- py_get total_data (Text.str_int (Vendor.id vendor)) ;;
            totals_of_data json data
          else
            s <- float_of_num (PyInt 0) ;;
            t <- float_of_num (PyInt 0) ;;
            Ok (VendorTotals.mk (PyInt 0) [] (PyFloat (Float.add s t)))
      end
  end.

(** orders/request_object.py: the middleware stores the request in the
    module-level name, then calls the view. *)
Definition request_object_middleware {R : Type}
    (get_response : Globals -> Request.t -> R) (globals : Globals)
    (request : Request.t) : R * Globals :=
  let globals' := mk_globals (Some request) in
  (get_response globals' request, globals').

(** ** marketplace/views.py and core/views.py *)

(** What a view returns. *)
Inductive response (C : Type) : Type :=
| Render (template : string) (context : C)
| Redirect (to : string).
Arguments Render {C} template context.
Arguments Redirect {C} to.

(** The initial values of the order form. *)
Record default_values : Type := mk_default_values {
  dv_first_name : string;
  dv_last_name : string;
  dv_phone : string;
  dv_email : string;
  dv_address : option string;
  dv_country : option string;
  dv_state : option string;
  dv_city : option string;
  dv_pin_code : option string
}.

Module CheckoutContext.
Record t : Type := mk {
  form : default_values;
  cart_items : list Cart.t
}.
End CheckoutContext.

(** marketplace/views.py: [checkout], under [login_required].  The view
    only reads; the database it leaves is returned beside the response. *)
Definition checkout (request : Request.t) (db : Database)
    : result (response CheckoutContext.t * Database) :=
  match Request.user request with
  | None => Ok (Redirect "login", db)
  | Some user =>
      let cart_items :=
        order_by Z.leb Cart.created_at
          (filter (fun item => Cart.user item =? User.id user) (carts db)) in
      let cart_count := Z.of_nat (List.length cart_items) in
      if cart_count <=? 0 then Ok (Redirect "marketplace", db)
      else
        user_profile <-
          objects_get
            (fun p =>
               match UserProfile.user p with
               | Some u => u =? User.id user
               | None => false
               end)
            (user_profiles db) ;;
        let form :=
          mk_default_values (User.first_name user) (User.last_name user)
            (User.phone_number user) (User.email user)
            (UserProfile.address user_profile)
            (UserProfile.country user_profile)
            (UserProfile.state user_profile)
            (UserProfile.city user_profile)
            (UserProfile.pin_code user_profile) in
        Ok (Render "marketplace/checkout.html"
              (CheckoutContext.mk form cart_items), db)
  end.

(** A vendor as a template receives it: the row, with the annotated
    [distance] (the exact value in metres of the double the database
    computes) and the float [kms] when the query set them. *)
Record listed_vendor : Type := mk_listed {
  vendor : Vendor.t;
  distance : option Q;
  kms : option Float.t
}.

(** [D(m=value).standard]: [0.0 + 1.0 * value], the metres of an
    annotated distance. *)
Definition D_m (value : Float.t) : Float.t :=
  Float.add Float.zero (Float.mul (Float.of_decimal false 1 0) value).

(** [d.km] for a distance [d]: [d.standard / 1000.0]. *)
Definition km (standard : Float.t) : Float.t :=
  Float.div standard (Float.of_decimal false 1000 0).

(** [round(x, 1)] for a float ([float.__round__] with [ndigits]): the
    decimals of [x] to one place after the point, correctly rounded
    from the exact value of [x], ties to the even digit, and read back
    as a float.  A zero, an infinity and a NaN are returned as they
    are. *)
Definition round1 (x : Float.t) : Float.t :=
  match x with
  | S754_finite s m e =>
      let tenths :=
        if 0 <=? e then 10 * Zpos m * 2 ^ e
        else Decimal.round_half_even (10 * Zpos m) (2 ^ (- e)) in
      Float.of_decimal s tenths (-1)
  | _ => x
  end.

(** [round(v.distance.km, 1)] for an annotated distance of [d]
    metres. *)
Definition kms_of (d : Q) : Float.t :=
  round1 (km (D_m (Float.of_value d))).

(** [D(km=value).m]: [0.0 + 1000.0 * value]. *)
Definition D_km (value : Float.t) : Float.t :=
  Float.add Float.zero (Float.mul (Float.of_decimal false 1000 0) value).

(** [d <= limit] in SQL for a double [limit]: a NaN is above every
    number. *)
Definition sql_le (d : Q) (limit : Float.t) : bool :=
  match limit with
  | S754_nan => true
  | S754_infinity negative => negb negative
  | _ => match Float.value limit with
         | Some q => Qle_bool d q
         | None => false
         end
  end.

(** [%s] of a str or [None]. *)
Definition format_s (o : option string) : string :=
  match o with
  | Some s => s
  | None => "None"
  end.

(** [UPPER(c)] of PostgreSQL in a database of a UTF-8 locale, on the
    characters below 256: the capital of a letter a-z or of a letter
    U+00E0-U+00FE other than the division sign is 32 places below it.
    The sharp s has no capital of one character; the capitals of the
    micro sign and of U+00FF lie above 255 and are the capital of no
    other character: the three are left as they are, which changes no
    comparison of two texts of the model. *)
Definition sql_upper_char (c : ascii) : ascii :=
  let n := N_of_ascii c in
  if ((97 <=? n) && (n <=? 122)
      || (224 <=? n) && (n <=? 254) && negb (n =? 247))%N
  then ascii_of_N (n - 32) else c.

Fixpoint sql_upper (s : string) : string :=
  match s with
  | EmptyString => EmptyString
  | String c rest => String (sql_upper_char c) (sql_upper rest)
  end.

(** [food_title__icontains], [vendor_name__icontains]:
    [UPPER(column) LIKE UPPER(pattern)], the pattern being the needle
    between two [%] with its [%], [_] and backslashes escaped: the
    capitals of the needle are a substring of the capitals of the
    column. *)
Definition icontains (needle haystack : string) : bool :=
  Text.contains (sql_upper needle) (sql_upper haystack).

(** core/views.py: the location [(lng, lat)] of the session or of the
    query parameters, stored in the session when it comes from the
    latter; the session is returned with it. *)
Definition get_or_set_current_location (request : Request.t)
    : result (option (option string * option string) * Request.t) :=
  match dict_get "lat" (Request.session request) with
  | Some lat =>
      match dict_get "lng" (Request.session request) with
      | Some lng => Ok (Some (lng, lat), request)
      | None => Raise KeyError
      end
  | None =>
      match dict_get "lat" (Request.GET request) with
      | Some lat =>
          let lng := dict_get "lng" (Request.GET request) in
          let session :=
            dict_set "lng" lng
              (dict_set "lat" (Some lat) (Request.session request)) in
          Ok (Some (lng, Some lat),
              Request.mk (Request.user request) (Request.GET request) session)
      | None => Ok (None, request)
      end
  end.

(** The contexts of [home.html] and [marketplace/listings.html]. *)
Module HomeContext.
Record t : Type := mk { vendors : list listed_vendor }.
End HomeContext.

Module ListingsContext.
Record t : Type := mk {
  vendors : list listed_vendor;
  vendor_count : Z;
  source_location : string
}.
End ListingsContext.

Section GeoDiscovery.

(** The GEOS reader of well-known text, and the distance in metres the
    database computes between two points: a double, taken by its exact
    value. *)
Variable GEOSGeometry : string -> result Point.
Variable Distance : Point -> Point -> Q.

(** [user_profile__location], through the join. *)
Definition vendor_location (db : Database) (v : Vendor.t) : option Point :=
  match find (fun p => UserProfile.id p =? Vendor.user_profile v)
          (user_profiles db) with
  | Some p => UserProfile.location p
  | None => None
  end.

(** [user__is_active=True], through the join. *)
Definition user_is_active (db : Database) (v : Vendor.t) : bool :=
  existsb (fun u => (User.id u =? Vendor.user v) && User.is_active u)
    (users db).

(** [Distance("user_profile__location", pnt)] *)
Definition vendor_distance (db : Database) (pnt : Point) (v : Vendor.t)
    : option Q :=
  option_map (fun loc => Distance loc pnt) (vendor_location db v).

(** [user_profile__location__distance_lte=(pnt, limit)] *)
Definition distance_lte (db : Database) (pnt : Point) (limit : Float.t)
    (v : Vendor.t) : bool :=
  match vendor_distance db pnt v with
  | Some d => sql_le d limit
  | None => false
  end.

(** The annotated distance as a sort key; the filter before it leaves
    no row without one. *)
Definition distance_key (db : Database) (pnt : Point) (v : Vendor.t) : Q :=
  match vendor_distance db pnt v with
  | Some d => d
  | None => 0%Q
  end.

(** [.annotate(distance=...).order_by("distance")], then
    [for v in vendors: v.kms = round(v.distance.km, 1)]. *)
Definition nearest_first (db : Database) (pnt : Point)
    (rows : list Vendor.t) : list listed_vendor :=
  map (fun v =>
         let d := distance_key db pnt v in
         mk_listed v (Some d) (Some (kms_of d)))
    (order_by Qle_bool (distance_key db pnt) rows).

(** A row as the template gets it from a query with no annotation. *)
Definition plain (v : Vendor.t) : listed_vendor := mk_listed v None None.

(** core/views.py: [home]; the request is returned with the session the
    view leaves. *)
Definition home (request : Request.t) (db : Database)
    : result (response HomeContext.t * Request.t) :=
  '(location, request) <- get_or_set_current_location request ;;
  match location with
  | Some _ =>
      '(location, request) <- get_or_set_current_location request ;;
      match location with
      | Some (lng, lat) =>
          pnt <- GEOSGeometry
                   ("POINT(" ++ format_s lng ++ " " ++ format_s lat ++ ")") ;;
          let limit := D_km (Float.of_decimal false 1000 0) in
          let vendors :=
            nearest_first db pnt
              (filter (distance_lte db pnt limit) (vendors db)) in
          Ok (Render "home.html" (HomeContext.mk vendors), request)
      | None => Raise TypeError
      end
  | None =>
      let vendors :=
        firstn 8
          (filter (fun v => Vendor.is_approved v && user_is_active db v)
             (vendors db)) in
      Ok (Render "home.html" (HomeContext.mk (map plain vendors)), request)
  end.

(** [request.GET[key]] *)
Definition GET_item (request : Request.t) (key : string) : result string :=
  match dict_get key (Request.GET request) with
  | Some v => Ok v
  | None => Raise MultiValueDictKeyError
  end.

(** [Q(id__in=fetch_vendors_by_fooditems)
     | Q(vendor_name__icontains=keyword, is_approved=True,
         user__is_active=True)] *)
Definition keyword_match (db : Database) (keyword : string) (v : Vendor.t)
    : bool :=
  existsb
    (fun f =>
       (FoodItem.vendor f =? Vendor.id v)
       && icontains keyword (FoodItem.food_title f)
       && FoodItem.is_available f)
    (fooditems db)
  || (icontains keyword (Vendor.vendor_name v)
      && Vendor.is_approved v && user_is_active db v).

(** [bool(s)] for a str. *)
Definition nonempty (s : string) : bool :=
  match s with
  | EmptyString => false
  | String _ _ => true
  end.

(** marketplace/views.py: [search] *)
Definition search (request : Request.t) (db : Database)
    : result (response ListingsContext.t) :=
  match dict_get "address" (Request.GET request) with
  | None => Ok (Redirect "marketplace")
  | Some address =>
      latitude <- GET_item request "lat" ;;
      longitude <- GET_item request "lng" ;;
      radius <- GET_item request "radius" ;;
      keyword <- GET_item request "keyword" ;;
      vendors <-
        (if nonempty latitude && nonempty longitude && nonempty radius then
           pnt <- GEOSGeometry ("POINT(" ++ longitude ++ " " ++ latitude ++ ")") ;;
           km <- Float.of_string radius ;;
           Ok (nearest_first db pnt
                 (filter
                    (fun v =>
                       keyword_match db keyword v
                       && distance_lte db pnt (D_km km) v)
                    (vendors db)))
         else Ok (map plain (filter (keyword_match db keyword) (vendors db)))) ;;
      let vendor_count := Z.of_nat (List.length vendors) in
      Ok (Render "marketplace/listings.html"
            (ListingsContext.mk vendors vendor_count address))
  end.

End GeoDiscovery.

(** ** The ledger and its encoder *)

(** The data model of the specification (its section 3): a breakdown
    maps a tax type to a percentage and an amount, and a ledger maps a
    vendor id to the totals of that vendor. *)
Module Spec.

Record TaxEntry : Type := mk_entry {
  percentage : Decimal.t;
  amount : Decimal.t
}.

Record CartTotals : Type := mk_totals {
  subtotal : Decimal.t;
  tax : Decimal.t;
  grand_total : Decimal.t;
  breakdown : dict TaxEntry
}.

Definition Ledger : Type := list (Z * CartTotals).

End Spec.

Module Encoder.

Definition hex_digit (n : N) : ascii :=
  if (n <? 10)%N then ascii_of_N (48 + n) else ascii_of_N (87 + n).

(** Two hexadecimal digits of a character code. *)
Definition hex2 (c : ascii) : string :=
  let n := N_of_ascii c in
  String (hex_digit (n / 16)) (String (hex_digit (n mod 16)) "").

Fixpoint has_char (c : ascii) (s : string) : bool :=
  match s with
  | EmptyString => false
  | String d rest => Ascii.eqb c d || has_char c rest
  end.

(** [str.isprintable] on the characters below 256. *)
Definition printable (c : ascii) : bool :=
  let n := N_of_ascii c in
  ((32 <=? n) && (n <? 127) || (161 <=? n) && negb (n =? 173))%N.

Fixpoint repr_chars (quote : ascii) (s : string) : string :=
  match s with
  | EmptyString => EmptyString
  | String c rest =>
      (if Ascii.eqb c quote || Ascii.eqb c Json.backslash
       then String Json.backslash (String c "")
       else if Ascii.eqb c "009" then String Json.backslash "t"
       else if Ascii.eqb c "010" then String Json.backslash "n"
       else if Ascii.eqb c "013" then String Json.backslash "r"
       else if printable c then String c ""
       else String Json.backslash (String "x" (hex2 c)))
      ++ repr_chars quote rest
  end.

(** [repr(s)] for a str: single quotes, unless the text has a single
    quote and no double quote. *)
Definition repr_str (s : string) : string :=
  let quote :=
    if has_char "'" s && negb (has_char Json.dquote s)
    then Json.dquote else "'"%char in
  String quote (repr_chars quote s ++ String quote "").

(** [repr] of a dict, its entries written by [item]. *)
Definition repr_dict {V : Type} (item : V -> string) (d : dict V) : string :=
  "{"
  ++ String.concat ", "
       (map (fun kv => (repr_str (fst kv) ++ ": " ++ item (snd kv))%string) d)
  ++ "}".

Fixpoint dumps_chars (s : string) : string :=
  match s with
  | EmptyString => EmptyString
  | String c rest =>
      (if Ascii.eqb c Json.dquote || Ascii.eqb c Json.backslash
       then String Json.backslash (String c "")
       else if Ascii.eqb c "008" then String Json.backslash "b"
       else if Ascii.eqb c "009" then String Json.backslash "t"
       else if Ascii.eqb c "010" then String Json.backslash "n"
       else if Ascii.eqb c "012" then String Json.backslash "f"
       else if Ascii.eqb c "013" then String Json.backslash "r"
       else if ((32 <=? N_of_ascii c) && (N_of_ascii c <? 127))%N
       then String c ""
       else String Json.backslash ("u00" ++ hex2 c))
      ++ dumps_chars rest
  end.

(** [json.dumps(s)] for a str. *)
Definition dumps_str (s : string) : string :=
  String Json.dquote (dumps_chars s ++ String Json.dquote "").

(** [json.dumps] of a dict, its values written by [item]. *)
Definition dumps_dict {V : Type} (item : V -> string) (d : dict V) : string :=
  "{"
  ++ String.concat ", "
       (map (fun kv => (dumps_str (fst kv) ++ ": " ++ item (snd kv))%string) d)
  ++ "}".

(** The breakdown as the ledger holds it: the percentage as a text key,
    the amount as a text. *)
Definition breakdown_text (b : dict Spec.TaxEntry) : string :=
  repr_dict
    (fun e =>
       repr_dict repr_str
         [(Decimal.to_str (Spec.percentage e),
           Decimal.to_str (Spec.amount e))])
    b.

(** Modelled from the spec: the encoder of the Vendor Ledger Codec; the
    checkout code that writes [Order.total_data] is not in the sources.
    Sections 3 and 4.2: the persisted shape is keyed by vendor id; under
    it the subtotal, as a key, maps to the serialized breakdown with
    string-quoted numeric sub-keys; the text is the result of two
    serialization passes, one for each vendor's breakdown, in the
    single-quote dialect that the decoder turns into JSON with its quote
    substitution, and one, JSON, for the whole ledger. *)
Definition encode (ledger : Spec.Ledger) : string :=
  dumps_dict
    (fun t =>
       dumps_dict dumps_str
         [(Decimal.to_str (Spec.subtotal t),
           breakdown_text (Spec.breakdown t))])
    (map (fun vt => (Text.str_int (fst vt), snd vt)) ledger).

(** The order a checkout leaves for a ledger. *)
Definition placed (ledger : Spec.Ledger) : Order.t :=
  Order.mk 0 0 (Some (encode ledger)).

End Encoder.

(** A text written with a backquote for each double quote. *)
Definition json_text (s : string) : string :=
  Text.replace "`" Json.dquote s.

(** ** Notions of the statements *)

(** A value [c * 10 ^ e] in units of [10 ^ -2], rounded half-even. *)
Definition at_cents (c e : Z) : Z :=
  if -2 <=? e then c * 10 ^ (e + 2)
  else Decimal.round_half_even c (10 ^ (- 2 - e)).

(** The integer nearest to a rational, ties to the even one. *)
Definition Qround_half_even (x : Q) : Z :=
  Decimal.round_half_even (Qnum x) (Zpos (Qden x)).

(** A rational rounded to two decimal places, half-even (banker's
    rounding): [round(x, 2)] as the specification words it. *)
Definition round2 (x : Q) : Q := Qmake (Qround_half_even (x * 100)) 100.

(** Two dicts with the same keys in the same order, and the same values
    except under [k]. *)
Definition agree_off {V : Type} (k : string) : dict V -> dict V -> Prop :=
  Forall2 (fun e e' => fst e = fst e' /\ (fst e <> k -> snd e = snd e')).

(** A number that is zero: the int [0] or the Decimal [0.00]. *)
Definition is_zero (x : num) : Prop :=
  x = PyInt 0 \/ x = PyDecimal (Decimal.mk 0 (-2)).

(** What [DecimalField(max_digits, decimal_places)] stores. *)
Definition decimal_field (max_digits decimal_places : Z) (d : Decimal.t) : Prop :=
  Decimal.exp d = - decimal_places /\ Z.abs (Decimal.coef d) < 10 ^ max_digits.

(** The columns of the cart, the menu and the tax table as their fields
    bound them, and at most 10000 lines in the cart of the user and
    10000 active rules: every Decimal of the cart aggregator then has a
    coefficient of at most 28 digits. *)
Record cart_in_range (user : User.t) (db : Database) : Prop := {
  prices_in_range :
    forall f, In f (fooditems db) -> decimal_field 10 2 (FoodItem.price f);
  quantities_in_range :
    forall item, In item (carts db) -> 0 <= Cart.quantity item <= 2147483647;
  percentages_in_range :
    forall i, In i (taxes db) -> decimal_field 4 2 (Tax.tax_percentage i);
  lines_in_range :
    Z.of_nat (List.length (filter (fun item => Cart.user item =? User.id user)
                             (carts db))) <= 10000;
  rules_in_range :
    Z.of_nat (List.length (filter Tax.is_active (taxes db))) <= 10000
}.

(** Every line of the cart of the user names one food item of the menu,
    as the foreign key of [Cart.fooditem] makes it. *)
Definition lines_resolve (user : User.t) (db : Database) : Prop :=
  forall item, In item (carts db) -> Cart.user item = User.id user ->
    exists f,
      objects_get (fun f => FoodItem.id f =? Cart.fooditem item)
        (fooditems db) = Ok f.

(** ** Sample data of the examples *)

Definition cents (c : Z) : Decimal.t := Decimal.mk c (-2).

Definition alice : User.t :=
  User.mk 1 "Alice" "Adams" "alice@example.org" "5550100" true.

Definition bob : User.t :=
  User.mk 2 "Bob" "Brown" "bob@example.org" "5550101" true.

Definition as_user (u : User.t) : Request.t := Request.mk (Some u) [] [].

Definition menu : list FoodItem.t :=
  [FoodItem.mk 10 1 "Taco" (cents 5000) true;
   FoodItem.mk 11 2 "Burrito" (cents 1725) true].

Definition CGST : Tax.t := Tax.mk "CGST" (cents 900) true.
Definition SGST : Tax.t := Tax.mk "SGST" (cents 700) true.
Definition CGST_10 : Tax.t := Tax.mk "CGST" (cents 1000) true.
Definition CGST_12 : Tax.t := Tax.mk "CGST" (cents 1200) true.

(** A database with the sample menu, the given cart lines and rules. *)
Definition shop (lines : list Cart.t) (rules : list Tax.t) : Database :=
  mk_database [alice; bob] [] [] menu lines rules [].

(** Two tacos in the cart of Alice: a subtotal of 100.00. *)
Definition two_tacos : list Cart.t := [Cart.mk 1 1 10 2 0].

(** ** Notions of the proofs about amounts *)

(** An int or a Decimal as a Decimal. *)
Definition num_decimal (x : num) : option Decimal.t :=
  match x with
  | PyInt n => Some (Decimal.of_int n)
  | PyDecimal d => Some d
  | PyFloat _ => None
  end.

(** An amount of money of at most [M] hundredths: the int [0] or a
    Decimal with two places. *)
Definition money_le (M : Z) (x : num) : Prop :=
  x = PyInt 0
  \/ exists c, x = PyDecimal (Decimal.mk c (-2)) /\ Z.abs c <= M.

(** The hundredths of such an amount. *)
Definition money_cents (x : num) : Z :=
  match x with
  | PyDecimal d => Decimal.coef d
  | _ => 0
  end.

(** The largest line of a cart, in hundredths: a price of 10 digits
    times a quantity of 31 bits. *)
Definition line_bound : Z := 10 ^ 10 * 2147483647.

Fixpoint Qsum (l : list Q) : Q :=
  match l with
  | [] => 0%Q
  | x :: rest => (x + Qsum rest)%Q
  end.

Fixpoint Zsum (l : list Z) : Z :=
  match l with
  | [] => 0
  | x :: rest => x + Zsum rest
  end.

(** The amounts of a breakdown, in the order [sum] reads them. *)
Definition breakdown_amounts (d : dict (dict Decimal.t)) : list Decimal.t :=
  List.concat (map dict_values (dict_values d)).

(** ** Notions of the statements on decoded totals *)

(** The statements that both queries run once the vendor id is known,
    with [json] the library of the module. *)
Definition totals_by_vendor (json : Json.library) (total_data : option string)
    (vendor_id : Z) : result VendorTotals.t :=
  total_data <- json_loads json total_data ;;
  data <- py_get total_data (Text.str_int vendor_id) ;;
  totals_of_data json data.

(** The exact value of a decimal text such as ["0.10"]. *)
Definition decimal_text_value (s : string) : option Q :=
  let '(negative, digits) := Float.scan_sign s in
  match Float.scan_number digits with
  | Some (m, e) =>
      Some (inject_Z (if negative then - m else m) * Qpower (10 # 1) e)%Q
  | None => None
  end.

(** A view that shows the totals of an order to the vendor who is
    logged in, as [order_detail] of vendor/views.py does. *)
Definition totals_view (db : Database) (order : Order.t)
    : Globals -> Request.t -> result VendorTotals.t :=
  fun globals _ => get_total_by_vendor globals db order.

(** ** Sample orders *)

(** A ledger as checkout writes it: vendor 1 with a subtotal of 0.70 and
    a tax of 0.10, vendor 2 with a subtotal of 100.00 and two taxes. *)
Definition sample_ledger : string :=
  json_text
    "{`1`: {`0.70`: `{'VAT': {'14.29': '0.10'}}`}, `2`: {`100.00`: `{'CGST': {'9.00': '9.00'}, 'SGST': {'7.00': '7.00'}}`}}".

Definition sample_order : Order.t := Order.mk 1 3 (Some sample_ledger).

(** Alice runs vendor 1 and Bob vendor 2. *)
Definition sample_vendors : list Vendor.t :=
  [Vendor.mk 1 1 1 "Tacos" true; Vendor.mk 2 2 2 "Burritos" true].

Definition vendors_db : Database :=
  mk_database [alice; bob] [] sample_vendors menu [] [CGST; SGST] [sample_order].

(** ** Notions of the statements on discovery *)



(** ** Sample vendors on a map *)

Definition carol : User.t :=
  User.mk 3 "Carol" "Clark" "carol@example.org" "5550102" false.

Definition degrees (lng lat : Z) : Point :=
  mk_point (Float.of_decimal false lng 0) (Float.of_decimal false lat 0).

Definition coordinate (f : Float.t) : Q :=
  match Float.value f with
  | Some q => q
  | None => 0%Q
  end.

(** A distance for the examples: 111195 metres a degree, along the
    grid. *)
Definition grid_distance (a b : Point) : Q :=
  (111195 * (Qabs (coordinate (x a) - coordinate (x b))
             + Qabs (coordinate (y a) - coordinate (y b))))%Q.

(** A reader of well-known text for the examples, on the one point they
    use. *)
Definition read_point (wkt : string) : result Point :=
  if String.eqb wkt "POINT(0 0)" then Ok (degrees 0 0) else Raise ValueError.


(** Three vendors: "Burritos" (id 2) one degree east of the origin,
    "Tacos" (id 1), which is not approved, two degrees north of it, and
    "Noodles" (id 3), of a user who is not active and with no food
    item, thirty degrees north. *)
Definition town : Database :=
  mk_database [alice; bob; carol]
    [UserProfile.mk 1 (Some 1) None None None None None (Some (degrees 0 2));
     UserProfile.mk 2 (Some 2) None None None None None (Some (degrees 1 0));
     UserProfile.mk 3 (Some 3) None None None None None (Some (degrees 0 30))]
    [Vendor.mk 2 2 2 "Burritos" true;
     Vendor.mk 1 1 1 "Tacos" false;
     Vendor.mk 3 3 3 "Noodles" true]
    menu [] [] [].



(** A visit of the home page from the origin. *)
Definition from_origin : Request.t :=
  Request.mk None [("lat", "0"); ("lng", "0")] [].

(** ** Notions of the statements on the ledger *)

Fixpoint all_chars (p : ascii -> bool) (s : string) : bool :=
  match s with
  | EmptyString => true
  | String c rest => p c && all_chars p rest
  end.

(** A character that JSON and [repr] write as it is within double
    quotes: printable ASCII, no double quote, no backslash. *)
Definition json_safe (c : ascii) : bool :=
  ((32 <=? N_of_ascii c) && (N_of_ascii c <? 127))%N
  && negb (Ascii.eqb c Json.dquote) && negb (Ascii.eqb c Json.backslash).

(** A text of such characters with no single quote either: the quote
    substitution of the decoder leaves it as it is. *)
Definition plain_char (c : ascii) : bool :=
  json_safe c && negb (Ascii.eqb c "'").

Definition plain_text (s : string) : bool := all_chars plain_char s.

(** An amount of money as the cart aggregator computes it: two decimal
    places, not negative. *)
Definition money (d : Decimal.t) : Prop :=
  Decimal.exp d = -2 /\ 0 <= Decimal.coef d.

(** A ledger the decoder reads back: each vendor once, each tax type
    once in a breakdown and of plain characters, every number an amount
    of money. *)
Record readable_ledger (ledger : Spec.Ledger) : Prop := {
  vendors_once : NoDup (map fst ledger);
  subtotals_money :
    forall v t, In (v, t) ledger -> money (Spec.subtotal t);
  types_once :
    forall v t, In (v, t) ledger -> NoDup (dict_keys (Spec.breakdown t));
  entries_plain :
    forall v t ty e, In (v, t) ledger -> In (ty, e) (Spec.breakdown t) ->
      plain_text ty = true /\ money (Spec.percentage e)
      /\ money (Spec.amount e)
}.

(** The double nearest to a Decimal that is not negative. *)
Definition nearest_float (d : Decimal.t) : Float.t :=
  Float.of_decimal false (Decimal.coef d) (Decimal.exp d).

(** The sum of doubles, from the left. *)
Definition float_sum (l : list Float.t) : Float.t :=
  fold_left Float.add l Float.zero.

(** What the decoder returns for the totals of a vendor: the subtotal
    as a double, the breakdown with the percentage and the amount as
    texts, and the grand total as a sum of doubles. *)
Definition decoded (t : Spec.CartTotals) : VendorTotals.t :=
  let subtotal := nearest_float (Spec.subtotal t) in
  let amounts :=
    map (fun kv => nearest_float (Spec.amount (snd kv))) (Spec.breakdown t) in
  VendorTotals.mk (PyFloat subtotal)
    (map
       (fun kv =>
          (fst kv,
           Json.JDict
             [(Decimal.to_str (Spec.percentage (snd kv)),
               Json.JStr (Decimal.to_str (Spec.amount (snd kv))))]))
       (Spec.breakdown t))
    (PyFloat (Float.add subtotal (float_sum amounts))).

(** ** Sample ledgers *)

Definition totals_070 : Spec.CartTotals :=
  Spec.mk_totals (cents 70) (cents 10) (cents 80)
    [("VAT", Spec.mk_entry (cents 1429) (cents 10))].

Definition totals_100 : Spec.CartTotals :=
  Spec.mk_totals (cents 10000) (cents 1600) (cents 11600)
    [("CGST", Spec.mk_entry (cents 900) (cents 900));
     ("SGST", Spec.mk_entry (cents 700) (cents 700))].

(** The ledger of the sample order. *)
Definition ledger_of_two : Spec.Ledger := [(1, totals_070); (2, totals_100)].

(** A ledger with a tax type that has an apostrophe. *)
Definition ledger_with_apostrophe : Spec.Ledger :=
  [(1, Spec.mk_totals (cents 1000) (cents 50) (cents 1050)
         [("Kid's", Spec.mk_entry (cents 500) (cents 50))])].

(** ** Notions of the proofs about texts *)

(** A character of a number in plain notation. *)
Definition numeric_char (c : ascii) : bool :=
  Float.is_digit c || Ascii.eqb c ".".

(** The members of a JSON object as [json.dumps] writes them, from
    after the quote that opens the first key [k] to the closing brace. *)
Fixpoint members_text {V : Type} (item : V -> string) (k : string) (v : V)
    (d : dict V) : string :=
  k ++ String Json.dquote
         (": " ++ item v
          ++ match d with
             | [] => "}"
             | (k', v') :: d' =>
                 ", " ++ String Json.dquote (members_text item k' v' d')
             end).

(** The JSON of an entry of a breakdown, and the value the scanner
    reads from it. *)
Definition entry_text (e : Spec.TaxEntry) : string :=
  Encoder.dumps_dict Encoder.dumps_str
    [(Decimal.to_str (Spec.percentage e), Decimal.to_str (Spec.amount e))].

Definition entry_value (e : Spec.TaxEntry) : Json.value :=
  Json.JDict [(Decimal.to_str (Spec.percentage e),
               Json.JStr (Decimal.to_str (Spec.amount e)))].

Definition good_entry (e : Spec.TaxEntry) : Prop :=
  money (Spec.percentage e) /\ money (Spec.amount e).

(** The JSON of the totals of a vendor, and the value read from it. *)
Definition totals_text (t : Spec.CartTotals) : string :=
  Encoder.dumps_dict Encoder.dumps_str
    [(Decimal.to_str (Spec.subtotal t),
      Encoder.breakdown_text (Spec.breakdown t))].

Definition totals_value (t : Spec.CartTotals) : Json.value :=
  Json.JDict [(Decimal.to_str (Spec.subtotal t),
               Json.JStr (Encoder.breakdown_text (Spec.breakdown t)))].

Definition good_totals (t : Spec.CartTotals) : Prop :=
  money (Spec.subtotal t)
  /\ NoDup (dict_keys (Spec.breakdown t))
  /\ forall ty e, In (ty, e) (Spec.breakdown t) ->
       plain_text ty = true /\ good_entry e.

(** ** Notions of the proofs about sorting *)


(** ** The store of the cart views *)

(** What a statement of a view raises: an exception of Python, or an
    error of the database ([django.db.utils.DataError] for an integer
    out of the range of its column, [IntegrityError] for a constraint). *)
Inductive raised : Type :=
| PyError (e : exn)
| DataError
| IntegrityError.

(** The database with the sequence that numbers the rows of [Cart]: its
    last value. *)
Record Store : Type := mk_store {
  tables : Database;
  cart_id_seq : Z
}.

Definition set_carts (db : Database) (rows : list Cart.t) : Database :=
  mk_database (users db) (user_profiles db) (vendors db) (fooditems db)
    rows (taxes db) (orders db).

(** [DELETE ... WHERE id = row.id] *)
Definition delete_row (row : Cart.t) (rows : list Cart.t) : list Cart.t :=
  filter (fun c => negb (Cart.id c =? Cart.id row)) rows.

(** [UPDATE ... WHERE id = row.id]: PostgreSQL writes the new version
    of the row behind the rows the table holds, and a scan with no
    [ORDER BY] then yields it last. *)
Definition update_row (row : Cart.t) (rows : list Cart.t) : list Cart.t :=
  if existsb (fun c => Cart.id c =? Cart.id row) rows
  then delete_row row rows ++ [row]
  else rows.

(** [row.save()] for a row of [Cart] that has an id: the row of this id
    is updated, and the row is inserted when there is none.  [quantity]
    is a [PositiveIntegerField]: an integer column with the check
    [quantity >= 0].  [Cart.t] holds the columns that the views read:
    the column [updated_at], which every [save] sets to the time of
    the call, is not among them. *)
Definition save_cart (row : Cart.t) (st : Store) : option raised * Store :=
  let q := Cart.quantity row in
  if (q <? -2147483648) || (2147483647 <? q) then (Some DataError, st)
  else if q <? 0 then (Some IntegrityError, st)
  else
    let rows := carts (tables st) in
    let rows' :=
      if existsb (fun c => Cart.id c =? Cart.id row) rows
      then update_row row rows
      else rows ++ [row] in
    (None, mk_store (set_carts (tables st) rows') (cart_id_seq st)).

(** [Cart.objects.create(user=user, fooditem=fooditem, quantity=1)] at
    the time [now]: the id is the next value of the sequence, which is
    used up even when the key is taken. *)
Definition create_cart (user fooditem now : Z) (st : Store)
    : (Cart.t + raised) * Store :=
  let id := cart_id_seq st + 1 in
  let row := Cart.mk id user fooditem 1 now in
  let rows := carts (tables st) in
  if existsb (fun c => Cart.id c =? id) rows
  then (inr IntegrityError, mk_store (tables st) id)
  else (inl row, mk_store (set_carts (tables st) (rows ++ [row])) id).

(** [row.delete()] *)
Definition delete_cart_row (row : Cart.t) (st : Store) : Store :=
  mk_store (set_carts (tables st) (delete_row row (carts (tables st))))
    (cart_id_seq st).

(** ** marketplace/context_processors.py: [get_cart_counter] *)

(** The value under ["cart_count"] of the dict the function returns.
    No statement under its [try] raises: the handler is never run. *)
Definition get_cart_counter (request : Request.t) (db : Database) : Z :=
  match Request.user request with
  | Some user =>
      let cart_items :=
        filter (fun item => Cart.user item =? User.id user) (carts db) in
      match cart_items with
      | [] => 0
      | _ :: _ =>
          fold_left (fun cart_count cart_item =>
                       cart_count + Cart.quantity cart_item)
            cart_items 0
      end
  | None => 0
  end.

(** ** marketplace/views.py: the views of the cart *)

(** A request with the value of its header [X-Requested-With], if it
    has one. *)
Module HttpRequest.
Record t : Type := mk {
  request : Request.t;
  x_requested_with : option string
}.
End HttpRequest.

(** [request.headers.get("x-requested-with") == "XMLHttpRequest"] *)
Definition is_ajax (request : HttpRequest.t) : bool :=
  match HttpRequest.x_requested_with request with
  | Some v => String.eqb v "XMLHttpRequest"
  | None => false
  end.

(** The dict of a [JsonResponse] of the cart views; a key the dict does
    not have is [None] here, and [cart_counter] is the value under
    ["cart_count"] of the dict of [get_cart_counter]. *)
Module CartJson.
Record t : Type := mk {
  status : string;
  message : option string;
  cart_counter : option Z;
  qty : option Z;
  cart_amount : option CartAmounts.t
}.
End CartJson.

Definition failed (message : string) : CartJson.t :=
  CartJson.mk "Failed" (Some message) None None None.

Definition login_required_json : CartJson.t :=
  CartJson.mk "login_required" (Some "Please login to continue") None None None.

(** The dict of a success: [get_cart_counter(request)], then
    [get_cart_amounts(request)], which may raise. *)
Definition success (message : option string) (qty : option Z)
    (request : Request.t) (st : Store) : CartJson.t + raised :=
  let cart_counter := get_cart_counter request (tables st) in
  match get_cart_amounts request (tables st) with
  | Ok cart_amount =>
      inl (CartJson.mk "Success" message (Some cart_counter) qty
             (Some cart_amount))
  | Raise e => inr (PyError e)
  end.

(** [Cart.objects.get(user=request.user, fooditem=fooditem)] *)
Definition get_line (user : User.t) (fooditem : FoodItem.t) (st : Store)
    : result Cart.t :=
  objects_get
    (fun c => (Cart.user c =? User.id user)
              && (Cart.fooditem c =? FoodItem.id fooditem))
    (carts (tables st)).

Definition with_quantity (row : Cart.t) (quantity : Z) : Cart.t :=
  Cart.mk (Cart.id row) (Cart.user row) (Cart.fooditem row) quantity
    (Cart.created_at row).

(** [add_to_cart]: the statements under the inner [try]. *)
Definition increase_line (request : Request.t) (user : User.t)
    (fooditem : FoodItem.t) (st : Store) : (CartJson.t + raised) * Store :=
  match get_line user fooditem st with
  | Raise e => (inr (PyError e), st)
  | Ok chk_cart =>
      let chk_cart := with_quantity chk_cart (Cart.quantity chk_cart + 1) in
      match save_cart chk_cart st with
      | (Some e, st) => (inr e, st)
      | (None, st) =>
          (success (Some "Increased the cart quantity")
             (Some (Cart.quantity chk_cart)) request st, st)
      end
  end.

(** [add_to_cart]: the statements of the inner handler. *)
Definition add_line (now : Z) (request : Request.t) (user : User.t)
    (fooditem : FoodItem.t) (st : Store) : (CartJson.t + raised) * Store :=
  match create_cart (User.id user) (FoodItem.id fooditem) now st with
  | (inr e, st) => (inr e, st)
  | (inl chk_cart, st) =>
      (success (Some "Added the food to the cart")
         (Some (Cart.quantity chk_cart)) request st, st)
  end.

(** [add_to_cart(request, food_id)] at the time [now]: the response and
    the store it leaves.  Both handlers are bare: they take every
    exception. *)
Definition add_to_cart (now : Z) (request : HttpRequest.t) (food_id : Z)
    (st : Store) : CartJson.t * Store :=
  let req := HttpRequest.request request in
  match Request.user req with
  | None => (login_required_json, st)
  | Some user =>
      if is_ajax request then
        match objects_get (fun f => FoodItem.id f =? food_id)
                (fooditems (tables st)) with
        | Raise _ => (failed "This food does not exist!", st)
        | Ok fooditem =>
            match increase_line req user fooditem st with
            | (inl json, st) => (json, st)
            | (inr _, st) =>
                match add_line now req user fooditem st with
                | (inl json, st) => (json, st)
                | (inr _, st) => (failed "This food does not exist!", st)
                end
            end
        end
      else (failed "Invalid request!", st)
  end.

(** [decrease_cart]: the statements under the inner [try]. *)
Definition decrease_line (request : Request.t) (user : User.t)
    (fooditem : FoodItem.t) (st : Store) : (CartJson.t + raised) * Store :=
  match get_line user fooditem st with
  | Raise e => (inr (PyError e), st)
  | Ok chk_cart =>
      if 1 <? Cart.quantity chk_cart then
        let chk_cart := with_quantity chk_cart (Cart.quantity chk_cart - 1) in
        match save_cart chk_cart st with
        | (Some e, st) => (inr e, st)
        | (None, st) =>
            (success None (Some (Cart.quantity chk_cart)) request st, st)
        end
      else
        let st := delete_cart_row chk_cart st in
        let chk_cart := with_quantity chk_cart 0 in
        (success None (Some (Cart.quantity chk_cart)) request st, st)
  end.

(** [decrease_cart(request, food_id)] *)
Definition decrease_cart (request : HttpRequest.t) (food_id : Z) (st : Store)
    : CartJson.t * Store :=
  let req := HttpRequest.request request in
  match Request.user req with
  | None => (login_required_json, st)
  | Some user =>
      if is_ajax request then
        match objects_get (fun f => FoodItem.id f =? food_id)
                (fooditems (tables st)) with
        | Raise _ => (failed "This food does not exist!", st)
        | Ok fooditem =>
            match decrease_line req user fooditem st with
            | (inl json, st) => (json, st)
            | (inr _, st) =>
                (failed "You do not have this item in your cart!", st)
            end
        end
      else (failed "Invalid request!", st)
  end.

(** [delete_cart(request, cart_id)]: [None] where the view ends without
    a [return].  A row of a model is true. *)
Definition delete_cart (request : HttpRequest.t) (cart_id : Z) (st : Store)
    : option CartJson.t * Store :=
  let req := HttpRequest.request request in
  match Request.user req with
  | None => (None, st)
  | Some user =>
      if is_ajax request then
        match objects_get
                (fun c => (Cart.user c =? User.id user)
                          && (Cart.id c =? cart_id))
                (carts (tables st)) with
        | Raise _ => (Some (failed "Cart Item does not exist!"), st)
        | Ok cart_item =>
            let st := delete_cart_row cart_item st in
            match success (Some "Cart item has been deleted!") None req st with
            | inl json => (Some json, st)
            | inr _ => (Some (failed "Cart Item does not exist!"), st)
            end
        end
      else (Some (failed "Invalid request!"), st)
  end.

(** [cart(request)], under [login_required]: the context is the lines of
    the user by [created_at]. *)
Definition cart (request : Request.t) (db : Database)
    : response (list Cart.t) :=
  match Request.user request with
  | None => Redirect "login"
  | Some user =>
      Render "marketplace/cart.html"
        (order_by Z.leb Cart.created_at
           (filter (fun item => Cart.user item =? User.id user) (carts db)))
  end.

(** The context of [marketplace]. *)
Module MarketplaceContext.
Record t : Type := mk {
  vendors : list listed_vendor;
  vendor_count : Z
}.
End MarketplaceContext.

(** [marketplace(request)] *)
Definition marketplace (db : Database) : response MarketplaceContext.t :=
  let vendors :=
    filter (fun v => Vendor.is_approved v && user_is_active db v)
      (vendors db) in
  let vendor_count := Z.of_nat (List.length vendors) in
  Render "marketplace/listings.html"
    (MarketplaceContext.mk (map plain vendors) vendor_count).

(** ** orders/utils.py: [generate_order_number] *)

(** A reading of the clock, [datetime.datetime.now()]. *)
Module Datetime.
Record t : Type := mk {
  year : Z;
  month : Z;
  day : Z;
  hour : Z;
  minute : Z;
  second : Z
}.

(** The fields of a [datetime] with a year of four digits, as every
    reading of the clock has since the year 1000. *)
Definition four_digit_year (d : t) : Prop :=
  1000 <= year d <= 9999 /\ 1 <= month d <= 12 /\ 1 <= day d <= 31
  /\ 0 <= hour d <= 23 /\ 0 <= minute d <= 59 /\ 0 <= second d <= 59.

(** [d.strftime('%Y%m%d%H%M%S')]: each field as a decimal number filled
    with zeros, the year to four digits and the others to two. *)
Definition strftime_YmdHMS (d : t) : string :=
  (Text.padded 4 (year d) ++ Text.padded 2 (month d) ++ Text.padded 2 (day d)
   ++ Text.padded 2 (hour d) ++ Text.padded 2 (minute d)
   ++ Text.padded 2 (second d))%string.
End Datetime.

(** [generate_order_number(pk)] when the clock reads [now]. *)
Definition generate_order_number (now : Datetime.t) (pk : Z) : string :=
  let current_datetime := Datetime.strftime_YmdHMS now in
  let order_number := (current_datetime ++ Text.str_int pk)%string in
  order_number.

(** [Order.order_number] is a [CharField(max_length=20)]. *)
Definition order_number_max_length : nat := 20.

(** ** Notions of the statements on the cart views *)

(** The lines of the cart of [user], as the scan yields them. *)
Definition lines_of (user : User.t) (rows : list Cart.t) : list Cart.t :=
  filter (fun item => Cart.user item =? User.id user) rows.

(** The lines of the other users. *)
Definition lines_of_others (user : User.t) (rows : list Cart.t) : list Cart.t :=
  filter (fun item => negb (Cart.user item =? User.id user)) rows.

(** The lines of [user] for the food item [food_id], and the quantity of
    this item in the cart of [user]. *)
Definition lines_for (user : User.t) (food_id : Z) (rows : list Cart.t)
    : list Cart.t :=
  filter (fun c => (Cart.user c =? User.id user) && (Cart.fooditem c =? food_id))
    rows.

Definition quantity_in_cart (user : User.t) (food_id : Z) (rows : list Cart.t)
    : Z :=
  Zsum (map Cart.quantity (lines_for user food_id rows)).

(** The rows of [Cart] have ids of their own (the primary key), none
    above the last value of the sequence. *)
Definition cart_ids_sound (st : Store) : Prop :=
  NoDup (map Cart.id (carts (tables st)))
  /\ forall c, In c (carts (tables st)) -> Cart.id c <= cart_id_seq st.

(** A user has at most one line for a food item. *)
Definition one_line_per_food (rows : list Cart.t) : Prop :=
  forall c c', In c rows -> In c' rows ->
    Cart.user c = Cart.user c' -> Cart.fooditem c = Cart.fooditem c' ->
    Cart.id c = Cart.id c'.

(** The state in which the cart views leave the cart of [user]: keys
    in order, columns in the range of their fields, every line on a
    food item of the menu, one line for a food item. *)
Record cart_well_formed (user : User.t) (st : Store) : Prop := {
  wf_ids : cart_ids_sound st;
  wf_range : cart_in_range user (tables st);
  wf_resolve : lines_resolve user (tables st);
  wf_one_line : one_line_per_food (carts (tables st))
}.

(** All of the database but the lines of [user]. *)
Definition rest_of_store (user : User.t) (db : Database)
    : list User.t * list UserProfile.t * list Vendor.t * list FoodItem.t
      * list Cart.t * list Tax.t * list Order.t :=
  (users db, user_profiles db, vendors db, fooditems db,
   lines_of_others user (carts db), taxes db, orders db).

(** From [st] to [st'] nothing but the cart of [user] is written: the
    keys of the rows of [Cart] are still in order, the other tables and
    the lines of the other users are the same, and no line has a
    quantity below one if none had. *)
Definition wrote_cart_of (user : User.t) (st st' : Store) : Prop :=
  cart_ids_sound st'
  /\ cart_id_seq st <= cart_id_seq st'
  /\ rest_of_store user (tables st') = rest_of_store user (tables st)
  /\ ((forall x, In x (carts (tables st)) -> 1 <= Cart.quantity x) ->
      forall x, In x (carts (tables st')) -> 1 <= Cart.quantity x).

(** The hundredths of a line: the price of its food item times its
    quantity. *)
Definition line_cents (db : Database) (item : Cart.t) : Z :=
  match objects_get (fun f => FoodItem.id f =? Cart.fooditem item)
          (fooditems db) with
  | Ok f => Decimal.coef (FoodItem.price f) * Cart.quantity item
  | Raise _ => 0
  end.

(** The amount of a line: the price of its food item times its
    quantity. *)
Definition line_amount (db : Database) (item : Cart.t) : Q :=
  match objects_get (fun f => FoodItem.id f =? Cart.fooditem item)
          (fooditems db) with
  | Ok f => (Decimal.value (FoodItem.price f) * inject_Z (Cart.quantity item))%Q
  | Raise _ => 0%Q
  end.


(** An XMLHttpRequest of a user. *)
Definition ajax (u : User.t) : HttpRequest.t :=
  HttpRequest.mk (as_user u) (Some "XMLHttpRequest").

(** ** Notions of the statement on the two decoders *)

(** A text that does not start with the three characters of a UTF-8
    byte order mark. *)
Definition no_bom (s : string) : Prop :=
  Json.strip_bom Json.SimpleJson s = s.

(** No text that the decoder parses for the vendor starts with a byte
    order mark: the ledger, and the value under each subtotal of the
    entry of the vendor after the substitution of the quotes. *)
Definition ledger_no_bom (total_data : option string) (vendor_id : Z) : Prop :=
  (forall text, total_data = Some text -> no_bom text)
  /\ (forall d data key text,
        json_loads Json.SimpleJson total_data = Ok (Json.JDict d) ->
        dict_get (Text.str_int vendor_id) d = Some (Json.JDict data) ->
        In (key, Json.JStr text) data ->
        no_bom (Text.replace "'" Json.dquote text)).

(** ** Sample data of the examples on the cart views *)

(** Two tacos and a burrito in the cart of Alice, a burrito in the cart
    of Bob. *)
Definition three_lines : list Cart.t :=
  [Cart.mk 1 1 10 2 0; Cart.mk 2 2 11 1 3; Cart.mk 3 1 11 1 5].

Definition busy_shop : Store := mk_store (shop three_lines [CGST; SGST]) 3.

(** The same lines in another order. *)
Definition shuffled_lines : list Cart.t :=
  [Cart.mk 3 1 11 1 5; Cart.mk 2 2 11 1 3; Cart.mk 1 1 10 2 0].

(** A line with the largest quantity of its column. *)
Definition full_shop : Store :=
  mk_store (shop [Cart.mk 1 1 10 2147483647 0] [CGST; SGST]) 1.

Definition taco : FoodItem.t := FoodItem.mk 10 1 "Taco" (cents 5000) true.

(** Alice with a profile and two tacos in her cart. *)
Definition alice_at_home : Database :=
  mk_database [alice; bob]
    [UserProfile.mk 1 (Some 1) (Some "1 Main Street") (Some "Spain") None
       (Some "Madrid") (Some "28001") None]
    [] menu two_tacos [CGST; SGST] [].

Definition noon : Datetime.t := Datetime.mk 2024 3 7 12 0 0.

(** A search with a keyword and no coordinates. *)
Definition by_keyword : Request.t :=
  Request.mk None
    [("address", "Main Street"); ("lat", ""); ("lng", "");
     ("radius", ""); ("keyword", "taco")]
    [].

(** * Part II: the properties *)

(** ** The error monad and the loops *)

Lemma bind_Ok_inv {A B : Type} (c : result A) (k : A -> result B) (b : B) :
  bind c k = Ok b -> exists a, c = Ok a /\ k a = Ok b.
Proof.
  destruct c as [a | e]; simpl; intros H; [eauto | discriminate].
Qed.

Lemma for_each_app {A S : Type} (body : S -> A -> result S) (l1 l2 : list A) (s : S) :
  for_each body (l1 ++ l2) s = bind (for_each body l1 s) (for_each body l2).
Proof.
  revert s. induction l1 as [| x l1 IH]; intros s; simpl; [reflexivity |].
  destruct (body s x) as [s' | e]; simpl; [apply IH | reflexivity].
Qed.

(** ** ROUND_HALF_EVEN *)

Module RoundFacts.
Import Decimal.

Lemma rhe_exact (k d : Z) : 0 < d -> round_half_even (k * d) d = k.
Proof.
  intros Hd. unfold round_half_even.
  rewrite Z.div_mul, Z.mod_mul by lia.
  assert (E : (2 * 0 ?= d) = Lt) by (apply Z.compare_lt_iff; lia).
  rewrite E. reflexivity.
Qed.

Lemma rhe_zero (d : Z) : 0 < d -> round_half_even 0 d = 0.
Proof. intros Hd. change 0 with (0 * d) at 1. now apply rhe_exact. Qed.

Lemma rhe_scale (n d m : Z) :
  0 < d -> 0 < m -> round_half_even (n * m) (d * m) = round_half_even n d.
Proof.
  intros Hd Hm. unfold round_half_even.
  rewrite Z.div_mul_cancel_r by lia.
  rewrite Zmult_mod_distr_r.
  replace (2 * (n mod d * m)) with (2 * (n mod d) * m) by ring.
  rewrite <- (Zmult_compare_compat_r (2 * (n mod d)) d m) by lia.
  reflexivity.
Qed.

(** The rounded quotient is nearest, and even on a tie. *)
Lemma rhe_nearest (n d : Z) :
  0 < d ->
  let q := round_half_even n d in
  2 * Z.abs (q * d - n) <= d /\ (2 * Z.abs (q * d - n) = d -> Z.even q = true).
Proof.
  intros Hd q. subst q. unfold round_half_even.
  pose proof (Z.div_mod n d ltac:(lia)) as Hdm.
  pose proof (Z.mod_pos_bound n d Hd) as Hb.
  generalize dependent (n mod d). generalize dependent (n / d).
  intros q r Hdm Hb.
  assert (H0 : q * d - n = - r) by (rewrite Hdm; ring).
  assert (H1 : (q + 1) * d - n = d - r) by (rewrite Hdm; ring).
  destruct (Z.compare_spec (2 * r) d) as [E | E | E].
  - destruct (Z.even q) eqn:Ev.
    + rewrite H0. split; [lia | intros _; exact Ev].
    + rewrite H1. split; [lia |]. intros _.
      rewrite Z.even_add, Ev. reflexivity.
  - rewrite H0. split; [lia | intros; exfalso; lia].
  - rewrite H1. split; [lia | intros; exfalso; lia].
Qed.

Lemma rhe_cross (n1 d1 n2 d2 : Z) :
  0 < d1 -> 0 < d2 -> n1 * d2 = n2 * d1 ->
  round_half_even n1 d1 = round_half_even n2 d2.
Proof.
  intros H1 H2 H.
  rewrite <- (rhe_scale n1 d1 d2), <- (rhe_scale n2 d2 d1) by lia.
  rewrite H. f_equal. ring.
Qed.

End RoundFacts.

(** ** Decimal arithmetic inside the context precision *)

Module DecimalFacts.
Import Decimal RoundFacts.

Lemma fix_small (x : t) : Z.abs (coef x) < 10 ^ prec -> fix_ x = x.
Proof.
  intros H. unfold fix_.
  destruct (Z.ltb_spec (Z.abs (coef x)) (10 ^ prec)); [reflexivity | lia].
Qed.

Lemma ndigits_aux_le (fuel : nat) : forall n k,
  0 <= n < 10 ^ k -> 1 <= k -> ndigits_aux fuel n <= k.
Proof.
  induction fuel as [| f IH]; intros n k Hn Hk; cbn [ndigits_aux]; [lia |].
  destruct (Z.ltb_spec n 10) as [Hlt | Hge]; [lia |].
  assert (2 <= k).
  { destruct (Z.eq_dec k 1) as [-> | ]; [simpl in Hn; lia | lia]. }
  assert (n / 10 < 10 ^ (k - 1)).
  { apply Z.div_lt_upper_bound; [lia |].
    rewrite <- Z.pow_succ_r by lia. replace (Z.succ (k - 1)) with k by lia. lia. }
  assert (0 <= n / 10) by (apply Z.div_pos; lia).
  assert (ndigits_aux f (n / 10) <= k - 1) by (apply IH; lia).
  lia.
Qed.

Lemma ndigits_aux_pos (fuel : nat) (n : Z) : 1 <= ndigits_aux (S fuel) n.
Proof.
  cbn [ndigits_aux]. destruct (n <? 10); [lia |].
  assert (0 <= ndigits_aux fuel (n / 10)); [| lia].
  generalize (n / 10).
  induction fuel as [| f IH]; intros m; cbn [ndigits_aux]; [lia |].
  destruct (m <? 10); [lia | specialize (IH (m / 10)); lia].
Qed.

Lemma ndigits_bounds (c k : Z) :
  Z.abs c < 10 ^ k -> 1 <= k -> 1 <= ndigits c <= k.
Proof.
  intros Hc Hk. unfold ndigits. split.
  - apply ndigits_aux_pos.
  - apply ndigits_aux_le; lia.
Qed.

(** What the loop of [truediv] leaves: [j] zeros dropped, and a last
    digit that is no zero unless the fuel ran out. *)
Lemma strip_zeros_spec (fuel : nat) : forall c e c' e',
  strip_zeros fuel c e = (c', e') ->
  exists j, 0 <= j <= Z.of_nat fuel /\ c = c' * 10 ^ j /\ e' = e + j
            /\ (j < Z.of_nat fuel -> c' mod 10 <> 0).
Proof.
  induction fuel as [| f IH]; intros c e c' e' H; simpl in H.
  - inversion H; subst. exists 0. repeat split; try lia.
  - destruct (Z.eqb_spec (c mod 10) 0) as [Hz | Hnz].
    + apply IH in H. destruct H as (j & Hj & Hc & He & Hlast).
      assert (Hc10 : c = c' * 10 ^ (j + 1)).
      { rewrite Z.pow_add_r by lia.
        pose proof (Z.div_mod c 10 ltac:(lia)) as Hdm.
        rewrite Hz in Hdm. rewrite Hc in Hdm. lia. }
      exists (j + 1). repeat split; lia.
    + inversion H; subst. exists 0. repeat split; try lia.
Qed.

Lemma pow10_pos (k : Z) : 0 <= k -> 0 < 10 ^ k.
Proof. intros. apply Z.pow_pos_nonneg; lia. Qed.

(** [x / 100] is exact for a coefficient inside the precision: the
    quotient keeps the value, at an exponent at most 2 below. *)
Lemma truediv_100 (x : t) :
  Z.abs (coef x) < 10 ^ prec ->
  exists c' k, 0 <= k <= 2 /\ coef x = c' * 10 ^ k
    /\ truediv x (of_int 100) = Ok (mk c' (exp x - 2 + k)).
Proof.
  intros Hx. unfold truediv, of_int. cbn [coef exp].
  change (100 =? 0) with false. cbv iota.
  destruct (Z.eqb_spec (coef x) 0) as [Hz | Hnz].
  - exists 0, 2. repeat split; try lia.
    rewrite fix_small by (cbn [coef]; unfold prec; lia).
    do 2 f_equal. lia.
  - change (ndigits 100) with 3. change (Z.sgn 100) with 1. change (Z.abs 100) with 100.
    pose proof (ndigits_bounds (coef x) prec Hx ltac:(unfold prec; lia)) as Hnd.
    unfold prec in *.
    set (shift := 3 - ndigits (coef x) + 28 + 1) in *.
    assert (Hshift : 4 <= shift <= 31) by (unfold shift; lia).
    destruct (Z.leb_spec 0 shift) as [_ | ?]; [| lia].
    assert (Hpow : 10 ^ shift = 10 ^ (shift - 2) * 100).
    { replace shift with ((shift - 2) + 2) at 1 by lia.
      rewrite Z.pow_add_r by lia. reflexivity. }
    pose proof (Z.div_eucl_eq (Z.abs (coef x) * 10 ^ shift) 100 ltac:(lia)) as Heq.
    pose proof (Z.mod_pos_bound (Z.abs (coef x) * 10 ^ shift) 100 ltac:(lia)) as Hmod.
    unfold Z.modulo in Hmod.
    destruct (Z.div_eucl (Z.abs (coef x) * 10 ^ shift) 100) as [q r].
    assert (Hq : q = Z.abs (coef x) * 10 ^ (shift - 2) /\ r = 0).
    { rewrite Hpow in Heq. nia. }
    destruct Hq as [Hq ->]. cbn [Z.eqb].
    replace (exp x - 0 - (exp x - 0 - shift)) with shift by lia.
    destruct (strip_zeros (Z.to_nat shift) q (exp x - 0 - shift)) as [c1 e1] eqn:Hs.
    apply strip_zeros_spec in Hs.
    destruct Hs as (j & Hj & Hc & He & Hlast).
    rewrite Z2Nat.id in Hj, Hlast by lia.
    assert (Hjlow : shift - 2 <= j).
    { destruct (Z_lt_le_dec j (shift - 2)) as [Hlt | ]; [| lia].
      exfalso. apply Hlast; [lia |].
      assert (c1 = Z.abs (coef x) * 10 ^ (shift - 2 - j - 1) * 10).
      { apply (Z.mul_cancel_r _ _ (10 ^ j)); [pose proof (pow10_pos j); lia |].
        rewrite <- Hc, Hq.
        replace (shift - 2) with ((shift - 2 - j - 1) + 1 + j) at 1 by lia.
        rewrite !Z.pow_add_r by lia. ring. }
      rewrite H. apply Z.mod_mul. lia. }
    assert (Hc1 : Z.abs (coef x) = c1 * 10 ^ (j - (shift - 2))).
    { apply (Z.mul_cancel_r _ _ (10 ^ (shift - 2)));
        [pose proof (pow10_pos (shift - 2)); lia |].
      rewrite <- Hq, Hc.
      replace j with ((j - (shift - 2)) + (shift - 2)) at 1 by lia.
      rewrite Z.pow_add_r by lia. ring. }
    exists (Z.sgn (coef x) * 1 * c1), (j - (shift - 2)).
    assert (Hp : 0 < 10 ^ (j - (shift - 2))) by (apply pow10_pos; lia).
    assert (Hc1pos : 0 < c1) by nia.
    assert (Hle : c1 <= Z.abs (coef x)) by nia.
    assert (Hsgn : Z.sgn (coef x) = 1 /\ Z.abs (coef x) = coef x
                   \/ Z.sgn (coef x) = -1 /\ Z.abs (coef x) = - coef x).
    { destruct (Z.sgn_spec (coef x)) as [[? ->] | [[? ?] | [? ->]]]; lia. }
    split; [lia |]. split.
    + destruct Hsgn as [[-> Ha] | [-> Ha]]; rewrite Ha in Hc1; lia.
    + rewrite fix_small.
      * do 2 f_equal. lia.
      * cbn [coef]. unfold prec. destruct Hsgn as [[-> Ha] | [-> Ha]]; lia.
Qed.

Lemma quantize_cents (x : t) :
  quantize x (-2) =
  if Z.abs (at_cents (coef x) (exp x)) <? 10 ^ prec
  then Ok (mk (at_cents (coef x) (exp x)) (-2))
  else Raise InvalidOperation.
Proof.
  unfold quantize, at_cents.
  replace (exp x - -2) with (exp x + 2) by lia.
  replace (-2 - exp x) with (- 2 - exp x) by lia.
  reflexivity.
Qed.

Lemma at_cents_scale (c e j : Z) :
  0 <= j -> at_cents (c * 10 ^ j) (e - j) = at_cents c e.
Proof.
  intros Hj. unfold at_cents.
  destruct (Z.leb_spec (-2) (e - j)) as [H1 | H1];
    destruct (Z.leb_spec (-2) e) as [H2 | H2]; try lia.
  - rewrite <- Z.mul_assoc, <- Z.pow_add_r by lia. do 2 f_equal. lia.
  - replace (10 ^ j) with (10 ^ (e + 2) * 10 ^ (- 2 - (e - j))).
    + rewrite Z.mul_assoc. apply rhe_exact. apply pow10_pos. lia.
    + rewrite <- Z.pow_add_r by lia. f_equal. lia.
  - replace (10 ^ (- 2 - (e - j))) with (10 ^ (- 2 - e) * 10 ^ j).
    + apply rhe_scale; apply pow10_pos; lia.
    + rewrite <- Z.pow_add_r by lia. f_equal. lia.
Qed.

End DecimalFacts.

(** ** dict *)

Module DictFacts.

Section Dict.
Context {V : Type}.
Implicit Types (d : dict V) (k : string) (v : V).

Lemma dict_get_set_same k v d : dict_get k (dict_set k v d) = Some v.
Proof.
  induction d as [| [k' v'] d IH]; simpl.
  - now rewrite String.eqb_refl.
  - destruct (String.eqb k k') eqn:E; simpl; rewrite ?String.eqb_refl, ?E; auto.
Qed.

Lemma dict_get_set_other k k' v d :
  k <> k' -> dict_get k (dict_set k' v d) = dict_get k d.
Proof.
  intros Hne. induction d as [| [k0 v0] d IH]; simpl.
  - destruct (String.eqb_spec k k'); [contradiction | reflexivity].
  - destruct (String.eqb_spec k' k0) as [-> | Hk0]; simpl.
    + destruct (String.eqb_spec k k0); [contradiction | reflexivity].
    + destruct (String.eqb k k0); auto.
Qed.

Lemma dict_keys_set k k' v d :
  In k (dict_keys (dict_set k' v d)) <-> k = k' \/ In k (dict_keys d).
Proof.
  unfold dict_keys. induction d as [| [k0 v0] d IH]; simpl.
  - intuition.
  - destruct (String.eqb_spec k' k0) as [-> | Hk0]; simpl.
    + intuition.
    + rewrite IH. intuition.
Qed.

Lemma dict_set_NoDup k v d :
  NoDup (dict_keys d) -> NoDup (dict_keys (dict_set k v d)).
Proof.
  unfold dict_keys. induction d as [| [k0 v0] d IH]; simpl; intros Hnd.
  - constructor; [intros [] | constructor].
  - inversion Hnd as [| ? ? Hnotin Hnd']; subst.
    destruct (String.eqb_spec k k0) as [-> | Hk0]; simpl.
    + constructor; assumption.
    + constructor; [| auto].
      intros Hin. apply (dict_keys_set k0 k v d) in Hin.
      destruct Hin as [-> | Hin]; [congruence | contradiction].
Qed.

Lemma dict_get_None k d : dict_get k d = None <-> ~ In k (dict_keys d).
Proof.
  unfold dict_keys. induction d as [| [k0 v0] d IH]; simpl.
  - intuition.
  - destruct (String.eqb_spec k k0) as [-> | Hne].
    + split; [discriminate | intros H; exfalso; apply H; now left].
    + rewrite IH. intuition congruence.
Qed.

Lemma dict_get_In k v d : dict_get k d = Some v -> In (k, v) d.
Proof.
  induction d as [| [k0 v0] d IH]; simpl; [discriminate |].
  destruct (String.eqb_spec k k0) as [-> | Hne].
  - intros [= ->]. now left.
  - intros H. right. auto.
Qed.

Lemma In_dict_get k v d : NoDup (dict_keys d) -> In (k, v) d -> dict_get k d = Some v.
Proof.
  unfold dict_keys. induction d as [| [k0 v0] d IH]; simpl; [intros _ [] |].
  intros Hnd [Heq | Hin].
  - inversion Heq; subst. now rewrite String.eqb_refl.
  - inversion Hnd as [| ? ? Hnotin Hnd']; subst.
    destruct (String.eqb_spec k k0) as [-> | Hne]; [| auto].
    exfalso. apply Hnotin. apply (in_map fst) in Hin. exact Hin.
Qed.

(** Merging a dict whose keys are distinct into the empty dict gives it
    back. *)
Lemma dict_update_fresh d d' :
  NoDup (dict_keys (d ++ d')) ->
  dict_update d d' = d ++ d'.
Proof.
  unfold dict_update. revert d.
  induction d' as [| [k v] d' IH]; intros d Hnd; simpl.
  - now rewrite app_nil_r.
  - assert (Hset : dict_set k v d = d ++ [(k, v)]).
    { assert (Hk : ~ In k (dict_keys d)).
      { unfold dict_keys in *. rewrite map_app in Hnd. simpl in Hnd.
        apply NoDup_remove_2 in Hnd. intros Hin. apply Hnd.
        apply in_or_app. now left. }
      clear -Hk. induction d as [| [k0 v0] d IHd]; simpl; [reflexivity |].
      destruct (String.eqb_spec k k0) as [-> | Hne].
      - exfalso. apply Hk. now left.
      - f_equal. apply IHd. intros Hin. apply Hk. now right. }
    rewrite Hset. rewrite IH.
    + now rewrite <- app_assoc.
    + now rewrite <- app_assoc.
Qed.

Lemma dict_update_empty d : NoDup (dict_keys d) -> dict_update [] d = d.
Proof. intros H. now apply (dict_update_fresh []). Qed.

Lemma agree_off_refl k d : agree_off k d d.
Proof. induction d; constructor; auto. Qed.

Lemma agree_off_keys k d d' : agree_off k d d' -> dict_keys d = dict_keys d'.
Proof.
  unfold dict_keys. induction 1 as [| e e' d d' [He _] _ IH]; simpl; congruence.
Qed.

Lemma agree_off_set k k' v d d' :
  agree_off k d d' -> agree_off k (dict_set k' v d) (dict_set k' v d').
Proof.
  induction 1 as [| [k0 v0] [k1 v1] d d' [He Hv] Hrest IH]; simpl in *.
  - constructor; [split; auto | constructor].
  - subst k1. destruct (String.eqb k' k0).
    + constructor; [split; auto | assumption].
    + constructor; [split; auto | assumption].
Qed.

Lemma agree_off_set_same k v v' d :
  agree_off k (dict_set k v d) (dict_set k v' d).
Proof.
  induction d as [| [k0 v0] d IH]; simpl.
  - constructor; [split; [reflexivity | simpl; congruence] | constructor].
  - destruct (String.eqb_spec k k0) as [-> | Hne].
    + constructor; [split; [reflexivity | simpl; congruence] | apply agree_off_refl].
    + constructor; [split; auto | assumption].
Qed.

Lemma agree_off_fresh k d d' :
  agree_off k d d' -> ~ In k (dict_keys d) -> d = d'.
Proof.
  unfold dict_keys.
  induction 1 as [| [k0 v0] [k1 v1] d d' [He Hv] Hrest IH]; simpl in *;
    [reflexivity |].
  intros Hk. subst k1. f_equal.
  - f_equal. apply Hv. intros ->. apply Hk. now left.
  - apply IH. intros Hin. apply Hk. now right.
Qed.

(** Writing [k] makes two such dicts equal. *)
Lemma agree_off_overwrite k v d d' :
  agree_off k d d' -> NoDup (dict_keys d) -> dict_set k v d = dict_set k v d'.
Proof.
  unfold dict_keys.
  induction 1 as [| [k0 v0] [k1 v1] d d' [He Hv] Hrest IH]; simpl in *;
    [reflexivity |].
  intros Hnd. inversion Hnd as [| ? ? Hnotin Hnd']; subst.
  destruct (String.eqb_spec k k1) as [-> | Hne].
  - f_equal. eapply agree_off_fresh; eauto.
  - f_equal; [f_equal; apply Hv; congruence | auto].
Qed.

End Dict.

End DictFacts.

(** ** The tax breakdown of the cart aggregator *)

Module BreakdownFacts.
Import DictFacts.

(** The entry [add_tax] writes for a rule. *)
Lemma add_tax_Ok (subtotal : num) (d d' : dict (dict Decimal.t)) (i : Tax.t) :
  add_tax subtotal d i = Ok d' ->
  exists a, tax_amount (Tax.tax_percentage i) subtotal = Ok a
    /\ d' = dict_set (Tax.tax_type i)
              [(Decimal.to_str (Tax.tax_percentage i), a)] d.
Proof.
  unfold add_tax. intros H. apply bind_Ok_inv in H.
  destruct H as (a & Ha & H). exists a. split; [exact Ha |].
  now inversion H.
Qed.

Lemma breakdown_NoDup (subtotal : num) (rules : list Tax.t) :
  forall d0 d, for_each (add_tax subtotal) rules d0 = Ok d ->
  NoDup (dict_keys d0) -> NoDup (dict_keys d).
Proof.
  induction rules as [| i rules IH]; intros d0 d H Hnd; simpl in H.
  - now inversion H; subst.
  - apply bind_Ok_inv in H. destruct H as (d1 & H1 & H).
    apply add_tax_Ok in H1. destruct H1 as (a & _ & ->).
    eapply IH; [exact H |]. now apply dict_set_NoDup.
Qed.

Lemma breakdown_keys (subtotal : num) (rules : list Tax.t) :
  forall d0 d, for_each (add_tax subtotal) rules d0 = Ok d ->
  forall ty, In ty (dict_keys d) <->
             In ty (dict_keys d0) \/ exists i, In i rules /\ Tax.tax_type i = ty.
Proof.
  induction rules as [| i rules IH]; intros d0 d H ty; simpl in H.
  - inversion H; subst. split; [auto | intros [? | (? & [] & _)]; auto].
  - apply bind_Ok_inv in H. destruct H as (d1 & H1 & H).
    apply add_tax_Ok in H1. destruct H1 as (a & _ & ->).
    rewrite (IH _ _ H ty), dict_keys_set. split.
    + intros [[-> | Hin] | (j & Hj & Hty)]; eauto.
      * right. exists i. split; [now left | reflexivity].
      * right. exists j. split; [now right | assumption].
    + intros [Hin | (j & [-> | Hj] & Hty)]; eauto.
Qed.

(** A type no rule of the list has keeps its entry. *)
Lemma breakdown_get_other (subtotal : num) (rules : list Tax.t) (ty : string) :
  forall d0 d, for_each (add_tax subtotal) rules d0 = Ok d ->
  (forall i, In i rules -> Tax.tax_type i <> ty) ->
  dict_get ty d = dict_get ty d0.
Proof.
  induction rules as [| i rules IH]; intros d0 d H Hty; simpl in H.
  - now inversion H.
  - apply bind_Ok_inv in H. destruct H as (d1 & H1 & H).
    apply add_tax_Ok in H1. destruct H1 as (a & _ & ->).
    rewrite (IH _ _ H) by (intros j Hj; apply Hty; now right).
    apply dict_get_set_other. intros ->. apply (Hty i); [now left | reflexivity].
Qed.

(** Last write wins: the entry of a type is the one of the last rule
    that has it. *)
Lemma breakdown_get_last (subtotal : num) (before after : list Tax.t) (i : Tax.t) :
  forall d0 d,
  for_each (add_tax subtotal) (before ++ i :: after) d0 = Ok d ->
  (forall j, In j after -> Tax.tax_type j <> Tax.tax_type i) ->
  exists a, tax_amount (Tax.tax_percentage i) subtotal = Ok a
    /\ dict_get (Tax.tax_type i) d
       = Some [(Decimal.to_str (Tax.tax_percentage i), a)].
Proof.
  intros d0 d H Hafter. rewrite for_each_app in H.
  apply bind_Ok_inv in H. destruct H as (d1 & _ & H). simpl in H.
  apply bind_Ok_inv in H. destruct H as (d2 & H2 & H).
  apply add_tax_Ok in H2. destruct H2 as (a & Ha & ->).
  exists a. split; [exact Ha |].
  rewrite (breakdown_get_other _ _ _ _ _ H Hafter).
  apply dict_get_set_same.
Qed.

(** Every entry holds one percentage and one amount, those of a rule. *)
Lemma breakdown_entries (subtotal : num) (rules : list Tax.t) :
  forall d0 d, for_each (add_tax subtotal) rules d0 = Ok d ->
  forall ty entry, In (ty, entry) d ->
  In (ty, entry) d0
  \/ exists i a, In i rules /\ Tax.tax_type i = ty
       /\ tax_amount (Tax.tax_percentage i) subtotal = Ok a
       /\ entry = [(Decimal.to_str (Tax.tax_percentage i), a)].
Proof.
  induction rules as [| i rules IH]; intros d0 d H ty entry Hin; simpl in H.
  - inversion H; subst. now left.
  - apply bind_Ok_inv in H. destruct H as (d1 & H1 & H).
    apply add_tax_Ok in H1. destruct H1 as (a & Ha & ->).
    destruct (IH _ _ H ty entry Hin) as [Hin1 | (j & b & Hj & Hty & Hb & He)].
    + assert (Hcase : In (ty, entry) d0
                      \/ (ty, entry) = (Tax.tax_type i,
                             [(Decimal.to_str (Tax.tax_percentage i), a)])).
      { clear -Hin1. induction d0 as [| [k0 v0] d0 IHd]; simpl in *.
        - destruct Hin1 as [<- | []]. now right.
        - destruct (String.eqb (Tax.tax_type i) k0); simpl in Hin1.
          + destruct Hin1 as [<- | Hin1]; [now right | left; now right].
          + destruct Hin1 as [<- | Hin1]; [left; now left |].
            destruct (IHd Hin1) as [? | ?]; [left; now right | now right]. }
      destruct Hcase as [? | Heq]; [now left |].
      inversion Heq; subst. right. exists i, a. repeat split; auto. now left.
    + right. exists j, b. repeat split; auto. now right.
Qed.

(** An earlier rule of a type that a later rule has again leaves nothing
    in the breakdown: any other percentage in its place gives the same
    dict. *)
Lemma breakdown_overwritten (subtotal : num) (a a' b : Tax.t)
    (between after : list Tax.t) :
  Tax.tax_type a = Tax.tax_type b -> Tax.tax_type a' = Tax.tax_type b ->
  forall d0 d d',
  NoDup (dict_keys d0) ->
  for_each (add_tax subtotal) (a :: between ++ b :: after) d0 = Ok d ->
  for_each (add_tax subtotal) (a' :: between ++ b :: after) d0 = Ok d' ->
  d = d'.
Proof.
  intros Ha Ha' d0 d d' Hnd H H'. simpl in H, H'.
  apply bind_Ok_inv in H. destruct H as (d1 & H1 & H).
  apply bind_Ok_inv in H'. destruct H' as (d1' & H1' & H').
  apply add_tax_Ok in H1. destruct H1 as (x & _ & ->).
  apply add_tax_Ok in H1'. destruct H1' as (x' & _ & ->).
  rewrite Ha in H. rewrite Ha' in H'.
  assert (Hagree : agree_off (Tax.tax_type b)
            (dict_set (Tax.tax_type b) [(Decimal.to_str (Tax.tax_percentage a), x)] d0)
            (dict_set (Tax.tax_type b) [(Decimal.to_str (Tax.tax_percentage a'), x')] d0))
    by apply agree_off_set_same.
  assert (Hnd1 : NoDup (dict_keys
            (dict_set (Tax.tax_type b) [(Decimal.to_str (Tax.tax_percentage a), x)] d0)))
    by now apply dict_set_NoDup.
  revert Hagree Hnd1 H H'.
  generalize (dict_set (Tax.tax_type b) [(Decimal.to_str (Tax.tax_percentage a), x)] d0).
  generalize (dict_set (Tax.tax_type b) [(Decimal.to_str (Tax.tax_percentage a'), x')] d0).
  clear Hnd x x' d0 Ha Ha'.
  induction between as [| j between IH]; intros e' e Hagree Hnd H H'; simpl in H, H'.
  - apply bind_Ok_inv in H. destruct H as (e1 & H1 & H).
    apply bind_Ok_inv in H'. destruct H' as (e1' & H1' & H').
    apply add_tax_Ok in H1. destruct H1 as (y & Hy & ->).
    apply add_tax_Ok in H1'. destruct H1' as (y' & Hy' & ->).
    rewrite Hy in Hy'. inversion Hy'; subst y'.
    rewrite (agree_off_overwrite _ _ _ _ Hagree Hnd) in H.
    rewrite H in H'. now inversion H'.
  - apply bind_Ok_inv in H. destruct H as (e1 & H1 & H).
    apply bind_Ok_inv in H'. destruct H' as (e1' & H1' & H').
    apply add_tax_Ok in H1. destruct H1 as (y & Hy & ->).
    apply add_tax_Ok in H1'. destruct H1' as (y' & Hy' & ->).
    rewrite Hy in Hy'. inversion Hy'; subst y'.
    eapply IH; [| | exact H | exact H'].
    + now apply agree_off_set.
    + now apply dict_set_NoDup.
Qed.

End BreakdownFacts.

(** ** The cart aggregator *)

Module CartFacts.
Import DictFacts BreakdownFacts DecimalFacts RoundFacts.

(** The four steps of [get_cart_amounts] for a logged-in user. *)
Lemma get_cart_amounts_Ok (request : Request.t) (db : Database) (user : User.t)
    (r : CartAmounts.t) :
  Request.user request = Some user ->
  get_cart_amounts request db = Ok r ->
  for_each (add_cart_item db)
    (filter (fun item => Cart.user item =? User.id user) (carts db)) (PyInt 0)
    = Ok (CartAmounts.subtotal r)
  /\ for_each (add_tax (CartAmounts.subtotal r))
       (filter Tax.is_active (taxes db)) [] = Ok (CartAmounts.tax_dict r)
  /\ sum_tax (CartAmounts.tax_dict r) = Ok (CartAmounts.tax r)
  /\ py_add (CartAmounts.subtotal r) (CartAmounts.tax r)
     = Ok (CartAmounts.grand_total r).
Proof.
  intros Hu H. unfold get_cart_amounts in H. rewrite Hu in H.
  apply bind_Ok_inv in H. destruct H as (s & Hs & H).
  apply bind_Ok_inv in H. destruct H as (d & Hd & H).
  apply bind_Ok_inv in H. destruct H as (t & Ht & H).
  apply bind_Ok_inv in H. destruct H as (g & Hg & H).
  inversion H; subst; simpl. auto.
Qed.

Lemma for_each_ext {A S : Type} (f g : S -> A -> result S) (l : list A) :
  (forall s x, f s x = g s x) -> forall s, for_each f l s = for_each g l s.
Proof.
  intros Hfg. induction l as [| x l IH]; intros s; simpl; [reflexivity |].
  rewrite Hfg. destruct (g s x); simpl; auto.
Qed.

Lemma tax_amount_zero (pct : Decimal.t) :
  tax_amount pct (PyInt 0) = Ok (Decimal.mk 0 (-2)).
Proof.
  unfold tax_amount, decimal_mul, Decimal.mul, Decimal.of_int.
  cbn [Decimal.coef Decimal.exp bind]. rewrite Z.mul_0_r.
  rewrite fix_small by (cbn [Decimal.coef]; unfold Decimal.prec; lia).
  unfold Decimal.truediv. cbn [Decimal.coef Decimal.exp].
  change (100 =? 0) with false. change (0 =? 0) with true. cbv iota.
  rewrite fix_small by (cbn [Decimal.coef]; unfold Decimal.prec; lia).
  cbn [bind]. unfold Decimal.round, Decimal.quantize. cbn [Decimal.coef Decimal.exp].
  set (e := Decimal.exp pct + 0 - 0).
  assert (Hc : (if - (2) <=? e then 0 * 10 ^ (e - - (2))
                else Decimal.round_half_even 0 (10 ^ (- (2) - e))) = 0).
  { destruct (Z.leb_spec (- (2)) e); [lia |].
    apply rhe_zero. apply pow10_pos. lia. }
  rewrite Hc. reflexivity.
Qed.

Lemma zero_breakdown (rules : list Tax.t) :
  forall d0, exists d, for_each (add_tax (PyInt 0)) rules d0 = Ok d.
Proof.
  induction rules as [| i rules IH]; intros d0; simpl; [eauto |].
  unfold add_tax at 1. rewrite tax_amount_zero. cbn [bind]. apply IH.
Qed.

Lemma sum_zeros (amounts : list Decimal.t) :
  Forall (fun a => a = Decimal.mk 0 (-2)) amounts ->
  forall acc, is_zero acc ->
  exists t, for_each (fun acc x => py_add acc (PyDecimal x)) amounts acc = Ok t
            /\ is_zero t.
Proof.
  induction 1 as [| a amounts Ha _ IH]; intros acc Hacc; simpl; [eauto |].
  subst a. destruct Hacc as [-> | ->]; cbn [py_add bind]; apply IH; now right.
Qed.

(** C3 (as amended): for an empty sequence of cart lines the cart
    aggregator returns subtotal 0, tax 0 and grand total 0; its
    breakdown has one entry for each type of an active tax rule, with
    the amount 0.00, and is empty only when no rule is active (or
    nobody is logged in). *)
Theorem empty_cart_amounts (request : Request.t) (db : Database) :
  (forall user, Request.user request = Some user ->
     filter (fun item => Cart.user item =? User.id user) (carts db) = []) ->
  exists r, get_cart_amounts request db = Ok r
    /\ CartAmounts.subtotal r = PyInt 0
    /\ is_zero (CartAmounts.tax r)
    /\ is_zero (CartAmounts.grand_total r)
    /\ (forall ty, In ty (dict_keys (CartAmounts.tax_dict r)) <->
          Request.user request <> None
          /\ exists i, In i (taxes db) /\ Tax.is_active i = true
                       /\ Tax.tax_type i = ty)
    /\ (forall ty entry, In (ty, entry) (CartAmounts.tax_dict r) ->
          exists i, In i (taxes db) /\ Tax.is_active i = true
            /\ Tax.tax_type i = ty
            /\ entry = [(Decimal.to_str (Tax.tax_percentage i),
                         Decimal.mk 0 (-2))]).
Proof.
  intros Hempty. unfold get_cart_amounts.
  destruct (Request.user request) as [user |] eqn:Hu.
  - rewrite (Hempty user eq_refl). cbn [for_each bind].
    destruct (zero_breakdown (filter Tax.is_active (taxes db)) []) as (d & Hd).
    rewrite Hd. cbn [bind].
    assert (Hentries : forall ty entry, In (ty, entry) d ->
              exists i, In i (taxes db) /\ Tax.is_active i = true
                /\ Tax.tax_type i = ty
                /\ entry = [(Decimal.to_str (Tax.tax_percentage i),
                             Decimal.mk 0 (-2))]).
    { intros ty entry Hin.
      destruct (breakdown_entries _ _ _ _ Hd ty entry Hin)
        as [[] | (i & a & Hi & Hty & Ha & He)].
      apply filter_In in Hi. destruct Hi as [Hi Hact].
      rewrite tax_amount_zero in Ha. inversion Ha; subst a.
      exists i. auto. }
    assert (Hsum : exists t, sum_tax d = Ok t /\ is_zero t).
    { apply sum_zeros; [| now left].
      apply Forall_forall. intros a Ha.
      apply in_concat in Ha. destruct Ha as (vs & Hvs & Ha).
      apply in_map_iff in Hvs. destruct Hvs as (entry & <- & Hentry).
      unfold dict_values in Hentry. apply in_map_iff in Hentry.
      destruct Hentry as ([ty entry'] & <- & Hin).
      destruct (Hentries ty entry' Hin) as (i & _ & _ & _ & ->).
      simpl in Ha. destruct Ha as [<- | []]. reflexivity. }
    destruct Hsum as (t & Ht & Hz). rewrite Ht. cbn [bind].
    assert (Hg : py_add (PyInt 0) t = Ok t).
    { destruct Hz as [-> | ->]; reflexivity. }
    rewrite Hg. cbn [bind]. eexists. split; [reflexivity |].
    cbn [CartAmounts.subtotal CartAmounts.tax CartAmounts.grand_total
         CartAmounts.tax_dict].
    split; [reflexivity |]. split; [exact Hz |]. split; [exact Hz |]. split.
    + intros ty. rewrite (breakdown_keys _ _ _ _ Hd ty). split.
      * intros [[] | (i & Hi & Hty)]. apply filter_In in Hi. destruct Hi.
        split; [congruence | eauto].
      * intros (_ & i & Hi & Hact & Hty). right. exists i.
        split; [apply filter_In; auto | assumption].
    + exact Hentries.
  - eexists. split; [reflexivity |].
    cbn [CartAmounts.subtotal CartAmounts.tax CartAmounts.grand_total
         CartAmounts.tax_dict].
    split; [reflexivity |]. split; [now left |]. split; [now left |]. split.
    + intros ty. split; [intros [] | intros (Hn & _); congruence].
    + intros ty entry [].
Qed.

(** C7: when two active tax rules share a type, the breakdown keeps the
    entry of the later one only.  With a rule [a] before a rule [b] of
    the same type (and no rule of that type after [b]), the entry of the
    type holds the percentage and the amount of [b]; the type has one
    entry; and [a] contributes nothing: with any rule [a'] of the type
    in the place of [a] the aggregator returns the same totals. *)
Theorem breakdown_last_write_wins (request : Request.t) (user : User.t)
    (db db' : Database) (before between after : list Tax.t) (a a' b : Tax.t)
    (r r' : CartAmounts.t) :
  Request.user request = Some user ->
  carts db' = carts db -> fooditems db' = fooditems db ->
  filter Tax.is_active (taxes db) = before ++ a :: between ++ b :: after ->
  filter Tax.is_active (taxes db') = before ++ a' :: between ++ b :: after ->
  Tax.tax_type a = Tax.tax_type b ->
  Tax.tax_type a' = Tax.tax_type b ->
  (forall j, In j after -> Tax.tax_type j <> Tax.tax_type b) ->
  get_cart_amounts request db = Ok r ->
  get_cart_amounts request db' = Ok r' ->
  (exists amount,
      tax_amount (Tax.tax_percentage b) (CartAmounts.subtotal r) = Ok amount
      /\ dict_get (Tax.tax_type b) (CartAmounts.tax_dict r)
         = Some [(Decimal.to_str (Tax.tax_percentage b), amount)])
  /\ NoDup (dict_keys (CartAmounts.tax_dict r))
  /\ r' = r.
Proof.
  intros Hu Hcarts Hfood Hrules Hrules' Hab Ha'b Hafter H H'.
  destruct (get_cart_amounts_Ok _ _ _ _ Hu H) as (Hs & Hd & Ht & Hg).
  destruct (get_cart_amounts_Ok _ _ _ _ Hu H') as (Hs' & Hd' & Ht' & Hg').
  rewrite Hcarts in Hs'.
  rewrite (for_each_ext (add_cart_item db') (add_cart_item db)) in Hs'
    by (intros; unfold add_cart_item; now rewrite Hfood).
  rewrite Hs in Hs'. inversion Hs' as [Hsub].
  rewrite Hrules in Hd. rewrite Hrules', <- Hsub in Hd'.
  split; [| split].
  - replace (before ++ a :: between ++ b :: after)
      with ((before ++ a :: between) ++ b :: after) in Hd
      by (rewrite <- app_assoc; reflexivity).
    exact (breakdown_get_last _ _ _ _ _ _ Hd Hafter).
  - eapply breakdown_NoDup; [exact Hd | constructor].
  - rewrite for_each_app in Hd, Hd'.
    apply bind_Ok_inv in Hd. destruct Hd as (d1 & Hd1 & Hd).
    apply bind_Ok_inv in Hd'. destruct Hd' as (d1' & Hd1' & Hd').
    rewrite Hd1 in Hd1'. inversion Hd1'; subst d1'.
    assert (Hdict : CartAmounts.tax_dict r = CartAmounts.tax_dict r').
    { eapply (breakdown_overwritten _ a a' b); try eassumption.
      eapply breakdown_NoDup; [exact Hd1 | constructor]. }
    rewrite <- Hdict in Ht'. rewrite Ht in Ht'. inversion Ht' as [Htax].
    rewrite <- Hsub, <- Htax in Hg'. rewrite Hg in Hg'. inversion Hg' as [Hgrand].
    destruct r, r'; simpl in *; congruence.
Qed.

End CartFacts.

(** ** Exact values *)

Module ValueFacts.
Import Decimal RoundFacts DecimalFacts.

Lemma pow10_Q_nonneg (e : Z) : 0 <= e -> ((10 # 1) ^ e == inject_Z (10 ^ e))%Q.
Proof.
  intros He. change (10 # 1)%Q with (inject_Z 10).
  symmetry. now apply Zpower_Qpower.
Qed.

Lemma pow10_Q_neg (e : Z) :
  e < 0 -> ((10 # 1) ^ e == 1 # Z.to_pos (10 ^ (- e)))%Q.
Proof.
  intros He. destruct e as [| p | p]; try lia.
  change (- Z.neg p) with (Z.pos p).
  change ((10 # 1) ^ Z.neg p)%Q with (/ ((10 # 1) ^ Z.pos p))%Q.
  rewrite pow10_Q_nonneg by lia.
  pose proof (pow10_pos (Z.pos p) ltac:(lia)) as Hpos.
  destruct (10 ^ Z.pos p) as [| n | n]; try lia.
  reflexivity.
Qed.

Lemma value_cents (c : Z) : (value (mk c (-2)) == c # 100)%Q.
Proof.
  unfold value. cbn [coef exp]. rewrite pow10_Q_neg by lia.
  change (Z.to_pos (10 ^ (- -2))) with 100%positive.
  unfold Qeq, Qmult, inject_Z. cbn [Qnum Qden]. lia.
Qed.

Lemma value_int (n : Z) : (value (of_int n) == inject_Z n)%Q.
Proof.
  unfold value, of_int. cbn [coef exp].
  change ((10 # 1) ^ 0)%Q with 1%Q. ring.
Qed.

(** The value of a product of Decimals that needs no rounding. *)
Lemma value_product (x y : t) :
  (value x * value y
   == inject_Z (coef x * coef y) * (10 # 1) ^ (exp x + exp y))%Q.
Proof.
  unfold value. rewrite Qpower_plus by discriminate.
  rewrite inject_Z_mult. ring.
Qed.

Lemma Qround_proper (x y : Q) :
  (x == y)%Q -> Qround_half_even x = Qround_half_even y.
Proof.
  unfold Qeq, Qround_half_even. intros H.
  apply rhe_cross; [reflexivity | reflexivity | exact H].
Qed.

Lemma Qround_int (n : Z) : Qround_half_even (inject_Z n) = n.
Proof.
  unfold Qround_half_even, inject_Z. cbn [Qnum Qden].
  rewrite <- (Z.mul_1_r n) at 1. apply rhe_exact. lia.
Qed.

(** Rounding the exact value [c * 10 ^ e], in units of [10 ^ -2]. *)
Lemma Qround_at_cents (c e : Z) :
  Qround_half_even (inject_Z c * (10 # 1) ^ e * 100) = at_cents c e.
Proof.
  unfold at_cents. destruct (Z.leb_spec (-2) e) as [He | He].
  - rewrite <- Qround_int. apply Qround_proper.
    rewrite inject_Z_mult, <- pow10_Q_nonneg by lia.
    rewrite Qpower_plus by discriminate.
    change ((10 # 1) ^ 2)%Q with 100%Q. ring.
  - assert (Hx : (inject_Z c * (10 # 1) ^ e * 100
                  == c # Z.to_pos (10 ^ (- 2 - e)))%Q).
    { replace e with ((e + 2) + -2) at 1 by lia.
      rewrite Qpower_plus by discriminate.
      change ((10 # 1) ^ (-2))%Q with (1 # 100)%Q.
      rewrite pow10_Q_neg by lia.
      replace (- (e + 2)) with (- 2 - e) by lia.
      unfold Qeq, Qmult, inject_Z. cbn [Qnum Qden]. lia. }
    rewrite (Qround_proper _ _ Hx).
    unfold Qround_half_even. cbn [Qnum Qden].
    rewrite Z2Pos.id by (apply pow10_pos; lia). reflexivity.
Qed.

End ValueFacts.

(** ** Amounts of the cart aggregator *)

Module AmountFacts.
Import Decimal RoundFacts DecimalFacts ValueFacts DictFacts BreakdownFacts CartFacts.

Lemma num_decimal_value (x : num) (d : Decimal.t) :
  num_decimal x = Some d ->
  exists s, num_value x = Some s /\ (s == value d)%Q.
Proof.
  destruct x as [n | e | f]; simpl; intros H; inversion H; subst.
  - eexists. split; [reflexivity |]. symmetry. apply value_int.
  - eexists. split; reflexivity.
Qed.

(** [round((pct * subtotal) / 100, 2)] computed on coefficients, when
    the product needs no rounding. *)
Lemma tax_amount_cents (pct : Decimal.t) (sub : num) (d : Decimal.t) :
  num_decimal sub = Some d ->
  Z.abs (coef pct * coef d) < 10 ^ prec ->
  tax_amount pct sub =
  if Z.abs (at_cents (coef pct * coef d) (exp pct + exp d - 2)) <? 10 ^ prec
  then Ok (mk (at_cents (coef pct * coef d) (exp pct + exp d - 2)) (-2))
  else Raise InvalidOperation.
Proof.
  intros Hd HP. unfold tax_amount.
  assert (Hmul : decimal_mul pct sub = Ok (mul pct d)).
  { destruct sub; simpl in Hd; inversion Hd; reflexivity. }
  rewrite Hmul. cbn [bind]. unfold mul. rewrite fix_small by exact HP.
  destruct (truediv_100 (mk (coef pct * coef d) (exp pct + exp d)) HP)
    as (c' & k & Hk & Hc & Hdiv).
  rewrite Hdiv. cbn [bind]. unfold round. change (- (2)) with (-2).
  rewrite quantize_cents. cbn [coef exp] in *.
  assert (Heq : at_cents (c' * 10 ^ k) (exp pct + exp d - 2)
                = at_cents c' (exp pct + exp d - 2 + k)).
  { replace (exp pct + exp d - 2) with ((exp pct + exp d - 2 + k) - k) at 1 by lia.
    apply at_cents_scale. lia. }
  rewrite Hc, Heq. reflexivity.
Qed.

(** The amount is the tax rounded to two places, half-even. *)
Lemma tax_amount_value (pct : Decimal.t) (sub : num) (d a : Decimal.t) (s : Q) :
  num_decimal sub = Some d -> num_value sub = Some s ->
  Z.abs (coef pct * coef d) < 10 ^ prec ->
  tax_amount pct sub = Ok a ->
  (value a == round2 (value pct * s / 100))%Q.
Proof.
  intros Hd Hs HP Ha.
  rewrite (tax_amount_cents pct sub d Hd HP) in Ha.
  destruct (Z.abs _ <? 10 ^ prec); [| discriminate].
  inversion Ha; subst a. rewrite value_cents.
  destruct (num_decimal_value _ _ Hd) as (s' & Hs' & Hsd).
  rewrite Hs in Hs'. inversion Hs'; subst s'.
  unfold round2.
  assert (Hq : Qround_half_even (value pct * s / 100 * 100)
               = at_cents (coef pct * coef d) (exp pct + exp d - 2)).
  { rewrite <- Qround_at_cents. apply Qround_proper.
    rewrite Hsd.
    setoid_replace (value pct * value d / 100 * 100)%Q
      with (value pct * value d)%Q by field.
    rewrite value_product.
    replace (exp pct + exp d) with ((exp pct + exp d - 2) + 2) at 1 by lia.
    rewrite Qpower_plus by discriminate.
    change ((10 # 1) ^ 2)%Q with 100%Q. ring. }
  rewrite Hq. reflexivity.
Qed.

Lemma at_cents_zero (e : Z) : at_cents 0 e = 0.
Proof.
  unfold at_cents. destruct (-2 <=? e); [lia |].
  destruct (Z_le_gt_dec 0 (- 2 - e)).
  - apply rhe_zero. now apply pow10_pos.
  - destruct (- 2 - e) eqn:E; try lia. reflexivity.
Qed.

Lemma add_cents (x y : t) :
  exp x = -2 -> exp y = -2 -> Z.abs (coef x + coef y) < 10 ^ prec ->
  add x y = mk (coef x + coef y) (-2).
Proof.
  intros Hx Hy H. unfold add. rewrite Hx, Hy.
  change (Z.min (-2) (-2)) with (-2). change (-2 - -2) with 0.
  change (10 ^ 0) with 1. rewrite !Z.mul_1_r.
  now apply fix_small.
Qed.

Lemma add_int0_l (y : t) :
  exp y = -2 -> Z.abs (coef y) < 10 ^ prec ->
  add (of_int 0) y = mk (coef y) (-2).
Proof.
  intros Hy H. unfold add, of_int. cbn [coef exp]. rewrite Hy.
  change (Z.min 0 (-2)) with (-2). change (-2 - -2) with 0.
  change (10 ^ 0) with 1. rewrite Z.mul_0_l, Z.mul_1_r, Z.add_0_l.
  now apply fix_small.
Qed.

Lemma add_int0_r (x : t) :
  exp x = -2 -> Z.abs (coef x) < 10 ^ prec ->
  add x (of_int 0) = mk (coef x) (-2).
Proof.
  intros Hx H. unfold add, of_int. cbn [coef exp]. rewrite Hx.
  change (Z.min (-2) 0) with (-2). change (-2 - -2) with 0.
  change (10 ^ 0) with 1. rewrite Z.mul_0_l, Z.mul_1_r, Z.add_0_r.
  now apply fix_small.
Qed.

(** Adding two amounts of money is exact inside the precision. *)
Lemma py_add_money (M M' : Z) (x y : num) :
  0 <= M -> 0 <= M' ->
  money_le M x -> money_le M' y -> M + M' < 10 ^ prec ->
  exists z, py_add x y = Ok z /\ money_le (M + M') z
            /\ money_cents z = money_cents x + money_cents y.
Proof.
  intros HM HM' [-> | (c & -> & Hc)] [-> | (c' & -> & Hc')] Hlt;
    cbn [py_add money_cents coef].
  - exists (PyInt 0). repeat split. now left.
  - rewrite add_int0_l by (cbn [coef exp]; lia). cbn [coef].
    eexists. split; [reflexivity |].
    split; [right; exists c'; split; [reflexivity | lia] | reflexivity].
  - rewrite add_int0_r by (cbn [coef exp]; lia). cbn [coef].
    eexists. split; [reflexivity |].
    split; [right; exists c; split; [reflexivity | lia] |].
    cbn [money_cents coef]. lia.
  - rewrite add_cents by (cbn [coef exp]; lia). cbn [coef].
    eexists. split; [reflexivity |].
    split; [right; exists (c + c'); split; [reflexivity | lia] | reflexivity].
Qed.

Lemma money_value (M : Z) (x : num) :
  money_le M x -> exists s, num_value x = Some s /\ (s == money_cents x # 100)%Q.
Proof.
  intros [-> | (c & -> & _)]; cbn [num_value money_cents coef].
  - eexists. split; reflexivity.
  - eexists. split; [reflexivity |]. apply value_cents.
Qed.

Lemma objects_get_In {A : Type} (p : A -> bool) (table : list A) (x : A) :
  objects_get p table = Ok x -> In x table /\ p x = true.
Proof.
  unfold objects_get. destruct (filter p table) as [| y [| z rest]] eqn:E;
    try discriminate.
  intros [= ->]. apply filter_In. rewrite E. now left.
Qed.

Lemma line_bound_value : line_bound = 21474836470000000000.
Proof. reflexivity. Qed.

(** The subtotal of at most [n] lines. *)
Lemma subtotal_money (user : User.t) (db : Database) :
  cart_in_range user db ->
  forall items acc s M,
  (forall item, In item items -> In item (carts db)) ->
  money_le M acc -> 0 <= M ->
  M + Z.of_nat (List.length items) * line_bound < 10 ^ prec ->
  for_each (add_cart_item db) items acc = Ok s ->
  money_le (M + Z.of_nat (List.length items) * line_bound) s.
Proof.
  intros Hrange. induction items as [| item items IH];
    intros acc s M Hsub Hacc HM Hlt H.
  - cbn [for_each] in H. inversion H; subst.
    cbn [List.length Z.of_nat]. rewrite Z.mul_0_l, Z.add_0_r. exact Hacc.
  - cbn [for_each] in H. apply bind_Ok_inv in H. destruct H as (acc' & Hstep & H).
    unfold add_cart_item in Hstep. apply bind_Ok_inv in Hstep.
    destruct Hstep as (f & Hf & Hadd).
    apply objects_get_In in Hf. destruct Hf as [Hf _].
    destruct (prices_in_range _ _ Hrange f Hf) as [He Hp].
    pose proof (quantities_in_range _ _ Hrange item (Hsub item (or_introl eq_refl))) as Hq.
    cbn [List.length] in Hlt |- *. rewrite Nat2Z.inj_succ in Hlt |- *.
    assert (Hline : Z.abs (coef (FoodItem.price f) * Cart.quantity item) <= line_bound).
    { rewrite Z.abs_mul. unfold line_bound.
      rewrite (Z.abs_eq (Cart.quantity item)) by lia.
      apply Z.mul_le_mono_nonneg; lia. }
    pose proof line_bound_value as HB.
    assert (Hlen : 0 <= Z.of_nat (List.length items)) by lia.
    unfold prec in *.
    unfold mul, of_int in Hadd. cbn [coef exp] in Hadd.
    rewrite fix_small in Hadd by (cbn [coef]; unfold prec; nia).
    rewrite He in Hadd. change (- (2) + 0) with (-2) in Hadd.
    destruct (py_add_money M line_bound acc
                (PyDecimal (mk (coef (FoodItem.price f) * Cart.quantity item) (-2))))
      as (z & Hz & Hmz & _);
      [exact HM | lia | exact Hacc | right; eauto | unfold prec; nia |].
    rewrite Hz in Hadd. inversion Hadd; subst z.
    replace (M + Z.succ (Z.of_nat (List.length items)) * line_bound)
      with ((M + line_bound) + Z.of_nat (List.length items) * line_bound) by ring.
    eapply IH; [| exact Hmz | nia | unfold prec; nia | exact H].
    intros i Hi. apply Hsub. now right.
Qed.

(** The sum of amounts of money. *)
Lemma sum_money (B : Z) (amounts : list Decimal.t) :
  0 <= B ->
  Forall (fun a => exp a = -2 /\ Z.abs (coef a) <= B) amounts ->
  forall acc M t,
  money_le M acc -> 0 <= M ->
  M + Z.of_nat (List.length amounts) * B < 10 ^ prec ->
  for_each (fun acc x => py_add acc (PyDecimal x)) amounts acc = Ok t ->
  money_le (M + Z.of_nat (List.length amounts) * B) t
  /\ money_cents t = money_cents acc + Zsum (map coef amounts).
Proof.
  intros HB. induction 1 as [| a amounts [Hea Hca] _ IH];
    intros acc M t Hacc HM Hlt H.
  - cbn [for_each] in H. inversion H; subst.
    cbn [List.length Z.of_nat map Zsum]. rewrite Z.mul_0_l, !Z.add_0_r. auto.
  - cbn [for_each] in H. apply bind_Ok_inv in H. destruct H as (acc' & Hstep & H).
    cbn [List.length] in Hlt |- *. rewrite Nat2Z.inj_succ in Hlt |- *.
    assert (Hlen : 0 <= Z.of_nat (List.length amounts)) by lia.
    destruct (py_add_money M B acc (PyDecimal a)) as (z & Hz & Hmz & Hcz);
      [exact HM | exact HB | exact Hacc
       | right; exists (coef a); split;
         [destruct a; cbn [coef exp] in *; congruence | lia]
       | nia |].
    rewrite Hz in Hstep. inversion Hstep; subst z.
    replace (M + Z.succ (Z.of_nat (List.length amounts)) * B)
      with ((M + B) + Z.of_nat (List.length amounts) * B) by ring.
    destruct (IH acc' (M + B) t Hmz ltac:(lia) ltac:(nia) H) as [Hm Hc].
    split; [exact Hm |]. rewrite Hc, Hcz. cbn [map Zsum money_cents]. ring.
Qed.

End AmountFacts.

(** ** The totals of a cart inside the field ranges *)

Module TotalsFacts.
Import Decimal RoundFacts DecimalFacts ValueFacts DictFacts BreakdownFacts
       CartFacts AmountFacts.

(** The amount of a rule is at most the subtotal, in absolute value. *)
Lemma amount_bound (pct : Decimal.t) (sub : num) (M : Z) (a : Decimal.t) :
  decimal_field 4 2 pct -> money_le M sub -> 0 <= M ->
  10 ^ 4 * M < 10 ^ prec ->
  tax_amount pct sub = Ok a ->
  exp a = -2 /\ Z.abs (coef a) <= M.
Proof.
  intros [He Hp] Hsub HM Hlt Ha. change (- (2)) with (-2) in He.
  change (10 ^ 4) with 10000 in *.
  destruct Hsub as [-> | (c & -> & Hc)].
  - rewrite (tax_amount_cents pct (PyInt 0) (of_int 0) eq_refl) in Ha
      by (unfold of_int; cbn [coef]; rewrite Z.mul_0_r; unfold prec; lia).
    unfold of_int in Ha. cbn [coef exp] in Ha.
    rewrite Z.mul_0_r, at_cents_zero in Ha.
    change (Z.abs 0 <? 10 ^ prec) with true in Ha.
    inversion Ha; subst a. cbn [coef exp]. split; [reflexivity | lia].
  - assert (HP : Z.abs (coef pct * c) < 10 ^ prec).
    { rewrite Z.abs_mul. unfold prec in *. nia. }
    rewrite (tax_amount_cents pct (PyDecimal (mk c (-2))) (mk c (-2)) eq_refl) in Ha
      by (cbn [coef]; exact HP).
    cbn [coef exp] in Ha. rewrite He in Ha.
    change (-2 + -2 - 2) with (-6) in Ha.
    unfold at_cents in Ha. change (-2 <=? -6) with false in Ha. cbv iota in Ha.
    change (10 ^ (- 2 - -6)) with 10000 in Ha.
    pose proof (rhe_nearest (coef pct * c) 10000 ltac:(lia)) as [Hn _].
    set (q := round_half_even (coef pct * c) 10000) in *.
    assert (Hq : Z.abs q <= Z.abs c).
    { rewrite Z.abs_mul in HP.
      assert (Z.abs (coef pct * c) <= 9999 * Z.abs c)
        by (rewrite Z.abs_mul; nia).
      lia. }
    destruct (Z.ltb_spec (Z.abs q) (10 ^ prec)) as [_ | Hge];
      [| unfold prec in *; lia].
    inversion Ha; subst a. cbn [coef exp]. split; [reflexivity | lia].
Qed.

Lemma dict_set_length {V : Type} (k : string) (v : V) (d : dict V) :
  (List.length (dict_set k v d) <= S (List.length d))%nat.
Proof.
  induction d as [| [k0 v0] d IH]; simpl; [lia |].
  destruct (String.eqb k k0); simpl; lia.
Qed.

Lemma breakdown_length (subtotal : num) (rules : list Tax.t) :
  forall d0 d, for_each (add_tax subtotal) rules d0 = Ok d ->
  (List.length d <= List.length d0 + List.length rules)%nat.
Proof.
  induction rules as [| i rules IH]; intros d0 d H; simpl in H.
  - inversion H; subst. lia.
  - apply bind_Ok_inv in H. destruct H as (d1 & H1 & H).
    apply add_tax_Ok in H1. destruct H1 as (a & _ & ->).
    apply IH in H.
    pose proof (dict_set_length (Tax.tax_type i)
                  [(to_str (Tax.tax_percentage i), a)] d0) as Hset.
    unfold dict in *. simpl. lia.
Qed.

(** A breakdown whose entries hold one amount each has as many amounts
    as entries, each the amount of an entry. *)
Lemma singleton_amounts (d : dict (dict Decimal.t)) (P : Decimal.t -> Prop) :
  (forall ty entry, In (ty, entry) d -> exists k a, entry = [(k, a)] /\ P a) ->
  List.length (breakdown_amounts d) = List.length d
  /\ Forall P (breakdown_amounts d).
Proof.
  unfold breakdown_amounts, dict_values.
  induction d as [| [ty entry] d IH]; intros H; simpl; [split; [reflexivity | constructor] |].
  destruct (H ty entry (or_introl eq_refl)) as (k & a & -> & Ha).
  destruct IH as [IHl IHf]; [intros ty' e' Hin; apply (H ty' e'); now right |].
  simpl. split; [now rewrite IHl | constructor; assumption].
Qed.


(** What the cart aggregator computes for a logged-in user inside the
    field ranges: amounts of money, added without rounding. *)
Lemma totals_in_range (request : Request.t) (user : User.t) (db : Database)
    (r : CartAmounts.t) :
  Request.user request = Some user ->
  cart_in_range user db ->
  get_cart_amounts request db = Ok r ->
  money_le (10000 * line_bound) (CartAmounts.subtotal r)
  /\ Forall (fun a => exp a = -2) (breakdown_amounts (CartAmounts.tax_dict r))
  /\ money_cents (CartAmounts.tax r)
     = Zsum (map coef (breakdown_amounts (CartAmounts.tax_dict r)))
  /\ (exists M, money_le M (CartAmounts.tax r))
  /\ (exists M, money_le M (CartAmounts.grand_total r))
  /\ money_cents (CartAmounts.grand_total r)
     = money_cents (CartAmounts.subtotal r) + money_cents (CartAmounts.tax r).
Proof.
  intros Hu Hrange H.
  destruct (get_cart_amounts_Ok _ _ _ _ Hu H) as (Hs & Hd & Ht & Hg).
  pose proof line_bound_value as HB.
  pose proof (lines_in_range _ _ Hrange) as Hlines.
  pose proof (rules_in_range _ _ Hrange) as Hrules.
  set (items := filter (fun item => Cart.user item =? User.id user) (carts db)) in *.
  set (rules := filter Tax.is_active (taxes db)) in *.
  assert (Hsub0 : money_le (0 + Z.of_nat (List.length items) * line_bound)
                    (CartAmounts.subtotal r)).
  { eapply (subtotal_money user db Hrange items (PyInt 0)).
    - intros item Hin. unfold items in Hin. apply filter_In in Hin. tauto.
    - now left.
    - lia.
    - unfold prec. lia.
    - exact Hs. }
  assert (Hsub : money_le (10000 * line_bound) (CartAmounts.subtotal r)).
  { destruct Hsub0 as [-> | (c & -> & Hc)]; [now left |].
    right. exists c. split; [reflexivity | lia]. }
  assert (Hentries : forall ty entry, In (ty, entry) (CartAmounts.tax_dict r) ->
            exists k a, entry = [(k, a)]
              /\ (exp a = -2 /\ Z.abs (coef a) <= 10000 * line_bound)).
  { intros ty entry Hin.
    destruct (breakdown_entries _ _ _ _ Hd ty entry Hin)
      as [[] | (i & a & Hi & _ & Ha & ->)].
    exists (to_str (Tax.tax_percentage i)), a. split; [reflexivity |].
    unfold rules in Hi. apply filter_In in Hi. destruct Hi as [Hi _].
    eapply amount_bound; [| exact Hsub | lia | unfold prec; lia | exact Ha].
    exact (percentages_in_range _ _ Hrange i Hi). }
  destruct (singleton_amounts _ _ Hentries) as [Hlen Hall].
  pose proof (breakdown_length _ _ _ _ Hd) as Hdl. simpl in Hdl.
  unfold sum_tax in Ht. fold (breakdown_amounts (CartAmounts.tax_dict r)) in Ht.
  destruct (sum_money (10000 * line_bound) _ ltac:(lia) Hall (PyInt 0) 0
              (CartAmounts.tax r) ltac:(now left) ltac:(lia)
              ltac:(unfold prec; lia) Ht) as [Htm Htc].
  cbn [money_cents] in Htc. rewrite Z.add_0_l in Htc.
  set (n := Z.of_nat (List.length (breakdown_amounts (CartAmounts.tax_dict r)))) in *.
  assert (Hn : 0 <= n <= 10000) by lia.
  destruct (py_add_money (10000 * line_bound) (0 + n * (10000 * line_bound))
              (CartAmounts.subtotal r) (CartAmounts.tax r)
              ltac:(lia) ltac:(lia) Hsub Htm ltac:(unfold prec; lia))
    as (g & Hg' & Hgm & Hgc).
  rewrite Hg in Hg'. inversion Hg'; subst g.
  repeat split; eauto.
  eapply Forall_impl; [| exact Hall]. intros a [Ha _]. exact Ha.
Qed.

End TotalsFacts.

(** ** The cart aggregator returns *)

Module ReturnFacts.
Import Decimal RoundFacts DecimalFacts DictFacts BreakdownFacts CartFacts
       AmountFacts TotalsFacts.

Lemma subtotal_returns (user : User.t) (db : Database) :
  cart_in_range user db ->
  forall items acc M,
  (forall item, In item items ->
     In item (carts db)
     /\ exists f, objects_get (fun f => FoodItem.id f =? Cart.fooditem item)
                    (fooditems db) = Ok f) ->
  money_le M acc -> 0 <= M ->
  M + Z.of_nat (List.length items) * line_bound < 10 ^ prec ->
  exists s, for_each (add_cart_item db) items acc = Ok s.
Proof.
  intros Hrange. induction items as [| item items IH];
    intros acc M Hsub Hacc HM Hlt.
  - eexists. reflexivity.
  - destruct (Hsub item (or_introl eq_refl)) as (Hin & f & Hf).
    cbn [for_each]. unfold add_cart_item at 1. rewrite Hf. cbn [bind].
    apply objects_get_In in Hf. destruct Hf as [Hf _].
    destruct (prices_in_range _ _ Hrange f Hf) as [He Hp].
    pose proof (quantities_in_range _ _ Hrange item Hin) as Hq.
    cbn [List.length] in Hlt. rewrite Nat2Z.inj_succ in Hlt.
    assert (Hline : Z.abs (coef (FoodItem.price f) * Cart.quantity item)
                    <= line_bound).
    { rewrite Z.abs_mul. unfold line_bound.
      rewrite (Z.abs_eq (Cart.quantity item)) by lia.
      apply Z.mul_le_mono_nonneg; lia. }
    pose proof line_bound_value as HB.
    assert (Hlen : 0 <= Z.of_nat (List.length items)) by lia.
    unfold prec in *.
    unfold mul, of_int. cbn [coef exp].
    rewrite fix_small by (cbn [coef]; unfold prec; nia).
    rewrite He. change (- (2) + 0) with (-2).
    destruct (py_add_money M line_bound acc
                (PyDecimal (mk (coef (FoodItem.price f) * Cart.quantity item) (-2))))
      as (z & Hz & Hmz & _);
      [exact HM | lia | exact Hacc | right; eauto | unfold prec; nia |].
    rewrite Hz. cbn [bind].
    apply (IH z (M + line_bound)); [| exact Hmz | nia | unfold prec; nia].
    intros i Hi. apply Hsub. now right.
Qed.

Lemma tax_amount_returns (pct : Decimal.t) (sub : num) (M : Z) :
  decimal_field 4 2 pct -> money_le M sub -> 0 <= M ->
  10 ^ 4 * M < 10 ^ prec ->
  exists a, tax_amount pct sub = Ok a.
Proof.
  intros [He Hp] Hsub HM Hlt. change (- (2)) with (-2) in He.
  change (10 ^ 4) with 10000 in *.
  destruct Hsub as [-> | (c & -> & Hc)].
  - rewrite tax_amount_zero. eauto.
  - assert (HP : Z.abs (coef pct * c) < 10 ^ prec).
    { rewrite Z.abs_mul. unfold prec in *. nia. }
    rewrite (tax_amount_cents pct (PyDecimal (mk c (-2))) (mk c (-2)) eq_refl)
      by (cbn [coef]; exact HP).
    cbn [coef exp]. rewrite He.
    change (-2 + -2 - 2) with (-6).
    unfold at_cents. change (-2 <=? -6) with false. cbv iota.
    change (10 ^ (- 2 - -6)) with 10000.
    pose proof (rhe_nearest (coef pct * c) 10000 ltac:(lia)) as [Hn _].
    set (q := round_half_even (coef pct * c) 10000) in *.
    assert (Hq : Z.abs q <= Z.abs c).
    { rewrite Z.abs_mul in HP.
      assert (Z.abs (coef pct * c) <= 9999 * Z.abs c)
        by (rewrite Z.abs_mul; nia).
      lia. }
    destruct (Z.ltb_spec (Z.abs q) (10 ^ prec)) as [_ | Hge];
      [eauto | unfold prec in *; lia].
Qed.

Lemma breakdown_returns (sub : num) (M : Z) (rules : list Tax.t) :
  (forall i, In i rules -> decimal_field 4 2 (Tax.tax_percentage i)) ->
  money_le M sub -> 0 <= M -> 10 ^ 4 * M < 10 ^ prec ->
  forall d0, exists d, for_each (add_tax sub) rules d0 = Ok d.
Proof.
  intros Hrules Hsub HM Hlt. induction rules as [| i rules IH]; intros d0.
  - eexists. reflexivity.
  - cbn [for_each]. unfold add_tax at 1.
    destruct (tax_amount_returns (Tax.tax_percentage i) sub M
                (Hrules i (or_introl eq_refl)) Hsub HM Hlt) as (a & Ha).
    rewrite Ha. cbn [bind]. apply IH. intros j Hj. apply Hrules. now right.
Qed.

Lemma sum_returns (B : Z) (amounts : list Decimal.t) :
  0 <= B ->
  Forall (fun a => exp a = -2 /\ Z.abs (coef a) <= B) amounts ->
  forall acc M,
  money_le M acc -> 0 <= M ->
  M + Z.of_nat (List.length amounts) * B < 10 ^ prec ->
  exists t, for_each (fun acc x => py_add acc (PyDecimal x)) amounts acc = Ok t.
Proof.
  intros HB. induction 1 as [| a amounts [Hea Hca] _ IH]; intros acc M Hacc HM Hlt.
  - eexists. reflexivity.
  - cbn [for_each].
    cbn [List.length] in Hlt. rewrite Nat2Z.inj_succ in Hlt.
    assert (Hlen : 0 <= Z.of_nat (List.length amounts)) by lia.
    destruct (py_add_money M B acc (PyDecimal a)) as (z & Hz & Hmz & Hcz);
      [exact HM | exact HB | exact Hacc
       | right; exists (coef a); split;
         [destruct a; cbn [coef exp] in *; congruence | lia]
       | nia |].
    rewrite Hz. cbn [bind]. apply (IH z (M + B)); [exact Hmz | lia | nia].
Qed.

(** Inside the field ranges, with every cart line on one food item, the
    cart aggregator raises no exception. *)
Lemma get_cart_amounts_returns (request : Request.t) (db : Database) :
  (forall user, Request.user request = Some user ->
     cart_in_range user db /\ lines_resolve user db) ->
  exists r, get_cart_amounts request db = Ok r.
Proof.
  intros H. unfold get_cart_amounts.
  destruct (Request.user request) as [user |]; [| eauto].
  destruct (H user eq_refl) as (Hrange & Hlines).
  pose proof line_bound_value as HB.
  pose proof (lines_in_range _ _ Hrange) as Hn.
  pose proof (rules_in_range _ _ Hrange) as Hrules.
  set (items := filter (fun item => Cart.user item =? User.id user) (carts db)) in *.
  set (rules := filter Tax.is_active (taxes db)) in *.
  assert (Hitems : forall item, In item items -> In item (carts db)).
  { intros item Hin. unfold items in Hin. apply filter_In in Hin. tauto. }
  destruct (subtotal_returns user db Hrange items (PyInt 0) 0) as (s & Hs).
  { intros item Hin. split; [now apply Hitems |].
    apply Hlines; [now apply Hitems |].
    unfold items in Hin. apply filter_In in Hin. destruct Hin as [_ Hu].
    now apply Z.eqb_eq in Hu. }
  { now left. }
  { lia. }
  { unfold prec. lia. }
  rewrite Hs. cbn [bind].
  assert (Hsub0 : money_le (0 + Z.of_nat (List.length items) * line_bound) s).
  { eapply (subtotal_money user db Hrange items (PyInt 0));
      [exact Hitems | now left | lia | unfold prec; lia | exact Hs]. }
  assert (Hsub : money_le (10000 * line_bound) s).
  { destruct Hsub0 as [-> | (c & -> & Hc)]; [now left |].
    right. exists c. split; [reflexivity | lia]. }
  assert (Hpct : forall i, In i rules -> decimal_field 4 2 (Tax.tax_percentage i)).
  { intros i Hi. unfold rules in Hi. apply filter_In in Hi.
    exact (percentages_in_range _ _ Hrange i (proj1 Hi)). }
  destruct (breakdown_returns s (10000 * line_bound) rules Hpct Hsub
              ltac:(lia) ltac:(unfold prec; lia) []) as (d & Hd).
  rewrite Hd. cbn [bind].
  assert (Hentries : forall ty entry, In (ty, entry) d ->
            exists k a, entry = [(k, a)]
              /\ (exp a = -2 /\ Z.abs (coef a) <= 10000 * line_bound)).
  { intros ty entry Hin.
    destruct (breakdown_entries _ _ _ _ Hd ty entry Hin)
      as [[] | (i & a & Hi & _ & Ha & ->)].
    exists (to_str (Tax.tax_percentage i)), a. split; [reflexivity |].
    eapply amount_bound; [| exact Hsub | lia | unfold prec; lia | exact Ha].
    exact (Hpct i Hi). }
  destruct (singleton_amounts _ _ Hentries) as [Hlen Hall].
  pose proof (breakdown_length _ _ _ _ Hd) as Hdl. simpl in Hdl.
  unfold sum_tax. fold (breakdown_amounts d).
  assert (Hcount : Z.of_nat (List.length (breakdown_amounts d)) <= 10000).
  { unfold dict in *. lia. }
  destruct (sum_returns (10000 * line_bound) _ ltac:(lia) Hall (PyInt 0) 0
              ltac:(now left) ltac:(lia) ltac:(unfold prec; lia)) as (t & Ht).
  rewrite Ht. cbn [bind].
  destruct (sum_money (10000 * line_bound) _ ltac:(lia) Hall (PyInt 0) 0
              t ltac:(now left) ltac:(lia) ltac:(unfold prec; lia) Ht)
    as [Htm _].
  set (n := Z.of_nat (List.length (breakdown_amounts d))) in *.
  assert (Hn' : 0 <= n <= 10000) by lia.
  destruct (py_add_money (10000 * line_bound) (0 + n * (10000 * line_bound))
              s t ltac:(lia) ltac:(lia) Hsub Htm ltac:(unfold prec; lia))
    as (g & Hg & _).
  rewrite Hg. cbn [bind]. eauto.
Qed.

End ReturnFacts.

(** ** The amount of a tax rule *)

Module RoundingClaim.
Import Decimal RoundFacts DecimalFacts ValueFacts DictFacts BreakdownFacts
       CartFacts AmountFacts TotalsFacts.

Lemma NoDup_map_split {A B : Type} (f : A -> B) (l : list A) (i : A) :
  NoDup (map f l) -> In i l ->
  exists before after, l = before ++ i :: after
    /\ forall j, In j after -> f j <> f i.
Proof.
  intros Hnd Hin. destruct (in_split _ _ Hin) as (l1 & l2 & ->).
  exists l1, l2. split; [reflexivity |].
  intros j Hj Heq. rewrite map_app in Hnd. simpl in Hnd.
  apply NoDup_remove_2 in Hnd. apply Hnd.
  apply in_or_app. right. rewrite <- Heq. now apply in_map.
Qed.

(** The amount of an active rule in a result of the cart aggregator. *)
Lemma breakdown_amount_of_result (request : Request.t) (user : User.t)
    (db : Database) (r : CartAmounts.t) (i : Tax.t) :
  Request.user request = Some user ->
  cart_in_range user db ->
  NoDup (map Tax.tax_type (filter Tax.is_active (taxes db))) ->
  get_cart_amounts request db = Ok r ->
  In i (taxes db) -> Tax.is_active i = true ->
  exists amount subtotal,
    dict_get (Tax.tax_type i) (CartAmounts.tax_dict r)
      = Some [(Decimal.to_str (Tax.tax_percentage i), amount)]
    /\ num_value (CartAmounts.subtotal r) = Some subtotal
    /\ (Decimal.value amount
        == round2 (Decimal.value (Tax.tax_percentage i) * subtotal / 100))%Q.
Proof.
  intros Hu Hrange Hnd H Hi Hact.
  destruct (get_cart_amounts_Ok _ _ _ _ Hu H) as (_ & Hd & _ & _).
  destruct (totals_in_range _ _ _ _ Hu Hrange H) as (Hsub & _).
  assert (Hin : In i (filter Tax.is_active (taxes db)))
    by (apply filter_In; auto).
  destruct (NoDup_map_split _ _ _ Hnd Hin) as (before & after & Hsplit & Hafter).
  rewrite Hsplit in Hd.
  destruct (breakdown_get_last _ _ _ _ _ _ Hd Hafter) as (a & Ha & Hget).
  destruct (money_value _ _ Hsub) as (s & Hs & _).
  exists a, s. split; [exact Hget |]. split; [exact Hs |].
  destruct (percentages_in_range _ _ Hrange i Hi) as [_ Hp].
  pose proof line_bound_value as HB. change (10 ^ 4) with 10000 in Hp.
  destruct Hsub as [Hz | (c & Hc & Hle)].
  - rewrite Hz in *. eapply (tax_amount_value _ (PyInt 0) (of_int 0));
      [reflexivity | exact Hs | | exact Ha].
    unfold of_int. cbn [coef]. rewrite Z.mul_0_r. unfold prec. lia.
  - rewrite Hc in *.
    eapply (tax_amount_value _ (PyDecimal (mk c (-2))) (mk c (-2)));
      [reflexivity | exact Hs | | exact Ha].
    cbn [coef]. rewrite Z.abs_mul. unfold prec. nia.
Qed.

(** C6: for every active tax rule and every subtotal, the cart
    aggregator returns, and the amount of the rule in its breakdown is
    [round(percentage * subtotal / 100, 2)], rounded half-even (banker's
    rounding, the rounding of Python's [round] on a Decimal).  The tax
    types are distinct, as the unique column makes them, the columns are
    inside their field ranges, and every cart line names a food item. *)
Theorem breakdown_amount_is_rounded (request : Request.t) (user : User.t)
    (db : Database) (i : Tax.t) :
  Request.user request = Some user ->
  cart_in_range user db -> lines_resolve user db ->
  NoDup (map Tax.tax_type (filter Tax.is_active (taxes db))) ->
  In i (taxes db) -> Tax.is_active i = true ->
  exists r amount subtotal,
    get_cart_amounts request db = Ok r
    /\ dict_get (Tax.tax_type i) (CartAmounts.tax_dict r)
       = Some [(Decimal.to_str (Tax.tax_percentage i), amount)]
    /\ num_value (CartAmounts.subtotal r) = Some subtotal
    /\ (Decimal.value amount
        == round2 (Decimal.value (Tax.tax_percentage i) * subtotal / 100))%Q.
Proof.
  intros Hu Hrange Hlines Hnd Hi Hact.
  destruct (ReturnFacts.get_cart_amounts_returns request db) as (r & Hr).
  { intros user' Hu'. rewrite Hu in Hu'. inversion Hu'; subst user'. auto. }
  destruct (breakdown_amount_of_result request user db r i
              Hu Hrange Hnd Hr Hi Hact) as (amount & subtotal & H).
  exists r, amount, subtotal. split; [exact Hr | exact H].
Qed.

End RoundingClaim.

(** ** The JSON scanner *)

Module JsonFacts.
Import Json DictFacts.







Lemma loads_empty (lib : library) : loads lib "" = Raise JSONDecodeError.
Proof. destruct lib; reflexivity. Qed.

End JsonFacts.

(** ** The per-vendor totals of a placed order *)

Module DecodeFacts.
Import Json DictFacts JsonFacts.

Lemma json_loads_truthy (lib : library) (s : option string) (v : value) :
  json_loads lib s = Ok v -> truthy s = true.
Proof.
  destruct s as [[| c text] |]; cbn [json_loads truthy]; intros H.
  - rewrite loads_empty in H. discriminate.
  - reflexivity.
  - discriminate.
Qed.

Lemma no_VendorNotInOrder (e : exn) : exn_name e <> "VendorNotInOrder".
Proof. destruct e; discriminate. Qed.

(** The function of orders/utils.py runs the shared statements with
    [simplejson]. *)
Lemma order_total_by_vendor_eq (order : Order.t) (vendor_id : Z) :
  order_total_by_vendor order vendor_id
  = totals_by_vendor SimpleJson (Order.total_data order) vendor_id.
Proof. reflexivity. Qed.

(** When the request stored by the middleware is that of a user who
    runs a vendor, the method of the model runs the shared statements
    with [json] at the id of that vendor. *)
Lemma get_total_by_vendor_resolved (globals : Globals) (db : Database)
    (self : Order.t) (request : Request.t) (user : User.t) (vendor : Vendor.t) :
  request_object globals = Some request ->
  Request.user request = Some user ->
  objects_get (fun v => Vendor.user v =? User.id user) (vendors db) = Ok vendor ->
  get_total_by_vendor globals db self =
  if truthy (Order.total_data self)
  then totals_by_vendor StdJson (Order.total_data self) (Vendor.id vendor)
  else Ok (VendorTotals.mk (PyInt 0) [] (PyFloat Float.zero)).
Proof.
  intros Hg Hu Hv. unfold get_total_by_vendor. cbv zeta.
  rewrite Hg, Hu, Hv. cbn [bind].
  destruct (truthy (Order.total_data self)); reflexivity.
Qed.

Lemma totals_by_vendor_absent (lib : library) (total_data : option string)
    (vendor_id : Z) (d : list (string * value)) :
  json_loads lib total_data = Ok (JDict d) ->
  dict_get (Text.str_int vendor_id) d = None ->
  totals_by_vendor lib total_data vendor_id = Raise AttributeError.
Proof.
  intros Hloads Hget. unfold totals_by_vendor. rewrite Hloads.
  cbn [bind py_get]. rewrite Hget. reflexivity.
Qed.

(** C4 (as amended): querying the per-vendor totals of a placed order
    for a vendor id that is absent from the ledger returns no value: it
    fails with AttributeError, raised by [data.items()] on [None]; so
    does the function of orders/utils.py, and so does the method of the
    model when the vendor of the request is absent from the ledger.  The
    code has no VendorNotInOrder error. *)
Theorem absent_vendor_raises (order : Order.t) (vendor_id : Z) :
  (forall d,
      json_loads SimpleJson (Order.total_data order) = Ok (JDict d) ->
      dict_get (Text.str_int vendor_id) d = None ->
      order_total_by_vendor order vendor_id = Raise AttributeError)
  /\ (forall d globals db request user vendor,
        json_loads StdJson (Order.total_data order) = Ok (JDict d) ->
        dict_get (Text.str_int vendor_id) d = None ->
        request_object globals = Some request ->
        Request.user request = Some user ->
        objects_get (fun v => Vendor.user v =? User.id user) (vendors db)
          = Ok vendor ->
        Vendor.id vendor = vendor_id ->
        get_total_by_vendor globals db order = Raise AttributeError)
  /\ (forall e, exn_name e <> "VendorNotInOrder").
Proof.
  split; [| split; [| exact no_VendorNotInOrder]].
  - intros d Hloads Hget. rewrite order_total_by_vendor_eq.
    exact (totals_by_vendor_absent _ _ _ _ Hloads Hget).
  - intros d globals db request user vendor Hloads Hget Hg Hu Hv Hid.
    rewrite (get_total_by_vendor_resolved _ _ _ _ _ _ Hg Hu Hv).
    rewrite (json_loads_truthy _ _ _ Hloads), Hid.
    exact (totals_by_vendor_absent _ _ _ _ Hloads Hget).
Qed.

(** C5 (as amended): the function of orders/utils.py is a function of
    the ledger text of the order and of the vendor id alone.  The method
    of the model takes no vendor id: it reads the vendor of the user of
    the request that the middleware stored, and its result is a function
    of the ledger text and of the id of that vendor; on a ledger text
    that is not empty it runs, at that id and with the [json] of the
    standard library, the statements that the function runs with
    [simplejson].  Neither reads the cart, the menu or its prices. *)
Theorem vendor_totals_depend_on :
  (forall (order order' : Order.t) (vendor_id : Z),
      Order.total_data order = Order.total_data order' ->
      order_total_by_vendor order vendor_id
      = order_total_by_vendor order' vendor_id)
  /\ (forall (globals globals' : Globals) (db db' : Database)
        (order order' : Order.t) (request request' : Request.t)
        (user user' : User.t) (vendor vendor' : Vendor.t),
      request_object globals = Some request ->
      Request.user request = Some user ->
      objects_get (fun v => Vendor.user v =? User.id user) (vendors db)
        = Ok vendor ->
      request_object globals' = Some request' ->
      Request.user request' = Some user' ->
      objects_get (fun v => Vendor.user v =? User.id user') (vendors db')
        = Ok vendor' ->
      Order.total_data order = Order.total_data order' ->
      Vendor.id vendor = Vendor.id vendor' ->
      get_total_by_vendor globals db order
      = get_total_by_vendor globals' db' order'
      /\ (truthy (Order.total_data order) = true ->
          get_total_by_vendor globals db order
          = totals_by_vendor StdJson (Order.total_data order) (Vendor.id vendor))
      /\ order_total_by_vendor order (Vendor.id vendor)
         = totals_by_vendor SimpleJson (Order.total_data order)
             (Vendor.id vendor)).
Proof.
  assert (Hpure : forall (order order' : Order.t) (vendor_id : Z),
      Order.total_data order = Order.total_data order' ->
      order_total_by_vendor order vendor_id
      = order_total_by_vendor order' vendor_id).
  { intros order order' vendor_id Hdata. unfold order_total_by_vendor.
    now rewrite Hdata. }
  split; [exact Hpure |].
  intros globals globals' db db' order order' request request' user user'
    vendor vendor' Hg Hu Hv Hg' Hu' Hv' Hdata Hid.
  rewrite (get_total_by_vendor_resolved _ _ _ _ _ _ Hg Hu Hv).
  rewrite (get_total_by_vendor_resolved _ _ _ _ _ _ Hg' Hu' Hv').
  rewrite <- Hdata, <- Hid. split; [reflexivity |]. split.
  - intros ->. reflexivity.
  - reflexivity.
Qed.


End DecodeFacts.

(** ** The totals add up *)

Module SumClaim.
Import Json DecodeFacts AmountFacts TotalsFacts.




End SumClaim.

(** ** order_by *)

Module SortFacts.

Section OrderBy.
Context {A : Type} (key : A -> Q).

Lemma insert_by_perm (x : A) (l : list A) :
  Permutation (insert_by Qle_bool key x l) (x :: l).
Proof.
  induction l as [| y l IH]; cbn [insert_by]; [reflexivity |].
  destruct (Qle_bool (key x) (key y)); [reflexivity |].
  rewrite IH. apply perm_swap.
Qed.

Lemma order_by_perm (l : list A) : Permutation (order_by Qle_bool key l) l.
Proof.
  unfold order_by. induction l as [| x l IH]; cbn [fold_right]; [reflexivity |].
  rewrite insert_by_perm. now constructor.
Qed.




End OrderBy.

Lemma order_by_nil {A K : Type} (le : K -> K -> bool) (key : A -> K) :
  order_by le key [] = [].
Proof. reflexivity. Qed.






End SortFacts.

(** ** The views *)

Module ViewFacts.
Import DictFacts SortFacts.

Lemma checkout_reads_only (request : Request.t) (db db' : Database)
    (r : response CheckoutContext.t) :
  checkout request db = Ok (r, db') -> db' = db.
Proof.
  unfold checkout. destruct (Request.user request) as [user |].
  - destruct (_ <=? 0).
    + now intros [= _ <-].
    + intros H. apply bind_Ok_inv in H. destruct H as (profile & _ & H).
      now inversion H.
  - now intros [= _ <-].
Qed.

(** C8 (as amended): checkout on an empty cart raises no error: the
    view answers with a redirect to the marketplace (to the login page
    when no user is logged in), and leaves the database as it was; no
    run of the view changes the database, so none creates an order. *)
Theorem checkout_empty_cart (request : Request.t) (db : Database) :
  (forall user, Request.user request = Some user ->
     filter (fun item => Cart.user item =? User.id user) (carts db) = []) ->
  checkout request db
  = Ok (Redirect (match Request.user request with
                  | Some _ => "marketplace"
                  | None => "login"
                  end), db)
  /\ (forall e, checkout request db <> Raise e)
  /\ (forall request' db' r,
        checkout request' db = Ok (r, db') -> orders db' = orders db).
Proof.
  intros Hempty.
  assert (H : checkout request db
              = Ok (Redirect (match Request.user request with
                              | Some _ => "marketplace"
                              | None => "login"
                              end), db)).
  { unfold checkout. destruct (Request.user request) as [user |]; [| reflexivity].
    rewrite (Hempty user eq_refl). reflexivity. }
  split; [exact H |]. split.
  - intros e. rewrite H. discriminate.
  - intros request' db' r Hr. now rewrite (checkout_reads_only _ _ _ _ Hr).
Qed.

(** A second call of [get_or_set_current_location] finds in the session
    what the first one returned. *)
Lemma location_again (request request' : Request.t)
    (location : option string * option string) :
  get_or_set_current_location request = Ok (Some location, request') ->
  get_or_set_current_location request' = Ok (Some location, request').
Proof.
  unfold get_or_set_current_location.
  destruct (dict_get "lat" (Request.session request)) as [lat |] eqn:Hlat.
  - destruct (dict_get "lng" (Request.session request)) as [lng |] eqn:Hlng;
      [| discriminate].
    intros [= <- <-]. now rewrite Hlat, Hlng.
  - destruct (dict_get "lat" (Request.GET request)) as [lat |]; [| discriminate].
    intros [= <- <-]. cbn [Request.session].
    rewrite dict_get_set_other by discriminate.
    rewrite dict_get_set_same. rewrite dict_get_set_same. reflexivity.
Qed.

Lemma sql_le_value (d : Q) (limit : Float.t) (q : Q) :
  Float.value limit = Some q -> sql_le d limit = true <-> (d <= q)%Q.
Proof.
  intros H. unfold sql_le. rewrite H.
  destruct limit; try discriminate; apply Qle_bool_iff.
Qed.

Lemma home_radius :
  Float.value (D_km (Float.of_decimal false 1000 0))
  = Some (8589934592000000 # 8589934592).
Proof. vm_compute. reflexivity. Qed.

Section GeoDiscovery.
Variable GEOSGeometry : string -> result Point.
Variable Distance : Point -> Point -> Q.

Lemma distance_lte_inv (db : Database) (pnt : Point) (limit : Float.t)
    (v : Vendor.t) :
  distance_lte Distance db pnt limit v = true ->
  exists loc, vendor_location db v = Some loc
    /\ vendor_distance Distance db pnt v = Some (Distance loc pnt)
    /\ distance_key Distance db pnt v = Distance loc pnt
    /\ sql_le (Distance loc pnt) limit = true.
Proof.
  unfold distance_lte, distance_key, vendor_distance.
  destruct (vendor_location db v) as [loc |]; cbn [option_map]; [| discriminate].
  intros H. now exists loc.
Qed.

Lemma distance_lte_intro (db : Database) (pnt : Point) (limit : Float.t)
    (v : Vendor.t) (loc : Point) :
  vendor_location db v = Some loc ->
  sql_le (Distance loc pnt) limit = true ->
  distance_lte Distance db pnt limit v = true.
Proof.
  unfold distance_lte, vendor_distance. intros -> H. exact H.
Qed.


End GeoDiscovery.

End ViewFacts.

(** ** Discovery *)

Module DiscoveryClaims.
Import ViewFacts SortFacts.

Section GeoDiscovery.
Variable GEOSGeometry : string -> result Point.
Variable Distance : Point -> Point -> Q.

Lemma home_with_origin (request request' : Request.t) (db : Database)
    (lng lat : option string) (pnt : Point) :
  get_or_set_current_location request = Ok (Some (lng, lat), request') ->
  GEOSGeometry ("POINT(" ++ format_s lng ++ " " ++ format_s lat ++ ")") = Ok pnt ->
  home GEOSGeometry Distance request db
  = Ok (Render "home.html"
          (HomeContext.mk
             (nearest_first Distance db pnt
                (filter
                   (distance_lte Distance db pnt
                      (D_km (Float.of_decimal false 1000 0)))
                   (vendors db)))),
        request').
Proof.
  intros Hloc Hpnt. unfold home. rewrite Hloc. cbn [bind].
  rewrite (location_again _ _ _ Hloc). cbn [bind]. rewrite Hpnt. reflexivity.
Qed.

Lemma home_without_origin (request request' : Request.t) (db : Database) :
  get_or_set_current_location request = Ok (None, request') ->
  home GEOSGeometry Distance request db
  = Ok (Render "home.html"
          (HomeContext.mk
             (map plain
                (firstn 8
                   (filter (fun v => Vendor.is_approved v && user_is_active db v)
                      (vendors db))))),
        request').
Proof. intros Hloc. unfold home. rewrite Hloc. reflexivity. Qed.


(** The rows a listing shows, for a limit in metres that is a number. *)
Lemma listed_within (db : Database) (pnt : Point) (keep : Vendor.t -> bool)
    (limit : Float.t) (metres : Q) (v : Vendor.t) :
  Float.value limit = Some metres ->
  In v (map vendor
          (nearest_first Distance db pnt
             (filter (fun v => keep v && distance_lte Distance db pnt limit v)
                (vendors db))))
  <-> In v (vendors db) /\ keep v = true
      /\ exists loc, vendor_location db v = Some loc
                     /\ (Distance loc pnt <= metres)%Q.
Proof.
  intros Hlimit. unfold nearest_first. rewrite map_map. cbn [vendor].
  rewrite map_id. split.
  - intros H. apply (Permutation_in _ (order_by_perm _ _)) in H.
    apply filter_In in H. destruct H as (Hin & H).
    apply andb_true_iff in H. destruct H as (Hkeep & H).
    apply distance_lte_inv in H. destruct H as (loc & Hloc & _ & _ & Hle).
    split; [exact Hin |]. split; [exact Hkeep |]. exists loc.
    split; [exact Hloc |]. now apply (sql_le_value _ _ _ Hlimit).
  - intros (Hin & Hkeep & loc & Hloc & Hle).
    apply (Permutation_in _ (Permutation_sym (order_by_perm _ _))).
    apply filter_In. split; [exact Hin |]. rewrite Hkeep. cbn [andb].
    apply (distance_lte_intro _ _ _ _ _ loc Hloc).
    now apply (sql_le_value _ _ _ Hlimit).
Qed.


Lemma filter_true_and {A : Type} (p : A -> bool) (l : list A) :
  filter p l = filter (fun v => true && p v) l.
Proof. apply filter_ext. reflexivity. Qed.

(** C10: with an origin, the home page shows every vendor that has a
    location within 1000 km of it (1000000 metres), approved or not, of
    an active user or not: a vendor is listed exactly when it is a row
    of the table with such a location.  With no origin it shows the
    first 8 of the approved vendors of active users. *)
Theorem home_discovery (request : Request.t) (db : Database) :
  (forall lng lat request' pnt,
      get_or_set_current_location request = Ok (Some (lng, lat), request') ->
      GEOSGeometry ("POINT(" ++ format_s lng ++ " " ++ format_s lat ++ ")")
        = Ok pnt ->
      exists listed,
        home GEOSGeometry Distance request db
        = Ok (Render "home.html" (HomeContext.mk listed), request')
        /\ (forall v, In v (map vendor listed) <->
              In v (vendors db)
              /\ exists loc, vendor_location db v = Some loc
                             /\ (Distance loc pnt <= 1000000)%Q))
  /\ (forall request',
      get_or_set_current_location request = Ok (None, request') ->
      home GEOSGeometry Distance request db
      = Ok (Render "home.html"
              (HomeContext.mk
                 (map plain
                    (firstn 8
                       (filter
                          (fun v => Vendor.is_approved v && user_is_active db v)
                          (vendors db))))),
            request')).
Proof.
  split.
  - intros lng lat request' pnt Hloc Hpnt. eexists.
    split; [exact (home_with_origin _ _ db _ _ _ Hloc Hpnt) |].
    intros v. rewrite filter_true_and.
    rewrite (listed_within db pnt (fun _ => true) _ _ v home_radius).
    split.
    + intros (Hin & _ & loc & Hloc' & Hle). split; [exact Hin |].
      exists loc. split; [exact Hloc' |].
      eapply Qle_trans; [exact Hle |]. unfold Qle. cbn [Qnum Qden]. lia.
    + intros (Hin & loc & Hloc' & Hle). split; [exact Hin |].
      split; [reflexivity |]. exists loc. split; [exact Hloc' |].
      eapply Qle_trans; [exact Hle |]. unfold Qle. cbn [Qnum Qden]. lia.
  - intros request'. apply home_without_origin.
Qed.


End GeoDiscovery.

End DiscoveryClaims.

(** ** Texts *)

Module TextFacts.
Import Json.
Local Open Scope string_scope.

Lemma app_assoc (a b c : string) : (a ++ b) ++ c = a ++ b ++ c.
Proof. induction a as [| x a IH]; cbn [append]; [reflexivity | now rewrite IH]. Qed.

Lemma app_nil_r (a : string) : a ++ "" = a.
Proof. induction a as [| x a IH]; cbn [append]; [reflexivity | now rewrite IH]. Qed.

Lemma length_app (a b : string) :
  String.length (a ++ b) = (String.length a + String.length b)%nat.
Proof.
  induction a as [| x a IH]; cbn [append String.length]; [reflexivity |].
  now rewrite IH.
Qed.

Lemma all_chars_app (p : ascii -> bool) (a b : string) :
  all_chars p (a ++ b) = all_chars p a && all_chars p b.
Proof.
  induction a as [| x a IH]; cbn [append all_chars]; [reflexivity |].
  now rewrite IH, andb_assoc.
Qed.

Lemma all_chars_impl (p q : ascii -> bool) (s : string) :
  (forall c, p c = true -> q c = true) ->
  all_chars p s = true -> all_chars q s = true.
Proof.
  intros Hpq. induction s as [| c s IH]; cbn [all_chars]; [reflexivity |].
  intros H. apply andb_true_iff in H. destruct H as (Hc & Hs).
  now rewrite (Hpq c Hc), IH.
Qed.

Lemma all_chars_concat (p : ascii -> bool) (sep : string) (l : list string) :
  all_chars p sep = true -> Forall (fun s => all_chars p s = true) l ->
  all_chars p (String.concat sep l) = true.
Proof.
  intros Hsep. induction 1 as [| s l Hs Hl IH]; [reflexivity |].
  cbn [String.concat]. destruct l as [| s' l]; [exact Hs |].
  rewrite !all_chars_app, Hs, Hsep. exact IH.
Qed.

(** A fact about every character with a property, by cases on its
    eight bits. *)
Ltac by_bits c :=
  let H := fresh in
  destruct c as [[] [] [] [] [] [] [] []]; intros H; vm_compute in H;
  try discriminate H; clear H; intros; reflexivity.

Lemma plain_json_safe (c : ascii) : plain_char c = true -> json_safe c = true.
Proof. by_bits c. Qed.

Lemma digit_plain (c : ascii) : Float.is_digit c = true -> plain_char c = true.
Proof. by_bits c. Qed.

Lemma dumps_char_safe (c : ascii) :
  json_safe c = true ->
  forall rest, Encoder.dumps_chars (String c rest)
               = String c (Encoder.dumps_chars rest).
Proof. by_bits c. Qed.

Lemma dumps_chars_safe (s : string) :
  all_chars json_safe s = true -> Encoder.dumps_chars s = s.
Proof.
  induction s as [| c s IH]; [reflexivity |]. cbn [all_chars]. intros H.
  apply andb_true_iff in H. destruct H as (Hc & Hs).
  now rewrite (dumps_char_safe c Hc), IH.
Qed.

Lemma dumps_str_safe (s : string) :
  all_chars json_safe s = true ->
  Encoder.dumps_str s = String dquote (s ++ String dquote "").
Proof. intros H. unfold Encoder.dumps_str. now rewrite dumps_chars_safe. Qed.

Lemma scanstring_char_safe (c : ascii) :
  json_safe c = true ->
  forall rest, scanstring (String c rest) = cons_found c (scanstring rest).
Proof. by_bits c. Qed.

(** The scanner reads back a text of safe characters. *)
Lemma scanstring_safe (s rest : string) :
  all_chars json_safe s = true ->
  scanstring (s ++ String dquote rest) = Found s rest.
Proof.
  induction s as [| c s IH]; [reflexivity |]. cbn [all_chars append]. intros H.
  apply andb_true_iff in H. destruct H as (Hc & Hs).
  now rewrite (scanstring_char_safe c Hc), IH.
Qed.

Lemma replace_app (a b : ascii) (s t : string) :
  Text.replace a b (s ++ t) = Text.replace a b s ++ Text.replace a b t.
Proof.
  induction s as [| c s IH]; cbn [append Text.replace]; [reflexivity |].
  now rewrite IH.
Qed.

Lemma replace_char_plain (c : ascii) :
  plain_char c = true ->
  forall rest, Text.replace "'" dquote (String c rest)
               = String c (Text.replace "'" dquote rest).
Proof. by_bits c. Qed.

Lemma replace_plain (s : string) :
  plain_text s = true -> Text.replace "'" dquote s = s.
Proof.
  unfold plain_text. induction s as [| c s IH]; [reflexivity |].
  cbn [all_chars]. intros H.
  apply andb_true_iff in H. destruct H as (Hc & Hs).
  now rewrite (replace_char_plain c Hc), IH.
Qed.

Lemma replace_concat (a b : ascii) (sep : string) (l : list string) :
  Text.replace a b (String.concat sep l)
  = String.concat (Text.replace a b sep) (map (Text.replace a b) l).
Proof.
  induction l as [| s l IH]; [reflexivity |].
  cbn [String.concat map]. destruct l as [| s' l]; [reflexivity |].
  rewrite !replace_app, IH. reflexivity.
Qed.

Lemma repr_char_plain (c : ascii) :
  plain_char c = true ->
  forall rest, Encoder.repr_chars "'" (String c rest)
               = String c (Encoder.repr_chars "'" rest).
Proof. by_bits c. Qed.

Lemma has_quote_plain (c : ascii) :
  plain_char c = true ->
  forall rest, Encoder.has_char "'" (String c rest)
               = Encoder.has_char "'" rest.
Proof. by_bits c. Qed.

Lemma has_quote_plain_text (s : string) :
  plain_text s = true -> Encoder.has_char "'" s = false.
Proof.
  unfold plain_text. induction s as [| c s IH]; [reflexivity |].
  cbn [all_chars]. intros H.
  apply andb_true_iff in H. destruct H as (Hc & Hs).
  now rewrite (has_quote_plain c Hc), IH.
Qed.

Lemma repr_chars_plain (s : string) :
  plain_text s = true -> Encoder.repr_chars "'" s = s.
Proof.
  unfold plain_text. induction s as [| c s IH]; [reflexivity |].
  cbn [all_chars]. intros H.
  apply andb_true_iff in H. destruct H as (Hc & Hs).
  now rewrite (repr_char_plain c Hc), IH.
Qed.

Lemma repr_str_plain (s : string) :
  plain_text s = true ->
  Encoder.repr_str s = String "'" (s ++ String "'" "").
Proof.
  intros H. unfold Encoder.repr_str.
  rewrite (has_quote_plain_text s H). cbn [andb].
  now rewrite (repr_chars_plain s H).
Qed.

Lemma plain_safe (s : string) :
  plain_text s = true -> all_chars json_safe s = true.
Proof. apply all_chars_impl. exact plain_json_safe. Qed.

(** The quote substitution turns the [repr] of a plain text into its
    JSON. *)
Lemma replace_repr_str (s : string) :
  plain_text s = true ->
  Text.replace "'" dquote (Encoder.repr_str s) = Encoder.dumps_str s.
Proof.
  intros H. rewrite (repr_str_plain s H), (dumps_str_safe s (plain_safe s H)).
  cbn [Text.replace]. rewrite replace_app, (replace_plain s H). reflexivity.
Qed.

Lemma repr_str_safe (s : string) :
  plain_text s = true -> all_chars json_safe (Encoder.repr_str s) = true.
Proof.
  intros H. rewrite (repr_str_plain s H). cbn [all_chars].
  rewrite all_chars_app, (plain_safe s H). reflexivity.
Qed.

End TextFacts.

(** ** Digits *)

Module DigitFacts.
Import TextFacts.
Local Open Scope string_scope.

Lemma digit_char_spec (d : Z) :
  0 <= d <= 9 ->
  Float.is_digit (Text.digit_char d) = true
  /\ Float.digit_value (Text.digit_char d) = d.
Proof.
  intros H.
  assert (Hd : d = 0 \/ d = 1 \/ d = 2 \/ d = 3 \/ d = 4 \/ d = 5 \/ d = 6
               \/ d = 7 \/ d = 8 \/ d = 9) by lia.
  repeat (destruct Hd as [-> | Hd]; [split; reflexivity |]).
  subst d. split; reflexivity.
Qed.

Lemma scan_digit (d acc k : Z) (rest : string) :
  0 <= d <= 9 ->
  Float.scan_digits acc k (String (Text.digit_char d) rest)
  = Float.scan_digits (10 * acc + d) (k + 1) rest.
Proof.
  intros H. destruct (digit_char_spec d H) as (Hd & Hv).
  cbn [Float.scan_digits]. now rewrite Hd, Hv.
Qed.

(** The digits of [n], read back. *)
Lemma digits_aux_scan (fuel : nat) : forall n,
  0 <= n < 2 ^ Z.of_nat (S fuel) ->
  exists L, 0 < L
    /\ all_chars Float.is_digit (Text.digits_aux (S fuel) n) = true
    /\ (exists c r, Text.digits_aux (S fuel) n = String c r)
    /\ forall acc k rest,
         Float.scan_digits acc k (Text.digits_aux (S fuel) n ++ rest)
         = Float.scan_digits (acc * 10 ^ L + n) (k + L) rest.
Proof.
  induction fuel as [| fuel IH]; intros n Hn.
  - assert (Hlt : n < 10).
    { change (2 ^ Z.of_nat 1) with 2 in Hn. lia. }
    cbn [Text.digits_aux]. apply Z.ltb_lt in Hlt. rewrite Hlt.
    apply Z.ltb_lt in Hlt.
    exists 1. split; [lia |]. split; [| split].
    + cbn [all_chars]. now rewrite (proj1 (digit_char_spec n ltac:(lia))).
    + eauto.
    + intros acc k rest. cbn [append]. rewrite scan_digit by lia.
      f_equal. lia.
  - change (Text.digits_aux (S (S fuel)) n)
      with (if (n <? 10)%Z then String (Text.digit_char n) ""
            else Text.digits_aux (S fuel) (n / 10)
                 ++ String (Text.digit_char (n mod 10)) "").
    destruct (n <? 10)%Z eqn:Hlt.
    + apply Z.ltb_lt in Hlt.
      exists 1. split; [lia |]. split; [| split].
      * cbn [all_chars]. now rewrite (proj1 (digit_char_spec n ltac:(lia))).
      * eauto.
      * intros acc k rest. cbn [append]. rewrite scan_digit by lia.
        f_equal. lia.
    + apply Z.ltb_ge in Hlt.
      assert (Hdiv : 0 <= n / 10 < 2 ^ Z.of_nat (S fuel)).
      { rewrite (Nat2Z.inj_succ (S fuel)), Z.pow_succ_r in Hn by lia.
        split; [apply Z.div_pos; lia |].
        apply Z.div_lt_upper_bound; lia. }
      destruct (IH (n / 10) Hdiv) as (L & HL & Hall & (c & r & Hcr) & Hscan).
      pose proof (Z.mod_pos_bound n 10 ltac:(lia)) as Hmod.
      exists (L + 1). split; [lia |]. split; [| split].
      * rewrite all_chars_app, Hall. cbn [all_chars andb].
        now rewrite (proj1 (digit_char_spec (n mod 10) ltac:(lia))).
      * rewrite Hcr. cbn [append]. eauto.
      * intros acc k rest. rewrite app_assoc. cbn [append].
        rewrite Hscan, scan_digit by lia. f_equal; [| lia].
        rewrite Z.pow_add_r by lia.
        pose proof (Z.div_mod n 10 ltac:(lia)) as Hdm.
        change (10 ^ 1) with 10. lia.
Qed.

Lemma str_nat_scan (n : Z) :
  0 <= n ->
  exists L, 0 < L
    /\ all_chars Float.is_digit (Text.str_nat n) = true
    /\ (exists c r, Text.str_nat n = String c r)
    /\ forall acc k rest,
         Float.scan_digits acc k (Text.str_nat n ++ rest)
         = Float.scan_digits (acc * 10 ^ L + n) (k + L) rest.
Proof.
  intros Hn. unfold Text.str_nat. apply digits_aux_scan.
  split; [exact Hn |].
  rewrite Nat2Z.inj_succ, Z2Nat.id by apply Z.log2_nonneg.
  destruct (Z.eq_dec n 0) as [-> | Hpos]; [reflexivity |].
  apply Z.log2_spec. lia.
Qed.

Lemma str_nat_inj (a b : Z) :
  0 <= a -> 0 <= b -> Text.str_nat a = Text.str_nat b -> a = b.
Proof.
  intros Ha Hb H.
  destruct (str_nat_scan a Ha) as (La & _ & _ & _ & Hsa).
  destruct (str_nat_scan b Hb) as (Lb & _ & _ & _ & Hsb).
  specialize (Hsa 0 0 ""). specialize (Hsb 0 0 "").
  rewrite H, Hsb in Hsa. cbn [Float.scan_digits] in Hsa.
  injection Hsa as Hv _. lia.
Qed.

Lemma str_nat_first_digit (n : Z) :
  0 <= n ->
  exists c r, Text.str_nat n = String c r /\ Float.is_digit c = true.
Proof.
  intros Hn. destruct (str_nat_scan n Hn) as (_ & _ & Hall & (c & r & Hcr) & _).
  exists c, r. split; [exact Hcr |]. rewrite Hcr in Hall. cbn [all_chars] in Hall.
  now apply andb_true_iff in Hall.
Qed.

(** [str] tells two ints apart. *)
Lemma str_int_inj (a b : Z) : Text.str_int a = Text.str_int b -> a = b.
Proof.
  unfold Text.str_int.
  destruct (a <? 0)%Z eqn:Ha, (b <? 0)%Z eqn:Hb;
    try apply Z.ltb_lt in Ha; try apply Z.ltb_ge in Ha;
    try apply Z.ltb_lt in Hb; try apply Z.ltb_ge in Hb; intros H.
  - injection H as H. apply str_nat_inj in H; lia.
  - destruct (str_nat_first_digit b Hb) as (c & r & Hcr & Hd).
    rewrite Hcr in H. injection H as <- _. discriminate.
  - destruct (str_nat_first_digit a Ha) as (c & r & Hcr & Hd).
    rewrite Hcr in H. injection H as -> _. discriminate.
  - apply str_nat_inj in H; lia.
Qed.

Lemma str_int_plain (n : Z) : plain_text (Text.str_int n) = true.
Proof.
  unfold Text.str_int, plain_text. destruct (n <? 0)%Z eqn:Hn.
  - apply Z.ltb_lt in Hn.
    destruct (str_nat_scan (- n) ltac:(lia)) as (_ & _ & Hall & _).
    cbn [all_chars]. rewrite (all_chars_impl _ _ _ digit_plain Hall).
    reflexivity.
  - apply Z.ltb_ge in Hn.
    destruct (str_nat_scan n Hn) as (_ & _ & Hall & _).
    exact (all_chars_impl _ _ _ digit_plain Hall).
Qed.

End DigitFacts.

(** ** The text of an amount of money *)

Module MoneyFacts.
Import TextFacts DigitFacts.
Local Open Scope string_scope.

Lemma to_str_money (c : Z) :
  0 <= c ->
  Decimal.to_str (Decimal.mk c (-2))
  = Text.str_nat (c / 100) ++ "."
    ++ String (Text.digit_char ((c / 10) mod 10))
         (String (Text.digit_char (c mod 10)) "").
Proof.
  intros Hc. unfold Decimal.to_str. cbn [Decimal.coef Decimal.exp].
  rewrite Z.abs_eq by exact Hc.
  assert (Hneg : (c <? 0)%Z = false) by (apply Z.ltb_ge; exact Hc).
  rewrite Hneg.
  assert (Hplain : ((-2 <=? 0)%Z && (-6 <? -2 + Decimal.ndigits c)%Z) = true).
  { apply andb_true_iff. split; [reflexivity |]. apply Z.ltb_lt.
    pose proof (DecimalFacts.ndigits_aux_pos
                  (Z.to_nat (Z.log2 (Z.abs c))) (Z.abs c)) as H.
    fold (Decimal.ndigits c) in H. lia. }
  rewrite Hplain.
  change (-2 =? 0)%Z with false. cbv iota.
  change (- -2)%Z with 2%Z. change (Z.to_nat 2) with 2%nat.
  change (10 ^ 2)%Z with 100%Z.
  cbn [Text.padded append]. reflexivity.
Qed.

Lemma numeric_not_space (c : ascii) :
  numeric_char c = true -> forall a, Float.is_space a c = false.
Proof.
  destruct c as [[] [] [] [] [] [] [] []]; intros H; vm_compute in H;
    try discriminate H; intros []; reflexivity.
Qed.

Lemma numeric_ascii (c : ascii) :
  numeric_char c = true -> (Float.code c <? 128)%N = true.
Proof. by_bits c. Qed.

Lemma numeric_drop (c : ascii) :
  numeric_char c = true ->
  forall prev rest,
    Float.drop_underscores prev (String c rest)
    = match Float.drop_underscores (Float.is_digit c) rest with
      | Some r => Some (String c r)
      | None => None
      end.
Proof. by_bits c. Qed.

Lemma digit_no_sign (c : ascii) :
  Float.is_digit c = true ->
  forall rest, Float.scan_sign (String c rest) = (false, String c rest).
Proof. by_bits c. Qed.

Lemma digit_no_name (c : ascii) :
  Float.is_digit c = true ->
  forall rest name,
    String.eqb (Text.lower (String c rest)) (String "i" name) = false
    /\ String.eqb (Text.lower (String c rest)) (String "n" name) = false.
Proof.
  destruct c as [[] [] [] [] [] [] [] []]; intros H; vm_compute in H;
    try discriminate H; intros; split; reflexivity.
Qed.

Lemma digit_numeric (c : ascii) :
  Float.is_digit c = true -> numeric_char c = true.
Proof. unfold numeric_char. now intros ->. Qed.

Lemma rstrip_numeric (a : bool) (s : string) :
  all_chars numeric_char s = true -> Float.rstrip a s = s.
Proof.
  induction s as [| c s IH]; [reflexivity |]. cbn [all_chars]. intros H.
  apply andb_true_iff in H. destruct H as (Hc & Hs).
  cbn [Float.rstrip]. rewrite (IH Hs), (numeric_not_space c Hc).
  destruct s; reflexivity.
Qed.

Lemma drop_underscores_numeric (s : string) : forall prev,
  all_chars numeric_char s = true -> Float.drop_underscores prev s = Some s.
Proof.
  induction s as [| c s IH]; intros prev; [reflexivity |].
  cbn [all_chars]. intros H.
  apply andb_true_iff in H. destruct H as (Hc & Hs).
  now rewrite (numeric_drop c Hc), (IH _ Hs).
Qed.

Lemma is_ascii_numeric (s : string) :
  all_chars numeric_char s = true -> Float.is_ascii s = true.
Proof.
  induction s as [| c s IH]; [reflexivity |]. cbn [all_chars]. intros H.
  apply andb_true_iff in H. destruct H as (Hc & Hs).
  cbn [Float.is_ascii]. now rewrite (numeric_ascii c Hc), (IH Hs).
Qed.

(** The text of an amount of money is of numeric characters, and its
    digits read back as the hundredths. *)
Lemma money_text (c : Z) :
  0 <= c ->
  all_chars numeric_char (Decimal.to_str (Decimal.mk c (-2))) = true
  /\ (exists d r, Decimal.to_str (Decimal.mk c (-2)) = String d r
                  /\ Float.is_digit d = true)
  /\ Float.scan_number (Decimal.to_str (Decimal.mk c (-2))) = Some (c, -2)%Z.
Proof.
  intros Hc. rewrite (to_str_money c Hc).
  assert (Hq : 0 <= c / 100) by (apply Z.div_pos; lia).
  destruct (str_nat_scan (c / 100) Hq) as (L & HL & Hall & (d & r & Hdr) & Hscan).
  assert (H1 : 0 <= (c / 10) mod 10 <= 9)
    by (pose proof (Z.mod_pos_bound (c / 10) 10 ltac:(lia)); lia).
  assert (H0 : 0 <= c mod 10 <= 9)
    by (pose proof (Z.mod_pos_bound c 10 ltac:(lia)); lia).
  split; [| split].
  - rewrite all_chars_app.
    rewrite (all_chars_impl _ _ _ digit_numeric Hall).
    cbn [append all_chars andb].
    rewrite (digit_numeric _ (proj1 (digit_char_spec _ H1))).
    rewrite (digit_numeric _ (proj1 (digit_char_spec _ H0))).
    reflexivity.
  - exists d, (r ++ "." ++ String (Text.digit_char ((c / 10) mod 10))
                       (String (Text.digit_char (c mod 10)) "")).
    split; [now rewrite Hdr |].
    rewrite Hdr in Hall. cbn [all_chars] in Hall.
    now apply andb_true_iff in Hall.
  - unfold Float.scan_number. rewrite Hscan.
    cbn [append Float.scan_digits].
    change (Float.is_digit ".") with false. cbv iota.
    change (Ascii.eqb "." ".") with true. cbv iota.
    rewrite !scan_digit by lia. cbn [Float.scan_digits].
    assert (Hn : (0 + L + (0 + 1 + 1) =? 0)%Z = false) by (apply Z.eqb_neq; lia).
    rewrite Hn. cbn [Float.scan_exponent]. f_equal. f_equal.
    pose proof (Z.div_mod c 10 ltac:(lia)) as Hdm.
    pose proof (Z.div_mod (c / 10) 10 ltac:(lia)) as Hdm1.
    rewrite Z.div_div in Hdm1 by lia. change (10 * 10)%Z with 100%Z in Hdm1.
    lia.
Qed.

(** [float] of the text of an amount of money is the double nearest to
    the amount. *)
Lemma float_of_money_text (d : Decimal.t) :
  money d -> Float.of_string (Decimal.to_str d) = Ok (nearest_float d).
Proof.
  destruct d as [c e]. intros [He Hc]. cbn [Decimal.exp Decimal.coef] in *.
  subst e. destruct (money_text c Hc) as (Hall & (d & r & Hdr & Hd) & Hscan).
  unfold Float.of_string, nearest_float. cbn [Decimal.coef Decimal.exp].
  set (s := Decimal.to_str (Decimal.mk c (-2))) in *.
  rewrite (is_ascii_numeric s Hall).
  assert (Hl : Float.lstrip true s = s).
  { rewrite Hdr. cbn [Float.lstrip].
    now rewrite (numeric_not_space d (digit_numeric d Hd)). }
  rewrite Hl, (rstrip_numeric true s Hall).
  rewrite Hdr at 1. rewrite (digit_no_sign d Hd). rewrite <- Hdr.
  assert (Hname : (String.eqb (Text.lower s) "inf"
                   || String.eqb (Text.lower s) "infinity") = false
                  /\ String.eqb (Text.lower s) "nan" = false).
  { rewrite Hdr. split.
    - rewrite (proj1 (digit_no_name d Hd r "nf")).
      now rewrite (proj1 (digit_no_name d Hd r "nfinity")).
    - exact (proj2 (digit_no_name d Hd r "an")). }
  destruct Hname as (Hinf & Hnan). rewrite Hinf, Hnan.
  rewrite (drop_underscores_numeric s false Hall), Hscan. reflexivity.
Qed.

(** The exact value of the text of an amount of money. *)
Lemma money_text_value (d : Decimal.t) :
  money d -> decimal_text_value (Decimal.to_str d) = Some (Decimal.value d).
Proof.
  destruct d as [c e]. intros [He Hc]. cbn [Decimal.exp Decimal.coef] in *.
  subst e. destruct (money_text c Hc) as (Hall & (d & r & Hdr & Hd) & Hscan).
  unfold decimal_text_value.
  rewrite Hdr at 1. rewrite (digit_no_sign d Hd). rewrite <- Hdr.
  rewrite Hscan. reflexivity.
Qed.

Lemma money_text_plain (d : Decimal.t) :
  money d -> plain_text (Decimal.to_str d) = true.
Proof.
  destruct d as [c e]. intros [He Hc]. cbn [Decimal.exp Decimal.coef] in *.
  subst e. destruct (money_text c Hc) as (Hall & _).
  revert Hall. apply all_chars_impl.
  intros ch. destruct ch as [[] [] [] [] [] [] [] []]; intros H;
    vm_compute in H; try discriminate H; reflexivity.
Qed.

(** Adding a double to [0.0] gives the double, unless it is [-0.0]. *)
Lemma add_zero_l (f : Float.t) :
  f <> S754_zero true -> Float.add Float.zero f = f.
Proof.
  destruct f as [[] | [] | | s m e]; intros H; try reflexivity.
  now elim H.
Qed.

Lemma round_aux_not_negative_zero (mx ex : Z) (lx : location) :
  binary_round_aux Float.prec Float.emax false mx ex lx <> S754_zero true.
Proof.
  unfold binary_round_aux.
  destruct (shr_fexp Float.prec Float.emax mx ex lx) as [mrs e'].
  destruct (shr_fexp Float.prec Float.emax _ e' loc_Exact) as [mrs' e''].
  destruct (shr_m mrs'); try discriminate.
  destruct (e'' <=? Float.emax - Float.prec)%Z; discriminate.
Qed.

Lemma nearest_float_not_negative_zero (d : Decimal.t) :
  nearest_float d <> S754_zero true.
Proof.
  unfold nearest_float, Float.of_decimal.
  destruct (Decimal.coef d <=? 0)%Z eqn:Hm; [discriminate |].
  apply Z.leb_gt in Hm.
  destruct (0 <=? Decimal.exp d)%Z.
  - cbn [cond_Zopp]. unfold binary_normalize.
    destruct (Decimal.coef d * 10 ^ Decimal.exp d)%Z eqn:Hp; try discriminate.
    + unfold binary_round.
      destruct (shl_align p 0 _) as [mz ez].
      apply round_aux_not_negative_zero.
    + pose proof (Z.pow_nonneg 10 (Decimal.exp d) ltac:(lia)). lia.
  - destruct (SFdiv_core_binary _ _ _ _ _ _) as [[q e] l].
    apply round_aux_not_negative_zero.
Qed.

End MoneyFacts.

(** ** The scanner reads back what [json.dumps] writes *)

Module ParseFacts.
Import Json DictFacts TextFacts.
Local Open Scope string_scope.

Lemma members_text_eq {V : Type} (item : V -> string) (k : string) (v : V)
    (d : dict V) :
  members_text item k v d
  = k ++ String dquote
           (": " ++ item v
            ++ match d with
               | [] => "}"
               | (k', v') :: d' =>
                   ", " ++ String dquote (members_text item k' v' d')
               end).
Proof. destruct d; reflexivity. Qed.

(** Appends to the right, and characters to the front. *)
Ltac flat := cbn [append]; repeat (rewrite app_assoc; cbn [append]).

(** The tests on the characters that the goal shows. *)
Ltac chars :=
  repeat
    (cbn [append skip_ws negb];
     match goal with
     | |- context [is_ws ?c] =>
         let b := eval vm_compute in (is_ws c) in
         match b with
         | true => change (is_ws c) with true
         | false => change (is_ws c) with false
         end; cbv iota
     | |- context [Ascii.eqb ?c ?d] =>
         let b := eval vm_compute in (Ascii.eqb c d) in
         match b with
         | true => change (Ascii.eqb c d) with true
         | false => change (Ascii.eqb c d) with false
         end; cbv iota
     end).

Lemma dumps_dict_members {V : Type} (item : V -> string) (d : dict V) :
  forall k v,
  Forall (fun kv => all_chars json_safe (fst kv) = true) ((k, v) :: d) ->
  Encoder.dumps_dict item ((k, v) :: d)
  = String "{" (String dquote (members_text item k v d)).
Proof.
  unfold Encoder.dumps_dict.
  assert (H : forall k v,
    Forall (fun kv => all_chars json_safe (fst kv) = true) ((k, v) :: d) ->
    String.concat ", "
      (map (fun kv => Encoder.dumps_str (fst kv) ++ ": " ++ item (snd kv))
         ((k, v) :: d)) ++ "}"
    = String dquote (members_text item k v d)).
  { induction d as [| [k' v'] d IH]; intros k v Hsafe;
      inversion Hsafe as [| ? ? Hk Hrest]; subst; cbn [fst] in Hk.
    - cbn [map String.concat fst snd]. rewrite (dumps_str_safe k Hk).
      rewrite members_text_eq. flat. reflexivity.
    - rewrite members_text_eq. rewrite <- (IH k' v' Hrest).
      cbn [map String.concat fst snd]. rewrite (dumps_str_safe k Hk).
      flat. reflexivity. }
  intros k v Hsafe. now rewrite (H k v Hsafe).
Qed.

Section Members.
Context (lib : library).
Context {V : Type} (item : V -> string) (val : V -> value) (F : nat).
Context (good : V -> Prop).
Hypothesis item_head :
  forall v, good v -> exists c r, item v = String c r /\ is_ws c = false.
Hypothesis item_scan :
  forall v fuel rest, good v -> (F <= fuel)%nat ->
    scan_once lib fuel (item v ++ rest) = Found (val v) rest.

Lemma skip_ws_item (v : V) (rest : string) :
  good v -> skip_ws (item v ++ rest) = item v ++ rest.
Proof.
  intros Hv. destruct (item_head v Hv) as (c & r & -> & Hc).
  cbn [append skip_ws]. now rewrite Hc.
Qed.

Lemma object_members_text (d : dict V) : forall k v fuel acc rest,
  Forall (fun kv => all_chars json_safe (fst kv) = true /\ good (snd kv))
    ((k, v) :: d) ->
  (F + S (List.length d) <= fuel)%nat ->
  object_members lib fuel (members_text item k v d ++ rest) acc
  = Found
      (JDict
         (dict_update acc
            (map (fun kv => (fst kv, val (snd kv))) ((k, v) :: d))))
      rest.
Proof.
  induction d as [| [k' v'] d IH]; intros k v fuel acc rest Hall Hfuel;
    inversion Hall as [| ? ? [Hk Hv] Hrest]; subst; cbn [fst snd] in Hk, Hv;
    (destruct fuel as [| fuel]; [cbn [List.length] in Hfuel; lia |]);
    rewrite members_text_eq, app_assoc; cbn [append object_members];
    rewrite (scanstring_safe k _ Hk); chars;
    rewrite app_assoc, (skip_ws_item v _ Hv);
    rewrite (item_scan v fuel _ Hv) by (cbn [List.length] in Hfuel; lia);
    chars.
  - reflexivity.
  - rewrite (IH k' v' fuel _ rest Hrest) by (cbn [List.length] in Hfuel; lia).
    reflexivity.
Qed.

(** [scan_once] on the text of a dict. *)
Lemma scan_dumps_dict (d : dict V) (fuel : nat) (rest : string) :
  Forall (fun kv => all_chars json_safe (fst kv) = true /\ good (snd kv)) d ->
  NoDup (dict_keys d) ->
  (F + S (List.length d) <= fuel)%nat ->
  scan_once lib fuel (Encoder.dumps_dict item d ++ rest)
  = Found (JDict (map (fun kv => (fst kv, val (snd kv))) d)) rest.
Proof.
  intros Hall Hnd Hfuel.
  destruct fuel as [| fuel]; [lia |].
  destruct d as [| [k v] d].
  - reflexivity.
  - rewrite dumps_dict_members
      by (eapply Forall_impl; [| exact Hall]; now intros kv [H _]).
    cbn [append scan_once]. chars.
    rewrite (object_members_text d k v fuel [] rest Hall)
      by (cbn [List.length] in Hfuel; lia).
    rewrite dict_update_empty; [reflexivity |].
    unfold dict_keys in *. rewrite map_map. cbn [fst]. exact Hnd.
Qed.

End Members.

(** [scan_once] on the text of a str. *)
Lemma scan_dumps_str (lib : library) (s : string) (fuel : nat) (rest : string) :
  all_chars json_safe s = true -> (1 <= fuel)%nat ->
  scan_once lib fuel (Encoder.dumps_str s ++ rest) = Found (JStr s) rest.
Proof.
  intros Hs Hfuel. destruct fuel as [| fuel]; [lia |].
  rewrite (dumps_str_safe s Hs). cbn [append scan_once]. chars.
  rewrite app_assoc. cbn [append]. now rewrite (scanstring_safe s rest Hs).
Qed.

Lemma dumps_str_head (s : string) :
  exists c r, Encoder.dumps_str s = String c r /\ is_ws c = false.
Proof. unfold Encoder.dumps_str. eexists. eexists. split; reflexivity. Qed.

Lemma dumps_dict_head {V : Type} (item : V -> string) (d : dict V) :
  exists c r, Encoder.dumps_dict item d = String c r /\ is_ws c = false.
Proof. unfold Encoder.dumps_dict. eexists. eexists. split; reflexivity. Qed.

End ParseFacts.

(** ** The ledger read back *)

Module LedgerFacts.
Import Json DictFacts TextFacts DigitFacts MoneyFacts ParseFacts.
Local Open Scope string_scope.

Lemma members_length {V : Type} (item : V -> string) (d : dict V) :
  forall k v,
  (4 * S (List.length d) <= String.length (members_text item k v d))%nat.
Proof.
  induction d as [| [k' v'] d IH]; intros k v; rewrite members_text_eq;
    rewrite length_app; cbn [String.length append];
    rewrite length_app; cbn [String.length append List.length].
  - lia.
  - specialize (IH k' v'). cbn [List.length] in IH. lia.
Qed.

(** [json.loads] on the text of a dict that is not empty. *)
Lemma loads_dumps_dict (lib : library) {V : Type} (item : V -> string)
    (val : V -> value) (good : V -> Prop) (d : dict V) :
  (forall v, good v -> exists c r, item v = String c r /\ is_ws c = false) ->
  (forall v fuel rest, good v -> (3 <= fuel)%nat ->
     scan_once lib fuel (item v ++ rest) = Found (val v) rest) ->
  Forall (fun kv => all_chars json_safe (fst kv) = true /\ good (snd kv)) d ->
  NoDup (dict_keys d) ->
  loads lib (Encoder.dumps_dict item d)
  = Ok (JDict (map (fun kv => (fst kv, val (snd kv))) d)).
Proof.
  intros Hhead Hscan Hall Hnd.
  destruct d as [| [k v] d]; [destruct lib; reflexivity |].
  unfold loads.
  assert (Hbom : strip_bom lib (Encoder.dumps_dict item ((k, v) :: d))
                 = Encoder.dumps_dict item ((k, v) :: d))
    by (destruct lib; reflexivity).
  rewrite Hbom.
  destruct (dumps_dict_head item ((k, v) :: d)) as (c & r & Hcr & Hc).
  assert (Hskip : skip_ws (Encoder.dumps_dict item ((k, v) :: d))
                  = Encoder.dumps_dict item ((k, v) :: d)).
  { rewrite Hcr. cbn [skip_ws]. now rewrite Hc. }
  rewrite Hskip.
  rewrite <- (app_nil_r (Encoder.dumps_dict item ((k, v) :: d))) at 2.
  rewrite (scan_dumps_dict lib item val 3 good Hhead Hscan _ _ "" Hall Hnd).
  - reflexivity.
  - rewrite dumps_dict_members
      by (eapply Forall_impl; [| exact Hall]; now intros kv [H _]).
    cbn [String.length]. pose proof (members_length item d k v).
    cbn [List.length]. lia.
Qed.

Lemma replace_repr_dict {V : Type} (ritem item : V -> string) (d : dict V) :
  (forall kv, In kv d ->
     plain_text (fst kv) = true
     /\ Text.replace "'" dquote (ritem (snd kv)) = item (snd kv)) ->
  Text.replace "'" dquote (Encoder.repr_dict ritem d)
  = Encoder.dumps_dict item d.
Proof.
  intros H. unfold Encoder.repr_dict, Encoder.dumps_dict.
  rewrite !replace_app, replace_concat, map_map.
  change (Text.replace "'" dquote "{") with "{".
  change (Text.replace "'" dquote "}") with "}".
  change (Text.replace "'" dquote ", ") with ", ".
  f_equal. f_equal. f_equal. apply map_ext_in. intros kv Hkv.
  destruct (H kv Hkv) as (Hk & Hi).
  rewrite !replace_app, (replace_repr_str _ Hk), Hi. reflexivity.
Qed.

Lemma repr_dict_safe {V : Type} (ritem : V -> string) (d : dict V) :
  (forall kv, In kv d ->
     plain_text (fst kv) = true
     /\ all_chars json_safe (ritem (snd kv)) = true) ->
  all_chars json_safe (Encoder.repr_dict ritem d) = true.
Proof.
  intros H. unfold Encoder.repr_dict.
  rewrite !all_chars_app, all_chars_concat; [reflexivity | reflexivity |].
  apply Forall_map. apply Forall_forall. intros kv Hkv.
  destruct (H kv Hkv) as (Hk & Hi).
  rewrite !all_chars_app, (repr_str_safe _ Hk), Hi. reflexivity.
Qed.

Lemma scan_entry (lib : library) (e : Spec.TaxEntry) (fuel : nat)
    (rest : string) :
  good_entry e -> (3 <= fuel)%nat ->
  scan_once lib fuel (entry_text e ++ rest) = Found (entry_value e) rest.
Proof.
  intros [Hp Ha] Hfuel. unfold entry_text.
  rewrite (scan_dumps_dict lib Encoder.dumps_str JStr 1
             (fun s => all_chars json_safe s = true)).
  - reflexivity.
  - intros s _. apply dumps_str_head.
  - intros s f r Hs Hf. now apply scan_dumps_str.
  - constructor; [| constructor]. cbn [fst snd].
    split; apply plain_safe, money_text_plain; assumption.
  - repeat constructor. intros [].
  - cbn [List.length]. lia.
Qed.

Lemma loads_breakdown (lib : library) (b : dict Spec.TaxEntry) :
  NoDup (dict_keys b) ->
  (forall ty e, In (ty, e) b -> plain_text ty = true /\ good_entry e) ->
  loads lib (Encoder.dumps_dict entry_text b)
  = Ok (JDict (map (fun kv => (fst kv, entry_value (snd kv))) b)).
Proof.
  intros Hnd Hb.
  apply (loads_dumps_dict lib entry_text entry_value good_entry).
  - intros e _. apply dumps_dict_head.
  - intros e fuel rest He Hf. now apply scan_entry.
  - apply Forall_forall. intros [ty e] Hin. cbn [fst snd].
    destruct (Hb ty e Hin) as (Hty & He). split; [now apply plain_safe | exact He].
  - exact Hnd.
Qed.

Lemma replace_entry (e : Spec.TaxEntry) :
  good_entry e ->
  Text.replace "'" dquote
    (Encoder.repr_dict Encoder.repr_str
       [(Decimal.to_str (Spec.percentage e), Decimal.to_str (Spec.amount e))])
  = entry_text e.
Proof.
  intros [Hp Ha]. apply replace_repr_dict.
  intros kv [<- | []]. cbn [fst snd].
  split; [now apply money_text_plain |].
  apply replace_repr_str. now apply money_text_plain.
Qed.

Lemma entry_safe (e : Spec.TaxEntry) :
  good_entry e ->
  all_chars json_safe
    (Encoder.repr_dict Encoder.repr_str
       [(Decimal.to_str (Spec.percentage e), Decimal.to_str (Spec.amount e))])
  = true.
Proof.
  intros [Hp Ha]. apply repr_dict_safe.
  intros kv [<- | []]. cbn [fst snd].
  split; [now apply money_text_plain |].
  apply repr_str_safe. now apply money_text_plain.
Qed.

(** The quote substitution of the decoder turns the text of a breakdown
    into its JSON. *)
Lemma replace_breakdown (b : dict Spec.TaxEntry) :
  (forall ty e, In (ty, e) b -> plain_text ty = true /\ good_entry e) ->
  Text.replace "'" dquote (Encoder.breakdown_text b)
  = Encoder.dumps_dict entry_text b.
Proof.
  intros Hb. unfold Encoder.breakdown_text. apply replace_repr_dict.
  intros [ty e] Hin. cbn [fst snd]. destruct (Hb ty e Hin) as (Hty & He).
  split; [exact Hty | now apply replace_entry].
Qed.

Lemma breakdown_safe (b : dict Spec.TaxEntry) :
  (forall ty e, In (ty, e) b -> plain_text ty = true /\ good_entry e) ->
  all_chars json_safe (Encoder.breakdown_text b) = true.
Proof.
  intros Hb. unfold Encoder.breakdown_text. apply repr_dict_safe.
  intros [ty e] Hin. cbn [fst snd]. destruct (Hb ty e Hin) as (Hty & He).
  split; [exact Hty | now apply entry_safe].
Qed.

Lemma of_int_zero : Float.of_int 0 = Ok Float.zero.
Proof. reflexivity. Qed.

(** The loop that adds the amounts of a decoded breakdown. *)
Lemma add_amounts_entry (tax : num) (e : Spec.TaxEntry) :
  good_entry e ->
  add_amounts tax (entry_value e)
  = py_add tax (PyFloat (nearest_float (Spec.amount e))).
Proof.
  intros [_ Ha]. unfold entry_value. cbn [add_amounts for_each snd py_float].
  rewrite (float_of_money_text _ Ha). cbn [bind].
  destruct (py_add tax _); reflexivity.
Qed.

Lemma add_taxes_from (b : dict Spec.TaxEntry) : forall f,
  (forall ty e, In (ty, e) b -> good_entry e) ->
  for_each (fun tax iv => add_amounts tax (snd iv))
    (map (fun kv => (fst kv, entry_value (snd kv))) b) (PyFloat f)
  = Ok (PyFloat
          (fold_left Float.add
             (map (fun kv => nearest_float (Spec.amount (snd kv))) b) f)).
Proof.
  induction b as [| [ty e] b IH]; intros f Hb; [reflexivity |].
  cbn [map for_each fst snd fold_left].
  rewrite (add_amounts_entry _ e (Hb ty e (or_introl eq_refl))).
  cbn [py_add bind]. apply IH. intros ty' e' Hin. apply (Hb ty' e'). now right.
Qed.

Lemma add_taxes_texts (b : dict Spec.TaxEntry) :
  (forall ty e, In (ty, e) b -> good_entry e) ->
  exists tax,
    add_taxes (PyInt 0)
      (JDict (map (fun kv => (fst kv, entry_value (snd kv))) b)) = Ok tax
    /\ float_of_num tax
       = Ok (float_sum
               (map (fun kv => nearest_float (Spec.amount (snd kv))) b)).
Proof.
  intros Hb. cbn [add_taxes]. destruct b as [| [ty e] b].
  - exists (PyInt 0). split; reflexivity.
  - cbn [map for_each fst snd].
    rewrite (add_amounts_entry _ e (Hb ty e (or_introl eq_refl))).
    cbn [py_add]. rewrite of_int_zero. cbn [bind].
    rewrite add_taxes_from
      by (intros ty' e' Hin; apply (Hb ty' e'); now right).
    eexists. split; reflexivity.
Qed.

(** The decoder on the entry of a vendor. *)
Lemma decode_totals (lib : library) (t : Spec.CartTotals) :
  good_totals t -> totals_of_data lib (totals_value t) = Ok (decoded t).
Proof.
  intros (Hs & Hnd & Hb). unfold totals_of_data, totals_value.
  cbn [py_items bind for_each decode_item ds_subtotal ds_tax ds_tax_dict].
  rewrite (float_of_money_text _ Hs). cbn [bind py_add].
  rewrite of_int_zero. cbn [bind py_replace].
  rewrite (add_zero_l _ (nearest_float_not_negative_zero _)).
  rewrite (replace_breakdown _ Hb), (loads_breakdown _ _ Hnd Hb).
  cbn [bind py_update].
  rewrite dict_update_empty
    by (unfold dict_keys in *; rewrite map_map; exact Hnd).
  destruct (add_taxes_texts (Spec.breakdown t)) as (tax & Htax & Hfloat).
  { intros ty e Hin. exact (proj2 (Hb ty e Hin)). }
  rewrite Htax. cbn [bind ds_subtotal ds_tax ds_tax_dict float_of_num].
  rewrite Hfloat. reflexivity.
Qed.

Lemma scan_totals (lib : library) (t : Spec.CartTotals) (fuel : nat)
    (rest : string) :
  good_totals t -> (3 <= fuel)%nat ->
  scan_once lib fuel (totals_text t ++ rest) = Found (totals_value t) rest.
Proof.
  intros (Hs & Hnd & Hb) Hfuel. unfold totals_text.
  rewrite (scan_dumps_dict lib Encoder.dumps_str JStr 1
             (fun s => all_chars json_safe s = true)).
  - reflexivity.
  - intros s _. apply dumps_str_head.
  - intros s f r Hsafe Hf. now apply scan_dumps_str.
  - constructor; [| constructor]. cbn [fst snd]. split.
    + now apply plain_safe, money_text_plain.
    + now apply breakdown_safe.
  - repeat constructor. intros [].
  - cbn [List.length]. lia.
Qed.

Lemma good_totals_of (ledger : Spec.Ledger) (v : Z) (t : Spec.CartTotals) :
  readable_ledger ledger -> In (v, t) ledger -> good_totals t.
Proof.
  intros H Hin. split; [| split].
  - exact (subtotals_money _ H v t Hin).
  - exact (types_once _ H v t Hin).
  - intros ty e He. destruct (entries_plain _ H v t ty e Hin He) as (Hty & Hp & Ha).
    split; [exact Hty | split; assumption].
Qed.

Lemma NoDup_map_injective {A B : Type} (f : A -> B) (l : list A) :
  (forall a b, f a = f b -> a = b) -> NoDup l -> NoDup (map f l).
Proof.
  intros Hf. induction 1 as [| a l Ha Hl IH]; cbn [map]; constructor; [| exact IH].
  intros Hin. apply in_map_iff in Hin. destruct Hin as (b & Hb & Hin).
  apply Hf in Hb. now subst b.
Qed.

(** [json.loads] on the text of a ledger. *)
Lemma loads_encode (lib : library) (ledger : Spec.Ledger) :
  readable_ledger ledger ->
  loads lib (Encoder.encode ledger)
  = Ok (JDict
          (map (fun vt => (Text.str_int (fst vt), totals_value (snd vt)))
             ledger)).
Proof.
  intros H. unfold Encoder.encode. fold totals_text.
  rewrite (loads_dumps_dict lib totals_text totals_value good_totals).
  - now rewrite map_map.
  - intros t _. apply dumps_dict_head.
  - intros t fuel rest Ht Hf. now apply scan_totals.
  - apply Forall_map. apply Forall_forall. intros [v t] Hin. cbn [fst snd].
    split; [apply plain_safe, str_int_plain | exact (good_totals_of _ v t H Hin)].
  - unfold dict_keys. rewrite map_map. cbn [fst].
    rewrite <- (map_map fst Text.str_int).
    apply NoDup_map_injective; [exact str_int_inj | exact (vendors_once _ H)].
Qed.

End LedgerFacts.

(** ** The round trip of the ledger *)

Module RoundTripClaim.
Import Json DictFacts DigitFacts MoneyFacts LedgerFacts.

Lemma encoded_keys (ledger : Spec.Ledger) :
  dict_keys
    (map (fun vt => (Text.str_int (fst vt), totals_value (snd vt))) ledger)
  = map Text.str_int (map fst ledger).
Proof. unfold dict_keys. now rewrite !map_map. Qed.

(** C1 (as amended): decoding the encoded form of a ledger does not
    give the ledger back as it was; for a ledger that holds each vendor
    once, each tax type once in a breakdown and written in plain
    characters, and amounts of money with two decimal places, the query
    for a vendor of the ledger returns the subtotal as the double
    nearest to it, the breakdown with each percentage and amount as its
    decimal text, and as the grand total the floating-point sum of the
    subtotal and of the amounts of the breakdown.  The texts of the
    breakdown denote the percentages and the amounts exactly.  For a
    vendor id that the ledger does not hold, and so for every id on a
    ledger of zero vendors, the query fails with AttributeError. *)
Theorem ledger_read_back (ledger : Spec.Ledger) :
  readable_ledger ledger ->
  (forall v t, In (v, t) ledger ->
     order_total_by_vendor (Encoder.placed ledger) v = Ok (decoded t))
  /\ (forall v, ~ In v (map fst ledger) ->
        order_total_by_vendor (Encoder.placed ledger) v = Raise AttributeError)
  /\ (forall v t ty e, In (v, t) ledger -> In (ty, e) (Spec.breakdown t) ->
        decimal_text_value (Decimal.to_str (Spec.percentage e))
        = Some (Decimal.value (Spec.percentage e))
        /\ decimal_text_value (Decimal.to_str (Spec.amount e))
           = Some (Decimal.value (Spec.amount e))).
Proof.
  intros H.
  assert (Hnd : NoDup
            (dict_keys
               (map (fun vt => (Text.str_int (fst vt), totals_value (snd vt)))
                  ledger))).
  { rewrite encoded_keys.
    apply NoDup_map_injective; [exact str_int_inj | exact (vendors_once _ H)]. }
  split; [| split].
  - intros v t Hin. unfold order_total_by_vendor, Encoder.placed.
    cbv zeta. cbn [Order.total_data json_loads]. rewrite (loads_encode _ _ H).
    cbn [bind py_get].
    rewrite (In_dict_get (Text.str_int v) (totals_value t) _ Hnd).
    + apply decode_totals. exact (good_totals_of _ v t H Hin).
    + apply in_map_iff. exists (v, t). split; [reflexivity | exact Hin].
  - intros v Hv. unfold order_total_by_vendor, Encoder.placed.
    cbv zeta. cbn [Order.total_data json_loads]. rewrite (loads_encode _ _ H).
    cbn [bind py_get].
    assert (Hget : dict_get (Text.str_int v)
                     (map (fun vt => (Text.str_int (fst vt),
                                      totals_value (snd vt))) ledger)
                   = None).
    { apply dict_get_None. rewrite encoded_keys. intros Hin.
      apply in_map_iff in Hin. destruct Hin as (v' & Heq & Hin).
      apply str_int_inj in Heq. subst v'. exact (Hv Hin). }
    rewrite Hget. reflexivity.
  - intros v t ty e Hin He.
    destruct (entries_plain _ H v t ty e Hin He) as (_ & Hp & Ha).
    split; now apply money_text_value.
Qed.

(** C1, the claim as worded fails.  The ledger of the sample order
    holds for vendor 1 a subtotal of 0.70, a tax of 0.10 and a grand
    total of 0.80; decoding its encoded form gives a grand total of
    0.7999999999999999, and a subtotal that is the double nearest to
    0.70, not 0.70.  A ledger with the tax type [Kid's] does not decode
    at all. *)
Lemma decoded_ledger_differs :
  Encoder.encode ledger_of_two = sample_ledger
  /\ (exists vt s g,
        order_total_by_vendor (Encoder.placed ledger_of_two) 1 = Ok vt
        /\ num_value (VendorTotals.subtotal vt) = Some s
        /\ num_value (VendorTotals.grand_total vt) = Some g
        /\ ~ (s == Decimal.value (Spec.subtotal totals_070))%Q
        /\ ~ (g == Decimal.value (Spec.grand_total totals_070))%Q)
  /\ order_total_by_vendor (Encoder.placed ledger_with_apostrophe) 1
     = Raise JSONDecodeError.
Proof.
  split; [vm_compute; reflexivity |]. split.
  - eexists. eexists. eexists.
    split; [vm_compute; reflexivity |].
    split; [vm_compute; reflexivity |].
    split; [vm_compute; reflexivity |].
    split; vm_compute; discriminate.
  - vm_compute. reflexivity.
Qed.

End RoundTripClaim.

(** ** Examples *)

(** C3, the claim as worded fails: with no line in the cart of Alice
    and the active rule CGST of 9.00, the breakdown has the entry of
    CGST with the amount 0.00, and the tax and the grand total are the
    Decimal 0.00. *)
Lemma empty_cart_breakdown_has_entries :
  filter (fun item => Cart.user item =? User.id alice) (carts (shop [] [CGST])) = []
  /\ get_cart_amounts (as_user alice) (shop [] [CGST])
     = Ok (CartAmounts.mk (PyInt 0) (PyDecimal (cents 0)) (PyDecimal (cents 0))
             [("CGST", [("9.00", cents 0)])])
  /\ get_cart_amounts (as_user alice) (shop [] [CGST])
     <> Ok (CartAmounts.mk (PyInt 0) (PyInt 0) (PyInt 0) []).
Proof.
  split; [reflexivity |]. split; [reflexivity |]. discriminate.
Qed.

(** The empty cart of Alice with the rules CGST and SGST. *)
Lemma empty_cart_amounts_witness :
  exists r, get_cart_amounts (as_user alice) (shop [] [CGST; SGST]) = Ok r
    /\ CartAmounts.subtotal r = PyInt 0
    /\ is_zero (CartAmounts.tax r)
    /\ is_zero (CartAmounts.grand_total r)
    /\ (forall ty, In ty (dict_keys (CartAmounts.tax_dict r)) <->
          Request.user (as_user alice) <> None
          /\ exists i, In i (taxes (shop [] [CGST; SGST])) /\ Tax.is_active i = true
                       /\ Tax.tax_type i = ty)
    /\ (forall ty entry, In (ty, entry) (CartAmounts.tax_dict r) ->
          exists i, In i (taxes (shop [] [CGST; SGST])) /\ Tax.is_active i = true
            /\ Tax.tax_type i = ty
            /\ entry = [(Decimal.to_str (Tax.tax_percentage i),
                         Decimal.mk 0 (-2))]).
Proof.
  apply (CartFacts.empty_cart_amounts (as_user alice) (shop [] [CGST; SGST])).
  intros user [= <-]. reflexivity.
Defined.

(** Two tacos with the rules CGST 9.00, SGST 7.00 and CGST 10.00, and
    with CGST 12.00 in place of the first rule: the same result, with
    the entry of CGST at 10.00. *)
Lemma breakdown_last_write_wins_witness :
  (exists amount,
      tax_amount (Tax.tax_percentage CGST_10) (PyDecimal (cents 10000)) = Ok amount
      /\ dict_get "CGST" [("CGST", [("10.00", cents 1000)]); ("SGST", [("7.00", cents 700)])]
         = Some [(Decimal.to_str (Tax.tax_percentage CGST_10), amount)])
  /\ NoDup (dict_keys [("CGST", [("10.00", cents 1000)]); ("SGST", [("7.00", cents 700)])])
  /\ CartAmounts.mk (PyDecimal (cents 10000)) (PyDecimal (cents 1700)) (PyDecimal (cents 11700))
         [("CGST", [("10.00", cents 1000)]); ("SGST", [("7.00", cents 700)])]
     = CartAmounts.mk (PyDecimal (cents 10000)) (PyDecimal (cents 1700)) (PyDecimal (cents 11700))
         [("CGST", [("10.00", cents 1000)]); ("SGST", [("7.00", cents 700)])].
Proof.
  apply (CartFacts.breakdown_last_write_wins (as_user alice) alice
           (shop two_tacos [CGST; SGST; CGST_10]) (shop two_tacos [CGST_12; SGST; CGST_10])
           [] [SGST] [] CGST CGST_12 CGST_10
           (CartAmounts.mk (PyDecimal (cents 10000)) (PyDecimal (cents 1700)) (PyDecimal (cents 11700))
              [("CGST", [("10.00", cents 1000)]); ("SGST", [("7.00", cents 700)])])
           (CartAmounts.mk (PyDecimal (cents 10000)) (PyDecimal (cents 1700)) (PyDecimal (cents 11700))
              [("CGST", [("10.00", cents 1000)]); ("SGST", [("7.00", cents 700)])]));
    try reflexivity.
  intros j [].
Defined.

(** The sample cart is in the range of its fields. *)
Lemma sample_cart_in_range (rules : list Tax.t) :
  Forall (fun i => decimal_field 4 2 (Tax.tax_percentage i)) rules ->
  Z.of_nat (List.length (filter Tax.is_active rules)) <= 10000 ->
  cart_in_range alice (shop two_tacos rules).
Proof.
  intros Hrules Hlen. constructor.
  - intros f [<- | [<- | []]]; split; vm_compute; reflexivity.
  - intros item [<- | []]. vm_compute. split; discriminate.
  - intros i Hin. exact (proj1 (Forall_forall _ _) Hrules i Hin).
  - vm_compute. discriminate.
  - exact Hlen.
Qed.

Lemma sample_rules_in_range :
  Forall (fun i => decimal_field 4 2 (Tax.tax_percentage i)) [CGST; SGST].
Proof. repeat constructor. Qed.

(** C4, the claim as worded fails: vendor 3 is absent from the ledger
    of the sample order, and the query fails with AttributeError, which
    is not an error named VendorNotInOrder. *)
Lemma absent_vendor_attribute_error :
  (exists d, json_loads Json.SimpleJson (Order.total_data sample_order)
             = Ok (Json.JDict d)
             /\ dict_get (Text.str_int 3) d = None)
  /\ order_total_by_vendor sample_order 3 = Raise AttributeError
  /\ exn_name AttributeError <> "VendorNotInOrder".
Proof.
  split; [| split].
  - eexists. split; vm_compute; reflexivity.
  - vm_compute. reflexivity.
  - discriminate.
Qed.

Lemma absent_vendor_raises_witness :
  order_total_by_vendor sample_order 3 = Raise AttributeError.
Proof.
  destruct (DecodeFacts.absent_vendor_raises sample_order 3) as [H _].
  eapply H.
  - vm_compute. reflexivity.
  - vm_compute. reflexivity.
Defined.

(** C5, the claim as worded fails for the method of the model: on the
    same order, behind the middleware, the request of Alice gets the
    totals of vendor 1 and the request of Bob those of vendor 2; before
    the middleware has stored a request the method fails. *)
Lemma vendor_totals_follow_the_request :
  fst (request_object_middleware (totals_view vendors_db sample_order)
         (mk_globals None) (as_user alice))
  = order_total_by_vendor sample_order 1
  /\ fst (request_object_middleware (totals_view vendors_db sample_order)
            (mk_globals None) (as_user bob))
     = order_total_by_vendor sample_order 2
  /\ order_total_by_vendor sample_order 1 <> order_total_by_vendor sample_order 2
  /\ get_total_by_vendor (mk_globals None) vendors_db sample_order
     = Raise AttributeError.
Proof.
  split; [vm_compute; reflexivity |].
  split; [vm_compute; reflexivity |].
  split; [vm_compute; discriminate | reflexivity].
Qed.

Lemma vendor_totals_depend_on_witness :
  get_total_by_vendor (mk_globals (Some (as_user alice))) vendors_db sample_order
  = get_total_by_vendor (mk_globals (Some (as_user alice)))
      (mk_database [alice] [] sample_vendors [] [] [] []) sample_order
  /\ (truthy (Order.total_data sample_order) = true ->
      get_total_by_vendor (mk_globals (Some (as_user alice))) vendors_db sample_order
      = totals_by_vendor Json.StdJson (Order.total_data sample_order) 1)
  /\ order_total_by_vendor sample_order 1
     = totals_by_vendor Json.SimpleJson (Order.total_data sample_order) 1.
Proof.
  destruct DecodeFacts.vendor_totals_depend_on as [_ H].
  apply (H (mk_globals (Some (as_user alice))) (mk_globals (Some (as_user alice)))
           vendors_db (mk_database [alice] [] sample_vendors [] [] [] [])
           sample_order sample_order (as_user alice) (as_user alice) alice alice
           (Vendor.mk 1 1 1 "Tacos" true) (Vendor.mk 1 1 1 "Tacos" true));
    reflexivity.
Defined.

Lemma sample_lines_resolve (rules : list Tax.t) :
  lines_resolve alice (shop two_tacos rules).
Proof.
  intros item [<- | []] _. eexists. reflexivity.
Qed.


Lemma breakdown_amount_is_rounded_witness :
  exists r amount subtotal,
    get_cart_amounts (as_user alice) (shop two_tacos [CGST; SGST]) = Ok r
    /\ dict_get "CGST" (CartAmounts.tax_dict r)
       = Some [(Decimal.to_str (cents 900), amount)]
    /\ num_value (CartAmounts.subtotal r) = Some subtotal
    /\ (Decimal.value amount
        == round2 (Decimal.value (cents 900) * subtotal / 100))%Q.
Proof.
  apply (RoundingClaim.breakdown_amount_is_rounded (as_user alice) alice
           (shop two_tacos [CGST; SGST]) CGST).
  - reflexivity.
  - apply sample_cart_in_range.
    + exact sample_rules_in_range.
    + vm_compute. discriminate.
  - apply sample_lines_resolve.
  - vm_compute. repeat constructor; simpl; intuition discriminate.
  - left. reflexivity.
  - reflexivity.
Defined.

(** The example of the specification: a subtotal of 100.00 with the
    rules CGST 9% and SGST 7% gives the amounts 9.00 and 7.00, a tax of
    16.00 and a grand total of 116.00. *)
Lemma scenario_of_the_specification :
  get_cart_amounts (as_user alice) (shop two_tacos [CGST; SGST])
  = Ok (CartAmounts.mk (PyDecimal (cents 10000)) (PyDecimal (cents 1600))
          (PyDecimal (cents 11600))
          [("CGST", [("9.00", cents 900)]); ("SGST", [("7.00", cents 700)])]).
Proof. vm_compute. reflexivity. Qed.

(** C8, the claim as worded fails: with no line in the cart of Alice,
    checkout raises no error; it redirects to the marketplace. *)
Lemma checkout_empty_cart_redirects :
  filter (fun item => Cart.user item =? User.id alice) (carts (shop [] [CGST]))
  = []
  /\ checkout (as_user alice) (shop [] [CGST])
     = Ok (Redirect "marketplace", shop [] [CGST])
  /\ (forall e, checkout (as_user alice) (shop [] [CGST]) <> Raise e).
Proof.
  split; [reflexivity |]. split; [reflexivity |]. intros e. discriminate.
Qed.

Lemma checkout_empty_cart_witness :
  checkout (as_user alice) (shop [] [CGST])
  = Ok (Redirect "marketplace", shop [] [CGST])
  /\ (forall e, checkout (as_user alice) (shop [] [CGST]) <> Raise e)
  /\ (forall request' db' r,
        checkout request' (shop [] [CGST]) = Ok (r, db') ->
        orders db' = orders (shop [] [CGST])).
Proof.
  apply (ViewFacts.checkout_empty_cart (as_user alice) (shop [] [CGST])).
  intros user [= <-]. reflexivity.
Defined.



Lemma home_discovery_witness :
  exists listed,
    home read_point grid_distance from_origin town
    = Ok (Render "home.html" (HomeContext.mk listed),
          Request.mk None [("lat", "0"); ("lng", "0")]
            [("lat", Some "0"); ("lng", Some "0")])
    /\ (forall v, In v (map vendor listed) <->
          In v (vendors town)
          /\ exists loc, vendor_location town v = Some loc
                         /\ (grid_distance loc (degrees 0 0) <= 1000000)%Q).
Proof.
  destruct (DiscoveryClaims.home_discovery read_point grid_distance
              from_origin town) as [H _].
  apply (H (Some "0") (Some "0")); vm_compute; reflexivity.
Defined.

(** From the origin the home page lists "Tacos", which is not approved;
    with no origin it lists "Burritos" alone. *)
Lemma home_lists_unapproved :
  (exists listed request',
      home read_point grid_distance from_origin town
      = Ok (Render "home.html" (HomeContext.mk listed), request')
      /\ map (fun l => Vendor.vendor_name (vendor l)) listed
         = ["Burritos"; "Tacos"]
      /\ map (fun l => Vendor.is_approved (vendor l)) listed = [true; false])
  /\ (exists listed request',
      home read_point grid_distance (Request.mk None [] []) town
      = Ok (Render "home.html" (HomeContext.mk listed), request')
      /\ map (fun l => Vendor.vendor_name (vendor l)) listed = ["Burritos"]).
Proof.
  split; eexists; eexists; (split; [vm_compute; reflexivity |]);
    repeat split; vm_compute; reflexivity.
Qed.

(** The ledger of the sample order is one the decoder reads back. *)
Lemma ledger_of_two_readable : readable_ledger ledger_of_two.
Proof.
  constructor.
  - repeat constructor; cbn; intuition discriminate.
  - intros v t [[= <- <-] | [[= <- <-] | []]]; split; cbn; lia.
  - intros v t [[= <- <-] | [[= <- <-] | []]]; repeat constructor; cbn;
      intuition discriminate.
  - intros v t ty e [[= <- <-] | [[= <- <-] | []]] He; cbn in He;
      repeat (destruct He as [[= <- <-] | He]; [repeat split; cbn; lia |]);
      destruct He.
Qed.

Lemma ledger_read_back_witness :
  (forall v t, In (v, t) ledger_of_two ->
     order_total_by_vendor (Encoder.placed ledger_of_two) v = Ok (decoded t))
  /\ (forall v, ~ In v (map fst ledger_of_two) ->
        order_total_by_vendor (Encoder.placed ledger_of_two) v
        = Raise AttributeError)
  /\ (forall v t ty e, In (v, t) ledger_of_two ->
        In (ty, e) (Spec.breakdown t) ->
        decimal_text_value (Decimal.to_str (Spec.percentage e))
        = Some (Decimal.value (Spec.percentage e))
        /\ decimal_text_value (Decimal.to_str (Spec.amount e))
           = Some (Decimal.value (Spec.amount e))).
Proof.
  apply (RoundTripClaim.ledger_read_back ledger_of_two).
  exact ledger_of_two_readable.
Defined.

(** * Part III: the cart views, the listings and the order numbers *)

(** ** Sums and rows *)

Module RowFacts.

Lemma Zsum_app (l l' : list Z) : Zsum (l ++ l') = Zsum l + Zsum l'.
Proof. induction l as [| x l IH]; cbn [Zsum app]; lia. Qed.

Lemma Zsum_perm (l l' : list Z) : Permutation l l' -> Zsum l = Zsum l'.
Proof. induction 1; cbn [Zsum]; lia. Qed.

Lemma fold_left_sum {A : Type} (q : A -> Z) (l : list A) (a : Z) :
  fold_left (fun acc x => acc + q x) l a = a + Zsum (map q l).
Proof.
  revert a. induction l as [| x l IH]; intros a; cbn [fold_left map Zsum].
  - lia.
  - rewrite IH. lia.
Qed.

Lemma filter_none {A : Type} (p : A -> bool) (l : list A) :
  (forall x, In x l -> p x = false) -> filter p l = [].
Proof.
  induction l as [| x l IH]; intros H; cbn [filter]; [reflexivity |].
  rewrite (H x (or_introl eq_refl)). apply IH. intros y Hy. apply H. now right.
Qed.

Lemma filter_all {A : Type} (p : A -> bool) (l : list A) :
  (forall x, In x l -> p x = true) -> filter p l = l.
Proof.
  induction l as [| x l IH]; intros H; cbn [filter]; [reflexivity |].
  rewrite (H x (or_introl eq_refl)). f_equal. apply IH.
  intros y Hy. apply H. now right.
Qed.

Lemma delete_row_absent (row : Cart.t) (rows : list Cart.t) :
  ~ In (Cart.id row) (map Cart.id rows) -> delete_row row rows = rows.
Proof.
  intros H. unfold delete_row. apply filter_all. intros c Hc.
  destruct (Cart.id c =? Cart.id row) eqn:E; [| reflexivity].
  apply Z.eqb_eq in E. exfalso. apply H. rewrite <- E. now apply in_map.
Qed.

(** A row of a table with a key is at one place. *)
Lemma split_at (c : Cart.t) (rows : list Cart.t) :
  NoDup (map Cart.id rows) -> In c rows ->
  exists before after,
    rows = before ++ c :: after
    /\ ~ In (Cart.id c) (map Cart.id before)
    /\ ~ In (Cart.id c) (map Cart.id after).
Proof.
  intros Hnd Hin. destruct (in_split _ _ Hin) as (before & after & ->).
  exists before, after. split; [reflexivity |].
  rewrite map_app in Hnd. cbn [map] in Hnd.
  pose proof (NoDup_remove_2 _ _ _ Hnd) as H.
  split; intros Hc; apply H; apply in_or_app; [now left | now right].
Qed.

Lemma delete_row_at (row c : Cart.t) (before after : list Cart.t) :
  Cart.id row = Cart.id c ->
  ~ In (Cart.id c) (map Cart.id before) ->
  ~ In (Cart.id c) (map Cart.id after) ->
  delete_row row (before ++ c :: after) = before ++ after.
Proof.
  intros Hid Hb Ha. rewrite <- Hid in Hb, Ha.
  unfold delete_row. rewrite filter_app. cbn [filter].
  fold (delete_row row before). fold (delete_row row after).
  rewrite (delete_row_absent _ _ Hb), (delete_row_absent _ _ Ha).
  rewrite Hid, Z.eqb_refl. reflexivity.
Qed.

Lemma existsb_id (c : Cart.t) (rows : list Cart.t) :
  In c rows -> existsb (fun x => Cart.id x =? Cart.id c) rows = true.
Proof.
  intros H. apply existsb_exists. exists c.
  split; [exact H | apply Z.eqb_refl].
Qed.

Lemma update_row_at (row c : Cart.t) (before after : list Cart.t) :
  Cart.id row = Cart.id c ->
  ~ In (Cart.id c) (map Cart.id before) ->
  ~ In (Cart.id c) (map Cart.id after) ->
  update_row row (before ++ c :: after) = before ++ after ++ [row].
Proof.
  intros Hid Hb Ha. unfold update_row.
  rewrite Hid, (existsb_id c) by (apply in_or_app; right; now left).
  rewrite (delete_row_at row c) by assumption.
  now rewrite <- app_assoc.
Qed.

(** The row at the place of [c], moved behind the others. *)
Lemma moved_perm {A : Type} (c : A) (before after : list A) :
  Permutation (before ++ after ++ [c]) (before ++ c :: after).
Proof.
  apply Permutation_app_head. symmetry. apply Permutation_cons_append.
Qed.

Lemma existsb_fresh (k : Z) (rows : list Cart.t) :
  (forall c, In c rows -> Cart.id c < k) ->
  existsb (fun x => Cart.id x =? k) rows = false.
Proof.
  intros H. destruct (existsb _ rows) eqn:E; [| reflexivity].
  apply existsb_exists in E. destruct E as (c & Hc & E).
  apply Z.eqb_eq in E. specialize (H c Hc). lia.
Qed.

End RowFacts.

(** ** The store *)

Module StoreFacts.
Import RowFacts.

Lemma set_carts_same (db : Database) : set_carts db (carts db) = db.
Proof. now destruct db. Qed.

Lemma NoDup_ids_filter (p : Cart.t -> bool) (rows : list Cart.t) :
  NoDup (map Cart.id rows) -> NoDup (map Cart.id (filter p rows)).
Proof.
  induction rows as [| c rows IH]; cbn [filter map]; intros H; [exact H |].
  inversion H as [| ? ? Hc Hrest]; subst.
  destruct (p c); cbn [map]; [| now apply IH].
  constructor; [| now apply IH].
  intros Hin. apply Hc. apply in_map_iff in Hin.
  destruct Hin as (x & Hx & Hin). apply filter_In in Hin.
  rewrite <- Hx. apply in_map. tauto.
Qed.

Lemma lines_for_In (user : User.t) (food_id : Z) (rows : list Cart.t)
    (c : Cart.t) :
  In c (lines_for user food_id rows)
  <-> In c rows /\ Cart.user c = User.id user /\ Cart.fooditem c = food_id.
Proof.
  unfold lines_for. rewrite filter_In, andb_true_iff, !Z.eqb_eq. tauto.
Qed.

(** With a key and one line for a food item, the lines of a user for a
    food item are none or one. *)
Lemma lines_for_cases (user : User.t) (food_id : Z) (rows : list Cart.t) :
  NoDup (map Cart.id rows) -> one_line_per_food rows ->
  lines_for user food_id rows = []
  \/ exists c, lines_for user food_id rows = [c].
Proof.
  intros Hnd Hone.
  pose proof (NoDup_ids_filter
                (fun c => (Cart.user c =? User.id user)
                          && (Cart.fooditem c =? food_id)) rows Hnd) as Hnd'.
  fold (lines_for user food_id rows) in Hnd'.
  destruct (lines_for user food_id rows) as [| c [| c' l]] eqn:E;
    [now left | right; now exists c |].
  exfalso.
  assert (Hc : In c (lines_for user food_id rows)) by (rewrite E; now left).
  assert (Hc' : In c' (lines_for user food_id rows))
    by (rewrite E; right; now left).
  apply lines_for_In in Hc, Hc'.
  destruct Hc as (Hc & Hu & Hf), Hc' as (Hc' & Hu' & Hf').
  assert (Hid : Cart.id c = Cart.id c')
    by (apply Hone; [assumption | assumption | congruence | congruence]).
  cbn [map] in Hnd'. inversion Hnd' as [| ? ? Hnot _]; subst.
  apply Hnot. rewrite Hid. now left.
Qed.

Lemma get_cart_counter_sum (request : Request.t) (db : Database)
    (user : User.t) :
  Request.user request = Some user ->
  get_cart_counter request db
  = Zsum (map Cart.quantity (lines_of user (carts db))).
Proof.
  intros Hu. unfold get_cart_counter, lines_of. rewrite Hu.
  destruct (filter _ (carts db)) as [| c l]; [reflexivity |].
  now rewrite fold_left_sum.
Qed.

(** *** The statements on rows *)

Lemma save_cart_at (st : Store) (c : Cart.t) (quantity : Z)
    (before after : list Cart.t) :
  carts (tables st) = before ++ c :: after ->
  ~ In (Cart.id c) (map Cart.id before) ->
  ~ In (Cart.id c) (map Cart.id after) ->
  0 <= quantity <= 2147483647 ->
  save_cart (with_quantity c quantity) st
  = (None,
     mk_store
       (set_carts (tables st) (before ++ after ++ [with_quantity c quantity]))
       (cart_id_seq st)).
Proof.
  intros Hrows Hb Ha Hq. unfold save_cart.
  cbn [with_quantity Cart.quantity Cart.id].
  destruct ((quantity <? -2147483648) || (2147483647 <? quantity)) eqn:E1.
  { apply orb_true_iff in E1. destruct E1 as [E1 | E1];
      apply Z.ltb_lt in E1; lia. }
  destruct (quantity <? 0) eqn:E2; [apply Z.ltb_lt in E2; lia |].
  rewrite Hrows.
  rewrite (existsb_id c) by (apply in_or_app; right; now left).
  rewrite (update_row_at _ c) by (assumption || reflexivity).
  reflexivity.
Qed.

Lemma save_cart_refused (st : Store) (row : Cart.t) :
  ~ 0 <= Cart.quantity row <= 2147483647 ->
  exists e, save_cart row st = (Some e, st).
Proof.
  intros Hq. unfold save_cart.
  destruct ((Cart.quantity row <? -2147483648)
            || (2147483647 <? Cart.quantity row)) eqn:E1; [now eexists |].
  apply orb_false_iff in E1. destruct E1 as [E1 E1'].
  apply Z.ltb_ge in E1, E1'.
  destruct (Cart.quantity row <? 0) eqn:E2; [now eexists |].
  apply Z.ltb_ge in E2. lia.
Qed.

Lemma delete_cart_row_at (st : Store) (c : Cart.t)
    (before after : list Cart.t) :
  carts (tables st) = before ++ c :: after ->
  ~ In (Cart.id c) (map Cart.id before) ->
  ~ In (Cart.id c) (map Cart.id after) ->
  delete_cart_row c st
  = mk_store (set_carts (tables st) (before ++ after)) (cart_id_seq st).
Proof.
  intros Hrows Hb Ha. unfold delete_cart_row. rewrite Hrows.
  rewrite (delete_row_at _ c) by (assumption || reflexivity).
  reflexivity.
Qed.

Lemma create_cart_fresh (user fooditem now : Z) (st : Store) :
  (forall c, In c (carts (tables st)) -> Cart.id c <= cart_id_seq st) ->
  let row := Cart.mk (cart_id_seq st + 1) user fooditem 1 now in
  create_cart user fooditem now st
  = (inl row,
     mk_store (set_carts (tables st) (carts (tables st) ++ [row]))
       (cart_id_seq st + 1)).
Proof.
  intros Hseq row. unfold create_cart.
  rewrite existsb_fresh; [reflexivity |].
  intros c Hc. specialize (Hseq c Hc). lia.
Qed.

End StoreFacts.

(** ** The cart after a statement *)

Module CartStateFacts.
Import RowFacts StoreFacts.

Lemma sum_at {A : Type} (p : A -> bool) (q : A -> Z) (before after : list A)
    (c : A) :
  Zsum (map q (filter p (before ++ c :: after)))
  = Zsum (map q (filter p before)) + (if p c then q c else 0)
    + Zsum (map q (filter p after)).
Proof.
  rewrite filter_app, map_app, Zsum_app. cbn [filter].
  destruct (p c); cbn [map Zsum]; lia.
Qed.

Lemma sum_without {A : Type} (p : A -> bool) (q : A -> Z)
    (before after : list A) :
  Zsum (map q (filter p (before ++ after)))
  = Zsum (map q (filter p before)) + Zsum (map q (filter p after)).
Proof. now rewrite filter_app, map_app, Zsum_app. Qed.

Lemma sum_moved {A : Type} (p : A -> bool) (q : A -> Z) (before after : list A)
    (c : A) :
  Zsum (map q (filter p (before ++ after ++ [c])))
  = Zsum (map q (filter p before)) + (if p c then q c else 0)
    + Zsum (map q (filter p after)).
Proof.
  rewrite !filter_app, !map_app, !Zsum_app. cbn [filter].
  destruct (p c); cbn [map Zsum]; lia.
Qed.

Lemma length_moved {A : Type} (p : A -> bool) (before after : list A)
    (c c' : A) :
  p c' = p c ->
  List.length (filter p (before ++ after ++ [c']))
  = List.length (filter p (before ++ c :: after)).
Proof.
  intros H. rewrite !filter_app, !length_app. cbn [filter]. rewrite H.
  destruct (p c); cbn [List.length]; lia.
Qed.

Lemma length_without {A : Type} (p : A -> bool) (before after : list A) (c : A) :
  (List.length (filter p (before ++ after))
   <= List.length (filter p (before ++ c :: after)))%nat.
Proof.
  rewrite !filter_app, !length_app. cbn [filter].
  destruct (p c); cbn [List.length]; lia.
Qed.

Lemma In_at {A : Type} (x c : A) (before after : list A) :
  In x (before ++ c :: after) <-> x = c \/ In x (before ++ after).
Proof.
  rewrite !in_app_iff. cbn [In]. intuition congruence.
Qed.

Lemma In_moved {A : Type} (x c : A) (before after : list A) :
  In x (before ++ after ++ [c]) <-> x = c \/ In x (before ++ after).
Proof.
  rewrite !in_app_iff. cbn [In]. intuition congruence.
Qed.

Lemma ids_moved (c c' : Cart.t) (before after : list Cart.t) :
  Cart.id c' = Cart.id c ->
  NoDup (map Cart.id (before ++ c :: after)) ->
  NoDup (map Cart.id (before ++ after ++ [c'])).
Proof.
  intros Hid Hnd. rewrite !map_app. cbn [map]. rewrite Hid.
  rewrite map_app in Hnd. cbn [map] in Hnd.
  exact (Permutation_NoDup (Permutation_sym (moved_perm _ _ _)) Hnd).
Qed.

Section WellFormed.
Variables (user : User.t) (st : Store).
Hypothesis Hwf : cart_well_formed user st.

Lemma range_of_rows (rows : list Cart.t) :
  (forall item, In item rows -> 0 <= Cart.quantity item <= 2147483647) ->
  Z.of_nat (List.length (lines_of user rows)) <= 10000 ->
  cart_in_range user (set_carts (tables st) rows).
Proof.
  intros Hq Hlen. destruct (wf_range _ _ Hwf) as [Hp _ Ht _ Hr].
  constructor; cbn [set_carts fooditems carts taxes]; assumption.
Qed.

Lemma ids_of_rows (rows : list Cart.t) (seq : Z) :
  NoDup (map Cart.id rows) -> (forall c, In c rows -> Cart.id c <= seq) ->
  cart_ids_sound (mk_store (set_carts (tables st) rows) seq).
Proof. intros H H'. split; assumption. Qed.

Variables (c : Cart.t) (before after : list Cart.t).
Hypothesis Hrows : carts (tables st) = before ++ c :: after.

Lemma row_in : In c (carts (tables st)).
Proof. rewrite Hrows. apply in_or_app. right. now left. Qed.

Lemma rest_in (x : Cart.t) :
  In x (before ++ after) -> In x (carts (tables st)).
Proof. intros H. rewrite Hrows. apply In_at. now right. Qed.

Lemma row_apart :
  ~ In (Cart.id c) (map Cart.id before)
  /\ ~ In (Cart.id c) (map Cart.id after).
Proof.
  destruct (wf_ids _ _ Hwf) as [Hnd _]. rewrite Hrows, map_app in Hnd.
  cbn [map] in Hnd. pose proof (NoDup_remove_2 _ _ _ Hnd) as H.
  split; intros Hc; apply H; apply in_or_app; [now left | now right].
Qed.

Lemma wf_update (quantity : Z) :
  0 <= quantity <= 2147483647 ->
  cart_well_formed user
    (mk_store
       (set_carts (tables st) (before ++ after ++ [with_quantity c quantity]))
       (cart_id_seq st)).
Proof.
  intros Hq. pose proof row_in as Hc.
  destruct (wf_ids _ _ Hwf) as [Hnd Hseq].
  assert (Hkeys : forall x, In x (before ++ after ++ [with_quantity c quantity]) ->
            exists y, In y (carts (tables st))
                      /\ Cart.id x = Cart.id y /\ Cart.user x = Cart.user y
                      /\ Cart.fooditem x = Cart.fooditem y
                      /\ (x = y \/ Cart.quantity x = quantity)).
  { intros x Hx. apply In_moved in Hx. destruct Hx as [-> | Hx].
    - exists c. cbn [with_quantity Cart.id Cart.user Cart.fooditem Cart.quantity].
      repeat split; try assumption. now right.
    - exists x. repeat split; [now apply rest_in | now left]. }
  constructor.
  - apply ids_of_rows.
    + rewrite Hrows in Hnd. now apply (ids_moved c).
    + intros x Hx. destruct (Hkeys x Hx) as (y & Hy & -> & _). now apply Hseq.
  - apply range_of_rows.
    + intros x Hx. destruct (Hkeys x Hx) as (y & Hy & _ & _ & _ & [-> | ->]);
        [| exact Hq].
      exact (quantities_in_range _ _ (wf_range _ _ Hwf) y Hy).
    + pose proof (lines_in_range _ _ (wf_range _ _ Hwf)) as Hlen.
      rewrite Hrows in Hlen. unfold lines_of.
      rewrite (length_moved _ before after c) by reflexivity. lia.
  - intros x Hx Hu. cbn [set_carts tables carts fooditems] in *.
    destruct (Hkeys x Hx) as (y & Hy & _ & Hu' & Hf & _). rewrite Hf.
    apply (wf_resolve _ _ Hwf y Hy). congruence.
  - intros x x' Hx Hx' Hu Hf. cbn [set_carts tables carts] in *.
    destruct (Hkeys x Hx) as (y & Hy & -> & Hyu & Hyf & _).
    destruct (Hkeys x' Hx') as (y' & Hy' & -> & Hyu' & Hyf' & _).
    apply (wf_one_line _ _ Hwf); congruence.
Qed.

Lemma wf_remove :
  cart_well_formed user
    (mk_store (set_carts (tables st) (before ++ after)) (cart_id_seq st)).
Proof.
  destruct (wf_ids _ _ Hwf) as [Hnd Hseq].
  constructor.
  - apply ids_of_rows.
    + rewrite Hrows, map_app in Hnd. cbn [map] in Hnd.
      rewrite map_app. exact (NoDup_remove_1 _ _ _ Hnd).
    + intros x Hx. apply Hseq. now apply rest_in.
  - apply range_of_rows.
    + intros x Hx.
      exact (quantities_in_range _ _ (wf_range _ _ Hwf) x (rest_in x Hx)).
    + pose proof (lines_in_range _ _ (wf_range _ _ Hwf)) as Hlen.
      rewrite Hrows in Hlen. unfold lines_of.
      pose proof (length_without
                    (fun item => Cart.user item =? User.id user)
                    before after c). lia.
  - intros x Hx Hu. cbn [set_carts tables carts fooditems] in *.
    apply (wf_resolve _ _ Hwf x (rest_in x Hx) Hu).
  - intros x x' Hx Hx'. cbn [set_carts tables carts] in *.
    apply (wf_one_line _ _ Hwf); now apply rest_in.
Qed.

End WellFormed.

Section Append.
Variables (user : User.t) (st : Store) (fooditem : FoodItem.t) (now : Z).
Hypothesis Hwf : cart_well_formed user st.
Hypothesis Hfood :
  objects_get (fun f => FoodItem.id f =? FoodItem.id fooditem)
    (fooditems (tables st)) = Ok fooditem.
Hypothesis Hroom :
  Z.of_nat (List.length (lines_of user (carts (tables st)))) < 10000.

Lemma append_In (row x : Cart.t) :
  In x (carts (tables st) ++ [row]) -> In x (carts (tables st)) \/ x = row.
Proof.
  intros Hx. apply in_app_or in Hx. cbn [In] in Hx. intuition congruence.
Qed.

(** The store with one more line of [user], of a quantity of one. *)
Lemma append_sound :
  let row := Cart.mk (cart_id_seq st + 1) (User.id user)
               (FoodItem.id fooditem) 1 now in
  let st' := mk_store (set_carts (tables st) (carts (tables st) ++ [row]))
               (cart_id_seq st + 1) in
  cart_ids_sound st' /\ cart_in_range user (tables st')
  /\ lines_resolve user (tables st').
Proof.
  intros row st'. destruct (wf_ids _ _ Hwf) as [Hnd Hseq].
  split; [| split].
  - apply ids_of_rows.
    + rewrite map_app. cbn [map]. apply NoDup_app; [exact Hnd | |].
      * constructor; [intros [] | constructor].
      * intros k Hk [<- | []]. apply in_map_iff in Hk.
        destruct Hk as (x & Hx & Hk). specialize (Hseq x Hk).
        subst row. cbn [Cart.id] in Hx. lia.
    + intros x Hx. destruct (append_In row x Hx) as [Hx' | ->].
      * specialize (Hseq x Hx'). lia.
      * subst row. cbn [Cart.id]. lia.
  - apply (range_of_rows user st Hwf).
    + intros x Hx. destruct (append_In row x Hx) as [Hx' | ->].
      * exact (quantities_in_range _ _ (wf_range _ _ Hwf) x Hx').
      * subst row. cbn [Cart.quantity]. lia.
    + unfold lines_of in *. rewrite filter_app, length_app.
      cbn [filter]. destruct (Cart.user row =? User.id user);
        cbn [List.length]; lia.
  - intros x Hx Hu. subst st'. cbn [set_carts tables carts fooditems] in *.
    destruct (append_In row x Hx) as [Hx' | ->].
    + apply (wf_resolve _ _ Hwf x Hx' Hu).
    + exists fooditem. subst row. cbn [Cart.fooditem]. exact Hfood.
Qed.

Lemma wf_append :
  lines_for user (FoodItem.id fooditem) (carts (tables st)) = [] ->
  cart_well_formed user
    (mk_store
       (set_carts (tables st)
          (carts (tables st)
           ++ [Cart.mk (cart_id_seq st + 1) (User.id user)
                 (FoodItem.id fooditem) 1 now]))
       (cart_id_seq st + 1)).
Proof.
  intros Hnone. destruct append_sound as (Hids & Hrange & Hres).
  constructor; [exact Hids | exact Hrange | exact Hres |].
  set (row := Cart.mk _ _ _ _ _).
  intros x x' Hx Hx' Hu Hf. cbn [set_carts tables carts] in *.
  assert (Hrow : forall y, In y (carts (tables st)) ->
            Cart.user y = Cart.user row ->
            Cart.fooditem y = Cart.fooditem row -> False).
  { intros y Hy Hyu Hyf.
    assert (H : In y (lines_for user (FoodItem.id fooditem)
                        (carts (tables st))))
      by (apply lines_for_In; subst row; cbn in *; tauto).
    rewrite Hnone in H. exact H. }
  destruct (append_In row x Hx) as [Hx0 | ->],
           (append_In row x' Hx') as [Hx0' | ->].
  - now apply (wf_one_line _ _ Hwf).
  - exfalso. now apply (Hrow x Hx0).
  - exfalso. apply (Hrow x' Hx0'); congruence.
  - reflexivity.
Qed.

End Append.

End CartStateFacts.

(** ** What the cart views do to a well-formed cart *)

Module CartViewFacts.
Import RowFacts StoreFacts CartStateFacts.

Lemma success_in_range (user : User.t) (st : Store) (request : Request.t)
    (message : option string) (qty : option Z) :
  Request.user request = Some user ->
  cart_in_range user (tables st) -> lines_resolve user (tables st) ->
  exists amounts,
    get_cart_amounts request (tables st) = Ok amounts
    /\ success message qty request st
       = inl (CartJson.mk "Success" message
                (Some (get_cart_counter request (tables st))) qty
                (Some amounts)).
Proof.
  intros Hu Hrange Hres.
  destruct (ReturnFacts.get_cart_amounts_returns request (tables st))
    as (amounts & Ha).
  { intros u Hu'. rewrite Hu in Hu'. inversion Hu'; subst u. now split. }
  exists amounts. split; [exact Ha |]. unfold success. now rewrite Ha.
Qed.

Lemma success_returns (user : User.t) (st : Store) (request : Request.t)
    (message : option string) (qty : option Z) :
  Request.user request = Some user ->
  cart_well_formed user st ->
  exists amounts,
    get_cart_amounts request (tables st) = Ok amounts
    /\ success message qty request st
       = inl (CartJson.mk "Success" message
                (Some (get_cart_counter request (tables st))) qty
                (Some amounts)).
Proof.
  intros Hu Hwf. apply (success_in_range user); [exact Hu | |].
  - exact (wf_range _ _ Hwf).
  - exact (wf_resolve _ _ Hwf).
Qed.

Section Views.
Variables (request : HttpRequest.t) (user : User.t) (food_id : Z)
          (fooditem : FoodItem.t) (st : Store).
Hypothesis Huser : Request.user (HttpRequest.request request) = Some user.
Hypothesis Hajax : is_ajax request = true.
Hypothesis Hfood :
  objects_get (fun f => FoodItem.id f =? food_id) (fooditems (tables st))
  = Ok fooditem.
Hypothesis Hwf : cart_well_formed user st.

Lemma food_found : FoodItem.id fooditem = food_id.
Proof.
  destruct (AmountFacts.objects_get_In _ _ _ Hfood) as [_ H].
  now apply Z.eqb_eq in H.
Qed.

Lemma get_line_lines :
  get_line user fooditem st
  = match lines_for user food_id (carts (tables st)) with
    | [] => Raise DoesNotExist
    | [row] => Ok row
    | _ :: _ :: _ => Raise MultipleObjectsReturned
    end.
Proof. unfold get_line, objects_get, lines_for. now rewrite food_found. Qed.

Lemma add_to_cart_existing (now : Z) (c : Cart.t) (before after : list Cart.t) :
  carts (tables st) = before ++ c :: after ->
  lines_for user food_id (carts (tables st)) = [c] ->
  Cart.quantity c < 2147483647 ->
  let st' :=
    mk_store
      (set_carts (tables st)
         (before ++ after ++ [with_quantity c (Cart.quantity c + 1)]))
      (cart_id_seq st) in
  cart_well_formed user st'
  /\ exists amounts,
      get_cart_amounts (HttpRequest.request request) (tables st') = Ok amounts
      /\ add_to_cart now request food_id st
         = (CartJson.mk "Success" (Some "Increased the cart quantity")
              (Some (get_cart_counter (HttpRequest.request request) (tables st')))
              (Some (Cart.quantity c + 1)) (Some amounts),
            st').
Proof.
  intros Hrows Hline Hq st'.
  pose proof (quantities_in_range _ _ (wf_range _ _ Hwf) c
                (row_in st c before after Hrows)) as Hq0.
  assert (Hwf' : cart_well_formed user st')
    by (apply (wf_update user st Hwf c before after Hrows); lia).
  split; [exact Hwf' |].
  destruct (success_returns user st' (HttpRequest.request request)
              (Some "Increased the cart quantity")
              (Some (Cart.quantity c + 1)) Huser Hwf')
    as (amounts & Ha & Hs).
  exists amounts. split; [exact Ha |].
  destruct (row_apart user st Hwf c before after Hrows) as [Hb Haf].
  unfold add_to_cart. cbv zeta. rewrite Huser, Hajax, Hfood.
  unfold increase_line. rewrite get_line_lines, Hline. cbv zeta.
  rewrite (save_cart_at st c _ before after Hrows Hb Haf) by lia.
  cbn [with_quantity Cart.quantity]. fold st'. now rewrite Hs.
Qed.

Lemma add_to_cart_new (now : Z) :
  lines_for user food_id (carts (tables st)) = [] ->
  Z.of_nat (List.length (lines_of user (carts (tables st)))) < 10000 ->
  let st' :=
    mk_store
      (set_carts (tables st)
         (carts (tables st)
          ++ [Cart.mk (cart_id_seq st + 1) (User.id user) food_id 1 now]))
      (cart_id_seq st + 1) in
  cart_well_formed user st'
  /\ exists amounts,
      get_cart_amounts (HttpRequest.request request) (tables st') = Ok amounts
      /\ add_to_cart now request food_id st
         = (CartJson.mk "Success" (Some "Added the food to the cart")
              (Some (get_cart_counter (HttpRequest.request request) (tables st')))
              (Some 1) (Some amounts),
            st').
Proof.
  intros Hline Hroom st'.
  assert (Hwf' : cart_well_formed user st').
  { subst st'. rewrite <- food_found.
    apply wf_append; try assumption; rewrite food_found; assumption. }
  split; [exact Hwf' |].
  destruct (success_returns user st' (HttpRequest.request request)
              (Some "Added the food to the cart") (Some 1) Huser Hwf')
    as (amounts & Ha & Hs).
  exists amounts. split; [exact Ha |].
  unfold add_to_cart. cbv zeta. rewrite Huser, Hajax, Hfood.
  unfold increase_line. rewrite get_line_lines, Hline.
  unfold add_line. rewrite food_found.
  rewrite create_cart_fresh by exact (proj2 (wf_ids _ _ Hwf)).
  cbn [Cart.quantity]. fold st'. now rewrite Hs.
Qed.

Lemma decrease_cart_absent :
  lines_for user food_id (carts (tables st)) = [] ->
  decrease_cart request food_id st
  = (failed "You do not have this item in your cart!", st).
Proof.
  intros Hline. unfold decrease_cart. cbv zeta.
  rewrite Huser, Hajax, Hfood.
  unfold decrease_line. now rewrite get_line_lines, Hline.
Qed.

Lemma decrease_cart_lowers (c : Cart.t) (before after : list Cart.t) :
  carts (tables st) = before ++ c :: after ->
  lines_for user food_id (carts (tables st)) = [c] ->
  1 < Cart.quantity c ->
  let st' :=
    mk_store
      (set_carts (tables st)
         (before ++ after ++ [with_quantity c (Cart.quantity c - 1)]))
      (cart_id_seq st) in
  cart_well_formed user st'
  /\ exists amounts,
      get_cart_amounts (HttpRequest.request request) (tables st') = Ok amounts
      /\ decrease_cart request food_id st
         = (CartJson.mk "Success" None
              (Some (get_cart_counter (HttpRequest.request request) (tables st')))
              (Some (Cart.quantity c - 1)) (Some amounts),
            st').
Proof.
  intros Hrows Hline Hq st'.
  pose proof (quantities_in_range _ _ (wf_range _ _ Hwf) c
                (row_in st c before after Hrows)) as Hq0.
  assert (Hwf' : cart_well_formed user st')
    by (apply (wf_update user st Hwf c before after Hrows); lia).
  split; [exact Hwf' |].
  destruct (success_returns user st' (HttpRequest.request request) None
              (Some (Cart.quantity c - 1)) Huser Hwf')
    as (amounts & Ha & Hs).
  exists amounts. split; [exact Ha |].
  destruct (row_apart user st Hwf c before after Hrows) as [Hb Haf].
  unfold decrease_cart. cbv zeta. rewrite Huser, Hajax, Hfood.
  unfold decrease_line. rewrite get_line_lines, Hline.
  apply Z.ltb_lt in Hq. rewrite Hq. apply Z.ltb_lt in Hq. cbv zeta.
  rewrite (save_cart_at st c _ before after Hrows Hb Haf) by lia.
  cbn [with_quantity Cart.quantity]. fold st'. now rewrite Hs.
Qed.

Lemma decrease_cart_removes (c : Cart.t) (before after : list Cart.t) :
  carts (tables st) = before ++ c :: after ->
  lines_for user food_id (carts (tables st)) = [c] ->
  Cart.quantity c <= 1 ->
  let st' :=
    mk_store (set_carts (tables st) (before ++ after)) (cart_id_seq st) in
  cart_well_formed user st'
  /\ exists amounts,
      get_cart_amounts (HttpRequest.request request) (tables st') = Ok amounts
      /\ decrease_cart request food_id st
         = (CartJson.mk "Success" None
              (Some (get_cart_counter (HttpRequest.request request) (tables st')))
              (Some 0) (Some amounts),
            st').
Proof.
  intros Hrows Hline Hq st'.
  assert (Hwf' : cart_well_formed user st')
    by (apply (wf_remove user st Hwf c before after Hrows)).
  split; [exact Hwf' |].
  destruct (success_returns user st' (HttpRequest.request request) None
              (Some 0) Huser Hwf')
    as (amounts & Ha & Hs).
  exists amounts. split; [exact Ha |].
  destruct (row_apart user st Hwf c before after Hrows) as [Hb Haf].
  unfold decrease_cart. cbv zeta. rewrite Huser, Hajax, Hfood.
  unfold decrease_line. rewrite get_line_lines, Hline.
  apply Z.ltb_ge in Hq. rewrite Hq. cbv zeta.
  rewrite (delete_cart_row_at st c before after Hrows Hb Haf).
  cbn [with_quantity Cart.quantity]. fold st'. now rewrite Hs.
Qed.

End Views.

End CartViewFacts.

(** ** The quantities of a cart *)

Module QuantityFacts.
Import RowFacts StoreFacts CartStateFacts.

Section Line.
Variables (user : User.t) (c : Cart.t) (before after : list Cart.t).
Hypothesis Hmine : Cart.user c = User.id user.

Lemma mine_true : (Cart.user c =? User.id user) = true.
Proof. now apply Z.eqb_eq. Qed.

Lemma quantity_updated (quantity food_id : Z) :
  quantity_in_cart user food_id (before ++ after ++ [with_quantity c quantity])
  = quantity_in_cart user food_id (before ++ c :: after)
    + (if food_id =? Cart.fooditem c then quantity - Cart.quantity c else 0).
Proof.
  unfold quantity_in_cart, lines_for. rewrite sum_at, sum_moved.
  cbn [with_quantity Cart.user Cart.fooditem Cart.quantity].
  rewrite mine_true. cbn [andb]. rewrite (Z.eqb_sym food_id).
  destruct (Cart.fooditem c =? food_id); lia.
Qed.

Lemma quantity_removed (food_id : Z) :
  quantity_in_cart user food_id (before ++ after)
  = quantity_in_cart user food_id (before ++ c :: after)
    - (if food_id =? Cart.fooditem c then Cart.quantity c else 0).
Proof.
  unfold quantity_in_cart, lines_for. rewrite sum_at, sum_without.
  rewrite mine_true. cbn [andb]. rewrite (Z.eqb_sym food_id).
  destruct (Cart.fooditem c =? food_id); lia.
Qed.

Lemma counter_updated (quantity : Z) :
  Zsum (map Cart.quantity
          (lines_of user (before ++ after ++ [with_quantity c quantity])))
  = Zsum (map Cart.quantity (lines_of user (before ++ c :: after)))
    + (quantity - Cart.quantity c).
Proof.
  unfold lines_of. rewrite sum_at, sum_moved.
  cbn [with_quantity Cart.user Cart.quantity]. rewrite mine_true. lia.
Qed.

Lemma counter_removed :
  Zsum (map Cart.quantity (lines_of user (before ++ after)))
  = Zsum (map Cart.quantity (lines_of user (before ++ c :: after)))
    - Cart.quantity c.
Proof.
  unfold lines_of. rewrite sum_at, sum_without, mine_true. lia.
Qed.

(** The one line of a food item, at its place. *)
Lemma line_alone (food_id : Z) :
  lines_for user food_id (before ++ c :: after) = [c] ->
  Cart.fooditem c = food_id
  /\ lines_for user food_id before = []
  /\ lines_for user food_id after = [].
Proof.
  unfold lines_for. rewrite filter_app. cbn [filter]. rewrite mine_true.
  cbn [andb]. destruct (Cart.fooditem c =? food_id) eqn:E.
  - intros H. apply Z.eqb_eq in E. split; [exact E |].
    destruct (filter _ before) as [| x l]; cbn [app] in H.
    + inversion H. now split.
    + inversion H as [[Hx Hl]]. destruct l; discriminate.
  - intros H. exfalso.
    assert (Hin : In c (filter
                          (fun c0 => (Cart.user c0 =? User.id user)
                                     && (Cart.fooditem c0 =? food_id))
                          before ++
                        filter
                          (fun c0 => (Cart.user c0 =? User.id user)
                                     && (Cart.fooditem c0 =? food_id))
                          after))
      by (rewrite H; now left).
    apply in_app_or in Hin.
    destruct Hin as [Hin | Hin]; apply filter_In in Hin;
      destruct Hin as [_ Hin]; apply andb_true_iff in Hin;
      destruct Hin as [_ Hin]; congruence.
Qed.

Lemma line_updated (quantity food_id : Z) :
  lines_for user food_id (before ++ c :: after) = [c] ->
  lines_for user food_id (before ++ after ++ [with_quantity c quantity])
  = [with_quantity c quantity].
Proof.
  intros H. destruct (line_alone food_id H) as (Hf & Hb & Ha).
  unfold lines_for in *. rewrite !filter_app. cbn [filter].
  cbn [with_quantity Cart.user Cart.fooditem].
  rewrite mine_true, Hb, Ha. apply Z.eqb_eq in Hf. now rewrite Hf.
Qed.

Lemma line_removed (food_id : Z) :
  lines_for user food_id (before ++ c :: after) = [c] ->
  lines_for user food_id (before ++ after) = [].
Proof.
  intros H. destruct (line_alone food_id H) as (Hf & Hb & Ha).
  unfold lines_for in *. rewrite filter_app. now rewrite Hb, Ha.
Qed.

End Line.

Lemma quantity_one_line (user : User.t) (food_id : Z) (rows : list Cart.t)
    (c : Cart.t) :
  lines_for user food_id rows = [c] ->
  quantity_in_cart user food_id rows = Cart.quantity c.
Proof. intros H. unfold quantity_in_cart. rewrite H. cbn [map Zsum]. lia. Qed.

Lemma quantity_no_line (user : User.t) (food_id : Z) (rows : list Cart.t) :
  lines_for user food_id rows = [] ->
  quantity_in_cart user food_id rows = 0.
Proof. intros H. unfold quantity_in_cart. now rewrite H. Qed.

Lemma quantity_appended (user : User.t) (rows : list Cart.t) (row : Cart.t)
    (food_id : Z) :
  Cart.user row = User.id user ->
  quantity_in_cart user food_id (rows ++ [row])
  = quantity_in_cart user food_id rows
    + (if food_id =? Cart.fooditem row then Cart.quantity row else 0).
Proof.
  intros Hu. unfold quantity_in_cart, lines_for.
  rewrite filter_app, map_app, Zsum_app. cbn [filter].
  apply Z.eqb_eq in Hu. rewrite Hu. cbn [andb]. rewrite (Z.eqb_sym food_id).
  destruct (Cart.fooditem row =? food_id); cbn [map Zsum]; lia.
Qed.

Lemma counter_appended (user : User.t) (rows : list Cart.t) (row : Cart.t) :
  Cart.user row = User.id user ->
  Zsum (map Cart.quantity (lines_of user (rows ++ [row])))
  = Zsum (map Cart.quantity (lines_of user rows)) + Cart.quantity row.
Proof.
  intros Hu. unfold lines_of. rewrite filter_app, map_app, Zsum_app.
  cbn [filter]. apply Z.eqb_eq in Hu. rewrite Hu. cbn [map Zsum]. lia.
Qed.

Lemma line_split (user : User.t) (food_id : Z) (st : Store) (c : Cart.t) :
  cart_well_formed user st ->
  lines_for user food_id (carts (tables st)) = [c] ->
  Cart.user c = User.id user /\ Cart.fooditem c = food_id
  /\ exists before after, carts (tables st) = before ++ c :: after.
Proof.
  intros Hwf H.
  assert (Hin : In c (lines_for user food_id (carts (tables st))))
    by (rewrite H; now left).
  apply lines_for_In in Hin. destruct Hin as (Hin & Hu & Hf).
  split; [exact Hu |]. split; [exact Hf |].
  destruct (in_split _ _ Hin) as (before & after & E). now exists before, after.
Qed.

Lemma others_moved (user : User.t) (c c' : Cart.t)
    (before after : list Cart.t) :
  Cart.user c = User.id user -> Cart.user c' = User.id user ->
  lines_of_others user (before ++ after ++ [c'])
  = lines_of_others user (before ++ c :: after).
Proof.
  intros Hu Hu'. unfold lines_of_others. rewrite !filter_app. cbn [filter].
  rewrite (mine_true user c Hu), (mine_true user c' Hu'). cbn [negb].
  now rewrite app_nil_r.
Qed.

Lemma others_without (user : User.t) (c : Cart.t) (before after : list Cart.t) :
  Cart.user c = User.id user ->
  lines_of_others user (before ++ after)
  = lines_of_others user (before ++ c :: after).
Proof.
  intros Hu. unfold lines_of_others. rewrite !filter_app. cbn [filter].
  now rewrite (mine_true user c Hu).
Qed.

End QuantityFacts.

(** ** The cart views *)

Module CartViews.
Import RowFacts StoreFacts CartStateFacts CartViewFacts QuantityFacts.

(** X5: [add_to_cart] on a well-formed cart with room.  For a logged-in
    user, an XMLHttpRequest and a food item of the menu, the view answers
    with a success, adds one to the quantity of this food item in the
    cart of the user and to nothing else of the cart, and leaves the
    cart well formed.  The message tells whether the user had a line for
    the item; [qty] is the new quantity of the item, [cart_counter] the
    old counter plus one, and [cart_amount] the totals of the new
    cart. *)
Theorem add_to_cart_adds_one (now : Z) (request : HttpRequest.t)
    (user : User.t) (food_id : Z) (fooditem : FoodItem.t) (st : Store) :
  Request.user (HttpRequest.request request) = Some user ->
  is_ajax request = true ->
  objects_get (fun f => FoodItem.id f =? food_id) (fooditems (tables st))
  = Ok fooditem ->
  cart_well_formed user st ->
  Z.of_nat (List.length (lines_of user (carts (tables st)))) < 10000 ->
  quantity_in_cart user food_id (carts (tables st)) < 2147483647 ->
  exists json st' amounts,
    add_to_cart now request food_id st = (json, st')
    /\ CartJson.status json = "Success"
    /\ CartJson.message json
       = Some (match lines_for user food_id (carts (tables st)) with
               | [] => "Added the food to the cart"
               | _ :: _ => "Increased the cart quantity"
               end)
    /\ CartJson.qty json
       = Some (quantity_in_cart user food_id (carts (tables st)) + 1)
    /\ CartJson.cart_counter json
       = Some (get_cart_counter (HttpRequest.request request) (tables st) + 1)
    /\ CartJson.cart_amount json = Some amounts
    /\ get_cart_amounts (HttpRequest.request request) (tables st') = Ok amounts
    /\ get_cart_counter (HttpRequest.request request) (tables st')
       = get_cart_counter (HttpRequest.request request) (tables st) + 1
    /\ (forall food',
          quantity_in_cart user food' (carts (tables st'))
          = quantity_in_cart user food' (carts (tables st))
            + (if food' =? food_id then 1 else 0))
    /\ cart_well_formed user st'.
Proof.
  intros Huser Hajax Hfood Hwf Hroom Hq.
  destruct (lines_for_cases user food_id (carts (tables st))
              (proj1 (wf_ids _ _ Hwf)) (wf_one_line _ _ Hwf))
    as [Hnone | (c & Hone)].
  - destruct (add_to_cart_new request user food_id fooditem st Huser Hajax
                Hfood Hwf now Hnone Hroom) as (Hwf' & amounts & Ha & Hadd).
    eexists. eexists. exists amounts. split; [exact Hadd |].
    cbn [CartJson.status CartJson.message CartJson.qty CartJson.cart_counter
           CartJson.cart_amount tables].
    rewrite Hnone, (quantity_no_line _ _ _ Hnone).
    rewrite !(get_cart_counter_sum _ _ user Huser).
    cbn [set_carts carts].
    rewrite counter_appended by reflexivity. cbn [Cart.quantity].
    repeat (split; [reflexivity || exact Ha |]).
    split; [| exact Hwf'].
    intros food'. rewrite quantity_appended by reflexivity.
    reflexivity.
  - destruct (line_split user food_id st c Hwf Hone)
      as (Hu & Hf & before & after & Hrows).
    rewrite (quantity_one_line _ _ _ _ Hone) in Hq |- *.
    destruct (add_to_cart_existing request user food_id fooditem st Huser
                Hajax Hfood Hwf now c before after Hrows Hone Hq)
      as (Hwf' & amounts & Ha & Hadd).
    eexists. eexists. exists amounts. split; [exact Hadd |].
    cbn [CartJson.status CartJson.message CartJson.qty CartJson.cart_counter
           CartJson.cart_amount tables].
    rewrite Hone, !(get_cart_counter_sum _ _ user Huser).
    cbn [set_carts carts]. rewrite Hrows.
    rewrite (counter_updated user c before after Hu).
    repeat (split; [reflexivity || exact Ha || (f_equal; lia) |]).
    split; [| exact Hwf'].
    intros food'. rewrite (quantity_updated user c before after Hu).
    rewrite Hf. destruct (food' =? food_id); lia.
Qed.

(** X6: [decrease_cart] on a well-formed cart.  For a logged-in user, an
    XMLHttpRequest and a food item of the menu, the view takes one from
    the quantity of this food item in the cart of the user, never below
    zero, and changes no other quantity; a line whose quantity is one
    or zero is deleted, and [qty] is then 0.  Without a line for the
    item the view answers that the item is not in the cart and writes
    nothing.  The cart stays well formed. *)
Theorem decrease_cart_takes_one (request : HttpRequest.t) (user : User.t)
    (food_id : Z) (fooditem : FoodItem.t) (st : Store) :
  Request.user (HttpRequest.request request) = Some user ->
  is_ajax request = true ->
  objects_get (fun f => FoodItem.id f =? food_id) (fooditems (tables st))
  = Ok fooditem ->
  cart_well_formed user st ->
  let quantity := quantity_in_cart user food_id (carts (tables st)) in
  exists json st',
    decrease_cart request food_id st = (json, st')
    /\ match lines_for user food_id (carts (tables st)) with
       | [] =>
           json = failed "You do not have this item in your cart!"
           /\ st' = st
       | _ :: _ =>
           CartJson.status json = "Success"
           /\ CartJson.message json = None
           /\ CartJson.qty json = Some (Z.max (quantity - 1) 0)
           /\ CartJson.cart_counter json
              = Some (get_cart_counter (HttpRequest.request request)
                        (tables st') )
           /\ exists amounts,
               CartJson.cart_amount json = Some amounts
               /\ get_cart_amounts (HttpRequest.request request) (tables st')
                  = Ok amounts
       end
    /\ (forall food',
          quantity_in_cart user food' (carts (tables st'))
          = if food' =? food_id then Z.max (quantity - 1) 0
            else quantity_in_cart user food' (carts (tables st)))
    /\ get_cart_counter (HttpRequest.request request) (tables st')
       = get_cart_counter (HttpRequest.request request) (tables st)
         - Z.min quantity 1
    /\ (quantity <= 1 -> lines_for user food_id (carts (tables st')) = [])
    /\ cart_well_formed user st'.
Proof.
  intros Huser Hajax Hfood Hwf quantity. subst quantity.
  destruct (lines_for_cases user food_id (carts (tables st))
              (proj1 (wf_ids _ _ Hwf)) (wf_one_line _ _ Hwf))
    as [Hnone | (c & Hone)].
  - exists (failed "You do not have this item in your cart!"), st.
    split; [exact (decrease_cart_absent request user food_id fooditem st
                     Huser Hajax Hfood Hnone) |].
    rewrite Hnone, (quantity_no_line _ _ _ Hnone).
    split; [now split |]. split.
    { intros food'. destruct (food' =? food_id) eqn:E; [| reflexivity].
      apply Z.eqb_eq in E. subst food'.
      now rewrite (quantity_no_line _ _ _ Hnone). }
    split; [change (Z.min 0 1) with 0; lia |].
    split; [intros _; reflexivity | exact Hwf].
  - destruct (line_split user food_id st c Hwf Hone)
      as (Hu & Hf & before & after & Hrows).
    pose proof (quantities_in_range _ _ (wf_range _ _ Hwf) c
                  (row_in st c before after Hrows)) as Hq0.
    rewrite (quantity_one_line _ _ _ _ Hone), Hone.
    rewrite !(get_cart_counter_sum _ _ user Huser).
    destruct (Z_lt_le_dec 1 (Cart.quantity c)) as [Hq | Hq].
    + destruct (decrease_cart_lowers request user food_id fooditem st Huser
                  Hajax Hfood Hwf c before after Hrows Hone Hq)
        as (Hwf' & amounts & Ha & Hdec).
      eexists. eexists. split; [exact Hdec |].
      cbn [CartJson.status CartJson.message CartJson.qty
             CartJson.cart_counter CartJson.cart_amount tables].
      rewrite !(get_cart_counter_sum _ _ user Huser).
      cbn [set_carts carts]. rewrite Hrows.
      rewrite (counter_updated user c before after Hu).
      split.
      { repeat (split; [reflexivity || (f_equal; lia) |]).
        exists amounts. now split. }
      split.
      { intros food'. rewrite (quantity_updated user c before after Hu).
        rewrite Hf. destruct (food' =? food_id) eqn:E; [| lia].
        apply Z.eqb_eq in E. subst food'. rewrite <- Hrows.
        rewrite (quantity_one_line _ _ _ _ Hone). lia. }
      split; [lia |]. split; [lia | exact Hwf'].
    + destruct (decrease_cart_removes request user food_id fooditem st Huser
                  Hajax Hfood Hwf c before after Hrows Hone Hq)
        as (Hwf' & amounts & Ha & Hdec).
      eexists. eexists. split; [exact Hdec |].
      cbn [CartJson.status CartJson.message CartJson.qty
             CartJson.cart_counter CartJson.cart_amount tables].
      rewrite !(get_cart_counter_sum _ _ user Huser).
      cbn [set_carts carts]. rewrite Hrows.
      rewrite (counter_removed user c before after Hu).
      split.
      { repeat (split; [reflexivity || (f_equal; lia) |]).
        exists amounts. now split. }
      split.
      { intros food'. rewrite (quantity_removed user c before after Hu).
        rewrite Hf. destruct (food' =? food_id) eqn:E; [| lia].
        apply Z.eqb_eq in E. subst food'. rewrite <- Hrows.
        rewrite (quantity_one_line _ _ _ _ Hone). lia. }
      split; [lia |]. split; [| exact Hwf'].
      intros _. rewrite Hrows in Hone.
      exact (line_removed user c before after Hu food_id Hone).
Qed.

Lemma set_carts_twice (db : Database) (rows rows' : list Cart.t) :
  set_carts (set_carts db rows) rows' = set_carts db rows'.
Proof. reflexivity. Qed.

Lemma with_quantity_back (c : Cart.t) (quantity : Z) :
  with_quantity (with_quantity c quantity) (Cart.quantity c) = c.
Proof. now destruct c. Qed.

(** X7: [add_to_cart], then [decrease_cart] of the same food item, give
    the cart back, on a well-formed cart with room where the lines of
    the item, if any, have a quantity of one at least.  The table of
    [Cart] then holds the rows it held, in the columns that the views
    read ([id], [user], [fooditem], [quantity], [created_at]: the
    column [updated_at] of a line that is saved is set anew, and is no
    part of the rows here), the line of the item possibly at another
    place of the scan; the lines of the other users and the other
    tables are as they were.  The second answer is a success, with the
    quantity the item had at first and the counter of the cart at
    first. *)
Theorem add_then_decrease_restores (now : Z) (request : HttpRequest.t)
    (user : User.t) (food_id : Z) (fooditem : FoodItem.t) (st : Store) :
  Request.user (HttpRequest.request request) = Some user ->
  is_ajax request = true ->
  objects_get (fun f => FoodItem.id f =? food_id) (fooditems (tables st))
  = Ok fooditem ->
  cart_well_formed user st ->
  Z.of_nat (List.length (lines_of user (carts (tables st)))) < 10000 ->
  quantity_in_cart user food_id (carts (tables st)) < 2147483647 ->
  (forall c, In c (lines_for user food_id (carts (tables st))) ->
     1 <= Cart.quantity c) ->
  let added := add_to_cart now request food_id st in
  let back := decrease_cart request food_id (snd added) in
  Permutation (carts (tables (snd back))) (carts (tables st))
  /\ rest_of_store user (tables (snd back)) = rest_of_store user (tables st)
  /\ CartJson.status (fst back) = "Success"
  /\ CartJson.qty (fst back)
     = Some (quantity_in_cart user food_id (carts (tables st)))
  /\ CartJson.cart_counter (fst back)
     = Some (get_cart_counter (HttpRequest.request request) (tables st)).
Proof.
  intros Huser Hajax Hfood Hwf Hroom Hq Hpos added back. subst added back.
  destruct (lines_for_cases user food_id (carts (tables st))
              (proj1 (wf_ids _ _ Hwf)) (wf_one_line _ _ Hwf))
    as [Hnone | (c & Hone)].
  - destruct (add_to_cart_new request user food_id fooditem st Huser Hajax
                Hfood Hwf now Hnone Hroom) as (Hwf' & amounts & _ & ->).
    cbn [snd]. set (row := Cart.mk _ _ _ _ _) in *.
    set (st' := mk_store _ _) in *.
    assert (Hone : lines_for user food_id (carts (tables st')) = [row]).
    { subst st'. cbn [tables set_carts carts]. unfold lines_for in *.
      rewrite filter_app, Hnone. subst row.
      cbn [filter Cart.user Cart.fooditem app]. now rewrite !Z.eqb_refl. }
    destruct (decrease_cart_removes request user food_id fooditem st' Huser
                Hajax Hfood Hwf' row (carts (tables st)) [] eq_refl Hone)
      as (_ & amounts' & _ & ->); [subst row; cbn [Cart.quantity]; lia |].
    cbn [fst snd tables CartJson.status CartJson.qty CartJson.cart_counter].
    rewrite app_nil_r. subst st'. cbn [tables].
    rewrite set_carts_twice, set_carts_same.
    rewrite (quantity_no_line _ _ _ Hnone).
    split; [apply Permutation_refl | now repeat split].
  - destruct (line_split user food_id st c Hwf Hone)
      as (Hu & Hf & before & after & Hrows).
    rewrite (quantity_one_line _ _ _ _ Hone) in Hq |- *.
    destruct (add_to_cart_existing request user food_id fooditem st Huser
                Hajax Hfood Hwf now c before after Hrows Hone Hq)
      as (Hwf' & amounts & _ & ->).
    cbn [snd]. set (row := with_quantity c (Cart.quantity c + 1)) in *.
    set (st' := mk_store _ _) in *.
    assert (Hrows' : carts (tables st') = (before ++ after) ++ row :: [])
      by (subst st'; cbn [tables set_carts carts]; apply app_assoc).
    assert (Hone' : lines_for user food_id (carts (tables st')) = [row]).
    { subst st' row. cbn [tables set_carts carts]. rewrite Hrows in Hone.
      exact (line_updated user c before after Hu _ food_id Hone). }
    assert (Hc : 1 <= Cart.quantity c) by (apply Hpos; rewrite Hone; now left).
    destruct (decrease_cart_lowers request user food_id fooditem st' Huser
                Hajax Hfood Hwf' row (before ++ after) [] Hrows' Hone')
      as (_ & amounts' & _ & ->);
      [subst row; cbn [with_quantity Cart.quantity]; lia |].
    cbn [fst snd tables CartJson.status CartJson.qty CartJson.cart_counter].
    subst st' row. cbn [tables with_quantity Cart.quantity].
    replace (Cart.quantity c + 1 - 1) with (Cart.quantity c) by lia.
    rewrite set_carts_twice, with_quantity_back.
    change ([] ++ [c]) with [c].
    split; [| split; [| split; [reflexivity | split; [reflexivity |]]]].
    + cbn [set_carts carts]. rewrite Hrows, <- app_assoc. apply moved_perm.
    + unfold rest_of_store. cbn [set_carts users user_profiles vendors
                                   fooditems carts taxes orders].
      rewrite Hrows, <- app_assoc. now rewrite (others_moved user c c).
    + f_equal. rewrite !(get_cart_counter_sum _ _ user Huser).
      cbn [set_carts carts]. rewrite Hrows, <- app_assoc.
      unfold lines_of. rewrite sum_at, sum_moved. lia.
Qed.

(** X8: [delete_cart].  For a logged-in user and an XMLHttpRequest, a
    cart id that is not the id of a line of the user (no such row, or a
    line of another user) is answered by a failure, and nothing is
    written.  On a well-formed cart, the id of a line of the user is
    answered by a success: this row and no other leaves the table, the
    counter goes down by its quantity, the cart stays well formed, and
    the same request once more is answered by the failure. *)
Theorem delete_cart_takes_the_line (request : HttpRequest.t) (user : User.t)
    (cart_id : Z) (st : Store) :
  Request.user (HttpRequest.request request) = Some user ->
  is_ajax request = true ->
  ((forall c, In c (carts (tables st)) -> Cart.id c = cart_id ->
      Cart.user c <> User.id user) ->
   delete_cart request cart_id st
   = (Some (failed "Cart Item does not exist!"), st))
  /\ (cart_well_formed user st ->
      forall c, In c (carts (tables st)) -> Cart.id c = cart_id ->
        Cart.user c = User.id user ->
        exists json st' amounts,
          delete_cart request cart_id st = (Some json, st')
          /\ json
             = CartJson.mk "Success" (Some "Cart item has been deleted!")
                 (Some (get_cart_counter (HttpRequest.request request)
                          (tables st) - Cart.quantity c))
                 None (Some amounts)
          /\ get_cart_amounts (HttpRequest.request request) (tables st')
             = Ok amounts
          /\ get_cart_counter (HttpRequest.request request) (tables st')
             = get_cart_counter (HttpRequest.request request) (tables st)
               - Cart.quantity c
          /\ (forall x, In x (carts (tables st'))
                        <-> In x (carts (tables st)) /\ Cart.id x <> cart_id)
          /\ cart_well_formed user st'
          /\ delete_cart request cart_id st'
             = (Some (failed "Cart Item does not exist!"), st')).
Proof.
  intros Huser Hajax.
  assert (Hrefused : forall st0,
            (forall c, In c (carts (tables st0)) -> Cart.id c = cart_id ->
               Cart.user c <> User.id user) ->
            delete_cart request cart_id st0
            = (Some (failed "Cart Item does not exist!"), st0)).
  { intros st0 Hnone. unfold delete_cart. cbv zeta. rewrite Huser, Hajax.
    unfold objects_get. rewrite filter_none; [reflexivity |].
    intros c Hc. apply andb_false_iff.
    destruct (Cart.id c =? cart_id) eqn:E; [left | now right].
    apply Z.eqb_eq in E. apply Z.eqb_neq. now apply Hnone. }
  split; [exact (Hrefused st) |].
  intros Hwf c Hc Hid Hu.
  destruct (in_split _ _ Hc) as (before & after & Hrows).
  destruct (row_apart user st Hwf c before after Hrows) as [Hb Ha].
  pose proof (wf_remove user st Hwf c before after Hrows) as Hwf'.
  set (st' := mk_store _ _) in Hwf'.
  destruct (success_returns user st' (HttpRequest.request request)
              (Some "Cart item has been deleted!") None Huser Hwf')
    as (amounts & Hamounts & Hs).
  assert (Hcounter :
            get_cart_counter (HttpRequest.request request) (tables st')
            = get_cart_counter (HttpRequest.request request) (tables st)
              - Cart.quantity c).
  { rewrite !(get_cart_counter_sum _ _ user Huser). subst st'.
    cbn [tables set_carts carts]. rewrite Hrows.
    exact (counter_removed user c before after Hu). }
  assert (Hget :
            objects_get
              (fun x => (Cart.user x =? User.id user) && (Cart.id x =? cart_id))
              (carts (tables st)) = Ok c).
  { unfold objects_get. rewrite Hrows, filter_app. cbn [filter].
    rewrite (mine_true user c Hu), Hid, Z.eqb_refl. cbn [andb].
    rewrite !filter_none; [reflexivity | |];
      intros x Hx; apply andb_false_iff; right; apply Z.eqb_neq;
      intros E; [apply Ha | apply Hb]; rewrite Hid, <- E; now apply in_map. }
  exists (CartJson.mk "Success" (Some "Cart item has been deleted!")
            (Some (get_cart_counter (HttpRequest.request request)
                     (tables st) - Cart.quantity c))
            None (Some amounts)), st', amounts.
  split.
  { unfold delete_cart. cbv zeta. rewrite Huser, Hajax, Hget.
    rewrite (delete_cart_row_at st c before after Hrows Hb Ha).
    fold st'. rewrite Hs, Hcounter. reflexivity. }
  split; [reflexivity |]. split; [exact Hamounts |].
  split; [exact Hcounter |].
  assert (Hrows' : forall x, In x (carts (tables st'))
                             <-> In x (carts (tables st)) /\ Cart.id x <> cart_id).
  { intros x. subst st'. cbn [tables set_carts carts]. rewrite Hrows, In_at.
    split.
    - intros Hx. split; [now right |]. intros E.
      apply in_app_or in Hx. destruct Hx as [Hx | Hx];
        [apply Hb | apply Ha]; rewrite Hid, <- E; now apply in_map.
    - intros [[-> | Hx] Hne]; [congruence | exact Hx]. }
  split; [exact Hrows' |]. split; [exact Hwf' |].
  apply Hrefused. intros x Hx E. apply Hrows' in Hx. now destruct Hx.
Qed.

End CartViews.

(** ** What the cart views never write *)

Module CartFrame.
Import RowFacts StoreFacts CartStateFacts QuantityFacts.

Lemma wrote_refl (user : User.t) (st : Store) :
  cart_ids_sound st -> wrote_cart_of user st st.
Proof. intros H. split; [exact H |]. split; [lia |]. now split. Qed.

Lemma wrote_trans (user : User.t) (st st1 st2 : Store) :
  wrote_cart_of user st st1 -> wrote_cart_of user st1 st2 ->
  wrote_cart_of user st st2.
Proof.
  intros (_ & Hseq & Hrest & Hpos) (Hids' & Hseq' & Hrest' & Hpos').
  split; [exact Hids' |]. split; [lia |]. split; [congruence |].
  intros H. apply Hpos'. now apply Hpos.
Qed.

Section Rows.
Variables (user : User.t) (st : Store).
Hypothesis Hids : cart_ids_sound st.

Lemma save_wrote (c : Cart.t) (quantity : Z) :
  In c (carts (tables st)) -> Cart.user c = User.id user ->
  ((forall x, In x (carts (tables st)) -> 1 <= Cart.quantity x) ->
   1 <= quantity) ->
  wrote_cart_of user st (snd (save_cart (with_quantity c quantity) st)).
Proof.
  intros Hc Hu Hq.
  destruct (Z_le_dec 0 quantity) as [H0 |];
    [destruct (Z_le_dec quantity 2147483647) as [H1 |] |].
  2, 3: destruct (save_cart_refused st (with_quantity c quantity)) as (e & ->);
    [cbn [with_quantity Cart.quantity]; lia | now apply wrote_refl].
  destruct Hids as [Hnd Hseq].
  destruct (split_at c _ Hnd Hc) as (before & after & Hrows & Hb & Ha).
  rewrite (save_cart_at st c quantity before after Hrows Hb Ha) by lia.
  cbn [snd]. split; [| split; [| split]].
  - split; cbn [tables set_carts carts cart_id_seq].
    + rewrite Hrows in Hnd. now apply (ids_moved c).
    + intros x Hx. apply In_moved in Hx. destruct Hx as [-> | Hx].
      * cbn [with_quantity Cart.id]. now apply Hseq.
      * apply Hseq. rewrite Hrows. apply In_at. now right.
  - cbn [cart_id_seq]. lia.
  - unfold rest_of_store. cbn [tables set_carts users user_profiles vendors
                                 fooditems carts taxes orders].
    rewrite Hrows. now rewrite (others_moved user c (with_quantity c quantity)).
  - intros Hpos x Hx. cbn [tables set_carts carts] in Hx.
    apply In_moved in Hx. destruct Hx as [-> | Hx].
    + cbn [with_quantity Cart.quantity]. now apply Hq.
    + apply Hpos. rewrite Hrows. apply In_at. now right.
Qed.

Lemma delete_wrote (c : Cart.t) :
  In c (carts (tables st)) -> Cart.user c = User.id user ->
  wrote_cart_of user st (delete_cart_row c st).
Proof.
  intros Hc Hu. destruct Hids as [Hnd Hseq].
  destruct (split_at c _ Hnd Hc) as (before & after & Hrows & Hb & Ha).
  rewrite (delete_cart_row_at st c before after Hrows Hb Ha).
  assert (Hin : forall x, In x (before ++ after) -> In x (carts (tables st)))
    by (intros x Hx; rewrite Hrows; apply In_at; now right).
  split; [| split; [| split]].
  - split; cbn [tables set_carts carts cart_id_seq].
    + rewrite Hrows, map_app in Hnd. cbn [map] in Hnd.
      rewrite map_app. exact (NoDup_remove_1 _ _ _ Hnd).
    + intros x Hx. now apply Hseq, Hin.
  - cbn [cart_id_seq]. lia.
  - unfold rest_of_store. cbn [tables set_carts users user_profiles vendors
                                 fooditems carts taxes orders].
    rewrite Hrows. now rewrite (others_without user c).
  - intros Hpos x Hx. cbn [tables set_carts carts] in Hx. now apply Hpos, Hin.
Qed.

Lemma create_wrote (fooditem now : Z) :
  wrote_cart_of user st (snd (create_cart (User.id user) fooditem now st)).
Proof.
  destruct Hids as [Hnd Hseq]. rewrite create_cart_fresh by exact Hseq.
  cbn [snd]. set (row := Cart.mk _ _ _ _ _).
  assert (Hin : forall x, In x (carts (tables st) ++ [row]) ->
            In x (carts (tables st)) \/ x = row).
  { intros x Hx. apply in_app_or in Hx. cbn [In] in Hx. intuition congruence. }
  split; [| split; [| split]].
  - split; cbn [tables set_carts carts cart_id_seq].
    + rewrite map_app. cbn [map]. apply NoDup_app; [exact Hnd | |].
      * constructor; [intros [] | constructor].
      * intros k Hk [<- | []]. apply in_map_iff in Hk.
        destruct Hk as (x & Hx & Hk). specialize (Hseq x Hk).
        subst row. cbn [Cart.id] in Hx. lia.
    + intros x Hx. destruct (Hin x Hx) as [Hx' | ->].
      * specialize (Hseq x Hx'). lia.
      * subst row. cbn [Cart.id]. lia.
  - cbn [cart_id_seq]. lia.
  - unfold rest_of_store. cbn [tables set_carts users user_profiles vendors
                                 fooditems carts taxes orders].
    unfold lines_of_others. rewrite filter_app. cbn [filter].
    subst row. cbn [Cart.user]. rewrite Z.eqb_refl. cbn [negb].
    now rewrite app_nil_r.
  - intros Hpos x Hx. cbn [tables set_carts carts] in Hx.
    destruct (Hin x Hx) as [Hx' | ->]; [now apply Hpos |].
    subst row. cbn [Cart.quantity]. lia.
Qed.

End Rows.

Lemma snd_answer {A E : Type} (x : (A + E) * Store) (a : A) :
  snd (match x with
       | (inl json, st) => (json, st)
       | (inr _, st) => (a, st)
       end) = snd x.
Proof. now destruct x as [[json | e] st]. Qed.

Lemma get_line_mine (user : User.t) (fooditem : FoodItem.t) (st : Store)
    (c : Cart.t) :
  get_line user fooditem st = Ok c ->
  In c (carts (tables st)) /\ Cart.user c = User.id user.
Proof.
  intros H. apply AmountFacts.objects_get_In in H. destruct H as [Hin H].
  apply andb_true_iff in H. destruct H as [H _]. apply Z.eqb_eq in H.
  now split.
Qed.

Section Lines.
Variables (request : Request.t) (user : User.t) (fooditem : FoodItem.t)
          (st : Store).
Hypothesis Hids : cart_ids_sound st.

Lemma add_line_wrote (now : Z) :
  wrote_cart_of user st (snd (add_line now request user fooditem st)).
Proof.
  unfold add_line.
  pose proof (create_wrote user st Hids (FoodItem.id fooditem) now) as H.
  destruct (create_cart _ _ _ _) as [[row | e] st']; cbn [snd] in *;
    exact H.
Qed.

Lemma increase_line_wrote :
  wrote_cart_of user st (snd (increase_line request user fooditem st)).
Proof.
  unfold increase_line.
  destruct (get_line user fooditem st) as [c | e] eqn:Hget;
    [| now apply wrote_refl].
  destruct (get_line_mine _ _ _ _ Hget) as [Hc Hu]. cbv zeta.
  pose proof (save_wrote user st Hids c (Cart.quantity c + 1) Hc Hu) as H.
  destruct (save_cart _ st) as [[e |] st']; cbn [snd] in *;
    apply H; intros Hpos; specialize (Hpos c Hc); lia.
Qed.

Lemma decrease_line_wrote :
  wrote_cart_of user st (snd (decrease_line request user fooditem st)).
Proof.
  unfold decrease_line.
  destruct (get_line user fooditem st) as [c | e] eqn:Hget;
    [| now apply wrote_refl].
  destruct (get_line_mine _ _ _ _ Hget) as [Hc Hu].
  destruct (1 <? Cart.quantity c) eqn:Hq; cbv zeta.
  - apply Z.ltb_lt in Hq.
    pose proof (save_wrote user st Hids c (Cart.quantity c - 1) Hc Hu) as H.
    destruct (save_cart _ st) as [[e |] st']; cbn [snd] in *;
      apply H; intros _; lia.
  - cbn [snd]. now apply delete_wrote.
Qed.

End Lines.

(** X9: what the cart views write.  Whatever the request, the food item
    and the state of the cart, [add_to_cart], [decrease_cart] and
    [delete_cart] leave a table of [Cart] whose rows have ids of their
    own, the users, profiles, vendors, menu, tax rules and orders as
    they were, and the lines of every other user as they were; they
    never use a lower value of the id sequence, and leave no line of a
    quantity below one unless there was one.  An anonymous request, or
    one that is no XMLHttpRequest, writes nothing. *)
Theorem cart_views_write_one_cart (now : Z) (request : HttpRequest.t)
    (food_id cart_id : Z) (st st' : Store) :
  cart_ids_sound st ->
  st' = snd (add_to_cart now request food_id st)
  \/ st' = snd (decrease_cart request food_id st)
  \/ st' = snd (delete_cart request cart_id st) ->
  match Request.user (HttpRequest.request request) with
  | Some user => wrote_cart_of user st st'
  | None => st' = st
  end
  /\ (is_ajax request = false -> st' = st).
Proof.
  intros Hids Hview. unfold add_to_cart, decrease_cart, delete_cart in Hview.
  cbv zeta in Hview.
  destruct (Request.user (HttpRequest.request request)) as [user |];
    [| cbn [snd] in Hview; split; [intuition | intros _; intuition]].
  destruct (is_ajax request);
    [| cbn [snd] in Hview; split;
       [ assert (st' = st) as -> by intuition; now apply wrote_refl
       | intros _; intuition ]].
  split; [| discriminate].
  destruct Hview as [-> | [-> | ->]].
  - destruct (objects_get _ (fooditems (tables st))) as [fooditem | e];
      [| now apply wrote_refl].
    pose proof (increase_line_wrote (HttpRequest.request request) user
                  fooditem st Hids) as H.
    destruct (increase_line _ user fooditem st) as [[json | e] st1];
      cbn [snd] in *; [exact H |].
    rewrite snd_answer. apply (wrote_trans user st st1); [exact H |].
    apply add_line_wrote. exact (proj1 H).
  - destruct (objects_get _ (fooditems (tables st))) as [fooditem | e];
      [| now apply wrote_refl].
    rewrite snd_answer. now apply decrease_line_wrote.
  - destruct (objects_get _ (carts (tables st))) as [c | e] eqn:Hget;
      [| now apply wrote_refl].
    apply AmountFacts.objects_get_In in Hget. destruct Hget as [Hc Hp].
    apply andb_true_iff in Hp. destruct Hp as [Hu _]. apply Z.eqb_eq in Hu.
    pose proof (delete_wrote user st Hids c Hc Hu) as H.
    destruct (success _ _ _ _); cbn [snd]; exact H.
Qed.

End CartFrame.

(** ** The totals of a cart and the order of its lines *)

Module CartOrderFacts.
Import Decimal RoundFacts DecimalFacts AmountFacts RowFacts.

Lemma py_add_decimal (x z : num) (d : t) :
  py_add x (PyDecimal d) = Ok z -> exists d', z = PyDecimal d'.
Proof.
  destruct x as [n | e | f]; cbn [py_add]; intros H;
    [inversion H; eauto | inversion H; eauto | discriminate].
Qed.

Lemma subtotal_decimal (db : Database) (items : list Cart.t) :
  forall d s, for_each (add_cart_item db) items (PyDecimal d) = Ok s ->
  exists d', s = PyDecimal d'.
Proof.
  induction items as [| item items IH]; intros d s H; cbn [for_each] in H.
  - inversion H. eauto.
  - apply bind_Ok_inv in H. destruct H as (z & Hz & H).
    unfold add_cart_item in Hz. apply bind_Ok_inv in Hz.
    destruct Hz as (f & _ & Hz). apply py_add_decimal in Hz.
    destruct Hz as (d' & ->). exact (IH d' s H).
Qed.

(** The subtotal of lines in range is exact: the sum of their
    hundredths. *)
Lemma subtotal_exact (db : Database) :
  (forall f, In f (fooditems db) -> decimal_field 10 2 (FoodItem.price f)) ->
  forall items acc M,
  (forall item, In item items ->
     0 <= Cart.quantity item <= 2147483647
     /\ exists f, objects_get (fun f => FoodItem.id f =? Cart.fooditem item)
                    (fooditems db) = Ok f) ->
  money_le M acc -> 0 <= M ->
  M + Z.of_nat (List.length items) * line_bound < 10 ^ prec ->
  exists s,
    for_each (add_cart_item db) items acc = Ok s
    /\ money_le (M + Z.of_nat (List.length items) * line_bound) s
    /\ money_cents s = money_cents acc + Zsum (map (line_cents db) items)
    /\ (items <> [] -> exists d, s = PyDecimal d).
Proof.
  intros Hprices. induction items as [| item items IH];
    intros acc M Hitems Hacc HM Hlt.
  - exists acc. cbn [for_each List.length Z.of_nat map Zsum].
    rewrite Z.mul_0_l, !Z.add_0_r. repeat split; try assumption.
    intros H. now contradiction H.
  - destruct (Hitems item (or_introl eq_refl)) as (Hq & f & Hf).
    destruct (objects_get_In _ _ _ Hf) as [Hin _].
    destruct (Hprices f Hin) as [He Hp].
    cbn [List.length] in Hlt |- *. rewrite Nat2Z.inj_succ in Hlt |- *.
    assert (Hline : Z.abs (coef (FoodItem.price f) * Cart.quantity item)
                    <= line_bound).
    { rewrite Z.abs_mul. unfold line_bound.
      rewrite (Z.abs_eq (Cart.quantity item)) by lia.
      apply Z.mul_le_mono_nonneg; lia. }
    pose proof line_bound_value as HB.
    assert (Hlen : 0 <= Z.of_nat (List.length items)) by lia.
    unfold prec in *.
    destruct (py_add_money M line_bound acc
                (PyDecimal (mk (coef (FoodItem.price f) * Cart.quantity item)
                              (-2))))
      as (z & Hz & Hmz & Hcz);
      [exact HM | lia | exact Hacc | right; eauto | unfold prec; nia |].
    assert (Hstep : add_cart_item db acc item = Ok z).
    { unfold add_cart_item. rewrite Hf. cbn [bind].
      unfold mul, of_int. cbn [coef exp].
      rewrite fix_small by (cbn [coef]; unfold prec; nia).
      rewrite He. exact Hz. }
    destruct (IH z (M + line_bound)) as (s & Hs & Hms & Hcs & _);
      [ intros i Hi; apply Hitems; now right | exact Hmz | lia
      | unfold prec; nia | ].
    exists s. cbn [for_each]. rewrite Hstep. cbn [bind].
    split; [exact Hs |]. split.
    { replace (M + Z.succ (Z.of_nat (List.length items)) * line_bound)
        with ((M + line_bound) + Z.of_nat (List.length items) * line_bound)
        by ring. exact Hms. }
    split.
    { cbn [map Zsum]. rewrite Hcs, Hcz. cbn [money_cents coef].
      unfold line_cents. rewrite Hf. lia. }
    intros _. destruct (py_add_decimal _ _ _ Hz) as (d & ->).
    exact (subtotal_decimal db items d s Hs).
Qed.

Lemma money_shape (M : Z) (s : num) (d : t) :
  money_le M s -> s = PyDecimal d -> s = PyDecimal (mk (money_cents s) (-2)).
Proof.
  intros [-> | (c & -> & _)] H; [discriminate | reflexivity].
Qed.

(** X3: the totals of a cart depend on the lines of the user, not on
    their order in the table nor on the lines of the other users: for a
    cart in the range of its fields whose lines name food items of the
    menu, a table of [Cart] in which the user has the same lines, in
    whatever order, gives the same subtotal, tax, grand total and
    breakdown. *)
Theorem cart_amounts_order_independent (request : Request.t) (user : User.t)
    (db : Database) (rows : list Cart.t) :
  Request.user request = Some user ->
  cart_in_range user db ->
  lines_resolve user db ->
  Permutation (lines_of user (carts db)) (lines_of user rows) ->
  get_cart_amounts request (set_carts db rows) = get_cart_amounts request db
  /\ exists amounts, get_cart_amounts request db = Ok amounts.
Proof.
  intros Huser Hrange Hres Hperm. split.
  2: { apply ReturnFacts.get_cart_amounts_returns. intros u Hu.
       rewrite Huser in Hu. inversion Hu; subst u. now split. }
  assert (Hline : forall item, In item (lines_of user (carts db)) ->
            0 <= Cart.quantity item <= 2147483647
            /\ exists f, objects_get
                           (fun f => FoodItem.id f =? Cart.fooditem item)
                           (fooditems db) = Ok f).
  { intros item Hin. apply filter_In in Hin. destruct Hin as [Hin Hu].
    apply Z.eqb_eq in Hu. split.
    - exact (quantities_in_range _ _ Hrange item Hin).
    - exact (Hres item Hin Hu). }
  pose proof (lines_in_range _ _ Hrange) as Hlen.
  fold (lines_of user (carts db)) in Hlen.
  pose proof line_bound_value as HB.
  destruct (subtotal_exact db (prices_in_range _ _ Hrange)
              (lines_of user (carts db)) (PyInt 0) 0 Hline)
    as (s & Hs & Hms & Hcs & Hds);
    [now left | lia | unfold prec; lia |].
  destruct (subtotal_exact db (prices_in_range _ _ Hrange)
              (lines_of user rows) (PyInt 0) 0)
    as (s' & Hs' & Hms' & Hcs' & Hds');
    [ intros item Hin; apply Hline;
      exact (Permutation_in _ (Permutation_sym Hperm) Hin)
    | now left | lia
    | rewrite <- (Permutation_length Hperm); unfold prec; lia | ].
  assert (Hsame : s' = s).
  { destruct (lines_of user (carts db)) as [| item items] eqn:E.
    - apply Permutation_nil in Hperm. rewrite Hperm in Hs'.
      cbn [for_each] in Hs, Hs'. congruence.
    - destruct Hds as (d & Hd); [discriminate |].
      destruct Hds' as (d' & Hd').
      { intros E'. rewrite E' in Hperm. apply Permutation_sym in Hperm.
        apply Permutation_nil in Hperm. discriminate. }
      rewrite (money_shape _ _ _ Hms Hd), (money_shape _ _ _ Hms' Hd').
      rewrite Hcs, Hcs'. do 2 f_equal. f_equal. symmetry.
      apply Zsum_perm. now apply Permutation_map. }
  unfold get_cart_amounts. rewrite Huser. cbv zeta.
  cbn [set_carts carts fooditems taxes].
  fold (lines_of user rows). fold (lines_of user (carts db)).
  change (add_cart_item (set_carts db rows)) with (add_cart_item db).
  now rewrite Hs, Hs', Hsame.
Qed.

Lemma subtotal_of_cart (request : Request.t) (user : User.t) (db : Database)
    (r : CartAmounts.t) :
  Request.user request = Some user ->
  cart_in_range user db -> lines_resolve user db ->
  get_cart_amounts request db = Ok r ->
  money_le (10000 * line_bound) (CartAmounts.subtotal r)
  /\ money_cents (CartAmounts.subtotal r)
     = Zsum (map (line_cents db) (lines_of user (carts db))).
Proof.
  intros Huser Hrange Hres H.
  pose proof (lines_in_range _ _ Hrange) as Hlen.
  fold (lines_of user (carts db)) in Hlen.
  pose proof line_bound_value as HB.
  destruct (subtotal_exact db (prices_in_range _ _ Hrange)
              (lines_of user (carts db)) (PyInt 0) 0)
    as (s & Hs & Hms & Hcs & _);
    [ | now left | lia | unfold prec; lia |].
  { intros item Hin. apply filter_In in Hin. destruct Hin as [Hin Hu].
    apply Z.eqb_eq in Hu. split.
    - exact (quantities_in_range _ _ Hrange item Hin).
    - exact (Hres item Hin Hu). }
  unfold get_cart_amounts in H. rewrite Huser in H. cbv zeta in H.
  fold (lines_of user (carts db)) in H. rewrite Hs in H. cbn [bind] in H.
  apply bind_Ok_inv in H. destruct H as (tax_dict & _ & H).
  apply bind_Ok_inv in H. destruct H as (tax & _ & H).
  apply bind_Ok_inv in H. destruct H as (grand_total & _ & H).
  inversion H; subst r. cbn [CartAmounts.subtotal].
  split; [| exact Hcs].
  destruct Hms as [-> | (c & -> & Hc)]; [now left | right].
  exists c. split; [reflexivity |]. cbn [money_cents] in *. nia.
Qed.

Lemma line_amount_cents (db : Database) (item : Cart.t) :
  (forall f, In f (fooditems db) -> decimal_field 10 2 (FoodItem.price f)) ->
  (line_amount db item == line_cents db item # 100)%Q.
Proof.
  intros Hprices. unfold line_amount, line_cents.
  destruct (objects_get _ (fooditems db)) as [f | e] eqn:Hf; [| reflexivity].
  destruct (objects_get_In _ _ _ Hf) as [Hin _].
  destruct (Hprices f Hin) as [He _].
  destruct (FoodItem.price f) as [c e]. cbn [exp coef] in *. subst e.
  rewrite ValueFacts.value_cents. unfold Qeq, Qmult, inject_Z.
  cbn [Qnum Qden]. lia.
Qed.

Lemma Qsum_line_amounts (db : Database) (items : list Cart.t) :
  (forall f, In f (fooditems db) -> decimal_field 10 2 (FoodItem.price f)) ->
  (Qsum (map (line_amount db) items)
   == Zsum (map (line_cents db) items) # 100)%Q.
Proof.
  intros Hprices. induction items as [| item items IH]; cbn [map Qsum Zsum].
  - reflexivity.
  - rewrite IH, (line_amount_cents db item Hprices).
    unfold Qeq, Qplus. cbn [Qnum Qden]. lia.
Qed.

(** X2: the subtotal of a cart is exact.  For a cart in the range of its
    fields whose lines name food items of the menu, the cart aggregator
    returns, and its subtotal is the sum over the lines of the user of
    the price of the food item times the quantity, with no rounding. *)
Theorem cart_subtotal_is_sum (request : Request.t) (user : User.t)
    (db : Database) :
  Request.user request = Some user ->
  cart_in_range user db -> lines_resolve user db ->
  exists r s,
    get_cart_amounts request db = Ok r
    /\ num_value (CartAmounts.subtotal r) = Some s
    /\ (s == Qsum (map (line_amount db) (lines_of user (carts db))))%Q.
Proof.
  intros Huser Hrange Hres.
  destruct (ReturnFacts.get_cart_amounts_returns request db) as (r & Hr).
  { intros u Hu. rewrite Huser in Hu. inversion Hu; subst u. now split. }
  destruct (subtotal_of_cart request user db r Huser Hrange Hres Hr)
    as [Hm Hc].
  destruct (money_value _ _ Hm) as (s & Hs & Hsv).
  exists r, s. split; [exact Hr |]. split; [exact Hs |].
  rewrite Hsv, Hc. symmetry.
  apply Qsum_line_amounts. exact (prices_in_range _ _ Hrange).
Qed.

End CartOrderFacts.

(** ** The sign of the totals *)

Module CartSigns.
Import Decimal RoundFacts DecimalFacts DictFacts BreakdownFacts CartFacts
       AmountFacts TotalsFacts CartOrderFacts.

Lemma amount_not_negative (pct : Decimal.t) (sub : num) (M : Z) (a : Decimal.t) :
  decimal_field 4 2 pct -> money_le M sub -> 0 <= M ->
  10 ^ 4 * M < 10 ^ prec ->
  0 <= coef pct -> 0 <= money_cents sub ->
  tax_amount pct sub = Ok a ->
  0 <= coef a.
Proof.
  intros [He Hp] Hsub HM Hlt Hpct Hcents Ha. change (- (2)) with (-2) in He.
  change (10 ^ 4) with 10000 in *.
  destruct Hsub as [-> | (c & -> & Hc)].
  - rewrite (tax_amount_cents pct (PyInt 0) (of_int 0) eq_refl) in Ha
      by (unfold of_int; cbn [coef]; rewrite Z.mul_0_r; unfold prec; lia).
    unfold of_int in Ha. cbn [coef exp] in Ha.
    rewrite Z.mul_0_r, at_cents_zero in Ha.
    change (Z.abs 0 <? 10 ^ prec) with true in Ha.
    inversion Ha; subst a. cbn [coef]. lia.
  - cbn [money_cents coef] in Hcents.
    assert (HP : Z.abs (coef pct * c) < 10 ^ prec).
    { rewrite Z.abs_mul. unfold prec in *. nia. }
    rewrite (tax_amount_cents pct (PyDecimal (mk c (-2))) (mk c (-2)) eq_refl) in Ha
      by (cbn [coef]; exact HP).
    cbn [coef exp] in Ha. rewrite He in Ha.
    change (-2 + -2 - 2) with (-6) in Ha.
    unfold at_cents in Ha. change (-2 <=? -6) with false in Ha. cbv iota in Ha.
    change (10 ^ (- 2 - -6)) with 10000 in Ha.
    pose proof (rhe_nearest (coef pct * c) 10000 ltac:(lia)) as [Hn _].
    set (q := round_half_even (coef pct * c) 10000) in *.
    assert (Hq : 0 <= q) by nia.
    destruct (Z.abs q <? 10 ^ prec); [| discriminate].
    inversion Ha; subst a. cbn [coef]. exact Hq.
Qed.

Lemma Zsum_not_negative (l : list Z) : Forall (fun x => 0 <= x) l -> 0 <= Zsum l.
Proof. induction 1; cbn [Zsum]; lia. Qed.

Lemma cents_not_negative (x : num) (M : Z) (s : Q) :
  money_le M x -> num_value x = Some s -> 0 <= money_cents x -> (0 <= s)%Q.
Proof.
  intros Hm Hs Hc. destruct (money_value _ _ Hm) as (s' & Hs' & Hv).
  rewrite Hs in Hs'. inversion Hs'; subst s'. rewrite Hv.
  unfold Qle. cbn [Qnum Qden]. lia.
Qed.

(** X4: the totals of a cart are not negative.  For a cart in the range
    of its fields whose lines name food items of the menu, when no
    price and no percentage of an active rule is negative, the subtotal,
    every amount of the breakdown and the tax are not negative, and the
    grand total is not below the subtotal. *)
Theorem cart_totals_not_negative (request : Request.t) (user : User.t)
    (db : Database) :
  Request.user request = Some user ->
  cart_in_range user db -> lines_resolve user db ->
  (forall f, In f (fooditems db) -> 0 <= coef (FoodItem.price f)) ->
  (forall i, In i (taxes db) -> Tax.is_active i = true ->
     0 <= coef (Tax.tax_percentage i)) ->
  exists r s t g,
    get_cart_amounts request db = Ok r
    /\ num_value (CartAmounts.subtotal r) = Some s
    /\ num_value (CartAmounts.tax r) = Some t
    /\ num_value (CartAmounts.grand_total r) = Some g
    /\ (0 <= s)%Q /\ (0 <= t)%Q /\ (s <= g)%Q
    /\ Forall (fun a => (0 <= value a)%Q)
         (breakdown_amounts (CartAmounts.tax_dict r)).
Proof.
  intros Huser Hrange Hres Hprices Hpcts.
  destruct (ReturnFacts.get_cart_amounts_returns request db) as (r & Hr).
  { intros u Hu. rewrite Huser in Hu. inversion Hu; subst u. now split. }
  destruct (totals_in_range _ _ _ _ Huser Hrange Hr)
    as (Hs & Hexp & Ht & (Mt & Htax) & (Mg & Hg) & Hsum).
  destruct (subtotal_of_cart _ _ _ _ Huser Hrange Hres Hr) as [_ Hcents].
  destruct (get_cart_amounts_Ok _ _ _ _ Huser Hr) as (_ & Hd & _ & _).
  pose proof line_bound_value as HB.
  assert (Hsub : 0 <= money_cents (CartAmounts.subtotal r)).
  { rewrite Hcents. apply Zsum_not_negative. apply Forall_map.
    apply Forall_forall. intros item Hin. apply filter_In in Hin.
    destruct Hin as [Hin _]. unfold line_cents.
    destruct (objects_get _ (fooditems db)) as [f | e] eqn:Hf; [| lia].
    destruct (objects_get_In _ _ _ Hf) as [Hfin _].
    pose proof (Hprices f Hfin).
    pose proof (quantities_in_range _ _ Hrange item Hin). nia. }
  assert (Hentries : forall ty entry, In (ty, entry) (CartAmounts.tax_dict r) ->
            exists k a, entry = [(k, a)] /\ 0 <= coef a).
  { intros ty entry Hin.
    destruct (breakdown_entries _ _ _ _ Hd ty entry Hin)
      as [[] | (i & a & Hi & _ & Ha & ->)].
    exists (to_str (Tax.tax_percentage i)), a. split; [reflexivity |].
    apply filter_In in Hi. destruct Hi as [Hi Hactive].
    eapply amount_not_negative;
      [ exact (percentages_in_range _ _ Hrange i Hi) | exact Hs | lia
      | unfold prec; lia | now apply Hpcts | exact Hsub | exact Ha ]. }
  destruct (singleton_amounts _ _ Hentries) as [_ Hall].
  assert (Htaxc : 0 <= money_cents (CartAmounts.tax r)).
  { rewrite Ht. apply Zsum_not_negative. now apply Forall_map. }
  destruct (money_value _ _ Hs) as (s & Hsv & Hse).
  destruct (money_value _ _ Htax) as (t & Htv & Hte).
  destruct (money_value _ _ Hg) as (g & Hgv & Hge).
  exists r, s, t, g. repeat (split; [assumption |]).
  split; [exact (cents_not_negative _ _ _ Hs Hsv Hsub) |].
  split; [exact (cents_not_negative _ _ _ Htax Htv Htaxc) |].
  split.
  - rewrite Hse, Hge, Hsum. unfold Qle. cbn [Qnum Qden]. lia.
  - rewrite Forall_forall in Hall, Hexp |- *. intros a Ha.
    specialize (Hall a Ha). specialize (Hexp a Ha).
    destruct a as [c e]. cbn [exp coef] in *. subst e.
    rewrite ValueFacts.value_cents. unfold Qle. cbn [Qnum Qden]. lia.
Qed.

End CartSigns.

(** ** The subtotal after a cart view *)

Module CartAmountViews.
Import RowFacts StoreFacts CartStateFacts CartViewFacts QuantityFacts
       CartOrderFacts.

Lemma line_cents_food (db : Database) (c : Cart.t) (fooditem : FoodItem.t) :
  objects_get (fun f => FoodItem.id f =? Cart.fooditem c) (fooditems db)
  = Ok fooditem ->
  line_cents db c = Decimal.coef (FoodItem.price fooditem) * Cart.quantity c.
Proof. intros H. unfold line_cents. now rewrite H. Qed.

Lemma subtotal_of_store (request : Request.t) (user : User.t) (st : Store)
    (r : CartAmounts.t) :
  Request.user request = Some user ->
  cart_well_formed user st ->
  get_cart_amounts request (tables st) = Ok r ->
  exists s,
    num_value (CartAmounts.subtotal r) = Some s
    /\ (s == Zsum (map (line_cents (tables st))
                     (lines_of user (carts (tables st)))) # 100)%Q.
Proof.
  intros Huser Hwf Hr.
  destruct (subtotal_of_cart request user (tables st) r Huser
              (wf_range _ _ Hwf) (wf_resolve _ _ Hwf) Hr) as [Hm Hc].
  destruct (AmountFacts.money_value _ _ Hm) as (s & Hs & Hsv).
  exists s. split; [exact Hs |]. now rewrite Hsv, Hc.
Qed.

Lemma cents_sum (a b p : Z) (s s' price : Q) :
  (s == a # 100)%Q -> (s' == b # 100)%Q -> (price == p # 100)%Q ->
  forall k, b = a + p * k -> (s' == s + price * inject_Z k)%Q.
Proof.
  intros H H' Hp k ->. rewrite H, H', Hp.
  unfold Qeq, Qplus, Qmult, inject_Z. cbn [Qnum Qden]. lia.
Qed.

Lemma cents_minus (a b p : Z) (s s' price : Q) :
  (s == a # 100)%Q -> (s' == b # 100)%Q -> (price == p # 100)%Q ->
  forall k, b = a - p * k -> (s' == s - price * inject_Z k)%Q.
Proof.
  intros H H' Hp k ->. rewrite H, H', Hp.
  unfold Qeq, Qminus, Qplus, Qopp, Qmult, inject_Z. cbn [Qnum Qden]. lia.
Qed.

(** X10: the subtotal follows the cart views.  On a well-formed cart, the
    subtotal that a successful [add_to_cart] reports is the subtotal
    before it plus the price of the food item, and the subtotal that
    [decrease_cart] reports for a food item of the cart is the subtotal
    before it minus this price, or the same subtotal when the line had
    a quantity of zero. *)
Theorem cart_views_move_the_subtotal (now : Z) (request : HttpRequest.t)
    (user : User.t) (food_id : Z) (fooditem : FoodItem.t) (st : Store) :
  Request.user (HttpRequest.request request) = Some user ->
  is_ajax request = true ->
  objects_get (fun f => FoodItem.id f =? food_id) (fooditems (tables st))
  = Ok fooditem ->
  cart_well_formed user st ->
  let price := Decimal.value (FoodItem.price fooditem) in
  let quantity := quantity_in_cart user food_id (carts (tables st)) in
  exists r s,
    get_cart_amounts (HttpRequest.request request) (tables st) = Ok r
    /\ num_value (CartAmounts.subtotal r) = Some s
    /\ (Z.of_nat (List.length (lines_of user (carts (tables st)))) < 10000 ->
        quantity < 2147483647 ->
        exists r' s',
          CartJson.cart_amount (fst (add_to_cart now request food_id st))
          = Some r'
          /\ num_value (CartAmounts.subtotal r') = Some s'
          /\ (s' == s + price)%Q)
    /\ (lines_for user food_id (carts (tables st)) <> [] ->
        exists r' s',
          CartJson.cart_amount (fst (decrease_cart request food_id st))
          = Some r'
          /\ num_value (CartAmounts.subtotal r') = Some s'
          /\ (s' == s - price * inject_Z (Z.min quantity 1))%Q).
Proof.
  intros Huser Hajax Hfood Hwf price quantity. subst price quantity.
  destruct (success_returns user st (HttpRequest.request request) None None
              Huser Hwf) as (r & Hr & _).
  destruct (subtotal_of_store _ user st r Huser Hwf Hr) as (s & Hs & Hsv).
  exists r, s. split; [exact Hr |]. split; [exact Hs |].
  pose proof (food_found food_id fooditem st Hfood) as Hid.
  assert (Hprice : (Decimal.value (FoodItem.price fooditem)
                    == Decimal.coef (FoodItem.price fooditem) # 100)%Q).
  { destruct (AmountFacts.objects_get_In _ _ _ Hfood) as [Hin _].
    destruct (prices_in_range _ _ (wf_range _ _ Hwf) fooditem Hin) as [He _].
    destruct (FoodItem.price fooditem) as [c e]. cbn [Decimal.exp] in He.
    subst e. apply ValueFacts.value_cents. }
  destruct (lines_for_cases user food_id (carts (tables st))
              (proj1 (wf_ids _ _ Hwf)) (wf_one_line _ _ Hwf))
    as [Hnone | (c & Hone)].
  - split; [| intros H; now contradiction H].
    intros Hroom _.
    destruct (add_to_cart_new request user food_id fooditem st Huser Hajax
                Hfood Hwf now Hnone Hroom) as (Hwf' & r' & Hr' & ->).
    cbn [fst CartJson.cart_amount].
    destruct (subtotal_of_store _ user _ r' Huser Hwf' Hr')
      as (s' & Hs' & Hsv').
    exists r', s'. split; [reflexivity |]. split; [exact Hs' |].
    cbn [tables set_carts carts] in Hsv'.
    change (line_cents (set_carts (tables st) ?rows))
      with (line_cents (tables st)) in Hsv'.
    rewrite <- (Qmult_1_r (Decimal.value _)).
    apply (cents_sum _ _ _ _ _ _ Hsv Hsv' Hprice 1).
    unfold lines_of. rewrite filter_app, map_app, Zsum_app.
    cbn [filter Cart.user]. rewrite Z.eqb_refl. cbn [map Zsum].
    rewrite (line_cents_food _ _ fooditem) by exact Hfood.
    cbn [Cart.quantity]. lia.
  - destruct (line_split user food_id st c Hwf Hone)
      as (Hu & Hf & before & after & Hrows).
    rewrite (quantity_one_line _ _ _ _ Hone).
    assert (Hcents : forall quantity,
              Zsum (map (line_cents (tables st))
                      (lines_of user
                         (before ++ after ++ [with_quantity c quantity])))
              = Zsum (map (line_cents (tables st))
                        (lines_of user (carts (tables st))))
                + Decimal.coef (FoodItem.price fooditem)
                  * (quantity - Cart.quantity c)).
    { intros quantity. rewrite Hrows. unfold lines_of.
      rewrite sum_at, sum_moved.
      cbn [with_quantity Cart.user]. rewrite (mine_true user c Hu).
      rewrite !(line_cents_food _ _ fooditem)
        by (cbn [with_quantity Cart.fooditem]; rewrite Hf; exact Hfood).
      cbn [with_quantity Cart.quantity]. lia. }
    split.
    + intros _ Hq.
      destruct (add_to_cart_existing request user food_id fooditem st Huser
                  Hajax Hfood Hwf now c before after Hrows Hone Hq)
        as (Hwf' & r' & Hr' & ->).
      cbn [fst CartJson.cart_amount].
      destruct (subtotal_of_store _ user _ r' Huser Hwf' Hr')
        as (s' & Hs' & Hsv').
      exists r', s'. split; [reflexivity |]. split; [exact Hs' |].
      cbn [tables set_carts carts] in Hsv'.
      change (line_cents (set_carts (tables st) ?rows))
        with (line_cents (tables st)) in Hsv'.
      rewrite <- (Qmult_1_r (Decimal.value _)).
      apply (cents_sum _ _ _ _ _ _ Hsv Hsv' Hprice 1).
      rewrite Hcents. lia.
    + intros _.
      pose proof (quantities_in_range _ _ (wf_range _ _ Hwf) c
                    (row_in st c before after Hrows)) as Hq0.
      destruct (Z_lt_le_dec 1 (Cart.quantity c)) as [Hq | Hq].
      * destruct (decrease_cart_lowers request user food_id fooditem st Huser
                    Hajax Hfood Hwf c before after Hrows Hone Hq)
          as (Hwf' & r' & Hr' & ->).
        cbn [fst CartJson.cart_amount].
        destruct (subtotal_of_store _ user _ r' Huser Hwf' Hr')
          as (s' & Hs' & Hsv').
        exists r', s'. split; [reflexivity |]. split; [exact Hs' |].
        cbn [tables set_carts carts] in Hsv'.
        change (line_cents (set_carts (tables st) ?rows))
          with (line_cents (tables st)) in Hsv'.
        apply (cents_minus _ _ _ _ _ _ Hsv Hsv' Hprice).
        rewrite Hcents, Z.min_r by lia. lia.
      * destruct (decrease_cart_removes request user food_id fooditem st Huser
                    Hajax Hfood Hwf c before after Hrows Hone Hq)
          as (Hwf' & r' & Hr' & ->).
        cbn [fst CartJson.cart_amount].
        destruct (subtotal_of_store _ user _ r' Huser Hwf' Hr')
          as (s' & Hs' & Hsv').
        exists r', s'. split; [reflexivity |]. split; [exact Hs' |].
        cbn [tables set_carts carts] in Hsv'.
        change (line_cents (set_carts (tables st) ?rows))
          with (line_cents (tables st)) in Hsv'.
        apply (cents_minus _ _ _ _ _ _ Hsv Hsv' Hprice).
        rewrite Hrows. unfold lines_of. rewrite sum_at, sum_without.
        rewrite (mine_true user c Hu).
        rewrite (line_cents_food _ _ fooditem) by (rewrite Hf; exact Hfood).
        rewrite Z.min_l by lia. lia.
Qed.

End CartAmountViews.

(** ** The cart views at their edges *)

Module CartEdges.
Import RowFacts StoreFacts CartStateFacts CartViewFacts QuantityFacts.

(** X11: [add_to_cart] at the bound of the column.  When the line of the
    food item has the largest quantity an integer column holds, saving
    the line with one more is refused by the database; the view takes
    the error for a missing line, and adds a second line for the same
    food item with a quantity of one, answering with a success.  From
    then on [decrease_cart] of this food item finds two lines and
    answers that the item is not in the cart. *)
Theorem add_to_cart_at_the_bound (now : Z) (request : HttpRequest.t)
    (user : User.t) (food_id : Z) (fooditem : FoodItem.t) (st : Store)
    (c : Cart.t) :
  Request.user (HttpRequest.request request) = Some user ->
  is_ajax request = true ->
  objects_get (fun f => FoodItem.id f =? food_id) (fooditems (tables st))
  = Ok fooditem ->
  cart_well_formed user st ->
  Z.of_nat (List.length (lines_of user (carts (tables st)))) < 10000 ->
  lines_for user food_id (carts (tables st)) = [c] ->
  Cart.quantity c = 2147483647 ->
  let line := Cart.mk (cart_id_seq st + 1) (User.id user) food_id 1 now in
  let st' :=
    mk_store (set_carts (tables st) (carts (tables st) ++ [line]))
      (cart_id_seq st + 1) in
  exists amounts,
    add_to_cart now request food_id st
    = (CartJson.mk "Success" (Some "Added the food to the cart")
         (Some (get_cart_counter (HttpRequest.request request) (tables st) + 1))
         (Some 1) (Some amounts),
       st')
    /\ get_cart_amounts (HttpRequest.request request) (tables st') = Ok amounts
    /\ lines_for user food_id (carts (tables st')) = [c; line]
    /\ ~ one_line_per_food (carts (tables st'))
    /\ decrease_cart request food_id st'
       = (failed "You do not have this item in your cart!", st').
Proof.
  intros Huser Hajax Hfood Hwf Hroom Hone Hq line st'.
  pose proof (food_found food_id fooditem st Hfood) as Hid.
  assert (Hfood' : objects_get (fun f => FoodItem.id f =? FoodItem.id fooditem)
                     (fooditems (tables st)) = Ok fooditem)
    by (rewrite Hid; exact Hfood).
  destruct (append_sound user st fooditem now Hwf Hfood' Hroom)
    as (Hids & Hrange & Hres).
  rewrite Hid in Hids, Hrange, Hres. fold line in Hids, Hrange, Hres.
  fold st' in Hids, Hrange, Hres.
  destruct (success_in_range user st' (HttpRequest.request request)
              (Some "Added the food to the cart") (Some 1) Huser Hrange Hres)
    as (amounts & Ha & Hs).
  assert (Hlines : lines_for user food_id (carts (tables st')) = [c; line]).
  { subst st'. cbn [tables set_carts carts]. unfold lines_for in *.
    rewrite filter_app, Hone. subst line.
    cbn [filter Cart.user Cart.fooditem app]. now rewrite !Z.eqb_refl. }
  assert (Hc : In c (lines_for user food_id (carts (tables st))))
    by (rewrite Hone; now left).
  apply lines_for_In in Hc. destruct Hc as (Hc & Hu & Hf).
  exists amounts. split; [| split; [exact Ha | split; [exact Hlines | split]]].
  - unfold add_to_cart. cbv zeta. rewrite Huser, Hajax, Hfood.
    unfold increase_line.
    rewrite (get_line_lines user food_id fooditem st Hfood), Hone. cbv zeta.
    destruct (save_cart_refused st (with_quantity c (Cart.quantity c + 1)))
      as (e & ->); [cbn [with_quantity Cart.quantity]; lia |].
    unfold add_line. rewrite Hid.
    rewrite create_cart_fresh by exact (proj2 (wf_ids _ _ Hwf)).
    cbn [Cart.quantity]. fold line. fold st'. rewrite Hs.
    rewrite !(get_cart_counter_sum _ _ user Huser).
    subst st'. cbn [tables set_carts carts].
    rewrite counter_appended by reflexivity. reflexivity.
  - intros H. specialize (H c line).
    assert (Hne : Cart.id c <> Cart.id line).
    { subst line. cbn [Cart.id].
      pose proof (proj2 (wf_ids _ _ Hwf) c Hc). lia. }
    apply Hne, H.
    + subst st'. cbn [tables set_carts carts]. apply in_or_app. now left.
    + subst st'. cbn [tables set_carts carts]. apply in_or_app. right.
      now left.
    + subst line. cbn [Cart.user]. exact Hu.
    + subst line. cbn [Cart.fooditem]. exact Hf.
  - unfold decrease_cart. cbv zeta. rewrite Huser, Hajax.
    change (fooditems (tables st')) with (fooditems (tables st)).
    rewrite Hfood. unfold decrease_line.
    assert (Hget : get_line user fooditem st' = Raise MultipleObjectsReturned).
    { unfold get_line, objects_get. rewrite Hid.
      fold (lines_for user food_id (carts (tables st'))). now rewrite Hlines. }
    now rewrite Hget.
Qed.

(** X12: what the cart views refuse.  An anonymous request gets the
    answer [login_required] from [add_to_cart] and [decrease_cart], and
    no response from [delete_cart]; a request of a user that is no
    XMLHttpRequest is an invalid request for the three views; an
    XMLHttpRequest of a user for an id that no food item has is
    answered that the food does not exist.  Nothing is written. *)
Theorem cart_views_refuse (now : Z) (request : HttpRequest.t)
    (food_id cart_id : Z) (st : Store) :
  (Request.user (HttpRequest.request request) = None ->
   add_to_cart now request food_id st = (login_required_json, st)
   /\ decrease_cart request food_id st = (login_required_json, st)
   /\ delete_cart request cart_id st = (None, st))
  /\ (Request.user (HttpRequest.request request) <> None ->
      HttpRequest.x_requested_with request <> Some "XMLHttpRequest" ->
      add_to_cart now request food_id st = (failed "Invalid request!", st)
      /\ decrease_cart request food_id st = (failed "Invalid request!", st)
      /\ delete_cart request cart_id st
         = (Some (failed "Invalid request!"), st))
  /\ (Request.user (HttpRequest.request request) <> None ->
      HttpRequest.x_requested_with request = Some "XMLHttpRequest" ->
      (forall f, In f (fooditems (tables st)) -> FoodItem.id f <> food_id) ->
      add_to_cart now request food_id st
      = (failed "This food does not exist!", st)
      /\ decrease_cart request food_id st
         = (failed "This food does not exist!", st)).
Proof.
  unfold add_to_cart, decrease_cart, delete_cart. cbv zeta.
  split; [| split].
  - intros ->. now repeat split.
  - intros Hu Hx.
    destruct (Request.user (HttpRequest.request request)) as [user |];
      [| now contradiction Hu].
    assert (Hajax : is_ajax request = false).
    { unfold is_ajax.
      destruct (HttpRequest.x_requested_with request) as [v |];
        [| reflexivity].
      destruct (String.eqb_spec v "XMLHttpRequest") as [-> | _];
        [now contradiction Hx | reflexivity]. }
    rewrite Hajax. now repeat split.
  - intros Hu Hx Hnone.
    destruct (Request.user (HttpRequest.request request)) as [user |];
      [| now contradiction Hu].
    unfold is_ajax. rewrite Hx. cbn [String.eqb Ascii.eqb Bool.eqb].
    unfold objects_get. rewrite filter_none; [now split |].
    intros f Hf. apply Z.eqb_neq. now apply Hnone.
Qed.

End CartEdges.

(** ** The counter, the cart page and the checkout page *)

Module CartPages.
Import RowFacts StoreFacts.

(** X1: the cart counter is the sum of the quantities of the lines of
    the user, and 0 for an anonymous request; it is the same for any
    table of [Cart] in which the user has the same lines, in whatever
    order, and it is not negative when no quantity is. *)
Theorem cart_counter_counts (request : Request.t) (db : Database) :
  get_cart_counter request db
  = match Request.user request with
    | Some user => Zsum (map Cart.quantity (lines_of user (carts db)))
    | None => 0
    end
  /\ (forall user rows,
        Request.user request = Some user ->
        Permutation (lines_of user (carts db)) (lines_of user rows) ->
        get_cart_counter request (set_carts db rows)
        = get_cart_counter request db)
  /\ ((forall c, In c (carts db) -> 0 <= Cart.quantity c) ->
      0 <= get_cart_counter request db).
Proof.
  split; [| split].
  - destruct (Request.user request) as [user |] eqn:Hu.
    + now apply get_cart_counter_sum.
    + unfold get_cart_counter. now rewrite Hu.
  - intros user rows Hu Hperm. rewrite !(get_cart_counter_sum _ _ user Hu).
    cbn [set_carts carts]. symmetry. apply Zsum_perm.
    now apply Permutation_map.
  - intros Hq. destruct (Request.user request) as [user |] eqn:Hu.
    + rewrite (get_cart_counter_sum _ _ user Hu). unfold lines_of.
      induction (carts db) as [| c l IH]; cbn [filter map Zsum]; [lia |].
      assert (0 <= Zsum (map Cart.quantity
                           (filter (fun item => Cart.user item =? User.id user) l)))
        by (apply IH; intros x Hx; apply Hq; now right).
      destruct (Cart.user c =? User.id user); cbn [map Zsum]; [| assumption].
      specialize (Hq c (or_introl eq_refl)). lia.
    + unfold get_cart_counter. rewrite Hu. lia.
Qed.

Section OrderByDate.
Context {A : Type} (key : A -> Z).

Lemma insert_by_date_perm (x : A) (l : list A) :
  Permutation (insert_by Z.leb key x l) (x :: l).
Proof.
  induction l as [| y l IH]; cbn [insert_by]; [reflexivity |].
  destruct (key x <=? key y); [reflexivity |].
  rewrite IH. apply perm_swap.
Qed.

Lemma order_by_date_perm (l : list A) : Permutation (order_by Z.leb key l) l.
Proof.
  unfold order_by. induction l as [| x l IH]; cbn [fold_right]; [reflexivity |].
  rewrite insert_by_date_perm. now constructor.
Qed.





End OrderByDate.


(** X14: the checkout page of a user with a line in the cart.  With one
    profile, the view renders the checkout page with the lines the cart
    page shows and a form filled from the user and the profile, and
    writes nothing; with no profile it raises DoesNotExist, with more
    than one MultipleObjectsReturned. *)
Theorem checkout_shows_the_cart (request : Request.t) (user : User.t)
    (db : Database) :
  Request.user request = Some user ->
  lines_of user (carts db) <> [] ->
  match filter (fun p => match UserProfile.user p with
                         | Some u => u =? User.id user
                         | None => false
                         end) (user_profiles db) with
  | [] => checkout request db = Raise DoesNotExist
  | [profile] =>
      exists lines,
        cart request db = Render "marketplace/cart.html" lines
        /\ checkout request db
           = Ok (Render "marketplace/checkout.html"
                   (CheckoutContext.mk
                      (mk_default_values (User.first_name user)
                         (User.last_name user) (User.phone_number user)
                         (User.email user) (UserProfile.address profile)
                         (UserProfile.country profile)
                         (UserProfile.state profile)
                         (UserProfile.city profile)
                         (UserProfile.pin_code profile))
                      lines),
                 db)
  | _ :: _ :: _ => checkout request db = Raise MultipleObjectsReturned
  end.
Proof.
  intros Hu Hlines. unfold checkout, cart. rewrite Hu. cbv zeta.
  fold (lines_of user (carts db)).
  assert (Hcount : (Z.of_nat (List.length
                                (order_by Z.leb Cart.created_at
                                   (lines_of user (carts db)))) <=? 0) = false).
  { apply Z.leb_gt.
    rewrite (Permutation_length (order_by_date_perm Cart.created_at _)).
    destruct (lines_of user (carts db)); [now contradiction Hlines |].
    cbn [List.length]. lia. }
  rewrite Hcount. unfold objects_get.
  destruct (filter _ (user_profiles db)) as [| profile [| profile' l]];
    cbn [bind]; [reflexivity | | reflexivity].
  eexists. split; reflexivity.
Qed.

End CartPages.

(** ** The listings *)

Module Listings.
Import DictFacts ViewFacts DiscoveryClaims.

Lemma user_is_active_iff (db : Database) (v : Vendor.t) :
  user_is_active db v = true
  <-> exists u, In u (users db) /\ User.id u = Vendor.user v
                /\ User.is_active u = true.
Proof.
  unfold user_is_active. rewrite existsb_exists.
  split; intros (u & Hu & H); exists u.
  - apply andb_true_iff in H. destruct H as [H H']. apply Z.eqb_eq in H.
    now repeat split.
  - destruct H as [H H']. split; [exact Hu |]. apply andb_true_iff.
    split; [now apply Z.eqb_eq | exact H'].
Qed.

Lemma icontains_empty (s : string) : icontains "" s = true.
Proof. unfold icontains. cbn [sql_upper]. now destruct (sql_upper s). Qed.

Lemma prefix_iff (sub s : string) :
  String.prefix sub s = true <-> exists rest, s = (sub ++ rest)%string.
Proof.
  revert s. induction sub as [| a sub IH]; intros s; cbn [append].
  - split; [intros _; now exists s | intros _; now destruct s].
  - destruct s as [| b s]; cbn [String.prefix];
      [split; [discriminate | intros (rest & H); discriminate] |].
    destruct (ascii_dec a b) as [-> | Hne].
    + rewrite IH. split; intros (rest & H); exists rest; congruence.
    + split; [discriminate |]. intros (rest & H). congruence.
Qed.

Lemma contains_iff (sub s : string) :
  Text.contains sub s = true
  <-> exists before after, s = (before ++ sub ++ after)%string.
Proof.
  induction s as [| c s IH]; cbn [Text.contains]; rewrite orb_true_iff, prefix_iff.
  - split.
    + intros [(rest & H) | H]; [now exists "", rest | discriminate].
    + intros ([| c before] & after & H); [left; now exists after | discriminate].
  - rewrite IH. split.
    + intros [(rest & H) | (before & after & H)]; [now exists "", rest |].
      exists (String c before), after. cbn [append]. now rewrite H.
    + intros ([| c' before] & after & H); [left; now exists after |].
      right. exists before, after. cbn [append] in H. congruence.
Qed.

(** The comparison of [icontains]: the capitals of the needle stand in
    the capitals of the text. *)
Lemma icontains_iff (needle text : string) :
  icontains needle text = true
  <-> exists before after,
        sql_upper text = (before ++ sql_upper needle ++ after)%string.
Proof. apply contains_iff. Qed.

Lemma keyword_match_iff (db : Database) (keyword : string) (v : Vendor.t) :
  keyword_match db keyword v = true
  <-> (exists f, In f (fooditems db) /\ FoodItem.vendor f = Vendor.id v
                 /\ icontains keyword (FoodItem.food_title f) = true
                 /\ FoodItem.is_available f = true)
      \/ (icontains keyword (Vendor.vendor_name v) = true
          /\ Vendor.is_approved v = true /\ user_is_active db v = true).
Proof.
  unfold keyword_match. rewrite orb_true_iff, existsb_exists, !andb_true_iff.
  split; (intros [(f & Hf & H) | H]; [left; exists f | right; tauto]).
  - rewrite !andb_true_iff, Z.eqb_eq in H. tauto.
  - rewrite !andb_true_iff, Z.eqb_eq. tauto.
Qed.

Section GeoDiscovery.
Variable GEOSGeometry : string -> result Point.
Variable Distance : Point -> Point -> Q.

(** X15: the page of the marketplace lists, in the order of the table and
    without a distance, the vendors that are approved and whose user is
    active, and counts them; the home page of a request without a
    location, in the session or in the query, shows the first eight of
    them. *)
Theorem marketplace_lists_open_vendors (db : Database) :
  exists listed,
    marketplace db
    = Render "marketplace/listings.html"
        (MarketplaceContext.mk (map plain listed)
           (Z.of_nat (List.length listed)))
    /\ (forall v, In v listed <->
          In v (vendors db) /\ Vendor.is_approved v = true
          /\ exists u, In u (users db) /\ User.id u = Vendor.user v
                       /\ User.is_active u = true)
    /\ (exists keep, listed = filter keep (vendors db))
    /\ (forall request,
          dict_get "lat" (Request.session request) = None ->
          dict_get "lat" (Request.GET request) = None ->
          home GEOSGeometry Distance request db
          = Ok (Render "home.html"
                  (HomeContext.mk (firstn 8 (map plain listed))),
                request)).
Proof.
  eexists. split; [reflexivity |]. split; [| split].
  - intros v. rewrite filter_In, andb_true_iff, user_is_active_iff. tauto.
  - eexists. reflexivity.
  - intros request Hs Hg. rewrite firstn_map.
    apply home_without_origin. unfold get_or_set_current_location.
    now rewrite Hs, Hg.
Qed.

(** X16: a location sticks to the session.  Once [get_or_set_current_location]
    has returned a location, every later request of the session gets
    this location and leaves the session as it is, whatever its query
    parameters; the home page then shows what it showed, whatever
    [lat] and [lng] the query names. *)
Theorem location_sticks (request request' : Request.t)
    (location : option string * option string) :
  get_or_set_current_location request = Ok (Some location, request') ->
  forall (user : option User.t) (GET : dict string),
    let later := Request.mk user GET (Request.session request') in
    get_or_set_current_location later = Ok (Some location, later)
    /\ forall db,
         home GEOSGeometry Distance later db
         = match home GEOSGeometry Distance request' db with
           | Ok (page, _) => Ok (page, later)
           | Raise e => Raise e
           end.
Proof.
  intros H user GET later.
  assert (Hlater : get_or_set_current_location later = Ok (Some location, later)).
  { revert H. unfold get_or_set_current_location. subst later.
    cbn [Request.session Request.user Request.GET].
    destruct (dict_get "lat" (Request.session request)) as [lat |] eqn:Hlat.
    - destruct (dict_get "lng" (Request.session request)) as [lng |] eqn:Hlng;
        [| discriminate].
      intros [= <- <-]. now rewrite Hlat, Hlng.
    - destruct (dict_get "lat" (Request.GET request)) as [lat |];
        [| discriminate].
      intros [= <- <-]. cbn [Request.session].
      rewrite dict_get_set_other by discriminate.
      rewrite dict_get_set_same. rewrite dict_get_set_same. reflexivity. }
  split; [exact Hlater |]. intros db.
  pose proof (location_again _ _ _ H) as Hagain.
  unfold home. rewrite Hlater, Hagain. cbn [bind]. rewrite Hlater, Hagain.
  cbn [bind]. destruct location as [lng lat].
  destruct (GEOSGeometry _) as [pnt | e]; reflexivity.
Qed.

(** X17: a search without an origin.  With an address in the query, the
    view raises MultiValueDictKeyError when [lat], [lng], [radius] or
    [keyword] is missing.  When they are there and one of [lat], [lng]
    and [radius] is empty, it lists, in the order of the table, without
    a distance and whatever their location, the vendors with an
    available food item whose title contains the keyword, and the
    approved vendors of an active user whose name contains it.  A text
    contains a keyword when the capitals of the keyword, as [UPPER] of
    the database gives them, stand in the capitals of the text: the
    letters of ASCII and the accented letters below 256 are compared
    without their case; the empty keyword is contained in every title
    and name. *)
Theorem search_without_origin (request : Request.t) (db : Database)
    (address : string) :
  dict_get "address" (Request.GET request) = Some address ->
  (dict_get "lat" (Request.GET request) = None
   \/ dict_get "lng" (Request.GET request) = None
   \/ dict_get "radius" (Request.GET request) = None
   \/ dict_get "keyword" (Request.GET request) = None ->
   search GEOSGeometry Distance request db = Raise MultiValueDictKeyError)
  /\ (forall latitude longitude radius keyword,
        dict_get "lat" (Request.GET request) = Some latitude ->
        dict_get "lng" (Request.GET request) = Some longitude ->
        dict_get "radius" (Request.GET request) = Some radius ->
        dict_get "keyword" (Request.GET request) = Some keyword ->
        latitude = "" \/ longitude = "" \/ radius = "" ->
        exists listed,
          search GEOSGeometry Distance request db
          = Ok (Render "marketplace/listings.html"
                  (ListingsContext.mk (map plain listed)
                     (Z.of_nat (List.length listed)) address))
          /\ (exists keep, listed = filter keep (vendors db))
          /\ (forall v, In v listed <->
                In v (vendors db)
                /\ ((exists f, In f (fooditems db)
                               /\ FoodItem.vendor f = Vendor.id v
                               /\ icontains keyword (FoodItem.food_title f) = true
                               /\ FoodItem.is_available f = true)
                    \/ (icontains keyword (Vendor.vendor_name v) = true
                        /\ Vendor.is_approved v = true
                        /\ user_is_active db v = true))))
  /\ (forall s, icontains "" s = true)
  /\ (forall keyword text,
        icontains keyword text = true
        <-> exists before after,
              sql_upper text = (before ++ sql_upper keyword ++ after)%string).
Proof.
  intros Haddr. split; [| split; [| split; [| exact icontains_iff]]].
  - intros H. unfold search, GET_item. rewrite Haddr.
    destruct (dict_get "lat" (Request.GET request)); [| reflexivity].
    destruct (dict_get "lng" (Request.GET request)); [| reflexivity].
    destruct (dict_get "radius" (Request.GET request)); [| reflexivity].
    destruct (dict_get "keyword" (Request.GET request)); [| reflexivity].
    destruct H as [H | [H | [H | H]]]; discriminate.
  - intros latitude longitude radius keyword Hlat Hlng Hrad Hkey Hempty.
    exists (filter (keyword_match db keyword) (vendors db)).
    split; [| split].
    + unfold search, GET_item. rewrite Haddr, Hlat, Hlng, Hrad, Hkey.
      cbn [bind].
      assert (Hno : nonempty latitude && nonempty longitude && nonempty radius
                    = false).
      { destruct Hempty as [-> | [-> | ->]]; cbn [nonempty];
          rewrite ?andb_false_r; reflexivity. }
      rewrite Hno. cbn [bind]. now rewrite length_map.
    + eexists. reflexivity.
    + intros v. rewrite filter_In, keyword_match_iff. tauto.
  - exact icontains_empty.
Qed.

End GeoDiscovery.

End Listings.

(** ** An order without a ledger *)

Module NoLedger.
Import Json JsonFacts DecodeFacts.

(** X18: an order without a ledger.  When [total_data] is None or the
    empty str, the method of the model returns a subtotal of 0 (an
    int), an empty breakdown and a grand total of 0.0 for the vendor of
    the request, and the function of orders/utils.py raises: TypeError
    for None, JSONDecodeError for the empty str. *)
Theorem order_without_ledger (order : Order.t) :
  truthy (Order.total_data order) = false ->
  (forall vendor_id,
      order_total_by_vendor order vendor_id
      = Raise (match Order.total_data order with
               | None => TypeError
               | Some _ => JSONDecodeError
               end))
  /\ (forall globals db request user vendor,
        request_object globals = Some request ->
        Request.user request = Some user ->
        objects_get (fun v => Vendor.user v =? User.id user) (vendors db)
        = Ok vendor ->
        get_total_by_vendor globals db order
        = Ok (VendorTotals.mk (PyInt 0) [] (PyFloat Float.zero))).
Proof.
  intros Hempty. split.
  - intros vendor_id. unfold order_total_by_vendor. cbv zeta.
    destruct (Order.total_data order) as [[| c s] |];
      [| discriminate |]; cbn [json_loads].
    + now rewrite loads_empty.
    + reflexivity.
  - intros globals db request user vendor Hg Hu Hv.
    rewrite (get_total_by_vendor_resolved _ _ _ _ _ _ Hg Hu Hv).
    now rewrite Hempty.
Qed.

End NoLedger.

(** ** The two decoders *)

Module DecoderAgreement.
Import Json JsonFacts DecodeFacts.

Lemma scan_literal_agree (s : string) (v : value) (r : string) :
  scan_literal SimpleJson s = Found v r -> scan_literal StdJson s = Found v r.
Proof.
  unfold scan_literal.
  destruct (after_prefix "null" s); [exact (fun H => H) |].
  destruct (after_prefix "true" s); [exact (fun H => H) |].
  destruct (after_prefix "false" s); [exact (fun H => H) |].
  destruct (scan_number s); [exact (fun H => H) |].
  cbn [allow_nan negb]. discriminate.
Qed.

(** What [simplejson] finds, [json] finds. *)
Lemma scan_agree (fuel : nat) :
  (forall s v r,
     scan_once SimpleJson fuel s = Found v r ->
     scan_once StdJson fuel s = Found v r)
  /\ (forall s acc v r,
        object_members SimpleJson fuel s acc = Found v r ->
        object_members StdJson fuel s acc = Found v r)
  /\ (forall s acc v r,
        array_items SimpleJson fuel s acc = Found v r ->
        array_items StdJson fuel s acc = Found v r).
Proof.
  induction fuel as [| fuel (IHonce & IHmembers & IHitems)];
    [repeat split; intros; discriminate |].
  split; [| split].
  - intros s v r H. cbn [scan_once] in H |- *.
    destruct s as [| c s0]; [discriminate |].
    destruct (Ascii.eqb c dquote); [exact H |].
    destruct (Ascii.eqb c "{").
    { destruct (skip_ws s0) as [| c1 r1]; [discriminate |].
      destruct (Ascii.eqb c1 "}"); [exact H |].
      destruct (Ascii.eqb c1 dquote); [| discriminate].
      now apply IHmembers. }
    destruct (Ascii.eqb c "[").
    { destruct (skip_ws s0) as [| c1 r1]; [discriminate |].
      destruct (Ascii.eqb c1 "]"); [exact H |].
      now apply IHitems. }
    now apply scan_literal_agree.
  - intros s acc v r H. cbn [object_members] in H |- *.
    destruct (scanstring s) as [key r1 |]; [| discriminate].
    destruct (skip_ws r1) as [| c2 r2]; [discriminate |].
    destruct (negb (Ascii.eqb c2 ":")); [discriminate |].
    destruct (scan_once SimpleJson fuel (skip_ws r2)) as [x r3 |] eqn:E;
      [| discriminate].
    rewrite (IHonce _ _ _ E).
    destruct (skip_ws r3) as [| c4 r4]; [discriminate |].
    destruct (Ascii.eqb c4 "}"); [exact H |].
    destruct (Ascii.eqb c4 ","); [| discriminate].
    destruct (skip_ws r4) as [| c5 r5]; [discriminate |].
    destruct (Ascii.eqb c5 dquote); [| discriminate].
    now apply IHmembers.
  - intros s acc v r H. cbn [array_items] in H |- *.
    destruct (scan_once SimpleJson fuel s) as [x r1 |] eqn:E; [| discriminate].
    rewrite (IHonce _ _ _ E).
    destruct (skip_ws r1) as [| c2 r2]; [discriminate |].
    destruct (Ascii.eqb c2 "]"); [exact H |].
    destruct (Ascii.eqb c2 ","); [| discriminate].
    now apply IHitems.
Qed.

Lemma loads_agree (s : string) (v : value) :
  no_bom s -> loads SimpleJson s = Ok v -> loads StdJson s = Ok v.
Proof.
  unfold no_bom, loads. intros ->.
  change (strip_bom StdJson s) with s.
  destruct (scan_once SimpleJson (S (String.length s)) (skip_ws s))
    as [x rest |] eqn:E; [| discriminate].
  now rewrite (proj1 (scan_agree _) _ _ _ E).
Qed.

Lemma decode_item_agree (st st' : decode_state) (key : string) (val : value) :
  (forall text, val = JStr text -> no_bom (Text.replace "'" dquote text)) ->
  decode_item SimpleJson st (key, val) = Ok st' ->
  decode_item StdJson st (key, val) = Ok st'.
Proof.
  intros Hbom H. unfold decode_item in H |- *.
  apply bind_Ok_inv in H. destruct H as (f & -> & H). cbn [bind] in H |- *.
  apply bind_Ok_inv in H. destruct H as (subtotal & -> & H).
  cbn [bind] in H |- *.
  apply bind_Ok_inv in H. destruct H as (text & Htext & H). rewrite Htext.
  cbn [bind] in H |- *.
  apply bind_Ok_inv in H. destruct H as (v & Hv & H).
  destruct val; try discriminate. cbn [py_replace] in Htext.
  inversion Htext; subst text.
  rewrite (loads_agree _ _ (Hbom _ eq_refl) Hv). exact H.
Qed.

Lemma decode_items_agree (items : list (string * value)) :
  (forall key text, In (key, JStr text) items ->
     no_bom (Text.replace "'" dquote text)) ->
  forall st st',
  for_each (decode_item SimpleJson) items st = Ok st' ->
  for_each (decode_item StdJson) items st = Ok st'.
Proof.
  induction items as [| [key val] items IH]; intros Hbom st st' H;
    cbn [for_each] in H |- *; [exact H |].
  apply bind_Ok_inv in H. destruct H as (st1 & Hstep & H).
  assert (Hval : forall text, val = JStr text ->
            no_bom (Text.replace "'" dquote text))
    by (intros text ->; apply (Hbom key text); now left).
  rewrite (decode_item_agree st st1 key val Hval Hstep).
  cbn [bind]. apply IH; [| exact H].
  intros k t Hin. apply (Hbom k t). now right.
Qed.

Lemma totals_by_vendor_agree (total_data : option string) (vendor_id : Z)
    (r : VendorTotals.t) :
  ledger_no_bom total_data vendor_id ->
  totals_by_vendor SimpleJson total_data vendor_id = Ok r ->
  totals_by_vendor StdJson total_data vendor_id = Ok r.
Proof.
  intros [Htext Hentries] H. unfold totals_by_vendor in H |- *.
  apply bind_Ok_inv in H. destruct H as (ledger & Hledger & H).
  destruct total_data as [text |]; [| discriminate].
  cbn [json_loads] in Hledger |- *.
  rewrite (loads_agree _ _ (Htext _ eq_refl) Hledger). cbn [bind].
  apply bind_Ok_inv in H. destruct H as (data & Hdata & H). rewrite Hdata.
  cbn [bind]. unfold totals_of_data in H |- *.
  apply bind_Ok_inv in H. destruct H as (items & Hitems & H). rewrite Hitems.
  cbn [bind] in H |- *.
  apply bind_Ok_inv in H. destruct H as (st & Hst & H).
  assert (Hitem : forall key t, In (key, JStr t) items ->
            no_bom (Text.replace "'" dquote t)).
  { intros key t Hin.
    destruct ledger as [| | | | | | d]; try discriminate.
    destruct data as [| | | | | | entries]; try discriminate.
    cbn [py_items] in Hitems. inversion Hitems; subst items.
    cbn [py_get] in Hdata.
    destruct (dict_get (Text.str_int vendor_id) d) as [x |] eqn:Hget;
      [| discriminate].
    inversion Hdata; subst x.
    exact (Hentries d entries key t Hledger Hget Hin). }
  rewrite (decode_items_agree items Hitem _ _ Hst). exact H.
Qed.

(** X19: the two decoders agree.  When the function of orders/utils.py
    returns totals for the vendor of the request, and no text that it
    parses starts with a byte order mark, the method of the model
    returns the same totals: what [simplejson] reads, [json] reads to
    the same value. *)
Theorem decoders_agree (order : Order.t) (vendor : Vendor.t)
    (r : VendorTotals.t) :
  order_total_by_vendor order (Vendor.id vendor) = Ok r ->
  ledger_no_bom (Order.total_data order) (Vendor.id vendor) ->
  forall globals db request user,
    request_object globals = Some request ->
    Request.user request = Some user ->
    objects_get (fun v => Vendor.user v =? User.id user) (vendors db)
    = Ok vendor ->
    get_total_by_vendor globals db order = Ok r.
Proof.
  intros H Hbom globals db request user Hg Hu Hv.
  rewrite order_total_by_vendor_eq in H.
  rewrite (get_total_by_vendor_resolved _ _ _ _ _ _ Hg Hu Hv).
  assert (Htruthy : truthy (Order.total_data order) = true).
  { unfold totals_by_vendor in H. apply bind_Ok_inv in H.
    destruct H as (ledger & Hledger & _).
    exact (json_loads_truthy _ _ _ Hledger). }
  rewrite Htruthy. now apply totals_by_vendor_agree.
Qed.

End DecoderAgreement.

(** ** The order numbers *)

Module OrderNumbers.
Import TextFacts DigitFacts.
Local Open Scope string_scope.

Lemma padded_length (w : nat) : forall n, String.length (Text.padded w n) = w.
Proof.
  induction w as [| w IH]; intros n; cbn [Text.padded]; [reflexivity |].
  rewrite length_app, IH. cbn [String.length]. lia.
Qed.

Lemma app_inj_length (a a' b b' : string) :
  String.length a = String.length a' ->
  a ++ b = a' ++ b' -> a = a' /\ b = b'.
Proof.
  revert a'. induction a as [| c a IH]; intros [| c' a'] Hlen H;
    cbn [String.length] in Hlen; try discriminate.
  - now split.
  - cbn [append] in H. inversion H; subst c'.
    destruct (IH a') as [-> ->]; [lia | assumption | now split].
Qed.

Lemma digit_char_inj (d d' : Z) :
  0 <= d <= 9 -> 0 <= d' <= 9 ->
  Text.digit_char d = Text.digit_char d' -> d = d'.
Proof.
  intros Hd Hd' H.
  destruct (digit_char_spec d Hd) as [_ <-].
  destruct (digit_char_spec d' Hd') as [_ <-]. now rewrite H.
Qed.

Lemma padded_inj (w : nat) : forall a b,
  0 <= a < 10 ^ Z.of_nat w -> 0 <= b < 10 ^ Z.of_nat w ->
  Text.padded w a = Text.padded w b -> a = b.
Proof.
  induction w as [| w IH]; intros a b Ha Hb H.
  - cbn in Ha, Hb. lia.
  - cbn [Text.padded] in H.
    rewrite Nat2Z.inj_succ, Z.pow_succ_r in Ha, Hb by lia.
    apply app_inj_length in H; [| now rewrite !padded_length].
    destruct H as [Hhigh Hlow]. inversion Hlow as [Hdigit].
    pose proof (Z.mod_pos_bound a 10 ltac:(lia)).
    pose proof (Z.mod_pos_bound b 10 ltac:(lia)).
    apply digit_char_inj in Hdigit; [| lia | lia].
    apply IH in Hhigh.
    + rewrite (Z.div_mod a 10), (Z.div_mod b 10) by lia. lia.
    + split; [apply Z.div_pos; lia | apply Z.div_lt_upper_bound; lia].
    + split; [apply Z.div_pos; lia | apply Z.div_lt_upper_bound; lia].
Qed.

Lemma digits_aux_step (fuel : nat) (n : Z) :
  Text.digits_aux (S fuel) n
  = if (n <? 10)%Z then String (Text.digit_char n) ""
    else Text.digits_aux fuel (n / 10) ++ String (Text.digit_char (n mod 10)) "".
Proof. reflexivity. Qed.

(** The number of digits of [str(n)]. *)
Lemma digits_aux_length (fuel : nat) : forall n (k : nat),
  0 <= n < 2 ^ Z.of_nat (S fuel) -> (1 <= k)%nat ->
  (String.length (Text.digits_aux (S fuel) n) <= k)%nat
  <-> n < 10 ^ Z.of_nat k.
Proof.
  induction fuel as [| fuel IH]; intros n k Hn Hk.
  - change (2 ^ Z.of_nat 1) with 2 in Hn. cbn [Text.digits_aux].
    destruct (Z.ltb_spec n 10) as [_ | H]; [| lia].
    cbn [String.length]. split; [intros _ | lia].
    assert (10 ^ 1 <= 10 ^ Z.of_nat k)
      by (apply Z.pow_le_mono_r; lia).
    lia.
  - rewrite digits_aux_step.
    destruct (Z.ltb_spec n 10) as [H | H].
    + cbn [String.length]. split; [intros _ | lia].
      assert (10 ^ 1 <= 10 ^ Z.of_nat k)
        by (apply Z.pow_le_mono_r; lia).
      lia.
    + rewrite length_app. cbn [String.length].
      assert (Hn' : 0 <= n / 10 < 2 ^ Z.of_nat (S fuel)).
      { split; [apply Z.div_pos; lia |].
        apply Z.div_lt_upper_bound; [lia |].
        rewrite (Nat2Z.inj_succ (S fuel)), Z.pow_succ_r in Hn by lia. lia. }
      destruct (digits_aux_scan fuel (n / 10) Hn')
        as (_ & _ & _ & (c & r & Hc) & _).
      destruct k as [| [| k]]; [lia | |].
      * rewrite Hc. cbn [String.length]. change (10 ^ Z.of_nat 1) with 10. lia.
      * specialize (IH (n / 10) (S k) Hn' ltac:(lia)).
        rewrite (Nat2Z.inj_succ (S k)), Z.pow_succ_r by lia.
        split.
        -- intros Hlen.
           assert (n / 10 < 10 ^ Z.of_nat (S k)) by (apply IH; lia).
           pose proof (Z.div_mod n 10 ltac:(lia)).
           pose proof (Z.mod_pos_bound n 10 ltac:(lia)). lia.
        -- intros Hlt.
           assert (String.length (Text.digits_aux (S fuel) (n / 10)) <= S k)%nat.
           { apply IH. apply Z.div_lt_upper_bound; lia. }
           lia.
Qed.

Lemma str_nat_length (n : Z) (k : nat) :
  0 <= n -> (1 <= k)%nat ->
  (String.length (Text.str_nat n) <= k)%nat <-> n < 10 ^ Z.of_nat k.
Proof.
  intros Hn Hk. unfold Text.str_nat. apply digits_aux_length; [| exact Hk].
  split; [exact Hn |].
  destruct (Z.eq_dec n 0) as [-> | Hne]; [reflexivity |].
  rewrite Nat2Z.inj_succ, Z2Nat.id by apply Z.log2_nonneg.
  apply Z.log2_spec. lia.
Qed.

Lemma timestamp_length (now : Datetime.t) :
  String.length (Datetime.strftime_YmdHMS now) = 14%nat.
Proof.
  unfold Datetime.strftime_YmdHMS.
  now rewrite !length_app, !padded_length.
Qed.

(** X20: an order number names one order: for readings of the clock with
    a year of four digits, two order numbers are the same only for the
    same second and the same primary key. *)
Theorem order_number_names_one_order (now now' : Datetime.t) (pk pk' : Z) :
  Datetime.four_digit_year now -> Datetime.four_digit_year now' ->
  generate_order_number now pk = generate_order_number now' pk' ->
  now = now' /\ pk = pk'.
Proof.
  intros (Hy & Hm & Hd & Hh & Hmi & Hs) (Hy' & Hm' & Hd' & Hh' & Hmi' & Hs') H.
  unfold generate_order_number in H. cbv zeta in H.
  apply app_inj_length in H; [| now rewrite !timestamp_length].
  destruct H as [Hstamp Hpk]. apply str_int_inj in Hpk.
  split; [| exact Hpk].
  unfold Datetime.strftime_YmdHMS in Hstamp.
  repeat (apply app_inj_length in Hstamp; [| now rewrite !padded_length];
          let H := fresh "Hfield" in destruct Hstamp as [H Hstamp]).
  change (10 ^ Z.of_nat 4) with 10000 in *.
  destruct now, now'. cbn [Datetime.year Datetime.month Datetime.day
                              Datetime.hour Datetime.minute Datetime.second] in *.
  f_equal;
    [ apply (padded_inj 4) | apply (padded_inj 2) | apply (padded_inj 2)
    | apply (padded_inj 2) | apply (padded_inj 2) | apply (padded_inj 2) ];
    try assumption;
    try (change (10 ^ Z.of_nat 4) with 10000);
    try (change (10 ^ Z.of_nat 2) with 100); lia.
Qed.

(** X21: the order number of the order with the primary key [pk] is the
    fourteen digits of the date and the time followed by [str(pk)]; it
    fits the twenty characters of [Order.order_number] exactly when
    [pk] is below one million. *)
Theorem order_number_fits (now : Datetime.t) (pk : Z) :
  0 <= pk ->
  String.length (generate_order_number now pk)
  = (14 + String.length (Text.str_int pk))%nat
  /\ ((String.length (generate_order_number now pk)
       <= order_number_max_length)%nat
      <-> pk <= 999999).
Proof.
  intros Hpk. unfold generate_order_number. cbv zeta.
  rewrite length_app, timestamp_length. split; [reflexivity |].
  unfold Text.str_int. destruct (Z.ltb_spec pk 0) as [H | _]; [lia |].
  unfold order_number_max_length.
  pose proof (str_nat_length pk 6 Hpk ltac:(lia)) as H.
  change (10 ^ Z.of_nat 6) with 1000000 in H. lia.
Qed.

End OrderNumbers.

(** ** Examples on the cart views, the listings and the order numbers *)

Ltac each_row H :=
  repeat (destruct H as [<- | H]); [.. | destruct H].

(** The sample shops are well formed. *)
Lemma shop_in_range (lines : list Cart.t) :
  Forall (fun item => 0 <= Cart.quantity item <= 2147483647) lines ->
  Z.of_nat (List.length (lines_of alice lines)) <= 10000 ->
  cart_in_range alice (shop lines [CGST; SGST]).
Proof.
  intros Hq Hlen. constructor.
  - intros f [<- | [<- | []]]; split; vm_compute; reflexivity.
  - intros item Hin. exact (proj1 (Forall_forall _ _) Hq item Hin).
  - intros i [<- | [<- | []]]; split; vm_compute; reflexivity.
  - exact Hlen.
  - vm_compute. discriminate.
Qed.

Lemma busy_shop_well_formed : cart_well_formed alice busy_shop.
Proof.
  constructor.
  - split.
    + repeat constructor; cbn; intuition discriminate.
    + intros c H. each_row H; vm_compute; discriminate.
  - apply shop_in_range.
    + repeat constructor; vm_compute; discriminate.
    + vm_compute. discriminate.
  - intros item H _. each_row H; eexists; reflexivity.
  - intros c c' H H'. each_row H; each_row H'; cbn; intros; congruence.
Qed.

Lemma full_shop_well_formed : cart_well_formed alice full_shop.
Proof.
  constructor.
  - split.
    + repeat constructor; cbn; intuition discriminate.
    + intros c H. each_row H; vm_compute; discriminate.
  - apply shop_in_range.
    + repeat constructor; vm_compute; discriminate.
    + vm_compute. discriminate.
  - intros item H _. each_row H; eexists; reflexivity.
  - intros c c' H H'. each_row H; each_row H'; cbn; intros; congruence.
Qed.

Lemma add_to_cart_adds_one_witness :
  exists json st',
    add_to_cart 9 (ajax alice) 10 busy_shop = (json, st')
    /\ CartJson.message json = Some "Increased the cart quantity"
    /\ CartJson.qty json = Some 3
    /\ CartJson.cart_counter json = Some 4
    /\ cart_well_formed alice st'.
Proof.
  destruct (CartViews.add_to_cart_adds_one 9 (ajax alice) alice 10 taco busy_shop)
    as (json & st' & amounts & H & _ & Hm & Hq & Hc & _ & _ & _ & _ & Hwf).
  - reflexivity.
  - reflexivity.
  - reflexivity.
  - exact busy_shop_well_formed.
  - vm_compute. reflexivity.
  - vm_compute. reflexivity.
  - exists json, st'. split; [exact H |]. split; [exact Hm |].
    split; [exact Hq |]. split; [exact Hc | exact Hwf].
Defined.

Lemma decrease_cart_takes_one_witness :
  exists json st',
    decrease_cart (ajax alice) 11 busy_shop = (json, st')
    /\ CartJson.qty json = Some 0
    /\ lines_for alice 11 (carts (tables st')) = []
    /\ quantity_in_cart alice 10 (carts (tables st')) = 2.
Proof.
  pose proof (CartViews.decrease_cart_takes_one (ajax alice) alice 11
                (FoodItem.mk 11 2 "Burrito" (cents 1725) true) busy_shop
                eq_refl eq_refl eq_refl busy_shop_well_formed) as H.
  cbv zeta in H.
  destruct H as (json & st' & H & (_ & _ & Hq & _) & Hother & _ & Hgone & _).
  exists json, st'. split; [exact H |]. split; [exact Hq |].
  split; [apply Hgone; vm_compute; discriminate | exact (Hother 10)].
Defined.

(** The line of id 1, saved twice, is the last of the scan. *)
Lemma add_then_decrease_restores_witness :
  Permutation
    (carts (tables (snd (decrease_cart (ajax alice) 10
                           (snd (add_to_cart 9 (ajax alice) 10 busy_shop))))))
    (carts (tables busy_shop))
  /\ carts (tables (snd (decrease_cart (ajax alice) 10
                           (snd (add_to_cart 9 (ajax alice) 10 busy_shop)))))
     = [Cart.mk 2 2 11 1 3; Cart.mk 3 1 11 1 5; Cart.mk 1 1 10 2 0]
  /\ CartJson.qty (fst (decrease_cart (ajax alice) 10
                          (snd (add_to_cart 9 (ajax alice) 10 busy_shop))))
     = Some 2.
Proof.
  pose proof (CartViews.add_then_decrease_restores 9 (ajax alice) alice 10
                taco busy_shop) as H.
  cbv zeta in H.
  destruct H as (Hperm & _ & _ & Hqty & _).
  - reflexivity.
  - reflexivity.
  - reflexivity.
  - exact busy_shop_well_formed.
  - vm_compute. reflexivity.
  - vm_compute. reflexivity.
  - intros c H. each_row H. vm_compute. discriminate.
  - split; [exact Hperm |]. split; [vm_compute; reflexivity | exact Hqty].
Defined.

Lemma delete_cart_takes_the_line_witness :
  delete_cart (ajax bob) 1 busy_shop
  = (Some (failed "Cart Item does not exist!"), busy_shop)
  /\ exists json st',
       delete_cart (ajax alice) 1 busy_shop = (Some json, st')
       /\ CartJson.cart_counter json = Some 1.
Proof.
  split.
  - apply (CartViews.delete_cart_takes_the_line (ajax bob) bob 1 busy_shop
             eq_refl eq_refl).
    intros c H. each_row H; vm_compute; congruence.
  - destruct (proj2 (CartViews.delete_cart_takes_the_line (ajax alice) alice 1
                       busy_shop eq_refl eq_refl)
                busy_shop_well_formed (Cart.mk 1 1 10 2 0))
      as (json & st' & amounts & H & -> & _).
    + now left.
    + reflexivity.
    + reflexivity.
    + eexists. exists st'. split; [exact H | reflexivity].
Defined.

Lemma cart_views_write_one_cart_witness :
  wrote_cart_of alice busy_shop (snd (add_to_cart 9 (ajax alice) 11 busy_shop)).
Proof.
  exact (proj1 (CartFrame.cart_views_write_one_cart 9 (ajax alice) 11 0
                  busy_shop _ (wf_ids _ _ busy_shop_well_formed)
                  (or_introl eq_refl))).
Defined.

Lemma cart_amounts_order_independent_witness :
  get_cart_amounts (as_user alice)
    (set_carts (shop three_lines [CGST; SGST]) shuffled_lines)
  = get_cart_amounts (as_user alice) (shop three_lines [CGST; SGST]).
Proof.
  apply (CartOrderFacts.cart_amounts_order_independent (as_user alice) alice
           (shop three_lines [CGST; SGST]) shuffled_lines).
  - reflexivity.
  - exact (wf_range _ _ busy_shop_well_formed).
  - exact (wf_resolve _ _ busy_shop_well_formed).
  - vm_compute. apply perm_swap.
Defined.

Lemma cart_subtotal_is_sum_witness :
  exists r s,
    get_cart_amounts (as_user alice) (shop three_lines [CGST; SGST]) = Ok r
    /\ num_value (CartAmounts.subtotal r) = Some s
    /\ (s == Qsum (map (line_amount (shop three_lines [CGST; SGST]))
                     (lines_of alice three_lines)))%Q.
Proof.
  apply (CartOrderFacts.cart_subtotal_is_sum (as_user alice) alice
           (shop three_lines [CGST; SGST])).
  - reflexivity.
  - exact (wf_range _ _ busy_shop_well_formed).
  - exact (wf_resolve _ _ busy_shop_well_formed).
Defined.

Lemma cart_views_move_the_subtotal_witness :
  exists r s r' s',
    get_cart_amounts (as_user alice) (tables busy_shop) = Ok r
    /\ num_value (CartAmounts.subtotal r) = Some s
    /\ CartJson.cart_amount (fst (add_to_cart 9 (ajax alice) 10 busy_shop))
       = Some r'
    /\ num_value (CartAmounts.subtotal r') = Some s'
    /\ (s' == s + Decimal.value (cents 5000))%Q.
Proof.
  pose proof (CartAmountViews.cart_views_move_the_subtotal 9 (ajax alice)
                alice 10 taco busy_shop eq_refl eq_refl eq_refl
                busy_shop_well_formed) as H.
  cbv zeta in H. destruct H as (r & s & Hr & Hs & Hadd & _).
  destruct Hadd as (r' & s' & Hr' & Hs' & Hsum);
    [vm_compute; reflexivity | vm_compute; reflexivity |].
  exists r, s, r', s'. repeat split; assumption.
Defined.

Lemma cart_counter_counts_witness :
  get_cart_counter (as_user alice)
    (set_carts (shop three_lines [CGST; SGST]) shuffled_lines)
  = get_cart_counter (as_user alice) (shop three_lines [CGST; SGST]).
Proof.
  destruct (CartPages.cart_counter_counts (as_user alice)
              (shop three_lines [CGST; SGST])) as (_ & H & _).
  apply (H alice shuffled_lines); [reflexivity |].
  vm_compute. apply perm_swap.
Defined.

Lemma checkout_shows_the_cart_witness :
  exists lines,
    cart (as_user alice) alice_at_home = Render "marketplace/cart.html" lines
    /\ checkout (as_user alice) alice_at_home
       = Ok (Render "marketplace/checkout.html"
               (CheckoutContext.mk
                  (mk_default_values "Alice" "Adams" "5550100"
                     "alice@example.org" (Some "1 Main Street") (Some "Spain")
                     None (Some "Madrid") (Some "28001"))
                  lines),
             alice_at_home).
Proof.
  apply (CartPages.checkout_shows_the_cart (as_user alice) alice alice_at_home).
  - reflexivity.
  - vm_compute. discriminate.
Defined.

Lemma order_number_names_one_order_witness : noon = noon /\ 42 = 42.
Proof.
  apply (OrderNumbers.order_number_names_one_order noon noon 42 42).
  - unfold Datetime.four_digit_year. cbn. lia.
  - unfold Datetime.four_digit_year. cbn. lia.
  - reflexivity.
Defined.

Lemma order_number_fits_witness :
  String.length (generate_order_number noon 42)
  = (14 + String.length (Text.str_int 42))%nat
  /\ ((String.length (generate_order_number noon 42)
       <= order_number_max_length)%nat
      <-> 42 <= 999999).
Proof. apply (OrderNumbers.order_number_fits noon 42). lia. Defined.

Lemma marketplace_lists_open_vendors_witness :
  exists listed,
    marketplace town
    = Render "marketplace/listings.html"
        (MarketplaceContext.mk (map plain listed)
           (Z.of_nat (List.length listed)))
    /\ home read_point grid_distance (as_user alice) town
       = Ok (Render "home.html"
               (HomeContext.mk (firstn 8 (map plain listed))),
             as_user alice).
Proof.
  destruct (Listings.marketplace_lists_open_vendors read_point grid_distance
              town) as (listed & Hm & _ & _ & Hhome).
  exists listed. split; [exact Hm |]. apply Hhome; reflexivity.
Defined.

Lemma location_sticks_witness :
  get_or_set_current_location
    (Request.mk (Some alice) [("lat", "9"); ("lng", "9")]
       [("lat", Some "0"); ("lng", Some "0")])
  = Ok (Some (Some "0", Some "0"),
        Request.mk (Some alice) [("lat", "9"); ("lng", "9")]
          [("lat", Some "0"); ("lng", Some "0")]).
Proof.
  apply (Listings.location_sticks read_point grid_distance from_origin
           (Request.mk None [("lat", "0"); ("lng", "0")]
              [("lat", Some "0"); ("lng", Some "0")])
           (Some "0", Some "0") eq_refl (Some alice)
           [("lat", "9"); ("lng", "9")]).
Defined.

(** The keyword "taco" finds the title "Taco"; and a keyword of the one
    letter U+00E9 is contained in a text whose last letter is its
    capital U+00C9. *)
Lemma search_without_origin_witness :
  (exists listed,
     search read_point grid_distance by_keyword town
     = Ok (Render "marketplace/listings.html"
             (ListingsContext.mk (map plain listed)
                (Z.of_nat (List.length listed)) "Main Street"))
     /\ map Vendor.vendor_name listed = ["Tacos"])
  /\ icontains (String (ascii_of_N 233) "")
       ("CAF" ++ String (ascii_of_N 201) "") = true.
Proof.
  destruct (Listings.search_without_origin read_point grid_distance
              by_keyword town "Main Street" eq_refl) as (_ & _ & _ & Hc).
  split.
  - exists (filter (keyword_match town "taco") (vendors town)).
    split; vm_compute; reflexivity.
  - apply Hc. exists "CAF", "". vm_compute. reflexivity.
Defined.

Lemma order_without_ledger_witness :
  order_total_by_vendor (Order.mk 2 3 None) 1 = Raise TypeError
  /\ get_total_by_vendor (mk_globals (Some (as_user alice))) vendors_db
       (Order.mk 2 3 None)
     = Ok (VendorTotals.mk (PyInt 0) [] (PyFloat Float.zero)).
Proof.
  destruct (NoLedger.order_without_ledger (Order.mk 2 3 None) eq_refl)
    as [H H'].
  split; [exact (H 1) |].
  apply (H' _ _ (as_user alice) alice (Vendor.mk 1 1 1 "Tacos" true));
    reflexivity.
Defined.

Lemma add_to_cart_at_the_bound_witness :
  exists json st',
    add_to_cart 9 (ajax alice) 10 full_shop = (json, st')
    /\ CartJson.message json = Some "Added the food to the cart"
    /\ CartJson.qty json = Some 1
    /\ decrease_cart (ajax alice) 10 st'
       = (failed "You do not have this item in your cart!", st').
Proof.
  pose proof (CartEdges.add_to_cart_at_the_bound 9 (ajax alice) alice 10 taco
                full_shop (Cart.mk 1 1 10 2147483647 0) eq_refl eq_refl eq_refl
                full_shop_well_formed) as H.
  cbv zeta in H.
  destruct H as (amounts & Hadd & _ & _ & _ & Hdec);
    [vm_compute; reflexivity | reflexivity | reflexivity |].
  eexists. eexists. split; [exact Hadd |]. now repeat split.
Defined.

Lemma cart_views_refuse_witness :
  delete_cart
    (HttpRequest.mk (Request.mk None [] []) (Some "XMLHttpRequest")) 1 busy_shop
  = (None, busy_shop).
Proof.
  destruct (CartEdges.cart_views_refuse 0
              (HttpRequest.mk (Request.mk None [] []) (Some "XMLHttpRequest"))
              10 1 busy_shop) as (H & _).
  exact (proj2 (proj2 (H eq_refl))).
Defined.


Lemma sample_ledger_no_bom :
  ledger_no_bom (Order.total_data sample_order) 1.
Proof.
  split.
  - intros text [= <-]. reflexivity.
  - intros d data key text Hloads Hget Hin.
    vm_compute in Hloads. injection Hloads as <-.
    vm_compute in Hget. injection Hget as <-.
    destruct Hin as [[= <- <-] | []]. reflexivity.
Qed.

Lemma decoders_agree_witness :
  get_total_by_vendor (mk_globals (Some (as_user alice))) vendors_db
    sample_order
  = order_total_by_vendor sample_order 1.
Proof.
  assert (H : exists r, order_total_by_vendor sample_order 1 = Ok r)
    by (eexists; vm_compute; reflexivity).
  destruct H as (r & Hr). rewrite Hr.
  apply (DecoderAgreement.decoders_agree sample_order
           (Vendor.mk 1 1 1 "Tacos" true) r Hr sample_ledger_no_bom
           (mk_globals (Some (as_user alice))) vendors_db (as_user alice)
           alice); reflexivity.
Defined.

Lemma cart_totals_not_negative_witness :
  exists r s t g,
    get_cart_amounts (as_user alice) (shop three_lines [CGST; SGST]) = Ok r
    /\ num_value (CartAmounts.subtotal r) = Some s
    /\ num_value (CartAmounts.tax r) = Some t
    /\ num_value (CartAmounts.grand_total r) = Some g
    /\ (0 <= s)%Q /\ (0 <= t)%Q /\ (s <= g)%Q
    /\ Forall (fun a => (0 <= Decimal.value a)%Q)
         (breakdown_amounts (CartAmounts.tax_dict r)).
Proof.
  apply (CartSigns.cart_totals_not_negative (as_user alice) alice
           (shop three_lines [CGST; SGST])).
  - reflexivity.
  - exact (wf_range _ _ busy_shop_well_formed).
  - exact (wf_resolve _ _ busy_shop_well_formed).
  - intros f [<- | [<- | []]]; vm_compute; discriminate.
  - intros i [<- | [<- | []]] _; vm_compute; discriminate.
Defined.
